(** * Health backend: commission ledger, branch scope and financial statement

    A shallow embedding of the commission engine
    ([src/utils/helpers.ts], [src/services/commission.service.ts],
    [src/models/Commission.model.ts]), of order creation
    ([src/controllers/opd.controller.ts]), of the role/branch middleware
    ([middleware/rbac.middleware.ts]) and of the accounts reports
    ([controllers/accounts.controller.ts]).

    JavaScript numbers are IEEE-754 binary64 values; they are modelled by
    Rocq's primitive floats, whose [+], [*], [/] and comparisons are the
    binary64 operations JavaScript uses.  The document store is a record of
    lists; service code runs in a state-and-exception monad in which writes
    made before a [throw] stay written, as they do with a database.

    Ids and dates reach the handlers and services as texts.  What the
    object-document mapper makes of a text (the [ObjectId] or the date it
    casts to, or a [CastError]) is a parameter of the model ([Mongoose]);
    every query that casts its filter can raise that error. *)

From Stdlib Require Import Floats ZArith NArith List String Ascii Bool Lia Uint63.
From Stdlib Require Import DecimalString SpecFloat Permutation Sorted.
From Stdlib Require DecimalNat DecimalFacts.
From Stdlib Require Hexadecimal HexadecimalString HexadecimalNat.
Import ListNotations.
#[local] Set Warnings "-inexact-float".
#[local] Open Scope string_scope.

(* ===================================================================== *)
(** ** JavaScript numbers *)
(* ===================================================================== *)

Definition number : Type := float.

Module JS.

(** An integer of magnitude below 2^63 as a binary64 value (exact below 2^53). *)
Definition of_Z (n : Z) : number :=
  match n with
  | Z0 => 0%float
  | Zpos _ => PrimFloat.of_uint63 (Uint63.of_Z n)
  | Zneg p => (- PrimFloat.of_uint63 (Uint63.of_Z (Zpos p)))%float
  end.

(** [Math.round]: the integer closest to [x], ties towards +Infinity;
    NaN, the infinities and the zeros are returned unchanged, and a result
    of zero keeps the sign of [x].  A finite [x] is [(+/-) m * 2^e]; when
    [e >= 0] it is already an integer, otherwise the result is
    [floor (x + 1/2)], computed exactly on integers. *)
Definition Math_round (x : number) : number :=
  match Prim2SF x with
  | S754_finite s m e =>
      if (0 <=? e)%Z then x
      else
        let k := (- e)%Z in
        let sm := if s then Zneg m else Zpos m in
        let n := Z.shiftr (sm + Z.shiftl 1 (k - 1)) k in
        if (n =? 0)%Z then (if s then (-0)%float else 0%float) else of_Z n
  | _ => x
  end.

Definition isNaN (x : number) : bool := negb (PrimFloat.eqb x x).

(** [ToBoolean] on a number: false for +0, -0 and NaN. *)
Definition truthy (x : number) : bool := negb (PrimFloat.eqb x 0 || isNaN x).

(** [a || b] on numbers. *)
Definition or_else (a b : number) : number := if truthy a then a else b.

(** [a >= b], [a <= b], [a > b]: false as soon as one side is NaN. *)
Definition ge (a b : number) : bool := PrimFloat.leb b a.
Definition le (a b : number) : bool := PrimFloat.leb a b.
Definition gt (a b : number) : bool := PrimFloat.ltb b a.

(** [xs.reduce((sum, x) => sum + f(x), 0)]. *)
Definition sum_by {A : Type} (f : A -> number) (xs : list A) : number :=
  fold_left (fun sum x => (sum + f x)%float) xs 0%float.

(** The decimal digits of a non-negative integer of hundredths, with the
    point before the last two digits. *)
Definition hundredths_to_string (n : Z) : string :=
  let s := NilZero.string_of_uint (N.to_uint (Z.to_N n)) in
  let s := match String.length s with
           | O => "000"
           | 1%nat => "00" ++ s
           | 2%nat => "0" ++ s
           | _ => s
           end in
  let l := String.length s in
  String.substring 0 (l - 2) s ++ "." ++ String.substring (l - 2) 2 s.

(** The text produced by [x.toFixed(2)].  For |x| >= 10^21 ECMAScript
    falls back to [Number::toString], whose digits are not spelled out
    here: that case is the constructor [ViaToString]. *)
Inductive NumberText : Type :=
| Digits (s : string)
| ViaToString (x : number).

(** [Number.prototype.toFixed] with two fraction digits: [n] is the integer
    for which [n / 100 - |x|] is closest to zero, the larger one on a tie;
    a negative [x] gets a leading minus sign. *)
Definition toFixed2 (x : number) : NumberText :=
  match Prim2SF x with
  | S754_nan => Digits "NaN"
  | S754_infinity s => Digits (if s then "-Infinity" else "Infinity")
  | S754_zero _ => Digits "0.00"
  | S754_finite s m e =>
      if PrimFloat.leb 1e21 (PrimFloat.abs x) then ViaToString x
      else
        let n := if (0 <=? e)%Z
                 then Z.shiftl (Zpos m * 100) e
                 else Z.shiftr (Zpos m * 200 + Z.shiftl 1 (- e)) (- e + 1) in
        Digits ((if s then "-" else "") ++ hundredths_to_string n)
  end.


(** [s.split(sep)] for a one-character separator: the pieces between the
    occurrences of [sep], in order; never empty. *)
Fixpoint split (sep : ascii) (s : string) : list string :=
  match s with
  | EmptyString => [EmptyString]
  | String c rest =>
      if Ascii.eqb c sep then EmptyString :: split sep rest
      else match split sep rest with
           | h :: t => String c h :: t
           | [] => [String c EmptyString]
           end
  end.

(** The Number value of a non-negative integer: the nearest binary64
    value, ties to even. *)
Definition of_N (n : N) : number :=
  SF2Prim (binary_normalize prec emax (Z.of_N n) 0 false).

Definition code (c : ascii) : N := N_of_ascii c.

(** White space and line terminators of ECMAScript, in a string held as
    UTF-8: the one-byte ones, U+00A0, and the three-byte ones (U+1680,
    U+2000..U+200A, U+2028, U+2029, U+202F, U+205F, U+3000, U+FEFF). *)
Definition ws1 (a : ascii) : bool :=
  let n := code a in ((9 <=? n) && (n <=? 13) || (n =? 32))%N.

Definition ws2 (a b : ascii) : bool :=
  ((code a =? 194) && (code b =? 160))%N.

Definition ws3 (a b c : ascii) : bool :=
  let x := code a in let y := code b in let z := code c in
  ((x =? 225) && (y =? 154) && (z =? 128)
   || (x =? 226) && (y =? 128)
      && ((128 <=? z) && (z <=? 138) || (z =? 168) || (z =? 169) || (z =? 175))
   || (x =? 226) && (y =? 129) && (z =? 159)
   || (x =? 227) && (y =? 128) && (z =? 128)
   || (x =? 239) && (y =? 187) && (z =? 191))%N.

(** [TrimString(s, start)]. *)
Fixpoint trimStart (s : string) : string :=
  match s with
  | String a r1 =>
      if ws1 a then trimStart r1
      else match r1 with
           | String b r2 =>
               if ws2 a b then trimStart r2
               else match r2 with
                    | String c r3 => if ws3 a b c then trimStart r3 else s
                    | EmptyString => s
                    end
           | EmptyString => s
           end
  | EmptyString => s
  end.

(** [TrimString(s, end)]: the string without its longest suffix of white
    space; a suffix is white space when [trimStart] leaves nothing of it. *)
Fixpoint trimEnd (s : string) : string :=
  match s with
  | String a rest =>
      if String.eqb (trimStart s) "" then "" else String a (trimEnd rest)
  | EmptyString => s
  end.

(** [s.trim()]. *)
Definition trim (s : string) : string := trimEnd (trimStart s).

(** The value of [c] as a digit in the given radix, if it is one. *)
Definition digit_value (radix : N) (c : ascii) : option N :=
  let n := code c in
  let v := if ((48 <=? n) && (n <=? 57))%N then Some (n - 48)%N
           else if ((97 <=? n) && (n <=? 122))%N then Some (n - 87)%N
           else if ((65 <=? n) && (n <=? 90))%N then Some (n - 55)%N
           else None in
  match v with
  | Some d => if (d <? radix)%N then Some d else None
  | None => None
  end.

(** The integer written by the longest prefix of [s] made of digits of
    the radix; [acc] is [None] until a digit has been read. *)
Fixpoint digits_prefix (radix : N) (s : string) (acc : option N) : option N :=
  match s with
  | String c rest =>
      match digit_value radix c with
      | Some d =>
          digits_prefix radix rest
            (Some (radix * match acc with Some a => a | None => 0 end + d)%N)
      | None => acc
      end
  | EmptyString => acc
  end.

(** [parseInt(s)] with no radix argument: leading white space is skipped,
    then a sign, then [0x] or [0X] selects radix 16; the digits that follow
    are read as far as they go; without a digit the result is [NaN]. *)
Definition parseInt (s : string) : number :=
  let s := trimStart s in
  let '(negative, s) :=
    match s with
    | String c r =>
        if Ascii.eqb c "-" then (true, r)
        else if Ascii.eqb c "+" then (false, r)
        else (false, s)
    | EmptyString => (false, s)
    end in
  let '(radix, s) :=
    match s with
    | String z (String x r) =>
        if Ascii.eqb z "0" && (Ascii.eqb x "x" || Ascii.eqb x "X")
        then (16%N, r) else (10%N, s)
    | _ => (10%N, s)
    end in
  match digits_prefix radix s None with
  | None => PrimFloat.nan
  | Some n =>
      if (n =? 0)%N then (if negative then (-0)%float else 0%float)
      else if negative then (- of_N n)%float else of_N n
  end.

End JS.

(* ===================================================================== *)
(** ** Enumerations and documents ([src/types/index.ts], [src/models]) *)
(* ===================================================================== *)

Definition ObjectId := nat.
Definition Date := nat.

(** The conversions of the object-document mapper, taken as given: the
    cast of a text to an [ObjectId] ([None] where the mapper raises
    [CastError]), the text [id.toString()] of an [ObjectId], and the
    instant [new Date(text)] denotes ([None] for an Invalid Date, which
    the mapper refuses in a filter).  The text of an id casts back to the
    id, and the empty text is no id. *)
Record Mongoose : Type := mkMongoose {
  castObjectId : string -> option ObjectId;
  ObjectId_toString : ObjectId -> string;
  Date_of_string : string -> option Date;
  cast_toString : forall id, castObjectId (ObjectId_toString id) = Some id;
  cast_empty : castObjectId "" = None
}.

(** The cast of an array of ids: every element is cast. *)
Fixpoint castObjectIds (mg : Mongoose) (raws : list string)
  : option (list ObjectId) :=
  match raws with
  | [] => Some []
  | raw :: rest =>
      match castObjectId mg raw, castObjectIds mg rest with
      | Some id, Some ids => Some (id :: ids)
      | _, _ => None
      end
  end.

Inductive UserRole : Type :=
| ADMIN | BRANCH_MANAGER | OPD_STAFF | LAB_STAFF
| PHARMACY_STAFF | MARKETING_EMPLOYEE | GENERAL_EMPLOYEE.

Inductive PaymentMode : Type :=
| CASH | CARD | ONLINE | CASH_ONLINE | CASH_CARD | INSURANCE | DUE.

Inductive PaymentStatus : Type := PAID | PENDING | PARTIAL.

Inductive TestStatus : Type :=
| TS_PENDING | TS_COLLECTED | TS_PROCESSING | TS_COMPLETED.

Inductive CommissionType : Type := TEST_REFERRAL.

Definition UserRole_eqb (a b : UserRole) : bool :=
  match a, b with
  | ADMIN, ADMIN | BRANCH_MANAGER, BRANCH_MANAGER | OPD_STAFF, OPD_STAFF
  | LAB_STAFF, LAB_STAFF | PHARMACY_STAFF, PHARMACY_STAFF
  | MARKETING_EMPLOYEE, MARKETING_EMPLOYEE
  | GENERAL_EMPLOYEE, GENERAL_EMPLOYEE => true
  | _, _ => false
  end.

Definition PaymentMode_eqb (a b : PaymentMode) : bool :=
  match a, b with
  | CASH, CASH | CARD, CARD | ONLINE, ONLINE | CASH_ONLINE, CASH_ONLINE
  | CASH_CARD, CASH_CARD | INSURANCE, INSURANCE | DUE, DUE => true
  | _, _ => false
  end.

Definition PaymentStatus_eqb (a b : PaymentStatus) : bool :=
  match a, b with
  | PAID, PAID | PENDING, PENDING | PARTIAL, PARTIAL => true
  | _, _ => false
  end.

(** The fields of a doctor that the commission code reads. *)
Module IDoctor.
Record t : Type := mk {
  _id : ObjectId;
  name : string;
  email : string;
  isActive : bool
}.
End IDoctor.

Module ITest.
Record t : Type := mk {
  _id : ObjectId;
  testName : string;
  price : number;
  commissionRate : number;
  isActive : bool
}.
End ITest.

Module IOrderTest.
Record t : Type := mk {
  testId : ObjectId;
  testName : string;
  price : number;
  status : TestStatus
}.
End IOrderTest.

Module ITestOrder.
Record t : Type := mk {
  _id : ObjectId;
  orderId : string;
  patientId : string;
  visitId : ObjectId;
  referringDoctorId : option ObjectId;
  tests : list IOrderTest.t;
  totalAmount : number;
  commissionAmount : number;
  paymentMode : PaymentMode;
  paymentStatus : PaymentStatus;
  qrCode : string;
  labId : string;
  branchId : string;
  createdBy : option ObjectId;
  createdAt : Date
}.
End ITestOrder.

Module ICommission.
Record t : Type := mk {
  _id : ObjectId;
  doctorId : ObjectId;
  patientId : string;
  orderId : ObjectId;
  commissionType : CommissionType;
  amount : number;
  percentage : number;
  calculatedDate : Date;
  paymentStatus : PaymentStatus;
  paymentDate : option Date;
  branchId : string
}.
End ICommission.

Module IPatient.
Record t : Type := mk {
  patientId : string;
  branchId : string
}.
End IPatient.

Module IPatientVisit.
Record t : Type := mk {
  _id : ObjectId;
  consultationFee : number;
  paymentMode : PaymentMode;
  paymentStatus : PaymentStatus;
  branchId : string;
  createdAt : Date
}.
End IPatientVisit.

Module IExpense.
Record t : Type := mk {
  amount : number;
  category : string;
  branchId : string;
  date : Date;
  createdAt : Date
}.
End IExpense.

(* ===================================================================== *)
(** ** The world: document store, clock, id source and log *)
(* ===================================================================== *)

Inductive Level : Type := INFO | WARN | ERROR.

(** A log line: its level and the fixed text of the message (interpolated
    values are left out). *)
Definition LogEntry : Type := (Level * string)%type.

Record World : Type := mkWorld {
  Doctors : list IDoctor.t;
  Tests : list ITest.t;
  Patients : list IPatient.t;
  Visits : list IPatientVisit.t;
  TestOrders : list ITestOrder.t;
  Commissions : list ICommission.t;
  Expenses : list IExpense.t;
  Counters : list (string * nat);
  next_oid : ObjectId;
  clock : Date;
  log : list LogEntry
}.

Definition set_Commissions (cs : list ICommission.t) (w : World) : World :=
  mkWorld (Doctors w) (Tests w) (Patients w) (Visits w) (TestOrders w) cs
          (Expenses w) (Counters w) (next_oid w) (clock w) (log w).

Definition set_TestOrders (os : list ITestOrder.t) (w : World) : World :=
  mkWorld (Doctors w) (Tests w) (Patients w) (Visits w) os (Commissions w)
          (Expenses w) (Counters w) (next_oid w) (clock w) (log w).

Definition set_Counters (cs : list (string * nat)) (w : World) : World :=
  mkWorld (Doctors w) (Tests w) (Patients w) (Visits w) (TestOrders w)
          (Commissions w) (Expenses w) cs (next_oid w) (clock w) (log w).

Definition set_next_oid (n : ObjectId) (w : World) : World :=
  mkWorld (Doctors w) (Tests w) (Patients w) (Visits w) (TestOrders w)
          (Commissions w) (Expenses w) (Counters w) n (clock w) (log w).

Definition set_clock (t : Date) (w : World) : World :=
  mkWorld (Doctors w) (Tests w) (Patients w) (Visits w) (TestOrders w)
          (Commissions w) (Expenses w) (Counters w) (next_oid w) t (log w).

Definition set_log (l : list LogEntry) (w : World) : World :=
  mkWorld (Doctors w) (Tests w) (Patients w) (Visits w) (TestOrders w)
          (Commissions w) (Expenses w) (Counters w) (next_oid w) (clock w) l.

(** *** State and exceptions *)

Inductive Exn : Type :=
| TypeError (msg : string)
| ValidationError (msg : string)
| MongoServerError (msg : string)
| CastError (msg : string)
| JsError (msg : string).

Inductive Outcome (A : Type) : Type :=
| Ret (a : A)
| Throw (e : Exn).
Arguments Ret {A} a.
Arguments Throw {A} e.

Definition M (A : Type) : Type := World -> Outcome A * World.

Definition ret {A : Type} (a : A) : M A := fun w => (Ret a, w).

Definition throw {A : Type} (e : Exn) : M A := fun w => (Throw e, w).

Definition bind {A B : Type} (c : M A) (k : A -> M B) : M B :=
  fun w =>
    match c w with
    | (Ret a, w') => k a w'
    | (Throw e, w') => (Throw e, w')
    end.

(** [try { c } catch (error) { h error }]: the handler runs in the world
    the body left behind. *)
Definition try_catch {A : Type} (c : M A) (h : Exn -> M A) : M A :=
  fun w =>
    match c w with
    | (Ret a, w') => (Ret a, w')
    | (Throw e, w') => h e w'
    end.

Declare Scope js_scope.
Delimit Scope js_scope with js.
Notation "x <- c ;; k" := (bind c (fun x => k))
  (at level 61, c at next level, right associativity) : js_scope.
Notation "c ;; k" := (bind c (fun _ => k))
  (at level 61, right associativity) : js_scope.
#[local] Open Scope js_scope.

(** [for (const x of xs) { body x }]. *)
Fixpoint for_of {A : Type} (xs : list A) (body : A -> M unit) : M unit :=
  match xs with
  | [] => ret tt
  | x :: rest => body x ;; for_of rest body
  end.

Module logger.
Definition write (lvl : Level) (msg : string) : M unit :=
  fun w => (Ret tt, set_log (log w ++ [(lvl, msg)])%list w).
Definition info : string -> M unit := write INFO.
Definition warn : string -> M unit := write WARN.
Definition error : string -> M unit := write ERROR.
End logger.

(** [new Date()]: reads the clock, which then moves on. *)
Definition new_Date : M Date :=
  fun w => (Ret (clock w), set_clock (S (clock w)) w).

(** A fresh [ObjectId] for a document under construction. *)
Definition new_ObjectId : M ObjectId :=
  fun w => (Ret (next_oid w), set_next_oid (S (next_oid w)) w).

(** The cast a query applies to an id in its filter. *)
Definition cast_id (mg : Mongoose) (raw : string) : M ObjectId :=
  match castObjectId mg raw with
  | Some id => ret id
  | None => throw (CastError "Cast to ObjectId failed")
  end.

(** The cast of the array of an [$in]. *)
Definition cast_ids (mg : Mongoose) (raws : list string) : M (list ObjectId) :=
  match castObjectIds mg raws with
  | Some ids => ret ids
  | None => throw (CastError "Cast to ObjectId failed")
  end.

(** [new Date(text)] in a filter on a date path. *)
Definition cast_date (mg : Mongoose) (text : string) : M Date :=
  match Date_of_string mg text with
  | Some d => ret d
  | None => throw (CastError "Cast to date failed")
  end.

(* ===================================================================== *)
(** ** Helpers ([src/utils/helpers.ts]) *)
(* ===================================================================== *)

Record ServiceResponse (A : Type) : Type := mkResponse {
  success : bool;
  statusCode : nat;
  message : string;
  data : option A
}.
Arguments mkResponse {A} _ _ _ _.
Arguments success {A} _.
Arguments statusCode {A} _.
Arguments message {A} _.
Arguments data {A} _.

Module ResponseHelper.
(** [success(data, message = 'Success', statusCode = 200)]. *)
Definition success {A : Type} (d : A) (msg : string) : ServiceResponse A :=
  mkResponse true 200 msg (Some d).
(** [error(message, statusCode = 500)]. *)
Definition error {A : Type} (msg : string) (code : nat) : ServiceResponse A :=
  mkResponse false code msg None.
Definition error_default {A : Type} (msg : string) : ServiceResponse A :=
  error msg 500.
End ResponseHelper.

Module CommissionHelper.
(** [Math.round((amount * rate / 100) * 100) / 100]. *)
Definition calculateCommission (amount rate : number) : number :=
  (JS.Math_round ((amount * rate / 100) * 100) / 100)%float.

(** [tests.reduce((total, test) => total + calculateCommission(...), 0)]. *)
Definition calculateTotalCommission (tests : list (number * number)) : number :=
  JS.sum_by (fun t => calculateCommission (fst t) (snd t)) tests.
End CommissionHelper.

(** The specification's [round2]: round to two decimals by the
    multiply-by-100, round, divide-by-100 pattern. *)
Definition round2 (x : number) : number :=
  (JS.Math_round (x * 100) / 100)%float.

(** The specification's calculator: [round2 (amount * ratePercent / 100)]. *)
Definition commission_spec (amount ratePercent : number) : number :=
  round2 (amount * ratePercent / 100)%float.

(* ===================================================================== *)
(** ** Storage layer for commissions ([src/models/Commission.model.ts]) *)
(* ===================================================================== *)

Inductive CommissionPath : Type :=
| P_doctorId | P_orderId | P_branchId | P_paymentStatus | P_calculatedDate.

Record IndexSpec : Type := mkIndex {
  ix_path : CommissionPath;
  ix_unique : bool
}.

(** [CommissionSchema.index({ ... })]: five single-field indexes, none of
    them declared with [unique: true]. *)
Definition CommissionSchema_indexes : list IndexSpec :=
  [ mkIndex P_doctorId false;
    mkIndex P_orderId false;
    mkIndex P_branchId false;
    mkIndex P_paymentStatus false;
    mkIndex P_calculatedDate false ].

Definition same_key (p : CommissionPath) (a b : ICommission.t) : bool :=
  match p with
  | P_doctorId => Nat.eqb (ICommission.doctorId a) (ICommission.doctorId b)
  | P_orderId => Nat.eqb (ICommission.orderId a) (ICommission.orderId b)
  | P_branchId => String.eqb (ICommission.branchId a) (ICommission.branchId b)
  | P_paymentStatus =>
      PaymentStatus_eqb (ICommission.paymentStatus a) (ICommission.paymentStatus b)
  | P_calculatedDate =>
      Nat.eqb (ICommission.calculatedDate a) (ICommission.calculatedDate b)
  end.

(** What the store refuses on insert: a document that collides with a
    stored one on a unique index (E11000), or on [_id]. *)
Definition duplicate_key (ixs : list IndexSpec) (doc : ICommission.t)
  (coll : list ICommission.t) : bool :=
  existsb (fun d => Nat.eqb (ICommission._id d) (ICommission._id doc)) coll
  || existsb (fun ix => ix_unique ix && existsb (same_key (ix_path ix) doc) coll) ixs.

(** The schema's validators: [amount] has [min: 0], [percentage] has
    [min: 0, max: 100]; a NaN fails every comparison, as it fails the cast. *)
Definition CommissionSchema_validate (c : ICommission.t) : bool :=
  JS.ge (ICommission.amount c) 0%float
  && JS.ge (ICommission.percentage c) 0%float
  && JS.le (ICommission.percentage c) 100%float.

(** *** Queries, as functions of the world *)

Definition lookup_commission (w : World) (id : ObjectId) : option ICommission.t :=
  find (fun c => Nat.eqb (ICommission._id c) id) (Commissions w).

Definition commission_for_order (w : World) (oid : ObjectId) : option ICommission.t :=
  find (fun c => Nat.eqb (ICommission.orderId c) oid) (Commissions w).

Definition lookup_doctor (w : World) (id : ObjectId) : option IDoctor.t :=
  find (fun d => Nat.eqb (IDoctor._id d) id) (Doctors w).

Definition lookup_test (w : World) (id : ObjectId) : option ITest.t :=
  find (fun t => Nat.eqb (ITest._id t) id) (Tests w).

Definition lookup_order (w : World) (id : ObjectId) : option ITestOrder.t :=
  find (fun o => Nat.eqb (ITestOrder._id o) id) (TestOrders w).

(** [save()] on a loaded document: the stored document with that [_id]
    is replaced. *)
Definition replace_commission (doc : ICommission.t) (coll : list ICommission.t)
  : list ICommission.t :=
  map (fun d => if Nat.eqb (ICommission._id d) (ICommission._id doc)
                then doc else d) coll.

Module Commission.

(** [new Commission({...})]: a fresh [_id]; [calculatedDate] defaults to
    [Date.now], [paymentStatus] to PENDING, [paymentDate] is absent. *)
Definition create (doctorId : ObjectId) (patientId : string) (orderId : ObjectId)
  (ty : CommissionType) (amount percentage : number) (branchId : string)
  : M ICommission.t :=
  id <- new_ObjectId ;;
  now <- new_Date ;;
  ret (ICommission.mk id doctorId patientId orderId ty amount percentage
         now PENDING None branchId).

(** The insert the store performs for a new document, given the indexes
    the schema declares. *)
Definition insert (ixs : list IndexSpec) (doc : ICommission.t) : M unit :=
  fun w =>
    if duplicate_key ixs doc (Commissions w)
    then (Throw (MongoServerError "E11000 duplicate key error"), w)
    else (Ret tt, set_Commissions (Commissions w ++ [doc])%list w).

(** [commission.save()] on a new document: validate, then insert. *)
Definition save_new (doc : ICommission.t) : M unit :=
  if CommissionSchema_validate doc
  then insert CommissionSchema_indexes doc
  else throw (ValidationError "Commission validation failed").

(** [commission.save()] on a loaded document: the stored document with
    that [_id] is replaced. *)
Definition save (doc : ICommission.t) : M unit :=
  fun w => (Ret tt, set_Commissions (replace_commission doc (Commissions w)) w).

(** [Commission.findById(id)]: the id is cast, then looked up. *)
Definition findById (mg : Mongoose) (id : string) : M (option ICommission.t) :=
  oid <- cast_id mg id ;;
  fun w => (Ret (lookup_commission w oid), w).

(** [Commission.findOne({ orderId })]. *)
Definition findOne_orderId (oid : ObjectId) : M (option ICommission.t) :=
  fun w => (Ret (commission_for_order w oid), w).

(** [Commission.find(filter)], in the store's order, for a filter that
    has been cast: the callers cast the ids and dates of their filter
    first ([cast_id], [cast_ids], [cast_date]), and raise as the query
    does when a text does not cast. *)
Definition find_where (p : ICommission.t -> bool) : M (list ICommission.t) :=
  fun w => (Ret (filter p (Commissions w)), w).

End Commission.

Module Doctor.
Definition findById (id : ObjectId) : M (option IDoctor.t) :=
  fun w => (Ret (lookup_doctor w id), w).
End Doctor.

Module Test.
Definition findById (id : ObjectId) : M (option ITest.t) :=
  fun w => (Ret (lookup_test w id), w).

(** [Test.find({ _id: { $in: testIds }, isActive: true })], once the ids
    are cast. *)
Definition find_active_in (testIds : list ObjectId) (w : World) : list ITest.t :=
  filter (fun t => existsb (Nat.eqb (ITest._id t)) testIds && ITest.isActive t)
         (Tests w).
End Test.

Module TestOrder.
(** [TestOrder.findById(id)]: the id is cast, then looked up. *)
Definition findById (mg : Mongoose) (id : string) : M (option ITestOrder.t) :=
  oid <- cast_id mg id ;;
  fun w => (Ret (lookup_order w oid), w).
End TestOrder.

(** [.populate('doctorId', 'name email')]: the referenced doctor, or
    [null] when no such document exists. *)
Definition populate_doctor (c : ICommission.t) : M (ICommission.t * option IDoctor.t) :=
  doctor <- Doctor.findById (ICommission.doctorId c) ;;
  ret (c, doctor).

Fixpoint populate_doctors (cs : list ICommission.t)
  : M (list (ICommission.t * option IDoctor.t)) :=
  match cs with
  | [] => ret []
  | c :: rest =>
      p <- populate_doctor c ;;
      ps <- populate_doctors rest ;;
      ret (p :: ps)
  end.

(** [.populate('tests.testId', 'commissionRate')]: each line with the test
    document it refers to, or [null]. *)
Fixpoint populate_tests (lines : list IOrderTest.t)
  : M (list (IOrderTest.t * option ITest.t)) :=
  match lines with
  | [] => ret []
  | l :: rest =>
      t <- Test.findById (IOrderTest.testId l) ;;
      ps <- populate_tests rest ;;
      ret ((l, t) :: ps)
  end.

(** An order as [TestOrder.findById(id).populate(...).populate(...)]
    returns it. *)
Record PopulatedOrder : Type := mkPopulatedOrder {
  po_order : ITestOrder.t;
  po_referringDoctor : option IDoctor.t;
  po_tests : list (IOrderTest.t * option ITest.t)
}.

Definition findOrder_populated (mg : Mongoose) (id : string)
  : M (option PopulatedOrder) :=
  o <- TestOrder.findById mg id ;;
  match o with
  | None => ret None
  | Some order =>
      doctor <- match ITestOrder.referringDoctorId order with
                | None => ret None
                | Some d => Doctor.findById d
                end ;;
      lines <- populate_tests (ITestOrder.tests order) ;;
      ret (Some (mkPopulatedOrder order doctor lines))
  end.

(* ===================================================================== *)
(** ** E-mail ([services/email.service.ts]) *)
(* ===================================================================== *)

(** The body of the commission notification: the values the template
    interpolates. *)
Inductive Html : Type :=
| CommissionPaymentHtml (doctorName : string) (period : Date) (amount : JS.NumberText).

Record EmailOptions : Type := mkEmail {
  to : string;
  subject : string;
  html : Html
}.

(** The mail transport, outside the program: [true] when [sendMail]
    resolves, [false] when obtaining the transporter or sending throws. *)
Definition Transport : Type := EmailOptions -> bool.

Module EmailService.

Definition sendEmail (transport : Transport) (options : EmailOptions) : M bool :=
  try_catch
    ((if transport options then ret tt else throw (JsError "sendMail failed")) ;;
     logger.info "Email sent successfully to" ;;
     ret true)
    (fun _ =>
       logger.error "Email sending failed:" ;;
       ret false).

Definition sendCommissionNotification (transport : Transport)
  (email doctorName : string) (amount : number) (period : Date) : M bool :=
  let subject := "Commission Payment Notification" in
  let html := CommissionPaymentHtml doctorName period (JS.toFixed2 amount) in
  sendEmail transport (mkEmail email subject html).

End EmailService.

(* ===================================================================== *)
(** ** Commission service ([src/services/commission.service.ts]) *)
(* ===================================================================== *)

(** The four accumulators of the loop over the order's lines. *)
Record Totals : Type := mkTotals {
  totalCommission : number;
  totalAmount : number;
  commissionRateSum : number;
  validTestsCount : number
}.

Record CalcOrder : Type := mkCalcOrder {
  co_orderId : string;
  co_totalAmount : number;
  co_commissionAmount : number
}.

Record CalcData : Type := mkCalcData {
  cd_commission : ICommission.t;
  cd_order : CalcOrder;
  cd_doctor : string * string
}.

Record PaidResult : Type := mkPaidResult {
  pr_commissionId : ObjectId;
  pr_doctorName : string;
  pr_amount : number;
  pr_paid : bool
}.

Record BulkData : Type := mkBulkData {
  bd_paidCommissions : nat;
  bd_totalAmount : number;
  bd_results : list PaidResult
}.

Module CommissionService.

(** [testData && testData.commissionRate >= 0 && testData.commissionRate <= 100]. *)
Definition qualifies (line : IOrderTest.t * option ITest.t) : bool :=
  match snd line with
  | Some testData =>
      JS.ge (ITest.commissionRate testData) 0%float
      && JS.le (ITest.commissionRate testData) 100%float
  | None => false
  end.

(** The rate of a populated line ([0] stands in where there is no test
    document; such a line never qualifies). *)
Definition line_rate (line : IOrderTest.t * option ITest.t) : number :=
  match snd line with
  | Some testData => ITest.commissionRate testData
  | None => 0%float
  end.

Definition line_commission (line : IOrderTest.t * option ITest.t) : number :=
  CommissionHelper.calculateCommission (IOrderTest.price (fst line)) (line_rate line).

(** One turn of [for (const test of order.tests)]. *)
Definition accumulate (acc : Totals) (line : IOrderTest.t * option ITest.t) : Totals :=
  if qualifies line then
    mkTotals (totalCommission acc + line_commission line)%float
             (totalAmount acc + IOrderTest.price (fst line))%float
             (commissionRateSum acc + line_rate line)%float
             (validTestsCount acc + 1)%float
  else acc.

Definition order_totals (lines : list (IOrderTest.t * option ITest.t)) : Totals :=
  fold_left accumulate lines (mkTotals 0%float 0%float 0%float 0%float).

(** [validTestsCount > 0 ? commissionRateSum / validTestsCount : 0]. *)
Definition averagePercentage (t : Totals) : number :=
  if JS.gt (validTestsCount t) 0%float
  then (commissionRateSum t / validTestsCount t)%float
  else 0%float.

Definition calculateCommission (mg : Mongoose) (orderId : string)
  : M (ServiceResponse CalcData) :=
  try_catch
    (found <- findOrder_populated mg orderId ;;
     match found with
     | None => ret (ResponseHelper.error "Order not found" 404)
     | Some order =>
         match po_referringDoctor order with
         | None =>
             ret (ResponseHelper.error
                    "No referring doctor found for commission calculation" 400)
         | Some doctor =>
             let totals := order_totals (po_tests order) in
             let average := averagePercentage totals in
             existingCommission <-
               Commission.findOne_orderId (ITestOrder._id (po_order order)) ;;
             match existingCommission with
             | Some _ =>
                 ret (ResponseHelper.error
                        "Commission already calculated for this order" 400)
             | None =>
                 commission <-
                   Commission.create
                     (IDoctor._id doctor)
                     (ITestOrder.patientId (po_order order))
                     (ITestOrder._id (po_order order))
                     TEST_REFERRAL
                     (JS.Math_round (totalCommission totals * 100) / 100)%float
                     (JS.Math_round (average * 100) / 100)%float
                     (ITestOrder.branchId (po_order order)) ;;
                 Commission.save_new commission ;;
                 logger.info "Commission calculated:" ;;
                 ret (ResponseHelper.success
                        (mkCalcData commission
                           (mkCalcOrder (ITestOrder.orderId (po_order order))
                                        (ITestOrder.totalAmount (po_order order))
                                        (totalCommission totals))
                           (IDoctor.name doctor, IDoctor.email doctor))
                        "Commission calculated successfully")
             end
         end
     end)
    (fun _ =>
       logger.error "Commission calculation error:" ;;
       ret (ResponseHelper.error_default "Failed to calculate commission")).

(** [commission.paymentStatus = PAID; commission.paymentDate = new Date()]. *)
Definition mark_paid (c : ICommission.t) (now : Date) : ICommission.t :=
  ICommission.mk (ICommission._id c) (ICommission.doctorId c)
    (ICommission.patientId c) (ICommission.orderId c)
    (ICommission.commissionType c) (ICommission.amount c)
    (ICommission.percentage c) (ICommission.calculatedDate c)
    PAID (Some now) (ICommission.branchId c).

Definition payCommission (mg : Mongoose) (transport : Transport)
  (commissionId : string) (paidBy : string) : M (ServiceResponse ICommission.t) :=
  try_catch
    (found <- Commission.findById mg commissionId ;;
     match found with
     | None => ret (ResponseHelper.error "Commission not found" 404)
     | Some c =>
         populated <- populate_doctor c ;;
         let '(commission, doctor) := populated in
         if PaymentStatus_eqb (ICommission.paymentStatus commission) PAID
         then ret (ResponseHelper.error "Commission already paid" 400)
         else
           now <- new_Date ;;
           let commission := mark_paid commission now in
           Commission.save commission ;;
           match doctor with
           | None => throw (TypeError "Cannot read properties of null")
           | Some doctor =>
               EmailService.sendCommissionNotification transport
                 (IDoctor.email doctor) (IDoctor.name doctor)
                 (ICommission.amount commission)
                 (ICommission.calculatedDate commission) ;;
               logger.info "Commission paid:" ;;
               ret (ResponseHelper.success commission
                      "Commission payment processed successfully")
           end
     end)
    (fun _ =>
       logger.error "Pay commission error:" ;;
       ret (ResponseHelper.error_default "Failed to process commission payment")).

(** The body of [for (const commission of commissions)], with the
    [results] array threaded through. *)
Fixpoint pay_each (transport : Transport) (paidBy : string)
  (commissions : list (ICommission.t * option IDoctor.t))
  (results : list PaidResult) : M (list PaidResult) :=
  match commissions with
  | [] => ret results
  | (commission, doctor) :: rest =>
      now <- new_Date ;;
      let commission := mark_paid commission now in
      Commission.save commission ;;
      match doctor with
      | None => throw (TypeError "Cannot read properties of null")
      | Some doctor =>
          EmailService.sendCommissionNotification transport
            (IDoctor.email doctor) (IDoctor.name doctor)
            (ICommission.amount commission)
            (ICommission.calculatedDate commission) ;;
          let results := (results ++
            [mkPaidResult (ICommission._id commission) (IDoctor.name doctor)
                          (ICommission.amount commission) true])%list in
          logger.info "Commission paid:" ;;
          pay_each transport paidBy rest results
      end
  end.

(** The filter [{ _id: { $in: commissionIds }, paymentStatus: PENDING }],
    once its ids are cast. *)
Definition pending_among (commissionIds : list ObjectId) (c : ICommission.t) : bool :=
  existsb (Nat.eqb (ICommission._id c)) commissionIds
  && PaymentStatus_eqb (ICommission.paymentStatus c) PENDING.

(** The success message is the source's without the interpolated count,
    which [paidCommissions] carries. *)
Definition bulkPayCommissions (mg : Mongoose) (transport : Transport)
  (commissionIds : list string) (paidBy : string)
  : M (ServiceResponse BulkData) :=
  try_catch
    (ids <- cast_ids mg commissionIds ;;
     found <- Commission.find_where (pending_among ids) ;;
     commissions <- populate_doctors found ;;
     if Nat.eqb (List.length commissions) 0
     then ret (ResponseHelper.error "No pending commissions found" 404)
     else
       results <- pay_each transport paidBy commissions [] ;;
       let total := JS.sum_by pr_amount results in
       ret (ResponseHelper.success
              (mkBulkData (List.length results) total results)
              "commission payments processed successfully"))
    (fun _ =>
       logger.error "Bulk pay commissions error:" ;;
       ret (ResponseHelper.error_default
              "Failed to process bulk commission payments")).

End CommissionService.

(* ===================================================================== *)
(** ** Requests, responses and the role/branch middleware
       ([src/middleware/auth.middleware.ts], [middleware/rbac.middleware.ts]) *)
(* ===================================================================== *)

(** [req.user], as [authenticate] attaches it. *)
Record AuthUser : Type := mkAuthUser {
  u_userId : string;
  u_role : UserRole;
  u_branchId : option string;
  u_id : option ObjectId
}.

(** What a handler sends: the HTTP status and the JSON body's [success],
    [message] and [data]. *)
Record HttpResponse (A : Type) : Type := mkHttp {
  http_status : nat;
  http_success : bool;
  http_message : option string;
  http_data : option A
}.
Arguments mkHttp {A} _ _ _ _.
Arguments http_status {A} _.
Arguments http_success {A} _.
Arguments http_message {A} _.
Arguments http_data {A} _.

(** [ToBoolean] on an optional string: [undefined] and [''] are falsy. *)
Definition truthy_string (s : option string) : bool :=
  match s with
  | Some x => negb (String.eqb x "")
  | None => false
  end.

(** The text of an optional string that is there. *)
Definition text_of (s : option string) : string :=
  match s with
  | Some x => x
  | None => ""
  end.

Definition option_string_eqb (a b : option string) : bool :=
  match a, b with
  | Some x, Some y => String.eqb x y
  | None, None => true
  | _, _ => false
  end.

(** The outcome of a middleware: pass the (possibly rewritten) request on,
    or answer at once. *)
Inductive Guard (R A : Type) : Type :=
| Next (req : R)
| Respond (res : HttpResponse A).
Arguments Next {R A} req.
Arguments Respond {R A} res.

(** [authorize(allowedRoles)]. *)
Definition authorize {A : Type} (allowedRoles : list UserRole)
  (user : option AuthUser) : Guard (option AuthUser) A :=
  match user with
  | None => Respond (mkHttp 401 false (Some "Authentication required") None)
  | Some u =>
      if existsb (UserRole_eqb (u_role u)) allowedRoles
      then Next user
      else Respond (mkHttp 403 false (Some "Insufficient permissions") None)
  end.

(* ===================================================================== *)
(** ** Accounts reports ([controllers/accounts.controller.ts]) *)
(* ===================================================================== *)

(** The [branchFilter] object spread into every [$match]: empty, or
    [{ branchId: b }] where [b] may be [undefined]. *)
Inductive BranchFilter : Type :=
| AnyBranch
| BranchIs (b : option string).

(** Whether a document's [branchId] passes the filter.  Every document
    carries a branch id, so the filter on [undefined] selects none. *)
Definition branch_matches (f : BranchFilter) (docBranch : string) : bool :=
  match f with
  | AnyBranch => true
  | BranchIs (Some b) => String.eqb docBranch b
  | BranchIs None => false
  end.

(** [branchFilter.branchId || 'ALL']. *)
Definition branch_label (f : BranchFilter) : string :=
  match f with
  | BranchIs (Some b) => if String.eqb b "" then "ALL" else b
  | _ => "ALL"
  end.

Definition isAdmin (user : option AuthUser) : bool :=
  match user with
  | Some u => UserRole_eqb (u_role u) ADMIN
  | None => false
  end.

Definition user_branchId (user : option AuthUser) : option string :=
  match user with
  | Some u => u_branchId u
  | None => None
  end.

(** The branch filtering every accounts report starts with:
    [if (!isAdmin) branchFilter.branchId = user?.branchId;
     else if (branchId) branchFilter.branchId = branchId;]. *)
Definition resolve_branchFilter (user : option AuthUser)
  (branchId : option string) : BranchFilter :=
  if negb (isAdmin user) then BranchIs (user_branchId user)
  else if truthy_string branchId then BranchIs branchId
  else AnyBranch.

(** [isAdmin && !branchId]: the branch-wise shape. *)
Definition branch_wise (user : option AuthUser) (branchId : option string) : bool :=
  isAdmin user && negb (truthy_string branchId).

(** The calendar functions of [Date], taken as given: the first and last
    instant of a day, and of a month of a year. *)
Record Calendar : Type := mkCalendar {
  startOfDay : Date -> Date;
  endOfDay : Date -> Date;
  monthStart : number -> number -> Date;
  monthEnd : number -> number -> Date
}.

(** [{ $gte: lo, $lte: hi }]. *)
Definition in_window (win : Date * Date) (t : Date) : bool :=
  Nat.leb (fst win) t && Nat.leb t (snd win).

(** *** Aggregation: [$group] with [$sum] *)

(** A row of a [$group] stage: the group key, the [$sum] of a field and
    the [$sum: 1] count.  Groups appear in the order of their first
    document; sums add in document order. *)
Record Group (K : Type) : Type := mkGroup {
  g_key : K;
  g_total : number;
  g_count : number
}.
Arguments mkGroup {K} _ _ _.
Arguments g_key {K} _.
Arguments g_total {K} _.
Arguments g_count {K} _.

Fixpoint group_add {K : Type} (eqb : K -> K -> bool) (k : K) (v : number)
  (groups : list (Group K)) : list (Group K) :=
  match groups with
  | [] => [mkGroup k (0 + v)%float (0 + 1)%float]
  | g :: rest =>
      if eqb (g_key g) k
      then mkGroup (g_key g) (g_total g + v)%float (g_count g + 1)%float :: rest
      else g :: group_add eqb k v rest
  end.

Definition group_sum {A K : Type} (eqb : K -> K -> bool) (key : A -> K)
  (val : A -> number) (docs : list A) : list (Group K) :=
  fold_left (fun groups d => group_add eqb (key d) (val d) groups) docs [].

(** [$sort]: a stable insertion sort; [before a b] holds when [a] must
    come strictly before [b]. *)
Fixpoint insert_by {A : Type} (before : A -> A -> bool) (x : A)
  (sorted : list A) : list A :=
  match sorted with
  | [] => [x]
  | h :: rest =>
      if before x h then x :: h :: rest else h :: insert_by before x rest
  end.

Definition sort_by {A : Type} (before : A -> A -> bool) (xs : list A) : list A :=
  fold_left (fun sorted x => insert_by before x sorted) xs [].

(** [{ totalAmount: -1 }]. *)
Definition total_desc {K : Type} (a b : Group K) : bool :=
  PrimFloat.ltb (g_total b) (g_total a).

(** *** A JavaScript [Map], in insertion order *)

Fixpoint map_get {K V : Type} (eqb : K -> K -> bool) (k : K)
  (m : list (K * V)) : option V :=
  match m with
  | [] => None
  | (k', v) :: rest => if eqb k' k then Some v else map_get eqb k rest
  end.

Fixpoint map_set {K V : Type} (eqb : K -> K -> bool) (k : K) (v : V)
  (m : list (K * V)) : list (K * V) :=
  match m with
  | [] => [(k, v)]
  | (k', v') :: rest =>
      if eqb k' k then (k', v) :: rest else (k', v') :: map_set eqb k v rest
  end.

Definition map_has {K V : Type} (eqb : K -> K -> bool) (k : K)
  (m : list (K * V)) : bool :=
  match map_get eqb k m with
  | Some _ => true
  | None => false
  end.

Definition map_values {K V : Type} (m : list (K * V)) : list V := map snd m.

Definition pair_eqb {A B : Type} (ea : A -> A -> bool) (eb : B -> B -> bool)
  (x y : A * B) : bool :=
  ea (fst x) (fst y) && eb (snd x) (snd y).

Definition unit_eqb (_ _ : unit) : bool := true.

(** [paymentStatus: { $in: [PAID, PARTIAL] }]. *)
Definition collected (s : PaymentStatus) : bool :=
  PaymentStatus_eqb s PAID || PaymentStatus_eqb s PARTIAL.

(** A profit margin as the statement reports it: the text of
    [toFixed(2)], or the number [0]. *)
Inductive ProfitMargin : Type :=
| MarginText (t : JS.NumberText)
| MarginNumber (n : number).

(** [revenue > 0 ? ((netIncome / revenue) * 100).toFixed(2) : 0]. *)
Definition profit_margin (netIncome revenue : number) : ProfitMargin :=
  if JS.gt revenue 0%float
  then MarginText (JS.toFixed2 ((netIncome / revenue) * 100)%float)
  else MarginNumber 0%float.

Module AccountsController.

(** **** Daily collection *)

Record DailyQuery : Type := mkDailyQuery {
  dq_branchId : option string;
  dq_date : option Date;
  dq_startDate : option Date;
  dq_endDate : option Date
}.

Record ModeRow : Type := mkModeRow {
  mr_paymentMode : PaymentMode;
  mr_consultationAmount : number;
  mr_testAmount : number;
  mr_totalAmount : number;
  mr_consultationCount : number;
  mr_testCount : number;
  mr_totalCount : number
}.

Record Summary : Type := mkSummary {
  sm_totalCollection : number;
  sm_totalExpenses : number;
  sm_netCollection : number;
  sm_transactionCount : number
}.

(** An entry of [branchDataMap]. *)
Record BranchData : Type := mkBranchData {
  bd_branchId : string;
  bd_collections : list (PaymentMode * ModeRow);
  bd_totalCollection : number;
  bd_totalExpenses : number;
  bd_netCollection : number;
  bd_transactionCount : number
}.

Record BranchCollections : Type := mkBranchCollections {
  bc_branchId : string;
  bc_collections : list ModeRow;
  bc_summary : Summary
}.

Inductive DailyData : Type :=
| DailyBranchWise (date : Date) (branches : list BranchCollections)
    (grandTotal : Summary)
| DailySingle (date : Date) (branchId : string) (collections : list ModeRow)
    (summary : Summary).

Definition default_row (pm : PaymentMode) : ModeRow :=
  mkModeRow pm 0%float 0%float 0%float 0%float 0%float 0%float.

(** The row for [paymentMode] after a consultation item: the amount and
    count are assigned, the totals added to. *)
Definition with_consultation (existing : ModeRow) (amount count : number) : ModeRow :=
  mkModeRow (mr_paymentMode existing) amount (mr_testAmount existing)
    (mr_totalAmount existing + amount)%float count (mr_testCount existing)
    (mr_totalCount existing + count)%float.

Definition with_test (existing : ModeRow) (amount count : number) : ModeRow :=
  mkModeRow (mr_paymentMode existing) (mr_consultationAmount existing) amount
    (mr_totalAmount existing + amount)%float (mr_consultationCount existing) count
    (mr_totalCount existing + count)%float.

(** One turn of the [forEach] over a collection, in the single-branch shape. *)
Definition single_step (upd : ModeRow -> number -> number -> ModeRow)
  (m : list (PaymentMode * ModeRow)) (item : Group PaymentMode)
  : list (PaymentMode * ModeRow) :=
  let paymentMode := g_key item in
  let existing := match map_get PaymentMode_eqb paymentMode m with
                  | Some r => r
                  | None => default_row paymentMode
                  end in
  map_set PaymentMode_eqb paymentMode
    (upd existing (g_total item) (g_count item)) m.

Definition fresh_branch (branchId : string) : BranchData :=
  mkBranchData branchId [] 0%float 0%float 0%float 0%float.

(** One turn of the [forEach] over a collection, in the branch-wise shape. *)
Definition branch_step (upd : ModeRow -> number -> number -> ModeRow)
  (m : list (string * BranchData)) (item : Group (string * PaymentMode))
  : list (string * BranchData) :=
  let branchId := fst (g_key item) in
  let paymentMode := snd (g_key item) in
  let m := if map_has String.eqb branchId m then m
           else map_set String.eqb branchId (fresh_branch branchId) m in
  match map_get String.eqb branchId m with
  | None => m
  | Some branchData =>
      let existing := match map_get PaymentMode_eqb paymentMode
                              (bd_collections branchData) with
                      | Some r => r
                      | None => default_row paymentMode
                      end in
      map_set String.eqb branchId
        (mkBranchData (bd_branchId branchData)
           (map_set PaymentMode_eqb paymentMode
              (upd existing (g_total item) (g_count item))
              (bd_collections branchData))
           (bd_totalCollection branchData + g_total item)%float
           (bd_totalExpenses branchData)
           (bd_netCollection branchData)
           (bd_transactionCount branchData + g_count item)%float) m
  end.

(** One turn of [expensesTotal.forEach], in the branch-wise shape. *)
Definition expense_step (m : list (string * BranchData)) (item : Group string)
  : list (string * BranchData) :=
  match map_get String.eqb (g_key item) m with
  | None => m
  | Some branchData =>
      map_set String.eqb (g_key item)
        (mkBranchData (bd_branchId branchData) (bd_collections branchData)
           (bd_totalCollection branchData) (g_total item)
           (bd_totalCollection branchData - g_total item)%float
           (bd_transactionCount branchData)) m
  end.

(** [xs[0]?.total || 0]. *)
Definition first_total_or_0 {K : Type} (rows : list (Group K)) : number :=
  match rows with
  | g :: _ => JS.or_else (g_total g) 0%float
  | [] => 0%float
  end.

Definition first_count_or_0 {K : Type} (rows : list (Group K)) : number :=
  match rows with
  | g :: _ => JS.or_else (g_count g) 0%float
  | [] => 0%float
  end.

Definition getDailyCollection_body (cal : Calendar) (user : option AuthUser)
  (q : DailyQuery) : M (HttpResponse DailyData) :=
  dateFilter <-
    match dq_date q with
    | Some targetDate => ret (startOfDay cal targetDate, endOfDay cal targetDate)
    | None =>
        match dq_startDate q, dq_endDate q with
        | Some s, Some e => ret (s, e)
        | _, _ =>
            today <- new_Date ;;
            ret (startOfDay cal today, endOfDay cal today)
        end
    end ;;
  let branchFilter := resolve_branchFilter user (dq_branchId q) in
  fun w =>
    let visits :=
      filter (fun v => in_window dateFilter (IPatientVisit.createdAt v)
                       && branch_matches branchFilter (IPatientVisit.branchId v)
                       && collected (IPatientVisit.paymentStatus v)) (Visits w) in
    let orders :=
      filter (fun o => in_window dateFilter (ITestOrder.createdAt o)
                       && branch_matches branchFilter (ITestOrder.branchId o)
                       && collected (ITestOrder.paymentStatus o)) (TestOrders w) in
    let expenses :=
      filter (fun e => in_window dateFilter (IExpense.createdAt e)
                       && branch_matches branchFilter (IExpense.branchId e))
             (Expenses w) in
    (date <- match dq_date q with
             | Some d => ret d
             | None => new_Date
             end ;;
     if branch_wise user (dq_branchId q) then
       let key := pair_eqb String.eqb PaymentMode_eqb in
       let consultationCollection :=
         group_sum key
           (fun v => (IPatientVisit.branchId v, IPatientVisit.paymentMode v))
           IPatientVisit.consultationFee visits in
       let testCollection :=
         group_sum key
           (fun o => (ITestOrder.branchId o, ITestOrder.paymentMode o))
           ITestOrder.totalAmount orders in
       let expensesTotal :=
         group_sum String.eqb IExpense.branchId IExpense.amount expenses in
       let branchDataMap := fold_left (branch_step with_consultation)
                              consultationCollection [] in
       let branchDataMap := fold_left (branch_step with_test)
                              testCollection branchDataMap in
       let branchDataMap := fold_left expense_step expensesTotal branchDataMap in
       let branchWiseData :=
         map (fun branch =>
                mkBranchCollections (bd_branchId branch)
                  (map_values (bd_collections branch))
                  (mkSummary (bd_totalCollection branch) (bd_totalExpenses branch)
                             (bd_netCollection branch) (bd_transactionCount branch)))
             (map_values branchDataMap) in
       let totalCollection :=
         JS.sum_by (fun b => sm_totalCollection (bc_summary b)) branchWiseData in
       let totalExpenses :=
         JS.sum_by (fun b => sm_totalExpenses (bc_summary b)) branchWiseData in
       let transactionCount :=
         JS.sum_by (fun b => sm_transactionCount (bc_summary b)) branchWiseData in
       ret (mkHttp 200 true None
              (Some (DailyBranchWise date branchWiseData
                       (mkSummary totalCollection totalExpenses
                                  (totalCollection - totalExpenses)%float
                                  transactionCount))))
     else
       let consultationCollection :=
         group_sum PaymentMode_eqb IPatientVisit.paymentMode
           IPatientVisit.consultationFee visits in
       let testCollection :=
         group_sum PaymentMode_eqb ITestOrder.paymentMode
           ITestOrder.totalAmount orders in
       let expensesTotal :=
         group_sum unit_eqb (fun _ => tt) IExpense.amount expenses in
       let paymentModeMap := fold_left (single_step with_consultation)
                               consultationCollection [] in
       let paymentModeMap := fold_left (single_step with_test)
                               testCollection paymentModeMap in
       let collections := map_values paymentModeMap in
       let totalCollection := JS.sum_by mr_totalAmount collections in
       let totalExpenses := first_total_or_0 expensesTotal in
       ret (mkHttp 200 true None
              (Some (DailySingle date (branch_label branchFilter) collections
                       (mkSummary totalCollection totalExpenses
                                  (totalCollection - totalExpenses)%float
                                  (JS.sum_by mr_totalCount collections)))))) w.

Definition getDailyCollection (cal : Calendar) (user : option AuthUser)
  (q : DailyQuery) : M (HttpResponse DailyData) :=
  try_catch (getDailyCollection_body cal user q)
    (fun _ =>
       logger.error "Error getting daily collection:" ;;
       ret (mkHttp 500 false (Some "Failed to get daily collection data") None)).

(** The route [GET /daily-collection]: [authenticate] has attached
    [req.user] (or answered 401); then [authorize], then the handler.
    The Joi schema of the route constrains no branch id and is taken to
    accept the request. *)
Definition daily_collection_route (cal : Calendar) (user : option AuthUser)
  (q : DailyQuery) : M (HttpResponse DailyData) :=
  match authorize [ADMIN; BRANCH_MANAGER; OPD_STAFF] user with
  | Respond res => ret res
  | Next user => getDailyCollection cal user q
  end.

(** **** Monthly financial statement *)

Record StatementQuery : Type := mkStatementQuery {
  sq_branchId : option string;
  sq_month : option number;
  sq_year : option number
}.

Record AmountCount : Type := mkAmountCount {
  ac_amount : number;
  ac_count : number
}.

(** One statement: a branch's, the grand total's, or the single-branch one. *)
Record Statement : Type := mkStatement {
  st_consultations : AmountCount;
  st_tests : AmountCount;
  st_revenue_total : number;
  st_expenses_byCategory : list (Group string);
  st_expenses_total : number;
  st_commissions : AmountCount;
  st_netIncome : number;
  st_profitMargin : ProfitMargin
}.

Inductive StatementData : Type :=
| StatementBranchWise (month year : number)
    (branches : list (string * Statement)) (grandTotal : Statement)
| StatementSingle (month year : number) (branchId : string) (s : Statement).

Definition fresh_statement : Statement :=
  mkStatement (mkAmountCount 0%float 0%float) (mkAmountCount 0%float 0%float)
    0%float [] 0%float (mkAmountCount 0%float 0%float) 0%float
    (MarginNumber 0%float).

Definition ensure_branch (branchId : string) (m : list (string * Statement))
  : list (string * Statement) :=
  if map_has String.eqb branchId m then m
  else map_set String.eqb branchId fresh_statement m.

(** [consultationRevenue.forEach]. *)
Definition consultation_revenue_step (m : list (string * Statement))
  (item : Group string) : list (string * Statement) :=
  let m := ensure_branch (g_key item) m in
  match map_get String.eqb (g_key item) m with
  | None => m
  | Some b =>
      map_set String.eqb (g_key item)
        (mkStatement (mkAmountCount (g_total item) (g_count item))
           (st_tests b) (st_revenue_total b + g_total item)%float
           (st_expenses_byCategory b) (st_expenses_total b)
           (st_commissions b) (st_netIncome b) (st_profitMargin b)) m
  end.

(** [testRevenue.forEach]. *)
Definition test_revenue_step (m : list (string * Statement))
  (item : Group string) : list (string * Statement) :=
  let m := ensure_branch (g_key item) m in
  match map_get String.eqb (g_key item) m with
  | None => m
  | Some b =>
      map_set String.eqb (g_key item)
        (mkStatement (st_consultations b)
           (mkAmountCount (g_total item) (g_count item))
           (st_revenue_total b + g_total item)%float
           (st_expenses_byCategory b) (st_expenses_total b)
           (st_commissions b) (st_netIncome b) (st_profitMargin b)) m
  end.

(** [commissionsPaid.forEach]. *)
Definition commissions_step (m : list (string * Statement))
  (item : Group string) : list (string * Statement) :=
  match map_get String.eqb (g_key item) m with
  | None => m
  | Some b =>
      map_set String.eqb (g_key item)
        (mkStatement (st_consultations b) (st_tests b) (st_revenue_total b)
           (st_expenses_byCategory b) (st_expenses_total b)
           (mkAmountCount (g_total item) (g_count item))
           (st_netIncome b) (st_profitMargin b)) m
  end.

(** [expensesByBranchAndCategory.forEach]: the per-branch category map
    and the branch's expense total. *)
Definition expenses_step
  (acc : list (string * list (string * Group string)) * list (string * Statement))
  (item : Group (string * string))
  : list (string * list (string * Group string)) * list (string * Statement) :=
  let '(byCategory, m) := acc in
  let branchId := fst (g_key item) in
  let category := snd (g_key item) in
  let byCategory :=
    if map_has String.eqb branchId byCategory then byCategory
    else map_set String.eqb branchId [] byCategory in
  let inner := match map_get String.eqb branchId byCategory with
               | Some i => i
               | None => []
               end in
  let byCategory :=
    map_set String.eqb branchId
      (map_set String.eqb category
         (mkGroup category (g_total item) (g_count item)) inner) byCategory in
  let m := match map_get String.eqb branchId m with
           | None => m
           | Some b =>
               map_set String.eqb branchId
                 (mkStatement (st_consultations b) (st_tests b)
                    (st_revenue_total b) (st_expenses_byCategory b)
                    (st_expenses_total b + g_total item)%float
                    (st_commissions b) (st_netIncome b) (st_profitMargin b)) m
           end in
  (byCategory, m).

(** The body of [branchDataMap.forEach] that finalises a branch. *)
Definition finalize_branch (byCategory : list (string * list (string * Group string)))
  (entry : string * Statement) : string * Statement :=
  let '(branchId, b) := entry in
  let cats := match map_get String.eqb branchId byCategory with
              | Some inner => map_values inner
              | None => st_expenses_byCategory b
              end in
  let netIncome :=
    (st_revenue_total b - st_expenses_total b - ac_amount (st_commissions b))%float in
  (branchId,
   mkStatement (st_consultations b) (st_tests b) (st_revenue_total b) cats
     (st_expenses_total b) (st_commissions b) netIncome
     (profit_margin netIncome (st_revenue_total b))).

(** [grandTotal] with its [profitMargin]. *)
Definition grand_total (branchWiseData : list Statement) : Statement :=
  let consultations :=
    mkAmountCount
      (JS.sum_by (fun b => ac_amount (st_consultations b)) branchWiseData)
      (JS.sum_by (fun b => ac_count (st_consultations b)) branchWiseData) in
  let tests :=
    mkAmountCount
      (JS.sum_by (fun b => ac_amount (st_tests b)) branchWiseData)
      (JS.sum_by (fun b => ac_count (st_tests b)) branchWiseData) in
  let expenses := JS.sum_by st_expenses_total branchWiseData in
  let commissions :=
    mkAmountCount
      (JS.sum_by (fun b => ac_amount (st_commissions b)) branchWiseData)
      (JS.sum_by (fun b => ac_count (st_commissions b)) branchWiseData) in
  let netIncome := JS.sum_by st_netIncome branchWiseData in
  let revenue := (ac_amount consultations + ac_amount tests)%float in
  mkStatement consultations tests revenue [] expenses commissions netIncome
    (profit_margin netIncome revenue).

(** [{ '_id.branchId': 1, totalAmount: -1 }]. *)
Definition branch_then_total_desc (a b : Group (string * string)) : bool :=
  match String.compare (fst (g_key a)) (fst (g_key b)) with
  | Lt => true
  | Gt => false
  | Eq => PrimFloat.ltb (g_total b) (g_total a)
  end.

(** The single-branch statement, from the four aggregation results. *)
Definition single_statement (consultationRevenue testRevenue commissionsPaid : list (Group unit))
  (expensesByCategory : list (Group string)) : Statement :=
  let totalExpenses := JS.sum_by g_total expensesByCategory in
  let totalRevenue :=
    (first_total_or_0 consultationRevenue + first_total_or_0 testRevenue)%float in
  let totalCommissions := first_total_or_0 commissionsPaid in
  let netIncome := (totalRevenue - totalExpenses - totalCommissions)%float in
  mkStatement
    (mkAmountCount (first_total_or_0 consultationRevenue)
                   (first_count_or_0 consultationRevenue))
    (mkAmountCount (first_total_or_0 testRevenue) (first_count_or_0 testRevenue))
    totalRevenue expensesByCategory totalExpenses
    (mkAmountCount totalCommissions (first_count_or_0 commissionsPaid))
    netIncome
    (profit_margin netIncome totalRevenue).

Definition getFinancialStatement_body (cal : Calendar) (user : option AuthUser)
  (q : StatementQuery) : M (HttpResponse StatementData) :=
  match sq_month q, sq_year q with
  | Some month, Some year =>
      let branchFilter := resolve_branchFilter user (sq_branchId q) in
      let win := (monthStart cal year month, monthEnd cal year month) in
      fun w =>
        let paid_visits (f : BranchFilter) :=
          filter (fun v => in_window win (IPatientVisit.createdAt v)
                           && branch_matches f (IPatientVisit.branchId v)
                           && PaymentStatus_eqb (IPatientVisit.paymentStatus v) PAID)
                 (Visits w) in
        let paid_orders (f : BranchFilter) :=
          filter (fun o => in_window win (ITestOrder.createdAt o)
                           && branch_matches f (ITestOrder.branchId o)
                           && PaymentStatus_eqb (ITestOrder.paymentStatus o) PAID)
                 (TestOrders w) in
        let paid_commissions (f : BranchFilter) :=
          filter (fun c => in_window win (ICommission.calculatedDate c)
                           && branch_matches f (ICommission.branchId c)
                           && PaymentStatus_eqb (ICommission.paymentStatus c) PAID)
                 (Commissions w) in
        let dated_expenses (f : BranchFilter) :=
          filter (fun e => in_window win (IExpense.date e)
                           && branch_matches f (IExpense.branchId e))
                 (Expenses w) in
        if branch_wise user (sq_branchId q) then
          let consultationRevenue :=
            group_sum String.eqb IPatientVisit.branchId
              IPatientVisit.consultationFee (paid_visits AnyBranch) in
          let testRevenue :=
            group_sum String.eqb ITestOrder.branchId ITestOrder.totalAmount
              (paid_orders AnyBranch) in
          let commissionsPaid :=
            group_sum String.eqb ICommission.branchId ICommission.amount
              (paid_commissions AnyBranch) in
          let expensesByBranchAndCategory :=
            sort_by branch_then_total_desc
              (group_sum (pair_eqb String.eqb String.eqb)
                 (fun e => (IExpense.branchId e, IExpense.category e))
                 IExpense.amount (dated_expenses AnyBranch)) in
          let branchDataMap :=
            fold_left consultation_revenue_step consultationRevenue [] in
          let branchDataMap :=
            fold_left test_revenue_step testRevenue branchDataMap in
          let branchDataMap :=
            fold_left commissions_step commissionsPaid branchDataMap in
          let '(byCategory, branchDataMap) :=
            fold_left expenses_step expensesByBranchAndCategory
              ([], branchDataMap) in
          let branchDataMap := map (finalize_branch byCategory) branchDataMap in
          (Ret (mkHttp 200 true None
                  (Some (StatementBranchWise month year branchDataMap
                           (grand_total (map_values branchDataMap))))), w)
        else
          let consultationRevenue :=
            group_sum unit_eqb (fun _ => tt) IPatientVisit.consultationFee
              (paid_visits branchFilter) in
          let testRevenue :=
            group_sum unit_eqb (fun _ => tt) ITestOrder.totalAmount
              (paid_orders branchFilter) in
          let commissionsPaid :=
            group_sum unit_eqb (fun _ => tt) ICommission.amount
              (paid_commissions branchFilter) in
          let expensesByCategory :=
            sort_by total_desc
              (group_sum String.eqb IExpense.category IExpense.amount
                 (dated_expenses branchFilter)) in
          (Ret (mkHttp 200 true None
                  (Some (StatementSingle month year (branch_label branchFilter)
                           (single_statement consultationRevenue testRevenue
                              commissionsPaid expensesByCategory)))), w)
  | _, _ => ret (mkHttp 400 false (Some "Month and year are required") None)
  end.

Definition getFinancialStatement (cal : Calendar) (user : option AuthUser)
  (q : StatementQuery) : M (HttpResponse StatementData) :=
  try_catch (getFinancialStatement_body cal user q)
    (fun _ =>
       logger.error "Error getting financial statement:" ;;
       ret (mkHttp 500 false (Some "Failed to get financial statement") None)).

End AccountsController.

(* ===================================================================== *)
(** ** Identifier generator ([utils/idGenerator.ts]) *)
(* ===================================================================== *)

Module IDGenerator.

(** [Counter.findOneAndUpdate({ _id: name }, { $inc: { sequence: 1 } },
    { new: true, upsert: true })]. *)
Fixpoint bump (name : string) (counters : list (string * nat))
  : nat * list (string * nat) :=
  match counters with
  | [] => (1, [(name, 1)])
  | (k, n) :: rest =>
      if String.eqb k name then (S n, (k, S n) :: rest)
      else let '(v, rest') := bump name rest in (v, (k, n) :: rest')
  end.

Definition getNextSequence (name : string) : M nat :=
  fun w =>
    let '(v, counters) := bump name (Counters w) in
    (Ret v, set_Counters counters w).

Definition decimal (n : nat) : string :=
  NilZero.string_of_uint (Nat.to_uint n).

(** [sequence.toString().padStart(3, '0')]. *)
Definition pad3 (n : nat) : string :=
  let s := decimal n in
  match String.length s with
  | 0 => "000"
  | 1 => "00" ++ s
  | 2 => "0" ++ s
  | _ => s
  end.

Definition generateOrderId (branchId : string) : M string :=
  sequence <- getNextSequence ("orderId_" ++ branchId) ;;
  ret (branchId ++ "-ORD" ++ pad3 sequence).


Definition generateBranchId : M string :=
  sequence <- getNextSequence "branchId" ;;
  ret ("BR" ++ pad3 sequence).

(** [role.split('_')[0]]: [ADMIN] gives [ADMIN], [OPD_STAFF] gives [OPD]. *)
Definition rolePrefix (role : string) : string :=
  hd "" (JS.split "_" role).

Definition generateUserId (branchId role : string) : M string :=
  sequence <- getNextSequence ("userId_" ++ branchId ++ "_" ++ rolePrefix role) ;;
  ret (branchId ++ "-" ++ rolePrefix role ++ pad3 sequence).

Definition generatePatientId (branchId : string) : M string :=
  sequence <- getNextSequence ("patientId_" ++ branchId) ;;
  ret (branchId ++ "-PAT" ++ pad3 sequence).

Definition generateVisitId (branchId : string) : M string :=
  sequence <- getNextSequence ("visitId_" ++ branchId) ;;
  ret (branchId ++ "-VIS" ++ pad3 sequence).

Definition generateDoctorId : M string :=
  sequence <- getNextSequence "doctorId" ;;
  ret ("DOC" ++ pad3 sequence).

Definition generateTestId : M string :=
  sequence <- getNextSequence "testId" ;;
  ret ("TST" ++ pad3 sequence).

Definition generatePrescriptionId (branchId : string) : M string :=
  sequence <- getNextSequence ("prescriptionId_" ++ branchId) ;;
  ret (branchId ++ "-PRE" ++ pad3 sequence).

Definition generateReportId (branchId : string) : M string :=
  sequence <- getNextSequence ("reportId_" ++ branchId) ;;
  ret (branchId ++ "-REP" ++ pad3 sequence).

Definition generateExpenseId (branchId : string) : M string :=
  sequence <- getNextSequence ("expenseId_" ++ branchId) ;;
  ret (branchId ++ "-EXP" ++ pad3 sequence).

Definition generateEmployeeId (branchId : string) : M string :=
  sequence <- getNextSequence ("employeeId_" ++ branchId) ;;
  ret (branchId ++ "-EMP" ++ pad3 sequence).

Definition generateTaskId (branchId : string) : M string :=
  sequence <- getNextSequence ("taskId_" ++ branchId) ;;
  ret (branchId ++ "-TSK" ++ pad3 sequence).

Definition generateLeaveId (branchId : string) : M string :=
  sequence <- getNextSequence ("leaveId_" ++ branchId) ;;
  ret (branchId ++ "-LEV" ++ pad3 sequence).

Definition generateComplaintId (branchId : string) : M string :=
  sequence <- getNextSequence ("complaintId_" ++ branchId) ;;
  ret (branchId ++ "-CMP" ++ pad3 sequence).

Definition generateItemId (branchId : string) : M string :=
  sequence <- getNextSequence ("itemId_" ++ branchId) ;;
  ret (branchId ++ "-ITM" ++ pad3 sequence).

End IDGenerator.

(* ===================================================================== *)
(** ** QR strings ([services/qr.service.ts]) *)
(* ===================================================================== *)

Module QRService.

(** [`HEAL-${orderId}-${patientId}-${Date.now()}`]. *)
Definition generateQRString (orderId patientId : string) : M string :=
  timestamp <- new_Date ;;
  ret ("HEAL-" ++ orderId ++ "-" ++ patientId ++ "-" ++ IDGenerator.decimal timestamp).

Record ParsedQR : Type := mkParsedQR {
  qr_orderId : string;
  qr_patientId : string;
  qr_timestamp : number
}.

(** [parts.length >= 4 && parts[0] === 'HEAL'], then the parts at 1, 2
    and 3. *)
Definition parseQRString (qrString : string) : option ParsedQR :=
  match JS.split "-" qrString with
  | p0 :: p1 :: p2 :: p3 :: _ =>
      if String.eqb p0 "HEAL"
      then Some (mkParsedQR p1 p2 (JS.parseInt p3))
      else None
  | _ => None
  end.

End QRService.

(* ===================================================================== *)
(** ** Order creation ([src/controllers/opd.controller.ts],
       [src/models/TestOrder.model.ts]) *)
(* ===================================================================== *)

Module OPDController.

(** A line of the request.  [testId] is kept as the text the request
    carries: the handler compares it, as a text, with the text of the ids
    of the tests it found. *)
Record OrderTestInput : Type := mkOrderTestInput {
  in_testId : string;
  in_testName : string;
  in_price : number
}.

(** The body of the request.  [visitId] and [referringDoctorId] are given
    as the ids the store casts them to: the handler does nothing with them
    but hand them to the store. *)
Record CreateTestOrderBody : Type := mkCreateTestOrderBody {
  b_patientId : string;
  b_visitId : ObjectId;
  b_referringDoctorId : option ObjectId;
  b_tests : list OrderTestInput;
  b_paymentMode : PaymentMode;
  b_paymentStatus : PaymentStatus;
  b_branchId : option string
}.

(** A line as the [tests.map] callback returns it: the name and the price
    are [undefined] when the request gives a falsy one and no test detail
    was found. *)
Record DraftLine : Type := mkDraftLine {
  dl_testId : string;
  dl_testName : option string;
  dl_price : option number
}.

(** The running [totalAmount], [commissionAmount] and the mapped lines. *)
Record OrderSums : Type := mkOrderSums {
  os_totalAmount : number;
  os_commissionAmount : number;
  os_orderTests : list DraftLine
}.

(** The callback of [tests.map]; [testDetail] is
    [testDetails.find(t => t._id.toString() === orderTest.testId)]. *)
Definition order_line (mg : Mongoose) (testDetails : list ITest.t)
  (acc : OrderSums) (orderTest : OrderTestInput) : OrderSums :=
  let testDetail :=
    find (fun t => String.eqb (ObjectId_toString mg (ITest._id t))
                              (in_testId orderTest)) testDetails in
  let name :=
    if negb (String.eqb (in_testName orderTest) "")
    then Some (in_testName orderTest)
    else option_map ITest.testName testDetail in
  let price :=
    if JS.truthy (in_price orderTest) then Some (in_price orderTest)
    else option_map ITest.price testDetail in
  let line := mkDraftLine (in_testId orderTest) name price in
  match testDetail with
  | Some td =>
      let p := JS.or_else (in_price orderTest) (ITest.price td) in
      mkOrderSums
        (os_totalAmount acc + p)%float
        (os_commissionAmount acc
         + CommissionHelper.calculateCommission p (ITest.commissionRate td))%float
        (os_orderTests acc ++ [line])%list
  | None =>
      mkOrderSums (os_totalAmount acc) (os_commissionAmount acc)
        (os_orderTests acc ++ [line])%list
  end.

Definition order_sums (mg : Mongoose) (tests : list OrderTestInput)
  (testDetails : list ITest.t) : OrderSums :=
  fold_left (order_line mg testDetails) tests (mkOrderSums 0%float 0%float []).

(** The order's lines once cast by the schema: every line needs a test id
    that casts, a non-empty name and a price that is at least [0]. *)
Fixpoint cast_lines (mg : Mongoose) (drafts : list DraftLine)
  : option (list IOrderTest.t) :=
  match drafts with
  | [] => Some []
  | d :: rest =>
      match castObjectId mg (dl_testId d), dl_testName d, dl_price d,
            cast_lines mg rest with
      | Some testId, Some n, Some p, Some ls =>
          if negb (String.eqb n "") && JS.ge p 0%float
          then Some (IOrderTest.mk testId n p TS_PENDING :: ls)
          else None
      | _, _, _, _ => None
      end
  end.

(** [testOrder.save()]: the schema's required paths and minimums, the
    unique index on [orderId], then the insert. *)
Definition save_new (order : ITestOrder.t) : M unit :=
  fun w =>
    match ITestOrder.referringDoctorId order, ITestOrder.createdBy order with
    | Some _, Some _ =>
        if JS.ge (ITestOrder.totalAmount order) 0%float
           && JS.ge (ITestOrder.commissionAmount order) 0%float
           && negb (String.eqb (ITestOrder.patientId order) "")
        then
          if existsb (fun o => String.eqb (ITestOrder.orderId o)
                                          (ITestOrder.orderId order)
                               || Nat.eqb (ITestOrder._id o) (ITestOrder._id order))
                     (TestOrders w)
          then (Throw (MongoServerError "E11000 duplicate key error"), w)
          else (Ret tt, set_TestOrders (TestOrders w ++ [order])%list w)
        else (Throw (ValidationError "TestOrder validation failed"), w)
    | _, _ => (Throw (ValidationError "TestOrder validation failed"), w)
    end.

(** [Patient.findOne({ patientId, branchId })] casts its filter by the
    patient schema, whose [patientId] path has [trim: true]: the requested
    id is trimmed before it is compared; the branch id is compared as it
    is.  The order itself is stored with the patient id as requested.
    The [trim] setters of the order schema ([orderId], [qrCode], [labId]
    and the lines' [testName]) are left out: the schema of the route has
    trimmed the names and the body's branch id already, and a user's
    branch id is taken to carry no white space around it. *)
Definition createTestOrder (mg : Mongoose) (user : option AuthUser)
  (body : CreateTestOrderBody) : M (HttpResponse ITestOrder.t) :=
  try_catch
    (let branchId :=
       if truthy_string (user_branchId user) then user_branchId user
       else b_branchId body in
     match branchId with
     | None => ret (mkHttp 400 false (Some "Branch ID required") None)
     | Some branchId =>
         if String.eqb branchId ""
         then ret (mkHttp 400 false (Some "Branch ID required") None)
         else
           fun w =>
             let patient :=
               find (fun p => String.eqb (IPatient.patientId p)
                                         (JS.trim (b_patientId body))
                              && String.eqb (IPatient.branchId p) branchId)
                    (Patients w) in
             let visit :=
               find (fun v => Nat.eqb (IPatientVisit._id v) (b_visitId body))
                    (Visits w) in
             match patient, visit with
             | None, _ => (Ret (mkHttp 404 false (Some "Patient not found") None), w)
             | Some _, None =>
                 (Ret (mkHttp 404 false (Some "Visit not found") None), w)
             | Some _, Some _ =>
                 let testIds := map in_testId (b_tests body) in
                 match castObjectIds mg testIds with
                 | None => (Throw (CastError "Cast to ObjectId failed"), w)
                 | Some ids =>
                 let testDetails := Test.find_active_in ids w in
                 if negb (Nat.eqb (List.length testDetails)
                                  (List.length (b_tests body)))
                 then (Ret (mkHttp 400 false
                              (Some "Some tests are not found or inactive") None), w)
                 else
                   let sums := order_sums mg (b_tests body) testDetails in
                   (orderId <- IDGenerator.generateOrderId branchId ;;
                    timestamp <- new_Date ;;
                    let qrString :=
                      "HEAL-" ++ orderId ++ "-" ++ b_patientId body ++ "-"
                      ++ IDGenerator.decimal timestamp in
                    let labId := branchId ++ "-LAB001" in
                    id <- new_ObjectId ;;
                    lines <- match cast_lines mg (os_orderTests sums) with
                             | Some ls => ret ls
                             | None => throw (ValidationError
                                                "TestOrder validation failed")
                             end ;;
                    createdAt <- new_Date ;;
                    let testOrder :=
                      ITestOrder.mk id orderId (b_patientId body) (b_visitId body)
                        (b_referringDoctorId body) lines
                        (os_totalAmount sums) (os_commissionAmount sums)
                        (b_paymentMode body) (b_paymentStatus body)
                        qrString labId branchId
                        (match user with Some u => u_id u | None => None end)
                        createdAt in
                    save_new testOrder ;;
                    match b_referringDoctorId body with
                    | Some _ =>
                        commissionResult <-
                          CommissionService.calculateCommission mg
                            (ObjectId_toString mg id) ;;
                        if negb (success commissionResult)
                        then logger.warn "Commission calculation failed for order"
                        else ret tt
                    | None => ret tt
                    end ;;
                    logger.info "Test order created:" ;;
                    ret (mkHttp 201 true (Some "Test order created successfully")
                           (Some testOrder))) w
                 end
             end
     end)
    (fun _ =>
       logger.error "Create test order error:" ;;
       ret (mkHttp 500 false (Some "Failed to create test order") None)).

End OPDController.

(* ===================================================================== *)
(** ** The role and branch guards in full ([middleware/rbac.middleware.ts]) *)
(* ===================================================================== *)

Module RbacMiddleware.

Definition authorizeAdmin {A : Type} : option AuthUser -> Guard (option AuthUser) A :=
  authorize [ADMIN].

Definition authorizeBranchManager {A : Type}
  : option AuthUser -> Guard (option AuthUser) A :=
  authorize [ADMIN; BRANCH_MANAGER].

Definition authorizeOPDStaff {A : Type}
  : option AuthUser -> Guard (option AuthUser) A :=
  authorize [ADMIN; BRANCH_MANAGER; OPD_STAFF].

Definition authorizeLabStaff {A : Type}
  : option AuthUser -> Guard (option AuthUser) A :=
  authorize [ADMIN; BRANCH_MANAGER; LAB_STAFF].

Definition authorizePharmacyStaff {A : Type}
  : option AuthUser -> Guard (option AuthUser) A :=
  authorize [ADMIN; BRANCH_MANAGER; PHARMACY_STAFF].

(** The value found at a key of [req.params], [req.body] or [req.query]:
    nothing, a string, or any other value, of which only its truthiness
    matters here. *)
Inductive Field : Type :=
| Missing
| Text (s : string)
| Other (truthy : bool).

Definition field_truthy (f : Field) : bool :=
  match f with
  | Missing => false
  | Text s => negb (String.eqb s "")
  | Other t => t
  end.

(** [a || b]. *)
Definition field_or (a b : Field) : Field :=
  if field_truthy a then a else b.

(** [f === s] for [s] a string or [undefined]. *)
Definition field_is (f : Field) (s : option string) : bool :=
  match f, s with
  | Text a, Some b => String.eqb a b
  | Missing, None => true
  | _, _ => false
  end.

(** The parts of a request the branch guard reads and writes. *)
Record BranchRequest : Type := mkBranchRequest {
  r_isGet : bool;
  r_params : Field;
  r_body : Field;
  r_query : Field
}.

Definition branchIdFromParams (req : BranchRequest) : Field :=
  field_or (r_params req) (field_or (r_body req) (r_query req)).

(** [queryKept] says whether an assignment to [req.query.branchId] is
    still there when the next handler reads [req.query]: it is where
    [req.query] is a plain property of the request, and it is not where
    [req.query] is a getter that parses the URL afresh at every access.
    Which of the two holds is decided by the web framework, not by this
    code. *)
Definition checkBranchAccess {A : Type} (queryKept : bool)
  (user : option AuthUser) (req : BranchRequest) : Guard BranchRequest A :=
  match user with
  | None => Respond (mkHttp 401 false (Some "Authentication required") None)
  | Some u =>
      if UserRole_eqb (u_role u) ADMIN then Next req
      else
        let branchIdFromUser := u_branchId u in
        if field_truthy (branchIdFromParams req)
           && negb (field_is (branchIdFromParams req) branchIdFromUser)
        then Respond (mkHttp 403 false (Some "Branch access denied") None)
        else if negb (field_truthy (branchIdFromParams req))
                && truthy_string branchIdFromUser
        then
          match branchIdFromUser with
          | Some own =>
              if r_isGet req
              then Next (if queryKept
                         then mkBranchRequest (r_isGet req) (r_params req)
                                (r_body req) (Text own)
                         else req)
              else Next (mkBranchRequest (r_isGet req) (r_params req) (Text own)
                           (r_query req))
          | None => Next req
          end
        else Next req
  end.

End RbacMiddleware.

(* ===================================================================== *)
(** ** Commission queries ([src/services/commission.service.ts]) *)
(* ===================================================================== *)

(** [{ calculatedDate: -1 }]. *)
Definition newest_first (a b : ICommission.t) : bool :=
  Nat.ltb (ICommission.calculatedDate b) (ICommission.calculatedDate a).

(** [.populate('orderId', ...)]: the commission with the order it refers
    to, or [null]. *)
Definition with_order (w : World) (c : ICommission.t)
  : ICommission.t * option ITestOrder.t :=
  (c, lookup_order w (ICommission.orderId c)).

(** A row of the [$group] stage of the commission report: the key, the
    [$sum: 1] count, the [$sum] of the amounts, and the two conditional
    sums. *)
Record CommissionGroup (K : Type) : Type := mkCommissionGroup {
  cg_key : K;
  cg_totalCommissions : number;
  cg_totalAmount : number;
  cg_paidAmount : number;
  cg_pendingAmount : number
}.
Arguments mkCommissionGroup {K} _ _ _ _ _.
Arguments cg_key {K} _.
Arguments cg_totalCommissions {K} _.
Arguments cg_totalAmount {K} _.
Arguments cg_paidAmount {K} _.
Arguments cg_pendingAmount {K} _.

(** [{ $cond: [{ $eq: ['$paymentStatus', status] }, '$amount', 0] }]. *)
Definition amount_if (status : PaymentStatus) (c : ICommission.t) : number :=
  if PaymentStatus_eqb (ICommission.paymentStatus c) status
  then ICommission.amount c else 0%float.

Definition commission_group_step {K : Type} (k : K) (c : ICommission.t)
  (count total paid pending : number) : CommissionGroup K :=
  mkCommissionGroup k (count + 1)%float (total + ICommission.amount c)%float
    (paid + amount_if PAID c)%float (pending + amount_if PENDING c)%float.

Fixpoint commission_group_add {K : Type} (eqb : K -> K -> bool) (k : K)
  (c : ICommission.t) (groups : list (CommissionGroup K))
  : list (CommissionGroup K) :=
  match groups with
  | [] => [commission_group_step k c 0%float 0%float 0%float 0%float]
  | g :: rest =>
      if eqb (cg_key g) k
      then commission_group_step (cg_key g) c (cg_totalCommissions g)
             (cg_totalAmount g) (cg_paidAmount g) (cg_pendingAmount g) :: rest
      else g :: commission_group_add eqb k c rest
  end.

Definition commission_groups {K : Type} (eqb : K -> K -> bool)
  (key : ICommission.t -> K) (docs : list ICommission.t)
  : list (CommissionGroup K) :=
  fold_left (fun groups c => commission_group_add eqb (key c) c groups) docs [].

(** [{ totalAmount: -1 }] on the rows of the report. *)
Definition amount_desc {K : Type} (a b : CommissionGroup K) : bool :=
  PrimFloat.ltb (cg_totalAmount b) (cg_totalAmount a).

Record DoctorSummary : Type := mkDoctorSummary {
  ds_totalCommissions : nat;
  ds_totalAmount : number;
  ds_paidAmount : number;
  ds_pendingAmount : number
}.

Record DoctorCommissions : Type := mkDoctorCommissions {
  dc_commissions : list (ICommission.t * option ITestOrder.t);
  dc_summary : DoctorSummary
}.

(** A row of the report once [$lookup], [$unwind] and [$project] have
    attached the doctor's name. *)
Record DoctorRow : Type := mkDoctorRow {
  row_doctorName : string;
  row_group : CommissionGroup ObjectId
}.

Record ReportSummary : Type := mkReportSummary {
  rs_totalCommissions : number;
  rs_totalAmount : number;
  rs_paidAmount : number;
  rs_pendingAmount : number
}.

Record CommissionReport : Type := mkCommissionReport {
  cr_doctorCommissions : list DoctorRow;
  cr_summary : ReportSummary
}.

Module CommissionQueries.

(** The [query] object of both methods: an optional equality on one path
    and, only when both dates are given, the window on [calculatedDate]. *)
Definition date_window (startDate endDate : option Date) : option (Date * Date) :=
  match startDate, endDate with
  | Some s, Some e => Some (s, e)
  | _, _ => None
  end.

(** [if (startDate && endDate) query.calculatedDate =
    { $gte: new Date(startDate), $lte: new Date(endDate) }], as the query
    casts it: an Invalid Date is refused. *)
Definition cast_window (mg : Mongoose) (startDate endDate : option string)
  : M (option (Date * Date)) :=
  match startDate, endDate with
  | Some s, Some e =>
      if negb (String.eqb s "") && negb (String.eqb e "")
      then lo <- cast_date mg s ;;
           hi <- cast_date mg e ;;
           ret (Some (lo, hi))
      else ret None
  | _, _ => ret None
  end.

Definition in_date_window (win : option (Date * Date)) (c : ICommission.t) : bool :=
  match win with
  | Some win => in_window win (ICommission.calculatedDate c)
  | None => true
  end.

(** [Commission.find(query)] casts [doctorId] and the two dates before it
    runs. *)
Definition getDoctorCommissions (mg : Mongoose) (doctorId : string)
  (startDate endDate : option string) : M (ServiceResponse DoctorCommissions) :=
  try_catch
    (doctor <- cast_id mg doctorId ;;
     win <- cast_window mg startDate endDate ;;
     found <- Commission.find_where
                (fun c => Nat.eqb (ICommission.doctorId c) doctor
                          && in_date_window win c) ;;
     let commissions := sort_by newest_first found in
     fun w =>
       let populated := map (with_order w) commissions in
       let summary :=
         mkDoctorSummary
           (List.length commissions)
           (JS.sum_by ICommission.amount commissions)
           (JS.sum_by ICommission.amount
              (filter (fun comm => PaymentStatus_eqb
                                     (ICommission.paymentStatus comm) PAID)
                      commissions))
           (JS.sum_by ICommission.amount
              (filter (fun comm => PaymentStatus_eqb
                                     (ICommission.paymentStatus comm) PENDING)
                      commissions)) in
       (Ret (ResponseHelper.success (mkDoctorCommissions populated summary)
               "Doctor commissions retrieved successfully"), w))
    (fun _ =>
       logger.error "Get doctor commissions error:" ;;
       ret (ResponseHelper.error_default "Failed to fetch doctor commissions")).

(** [$lookup] on [doctors] followed by [$unwind]: a group whose doctor
    does not exist is dropped. *)
Definition attach_doctor (w : World) (g : CommissionGroup ObjectId)
  : list DoctorRow :=
  match lookup_doctor w (cg_key g) with
  | Some d => [mkDoctorRow (IDoctor.name d) g]
  | None => []
  end.

(** [overallSummary[0] || { totalCommissions: 0, ... }]. *)
Definition overall (groups : list (CommissionGroup unit)) : ReportSummary :=
  match groups with
  | g :: _ => mkReportSummary (cg_totalCommissions g) (cg_totalAmount g)
                (cg_paidAmount g) (cg_pendingAmount g)
  | [] => mkReportSummary 0%float 0%float 0%float 0%float
  end.

Definition getCommissionReports (branchId : option string)
  (startDate endDate : option Date) : M (ServiceResponse CommissionReport) :=
  try_catch
    (let win := date_window startDate endDate in
     matched <- Commission.find_where
                  (fun c => (if truthy_string branchId
                             then option_string_eqb (Some (ICommission.branchId c))
                                    branchId
                             else true)
                            && in_date_window win c) ;;
     fun w =>
       let doctorCommissions :=
         sort_by (fun a b => amount_desc (row_group a) (row_group b))
           (flat_map (attach_doctor w)
              (commission_groups Nat.eqb ICommission.doctorId matched)) in
       let overallSummary :=
         commission_groups unit_eqb (fun _ => tt) matched in
       (Ret (ResponseHelper.success
               (mkCommissionReport doctorCommissions (overall overallSummary))
               "Commission reports retrieved successfully"), w))
    (fun _ =>
       logger.error "Get commission reports error:" ;;
       ret (ResponseHelper.error_default "Failed to fetch commission reports")).

End CommissionQueries.

(* ===================================================================== *)
(** ** Commission handlers ([src/controllers/commission.controller.ts]) *)
(* ===================================================================== *)

(** What a handler sends: the HTTP status and the JSON body, which for
    these handlers is always shaped as a service response. *)
Definition Sent (A : Type) : Type := (nat * ServiceResponse A)%type.

(** [result.statusCode || 500]. *)
Definition statusCode_or_500 {A : Type} (result : ServiceResponse A) : nat :=
  if Nat.eqb (statusCode result) 0 then 500 else statusCode result.

(** [user?.userId || 'Unknown']. *)
Definition userId_or_Unknown (user : option AuthUser) : string :=
  match user with
  | Some u => if String.eqb (u_userId u) "" then "Unknown" else u_userId u
  | None => "Unknown"
  end.

(** [user?.role !== 'ADMIN' && user?.branchId]: the user is not an
    administrator and has a branch. *)
Definition bound_to_branch (user : option AuthUser) : bool :=
  negb (isAdmin user) && truthy_string (user_branchId user).

(** A commission with its doctor and its order, as the two [populate]
    calls attach them. *)
Record CommissionDetails : Type := mkCommissionDetails {
  det_commission : ICommission.t;
  det_doctor : option IDoctor.t;
  det_order : option ITestOrder.t
}.

Definition details_of (w : World) (c : ICommission.t) : CommissionDetails :=
  mkCommissionDetails c (lookup_doctor w (ICommission.doctorId c))
    (lookup_order w (ICommission.orderId c)).






Module CommissionController.

(** [doctorId], [startDate] and [endDate] are the texts found at those
    keys of [req.query], if any. *)
Definition getDoctorCommissions (mg : Mongoose) (user : option AuthUser)
  (doctorId : option string) (startDate endDate : option string)
  : M (Sent DoctorCommissions) :=
  try_catch
    (if negb (truthy_string doctorId)
     then ret (400, ResponseHelper.error "Doctor ID is required" 400)
     else
       logger.info "Fetching commissions for doctor:" ;;
       result <- CommissionQueries.getDoctorCommissions mg
                   (text_of doctorId) startDate endDate ;;
       if negb (success result)
       then logger.error "Service returned error:" ;;
            ret (statusCode_or_500 result, result)
       else logger.info "Doctor commissions retrieved for" ;;
            ret (200, result))
    (fun _ =>
       logger.error "Get doctor commissions error:" ;;
       ret (500, ResponseHelper.error_default "Failed to fetch doctor commissions")).

Definition getCommissionReports (user : option AuthUser)
  (branchId : option string) (startDate endDate : option Date)
  : M (Sent CommissionReport) :=
  try_catch
    (let filterBranchId :=
       if bound_to_branch user then user_branchId user else branchId in
     result <- CommissionQueries.getCommissionReports filterBranchId
                 startDate endDate ;;
     if negb (success result) then ret (statusCode_or_500 result, result)
     else logger.info "Commission reports retrieved by user" ;;
          ret (200, result))
    (fun _ =>
       logger.error "Get commission reports error:" ;;
       ret (500, ResponseHelper.error_default "Failed to get commission reports")).

(** [id] is [req.params.id]: a text, or nothing. *)
Definition payCommission (mg : Mongoose) (transport : Transport)
  (user : option AuthUser) (id : option string) : M (Sent ICommission.t) :=
  try_catch
    (if negb (truthy_string id)
     then ret (400, ResponseHelper.error "Commission ID is required" 400)
     else
       result <- CommissionService.payCommission mg transport (text_of id)
                   (userId_or_Unknown user) ;;
       if negb (success result) then ret (statusCode_or_500 result, result)
       else logger.info "Commission marked as paid by user" ;;
            ret (200, result))
    (fun _ =>
       logger.error "Pay commission error:" ;;
       ret (500, ResponseHelper.error_default "Failed to pay commission")).

(** [commissionIds] is [None] when the body has no such key or the value
    is not an array; the elements of the array are texts, as the schema
    of the route requires. *)
Definition bulkPayCommissions (mg : Mongoose) (transport : Transport)
  (user : option AuthUser) (commissionIds : option (list string))
  : M (Sent BulkData) :=
  try_catch
    (match commissionIds with
     | Some (i :: rest) =>
         result <- CommissionService.bulkPayCommissions mg transport (i :: rest)
                     (userId_or_Unknown user) ;;
         if negb (success result) then ret (statusCode_or_500 result, result)
         else logger.info "Bulk commission payment processed for" ;;
              ret (200, result)
     | _ => ret (400, ResponseHelper.error "Commission IDs array is required" 400)
     end)
    (fun _ =>
       logger.error "Bulk pay commissions error:" ;;
       ret (500, ResponseHelper.error_default
                   "Failed to process bulk commission payments")).

Definition getCommissionById (mg : Mongoose) (user : option AuthUser)
  (id : option string) : M (Sent CommissionDetails) :=
  try_catch
    (if negb (truthy_string id)
     then ret (400, ResponseHelper.error "Commission ID is required" 400)
     else
       found <- Commission.findById mg (text_of id) ;;
       match found with
       | None => ret (404, ResponseHelper.error "Commission not found" 404)
       | Some commission =>
           if bound_to_branch user
              && negb (option_string_eqb (Some (ICommission.branchId commission))
                         (user_branchId user))
           then ret (403, ResponseHelper.error
                            "Access denied for this commission" 403)
           else
             fun w =>
               (logger.info "Commission retrieved by user" ;;
                ret (200, ResponseHelper.success (details_of w commission)
                            "Commission retrieved successfully")) w
       end)
    (fun _ =>
       logger.error "Get commission by ID error:" ;;
       ret (500, ResponseHelper.error_default "Failed to get commission details")).


Definition calculateCommission (mg : Mongoose) (user : option AuthUser)
  (orderId : option string) : M (Sent CalcData) :=
  try_catch
    (if negb (truthy_string orderId)
     then ret (400, ResponseHelper.error "Order ID is required" 400)
     else
       result <- CommissionService.calculateCommission mg (text_of orderId) ;;
       if negb (success result) then ret (statusCode_or_500 result, result)
       else logger.info "Commission calculated for order" ;;
            ret (200, result))
    (fun _ =>
       logger.error "Calculate commission error:" ;;
       ret (500, ResponseHelper.error_default "Failed to calculate commission")).

End CommissionController.

(* ===================================================================== *)
(** ** Vocabulary for the statements *)
(* ===================================================================== *)

(** *** Rounding, as the specification words it

    These definitions do not mention the code: they say what it is for a
    number to be another one rounded.  A finite binary64 number is
    [v * 2^e] for integers [v] and [e].  When [e < 0], [n] is the integer
    nearest to it, a tie going to the larger integer (round half up), when
    [n - 1/2 <= v * 2^e < n + 1/2]; multiplied out by [2 * 2^(-e)]: *)
Definition nearest_integer (v e n : Z) : Prop :=
  ((2 * n - 1) * 2 ^ (- e) <= 2 * v < (2 * n + 1) * 2 ^ (- e))%Z.

(** [c] is [y] rounded half up to an integer.  A number that is an integer
    already ([e >= 0]), a zero, an infinity and NaN are their own
    rounding; a result of zero keeps the sign of [y]. *)
Definition rounded (y c : number) : Prop :=
  match Prim2SF y with
  | S754_finite s m e =>
      if (0 <=? e)%Z then c = y
      else exists n : Z,
             nearest_integer (if s then Zneg m else Zpos m) e n
             /\ c = if (n =? 0)%Z then (if s then (-0)%float else 0%float)
                    else JS.of_Z n
  | _ => c = y
  end.

(** [r] is [x] rounded to two decimals: [x] scaled by 100, rounded half up
    to an integer, and scaled back. *)
Definition rounded2 (x r : number) : Prop :=
  exists c, rounded (x * 100)%float c /\ r = (c / 100)%float.




(** The doctor an order's [referringDoctorId] resolves to. *)
Definition referring_doctor (w : World) (o : ITestOrder.t) : option IDoctor.t :=
  match ITestOrder.referringDoctorId o with
  | None => None
  | Some d => lookup_doctor w d
  end.

(** The order's lines, each with the test document it refers to. *)
Definition populated_lines (w : World) (lines : list IOrderTest.t)
  : list (IOrderTest.t * option ITest.t) :=
  map (fun l => (l, lookup_test w (IOrderTest.testId l))) lines.


(** The [amount] and [percentage] handed to [new Commission]. *)
Definition commission_amount (lines : list (IOrderTest.t * option ITest.t)) : number :=
  (JS.Math_round (totalCommission (CommissionService.order_totals lines) * 100)
   / 100)%float.

Definition commission_percentage (lines : list (IOrderTest.t * option ITest.t))
  : number :=
  (JS.Math_round
     (CommissionService.averagePercentage (CommissionService.order_totals lines)
      * 100) / 100)%float.

(** The schema accepts the figures computed for the order. *)
Definition figures_accepted (w : World) (o : ITestOrder.t) : bool :=
  let lines := populated_lines w (ITestOrder.tests o) in
  JS.ge (commission_amount lines) 0%float
  && JS.ge (commission_percentage lines) 0%float
  && JS.le (commission_percentage lines) 100%float.

(** The document [calculateCommission] builds for an order and its doctor. *)
Definition new_commission (w : World) (o : ITestOrder.t) (d : IDoctor.t)
  : ICommission.t :=
  let lines := populated_lines w (ITestOrder.tests o) in
  ICommission.mk (next_oid w) (IDoctor._id d) (ITestOrder.patientId o)
    (ITestOrder._id o) TEST_REFERRAL (commission_amount lines)
    (commission_percentage lines) (clock w) PENDING None (ITestOrder.branchId o).

(** The world after a successful [calculateCommission]: the id source and
    the clock have moved on, the document is appended, one line is logged. *)
Definition after_calculate (w : World) (c : ICommission.t) : World :=
  set_log (log w ++ [(INFO, "Commission calculated:")])%list
    (set_Commissions (Commissions w ++ [c])%list
       (set_clock (S (clock w)) (set_next_oid (S (next_oid w)) w))).

(** The notification sent for a paid commission. *)
Definition commission_mail (d : IDoctor.t) (c : ICommission.t) : EmailOptions :=
  mkEmail (IDoctor.email d) "Commission Payment Notification"
    (CommissionPaymentHtml (IDoctor.name d) (ICommission.calculatedDate c)
       (JS.toFixed2 (ICommission.amount c))).

(** The line [sendEmail] logs: success or the caught failure. *)
Definition mail_log (transport : Transport) (options : EmailOptions) : LogEntry :=
  if transport options then (INFO, "Email sent successfully to")
  else (ERROR, "Email sending failed:").

(** The store and clock after one commission is saved as paid. *)
Definition after_pay (w : World) (paid : ICommission.t) : World :=
  set_Commissions (replace_commission paid (Commissions w))
    (set_clock (S (clock w)) w).

(** The entry of the result list for a paid commission. *)
Definition paid_result (w : World) (c : ICommission.t) : PaidResult :=
  mkPaidResult (ICommission._id c)
    (match lookup_doctor w (ICommission.doctorId c) with
     | Some d => IDoctor.name d
     | None => ""
     end)
    (ICommission.amount c) true.

(** A commission with its doctor, as [populate] attaches it. *)
Definition with_doctor (w : World) (c : ICommission.t)
  : ICommission.t * option IDoctor.t :=
  (c, lookup_doctor w (ICommission.doctorId c)).

(** The commissions [bulkPayCommissions] selects. *)
Definition selected (w : World) (commissionIds : list ObjectId)
  : list ICommission.t :=
  filter (CommissionService.pending_among commissionIds) (Commissions w).

(** The test ids of the lines of a request, once cast; [None] when one of
    them is no ObjectId. *)
Definition requested_ids (mg : Mongoose) (body : OPDController.CreateTestOrderBody)
  : option (list ObjectId) :=
  castObjectIds mg (map OPDController.in_testId (OPDController.b_tests body)).

(** The test documents found for the lines of a request (none when an id
    does not cast). *)
Definition requested_tests (mg : Mongoose) (w : World)
  (body : OPDController.CreateTestOrderBody) : list ITest.t :=
  match requested_ids mg body with
  | Some ids => Test.find_active_in ids w
  | None => []
  end.

(** Every test id of the request is written the way the store writes the
    id it casts to (for an ObjectId: in lower-case hexadecimal digits). *)
Definition written_as_stored (mg : Mongoose)
  (body : OPDController.CreateTestOrderBody) : Prop :=
  forall t id, In t (OPDController.b_tests body) ->
               castObjectId mg (OPDController.in_testId t) = Some id ->
               OPDController.in_testId t = ObjectId_toString mg id.

(** The collection after the payment loop has saved [cs] one after the
    other, the first at time [now]. *)
Fixpoint pay_all (cs : list ICommission.t) (now : Date)
  (coll : list ICommission.t) : list ICommission.t :=
  match cs with
  | [] => coll
  | c :: rest =>
      pay_all rest (S now)
        (replace_commission (CommissionService.mark_paid c now) coll)
  end.

(** What that loop does to one stored document. *)
Fixpoint apply_paid (cs : list ICommission.t) (now : Date) (d : ICommission.t)
  : ICommission.t :=
  match cs with
  | [] => d
  | c :: rest =>
      apply_paid rest (S now)
        (if Nat.eqb (ICommission._id d) (ICommission._id c)
         then CommissionService.mark_paid c now else d)
  end.

(** A commission as a payment leaves it: PAID, with a payment date, and
    in every other field as it was. *)
Definition paid_version (c c' : ICommission.t) : Prop :=
  ICommission.paymentStatus c' = PAID
  /\ (exists t, ICommission.paymentDate c' = Some t)
  /\ ICommission._id c' = ICommission._id c
  /\ ICommission.doctorId c' = ICommission.doctorId c
  /\ ICommission.patientId c' = ICommission.patientId c
  /\ ICommission.orderId c' = ICommission.orderId c
  /\ ICommission.commissionType c' = ICommission.commissionType c
  /\ ICommission.amount c' = ICommission.amount c
  /\ ICommission.percentage c' = ICommission.percentage c
  /\ ICommission.calculatedDate c' = ICommission.calculatedDate c
  /\ ICommission.branchId c' = ICommission.branchId c.

(** How a bulk payment for the ids [commissionIds] leaves a stored
    commission: paid when its id is one of them and it was PENDING,
    untouched otherwise. *)
Definition bulk_paid (commissionIds : list ObjectId) (c c' : ICommission.t) : Prop :=
  (In (ICommission._id c) commissionIds
   /\ ICommission.paymentStatus c = PENDING -> paid_version c c')
  /\ (~ (In (ICommission._id c) commissionIds
         /\ ICommission.paymentStatus c = PENDING) -> c' = c).

(** The statements a financial-statement response carries. *)
Definition statements_of (d : AccountsController.StatementData)
  : list AccountsController.Statement :=
  match d with
  | AccountsController.StatementBranchWise _ _ branches grandTotal =>
      (map snd branches ++ [grandTotal])%list
  | AccountsController.StatementSingle _ _ _ s => [s]
  end.

(** How a statement reports its profit margin: the two-decimal text of
    [netIncome / revenue * 100] when the revenue is positive, the number
    [0] otherwise. *)
Definition margin_rule (s : AccountsController.Statement) : Prop :=
  (JS.gt (AccountsController.st_revenue_total s) 0%float = true ->
   AccountsController.st_profitMargin s
   = MarginText
       (JS.toFixed2 (AccountsController.st_netIncome s
                     / AccountsController.st_revenue_total s * 100)%float))
  /\ (JS.gt (AccountsController.st_revenue_total s) 0%float = false ->
      AccountsController.st_profitMargin s = MarginNumber 0%float).

(** The test detail [tests.map] finds for a requested line: the first
    test whose id, as a text, is the text the request gives. *)
Definition detail_of (mg : Mongoose) (testDetails : list ITest.t)
  (orderTest : OPDController.OrderTestInput) : option ITest.t :=
  find (fun t => String.eqb (ObjectId_toString mg (ITest._id t))
                            (OPDController.in_testId orderTest))
       testDetails.

(** What one requested line adds to the order's [commissionAmount]. *)
Definition creation_commission (mg : Mongoose) (testDetails : list ITest.t)
  (sum : number) (orderTest : OPDController.OrderTestInput) : number :=
  match detail_of mg testDetails orderTest with
  | Some td =>
      (sum + CommissionHelper.calculateCommission
               (JS.or_else (OPDController.in_price orderTest) (ITest.price td))
               (ITest.commissionRate td))%float
  | None => sum
  end.

(** The line [tests.map] returns for a requested line. *)
Definition draft_of (mg : Mongoose) (testDetails : list ITest.t)
  (orderTest : OPDController.OrderTestInput) : OPDController.DraftLine :=
  OPDController.mkDraftLine (OPDController.in_testId orderTest)
    (if negb (String.eqb (OPDController.in_testName orderTest) "")
     then Some (OPDController.in_testName orderTest)
     else option_map ITest.testName (detail_of mg testDetails orderTest))
    (if JS.truthy (OPDController.in_price orderTest)
     then Some (OPDController.in_price orderTest)
     else option_map ITest.price (detail_of mg testDetails orderTest)).

(** A requested line and the stored line made from it: the same test, at
    the price the request gives or else the catalogue's. *)
Definition stored_from (mg : Mongoose) (testDetails : list ITest.t)
  (orderTest : OPDController.OrderTestInput) (line : IOrderTest.t) : Prop :=
  castObjectId mg (OPDController.in_testId orderTest)
  = Some (IOrderTest.testId line)
  /\ forall td, detail_of mg testDetails orderTest = Some td ->
                IOrderTest.price line
                = JS.or_else (OPDController.in_price orderTest) (ITest.price td).

(** The operations of the program that write to the commission collection. *)
Inductive LedgerOp : Type :=
| OpCalculate (orderId : string)
| OpPay (commissionId : string) (paidBy : string)
| OpBulkPay (commissionIds : list string) (paidBy : string)
| OpCreateOrder (user : option AuthUser) (body : OPDController.CreateTestOrderBody).

(** The world an operation leaves behind. *)
Definition run_op (mg : Mongoose) (transport : Transport) (op : LedgerOp)
  (w : World) : World :=
  match op with
  | OpCalculate orderId => snd (CommissionService.calculateCommission mg orderId w)
  | OpPay id paidBy =>
      snd (CommissionService.payCommission mg transport id paidBy w)
  | OpBulkPay ids paidBy =>
      snd (CommissionService.bulkPayCommissions mg transport ids paidBy w)
  | OpCreateOrder user body => snd (OPDController.createTestOrder mg user body w)
  end.

Definition run_ops (mg : Mongoose) (transport : Transport) (ops : list LedgerOp)
  (w : World) : World :=
  fold_left (fun w op => run_op mg transport op w) ops w.

(** The payment status of the commission with a given [_id], if any. *)
Definition status_of (w : World) (id : ObjectId) : option PaymentStatus :=
  option_map ICommission.paymentStatus (lookup_commission w id).

(** Position by position: the same [_id], and a paid commission is paid. *)
Definition keeps_paid (c c' : ICommission.t) : Prop :=
  ICommission._id c' = ICommission._id c
  /\ (ICommission.paymentStatus c = PAID -> ICommission.paymentStatus c' = PAID).

(** The later collection is the earlier one, changed in place under
    [keeps_paid], followed by new documents. *)
Definition ledger_extends (cs cs' : list ICommission.t) : Prop :=
  exists mid extra, cs' = (mid ++ extra)%list /\ Forall2 keeps_paid cs mid.

(** Store invariants: [_id]s are distinct and below the id source; at most
    one commission refers to any order. *)
Definition ids_fresh (w : World) : Prop :=
  NoDup (map ICommission._id (Commissions w))
  /\ Forall (fun c => ICommission._id c < next_oid w) (Commissions w).

Definition one_commission_per_order (w : World) : Prop :=
  NoDup (map ICommission.orderId (Commissions w)).

(** The [(_id, orderId)] pairs of a collection, in order. *)
Definition keys (cs : list ICommission.t) : list (ObjectId * ObjectId) :=
  map (fun c => (ICommission._id c, ICommission.orderId c)) cs.

(** Every commission's doctor resolves. *)
Definition doctors_resolve (w : World) (cs : list ICommission.t) : Prop :=
  Forall (fun c => lookup_doctor w (ICommission.doctorId c) <> None) cs.

(** Two worlds that differ at most in their logs. *)
Definition same_but_log (w1 w2 : World) : Prop :=
  set_log [] w1 = set_log [] w2.

(** The value a counter holds; a counter that does not exist counts as 0. *)
Definition sequence_of (name : string) (counters : list (string * nat)) : nat :=
  match find (fun c => String.eqb (fst c) name) counters with
  | Some c => snd c
  | None => 0
  end.

(** A call of one of the generators of [IDGenerator]. *)
Inductive IdRequest : Type :=
| ForBranch
| ForUser (branchId role : string)
| ForPatient (branchId : string)
| ForVisit (branchId : string)
| ForDoctor
| ForTest
| ForOrder (branchId : string)
| ForPrescription (branchId : string)
| ForReport (branchId : string)
| ForExpense (branchId : string)
| ForEmployee (branchId : string)
| ForTask (branchId : string)
| ForLeave (branchId : string)
| ForComplaint (branchId : string)
| ForItem (branchId : string).

Definition generate (r : IdRequest) : M string :=
  match r with
  | ForBranch => IDGenerator.generateBranchId
  | ForUser b role => IDGenerator.generateUserId b role
  | ForPatient b => IDGenerator.generatePatientId b
  | ForVisit b => IDGenerator.generateVisitId b
  | ForDoctor => IDGenerator.generateDoctorId
  | ForTest => IDGenerator.generateTestId
  | ForOrder b => IDGenerator.generateOrderId b
  | ForPrescription b => IDGenerator.generatePrescriptionId b
  | ForReport b => IDGenerator.generateReportId b
  | ForExpense b => IDGenerator.generateExpenseId b
  | ForEmployee b => IDGenerator.generateEmployeeId b
  | ForTask b => IDGenerator.generateTaskId b
  | ForLeave b => IDGenerator.generateLeaveId b
  | ForComplaint b => IDGenerator.generateComplaintId b
  | ForItem b => IDGenerator.generateItemId b
  end.

(** The world after a series of generator calls. *)
Definition after_generating (rs : list IdRequest) (w : World) : World :=
  fold_left (fun w r => snd (generate r w)) rs w.

(** The counter a generator call draws from, and what it puts before the
    padded sequence number. *)
Definition counter_name (r : IdRequest) : string :=
  match r with
  | ForBranch => "branchId"
  | ForUser b role => "userId_" ++ b ++ "_" ++ IDGenerator.rolePrefix role
  | ForPatient b => "patientId_" ++ b
  | ForVisit b => "visitId_" ++ b
  | ForDoctor => "doctorId"
  | ForTest => "testId"
  | ForOrder b => "orderId_" ++ b
  | ForPrescription b => "prescriptionId_" ++ b
  | ForReport b => "reportId_" ++ b
  | ForExpense b => "expenseId_" ++ b
  | ForEmployee b => "employeeId_" ++ b
  | ForTask b => "taskId_" ++ b
  | ForLeave b => "leaveId_" ++ b
  | ForComplaint b => "complaintId_" ++ b
  | ForItem b => "itemId_" ++ b
  end.

Definition id_prefix (r : IdRequest) : string :=
  match r with
  | ForBranch => "BR"
  | ForUser b role => b ++ "-" ++ IDGenerator.rolePrefix role
  | ForPatient b => b ++ "-PAT"
  | ForVisit b => b ++ "-VIS"
  | ForDoctor => "DOC"
  | ForTest => "TST"
  | ForOrder b => b ++ "-ORD"
  | ForPrescription b => b ++ "-PRE"
  | ForReport b => b ++ "-REP"
  | ForExpense b => b ++ "-EXP"
  | ForEmployee b => b ++ "-EMP"
  | ForTask b => b ++ "-TSK"
  | ForLeave b => b ++ "-LEV"
  | ForComplaint b => b ++ "-CMP"
  | ForItem b => b ++ "-ITM"
  end.

(** Whether a string contains the character. *)
Fixpoint contains (c : ascii) (s : string) : bool :=
  match s with
  | EmptyString => false
  | String x rest => Ascii.eqb x c || contains c rest
  end.

(** How often a string contains the character. *)
Fixpoint count (c : ascii) (s : string) : nat :=
  match s with
  | EmptyString => 0
  | String x rest => (if Ascii.eqb x c then 1 else 0) + count c rest
  end.

(** The decimal digits of a number. *)
Definition is_digit (c : ascii) : bool :=
  ((48 <=? N_of_ascii c) && (N_of_ascii c <=? 57))%N.

Fixpoint all_digits (s : string) : bool :=
  match s with
  | EmptyString => true
  | String c rest => is_digit c && all_digits rest
  end.

(** The branch an OPD request acts on: [req.user?.branchId || requestBranchId]. *)
Definition effective_branch (user : option AuthUser)
  (body : OPDController.CreateTestOrderBody) : option string :=
  if truthy_string (user_branchId user) then user_branchId user
  else OPDController.b_branchId body.

(** The order [createTestOrder] builds in world [w]. *)
Definition created_order (mg : Mongoose) (w : World) (branchId : string)
  (creator : ObjectId) (body : OPDController.CreateTestOrderBody)
  (lines : list IOrderTest.t) : ITestOrder.t :=
  let sums := OPDController.order_sums mg (OPDController.b_tests body)
                (requested_tests mg w body) in
  let orderId :=
    branchId ++ "-ORD"
    ++ IDGenerator.pad3 (S (sequence_of ("orderId_" ++ branchId) (Counters w))) in
  ITestOrder.mk (next_oid w) orderId (OPDController.b_patientId body)
    (OPDController.b_visitId body) (OPDController.b_referringDoctorId body) lines
    (OPDController.os_totalAmount sums) (OPDController.os_commissionAmount sums)
    (OPDController.b_paymentMode body) (OPDController.b_paymentStatus body)
    ("HEAL-" ++ orderId ++ "-" ++ OPDController.b_patientId body ++ "-"
     ++ IDGenerator.decimal (clock w))
    (branchId ++ "-LAB001") branchId (Some creator) (S (clock w)).

(** [Patient.findOne({ patientId, branchId })], whose filter is cast by
    the patient schema (the requested patient id is trimmed), and
    [PatientVisit.findById(visitId)]. *)
Definition patient_in_branch (w : World) (patientId branchId : string)
  : option IPatient.t :=
  find (fun p => String.eqb (IPatient.patientId p) (JS.trim patientId)
                 && String.eqb (IPatient.branchId p) branchId) (Patients w).

Definition visit_by_id (w : World) (visitId : ObjectId) : option IPatientVisit.t :=
  find (fun v => Nat.eqb (IPatientVisit._id v) visitId) (Visits w).





(** The window a doctor's commissions are asked for: [Some None] when a
    date is missing or empty, [Some (Some (lo, hi))] when both texts read
    as dates, and [None] when both are given and one is no date. *)
Definition requested_window (mg : Mongoose) (startDate endDate : option string)
  : option (option (Date * Date)) :=
  if truthy_string startDate && truthy_string endDate
  then match Date_of_string mg (text_of startDate),
             Date_of_string mg (text_of endDate) with
       | Some lo, Some hi => Some (Some (lo, hi))
       | _, _ => None
       end
  else Some None.

(** The commissions of a doctor, within the window when there is one. *)
Definition doctor_commissions (w : World) (doctorId : ObjectId)
  (win : option (Date * Date)) : list ICommission.t :=
  filter (fun c => Nat.eqb (ICommission.doctorId c) doctorId
                   && CommissionQueries.in_date_window win c) (Commissions w).

(** The commissions of a branch. *)
Definition branch_commissions (w : World) (branchId : string)
  : list ICommission.t :=
  filter (fun c => String.eqb (ICommission.branchId c) branchId) (Commissions w).

(** No element of the list has to come strictly before the one in front
    of it. *)
Definition in_order {A : Type} (before : A -> A -> bool) (xs : list A) : Prop :=
  Sorted (fun a b => before b a = false) xs.

(** What the three services that write can answer. *)
Definition service_answer {A : Type} (result : ServiceResponse A) : Prop :=
  (success result = true /\ statusCode result = 200)
  \/ (success result = false
      /\ (statusCode result = 400 \/ statusCode result = 404
          \/ statusCode result = 500)).

(** The window of dates a daily-collection request selects. *)
Definition daily_window (cal : Calendar) (q : AccountsController.DailyQuery)
  (w : World) : Date * Date :=
  match AccountsController.dq_date q with
  | Some d => (startOfDay cal d, endOfDay cal d)
  | None =>
      match AccountsController.dq_startDate q, AccountsController.dq_endDate q with
      | Some s, Some e => (s, e)
      | _, _ => (startOfDay cal (clock w), endOfDay cal (clock w))
      end
  end.

(** A branch has a collection in the window: a visit or a test order
    created in it whose payment is PAID or PARTIAL. *)
Definition has_collection (win : Date * Date) (w : World) (b : string) : Prop :=
  (exists v, In v (Visits w)
             /\ in_window win (IPatientVisit.createdAt v) = true
             /\ collected (IPatientVisit.paymentStatus v) = true
             /\ IPatientVisit.branchId v = b)
  \/ (exists o, In o (TestOrders w)
                /\ in_window win (ITestOrder.createdAt o) = true
                /\ collected (ITestOrder.paymentStatus o) = true
                /\ ITestOrder.branchId o = b).

(** A branch has an expense recorded (created) in the window. *)
Definition has_expense (win : Date * Date) (w : World) (b : string) : Prop :=
  exists e, In e (Expenses w)
            /\ in_window win (IExpense.createdAt e) = true
            /\ IExpense.branchId e = b.

(** What every entry of the daily [branchDataMap] satisfies before the
    expenses are processed. *)
Definition fresh_of_expenses (e : string * AccountsController.BranchData) : Prop :=
  AccountsController.bd_branchId (snd e) = fst e
  /\ AccountsController.bd_totalExpenses (snd e) = 0%float
  /\ AccountsController.bd_netCollection (snd e) = 0%float.

(** An entry of the daily [branchDataMap] once a group of expenses is
    written on it. *)
Definition with_expenses (item : Group string)
  (branchData : AccountsController.BranchData) : AccountsController.BranchData :=
  AccountsController.mkBranchData
    (AccountsController.bd_branchId branchData)
    (AccountsController.bd_collections branchData)
    (AccountsController.bd_totalCollection branchData) (g_total item)
    (AccountsController.bd_totalCollection branchData - g_total item)%float
    (AccountsController.bd_transactionCount branchData).

(** The month a financial statement covers. *)
Definition month_window (cal : Calendar) (month year : number) : Date * Date :=
  (monthStart cal year month, monthEnd cal year month).

(** A branch has revenue in the window: a PAID visit or a PAID test
    order created in it. *)
Definition has_paid_revenue (win : Date * Date) (w : World) (b : string) : Prop :=
  (exists v, In v (Visits w)
             /\ in_window win (IPatientVisit.createdAt v) = true
             /\ IPatientVisit.paymentStatus v = PAID
             /\ IPatientVisit.branchId v = b)
  \/ (exists o, In o (TestOrders w)
                /\ in_window win (ITestOrder.createdAt o) = true
                /\ ITestOrder.paymentStatus o = PAID
                /\ ITestOrder.branchId o = b).

(** A branch has an expense dated in the window. *)
Definition has_dated_expense (win : Date * Date) (w : World) (b : string) : Prop :=
  exists e, In e (Expenses w)
            /\ in_window win (IExpense.date e) = true
            /\ IExpense.branchId e = b.

(** A branch has a PAID commission calculated in the window. *)
Definition has_paid_commission (win : Date * Date) (w : World) (b : string) : Prop :=
  exists c, In c (Commissions w)
            /\ in_window win (ICommission.calculatedDate c) = true
            /\ ICommission.paymentStatus c = PAID
            /\ ICommission.branchId c = b.

(** What every entry of the statement's [branchDataMap] satisfies before
    commissions and expenses are processed. *)
Definition fresh_of_costs (e : string * AccountsController.Statement) : Prop :=
  AccountsController.st_expenses_byCategory (snd e) = []
  /\ AccountsController.st_expenses_total (snd e) = 0%float
  /\ AccountsController.st_commissions (snd e)
     = AccountsController.mkAmountCount 0%float 0%float.

(** An entry of the statement's [branchDataMap] once a group of paid
    commissions is written on it. *)
Definition with_commissions (item : Group string)
  (b : AccountsController.Statement) : AccountsController.Statement :=
  AccountsController.mkStatement
    (AccountsController.st_consultations b) (AccountsController.st_tests b)
    (AccountsController.st_revenue_total b)
    (AccountsController.st_expenses_byCategory b)
    (AccountsController.st_expenses_total b)
    (AccountsController.mkAmountCount (g_total item) (g_count item))
    (AccountsController.st_netIncome b) (AccountsController.st_profitMargin b).

(** An entry of the statement's [branchDataMap] once a group of expenses
    is added to its total. *)
Definition add_expense (item : Group (string * string))
  (b : AccountsController.Statement) : AccountsController.Statement :=
  AccountsController.mkStatement
    (AccountsController.st_consultations b) (AccountsController.st_tests b)
    (AccountsController.st_revenue_total b)
    (AccountsController.st_expenses_byCategory b)
    (AccountsController.st_expenses_total b + g_total item)%float
    (AccountsController.st_commissions b)
    (AccountsController.st_netIncome b) (AccountsController.st_profitMargin b).

(** The requests for a user id, whose prefix the caller's role text
    decides. *)
Definition is_user_request (r : IdRequest) : bool :=
  match r with
  | ForUser _ _ => true
  | _ => false
  end.

(** Whether a document stored under [docBranch] belongs to the branch
    [own]; no document belongs to a branch that is not given. *)
Definition in_branch (own : option string) (docBranch : string) : bool :=
  match own with
  | Some b => String.eqb docBranch b
  | None => false
  end.

(** The store with every visit, order, commission and expense of another
    branch than [own] taken out. *)
Definition own_branch_store (own : option string) (w : World) : World :=
  mkWorld (Doctors w) (Tests w) (Patients w)
    (filter (fun v => in_branch own (IPatientVisit.branchId v)) (Visits w))
    (filter (fun o => in_branch own (ITestOrder.branchId o)) (TestOrders w))
    (filter (fun c => in_branch own (ICommission.branchId c)) (Commissions w))
    (filter (fun e => in_branch own (IExpense.branchId e)) (Expenses w))
    (Counters w) (next_oid w) (clock w) (log w).

(** The name a report gives the branch [own]: the branch id, or ['ALL']
    where there is none. *)
Definition own_label (own : option string) : string :=
  match own with
  | Some b => if String.eqb b "" then "ALL" else b
  | None => "ALL"
  end.

(* ===================================================================== *)
(** ** A mapper for the sample data: ids as hexadecimal texts *)
(* ===================================================================== *)

Module Hex.

(** An upper-case hexadecimal digit as the lower-case one; any other
    character as it is. *)
Definition lower (c : ascii) : ascii :=
  let n := N_of_ascii c in
  if ((65 <=? n) && (n <=? 70))%N then ascii_of_N (n + 32) else c.

Fixpoint lower_all (s : string) : string :=
  match s with
  | EmptyString => EmptyString
  | String c rest => String (lower c) (lower_all rest)
  end.

Fixpoint zeros (n : nat) : string :=
  match n with
  | O => ""
  | S k => String "0" (zeros k)
  end.

Definition digits (id : nat) : string :=
  HexadecimalString.NilEmpty.string_of_uint (Nat.to_hex_uint id).

(** The hexadecimal digits of [id], in lower case, padded to 24. *)
Definition toString (id : nat) : string :=
  zeros (24 - String.length (digits id)) ++ digits id.

(** A text of at least 24 hexadecimal digits, of either case, as the
    number it writes. *)
Definition cast (s : string) : option nat :=
  if Nat.ltb (String.length s) 24 then None
  else option_map Nat.of_hex_uint
         (HexadecimalString.NilEmpty.uint_of_string (lower_all s)).

Lemma lower_digits (d : Hexadecimal.uint) :
  lower_all (HexadecimalString.NilEmpty.string_of_uint d)
  = HexadecimalString.NilEmpty.string_of_uint d.
Proof. induction d; simpl; try rewrite IHd; reflexivity. Qed.

Lemma lower_app (a b : string) : lower_all (a ++ b) = lower_all a ++ lower_all b.
Proof. induction a as [|c a IH]; simpl; [reflexivity|]. rewrite IH. reflexivity. Qed.

Lemma lower_zeros (n : nat) : lower_all (zeros n) = zeros n.
Proof. induction n as [|n IH]; simpl; [reflexivity|]. rewrite IH. reflexivity. Qed.

Lemma length_app (a b : string) :
  String.length (a ++ b) = String.length a + String.length b.
Proof. induction a as [|c a IH]; simpl; [reflexivity|]. rewrite IH. reflexivity. Qed.

Lemma length_zeros (n : nat) : String.length (zeros n) = n.
Proof. induction n as [|n IH]; simpl; [reflexivity|]. rewrite IH. reflexivity. Qed.

Lemma parse_zeros (n : nat) (s : string) (d : Hexadecimal.uint) :
  HexadecimalString.NilEmpty.uint_of_string s = Some d ->
  exists d', HexadecimalString.NilEmpty.uint_of_string (zeros n ++ s) = Some d'
             /\ Nat.of_hex_uint d' = Nat.of_hex_uint d.
Proof.
  intros H. induction n as [|n [d' [Hp Hv]]]; simpl.
  - exists d. split; [exact H | reflexivity].
  - rewrite Hp. simpl. exists (Hexadecimal.D0 d'). split; [reflexivity|].
    rewrite <- Hv. reflexivity.
Qed.

Lemma cast_toString (id : nat) : cast (toString id) = Some id.
Proof.
  unfold cast, toString.
  assert (L : Nat.ltb (String.length
                         (zeros (24 - String.length (digits id)) ++ digits id)) 24
              = false).
  { apply Nat.ltb_ge. rewrite length_app, length_zeros. lia. }
  rewrite L, lower_app, lower_zeros. unfold digits. rewrite lower_digits.
  destruct (parse_zeros (24 - String.length (digits id)) _ _
              (HexadecimalString.NilEmpty.usu (Nat.to_hex_uint id)))
    as [d' [Hp Hv]].
  unfold digits in Hp. rewrite Hp. simpl.
  rewrite Hv, HexadecimalNat.Unsigned.of_to. reflexivity.
Qed.

End Hex.

(* ===================================================================== *)
(** ** Sample data *)
(* ===================================================================== *)

Module Sample.

(** Ids are written as 24 hexadecimal digits; a date is written as the
    decimal digits of its instant. *)
Definition mg : Mongoose :=
  mkMongoose Hex.cast Hex.toString
    (fun text => option_map Nat.of_uint (NilZero.uint_of_string text))
    Hex.cast_toString eq_refl.

(** The text of an id. *)
Definition hex : ObjectId -> string := Hex.toString.

Definition doctor : IDoctor.t := IDoctor.mk 1 "Asha Rao" "asha@heal.example" true.

(** Four catalogue tests with rates 10, 20, -5 and 110, and two cheap ones
    with rates 10 and 20. *)
Definition tests : list ITest.t :=
  [ ITest.mk 10 "CBC" 100%float 10%float true;
    ITest.mk 11 "X-Ray" 100%float 20%float true;
    ITest.mk 12 "Lipid" 100%float (-5)%float true;
    ITest.mk 13 "ECG" 100%float 110%float true;
    ITest.mk 20 "Swab" 1%float 10%float true;
    ITest.mk 21 "Strip" 1%float 20%float true ].

Definition line (testId : ObjectId) (price : number) : IOrderTest.t :=
  IOrderTest.mk testId "test" price TS_PENDING.

(** Order 100 refers to the doctor; order 101 to a doctor that does not
    exist; order 102 has only lines whose rate is out of range. *)
Definition order (id : ObjectId) (orderId : string) (doctorId : ObjectId)
  (lines : list IOrderTest.t) : ITestOrder.t :=
  ITestOrder.mk id orderId "BR001-PAT001" 50 (Some doctorId) lines
    400%float 30%float CASH PAID "HEAL-qr" "BR001-LAB001" "BR001" (Some 7) 40.

Definition order100 : ITestOrder.t :=
  order 100 "BR001-ORD001" 1
    [line 10 100%float; line 11 100%float; line 12 100%float; line 13 100%float].

Definition order101 : ITestOrder.t :=
  order 101 "BR001-ORD002" 99 [line 10 100%float].

Definition order102 : ITestOrder.t :=
  order 102 "BR001-ORD003" 1 [line 12 100%float; line 13 100%float].

Definition orders : list ITestOrder.t := [order100; order101; order102].

Definition visits : list IPatientVisit.t :=
  [ IPatientVisit.mk 50 300%float CASH PAID "BR001" 40;
    IPatientVisit.mk 51 500%float CARD PAID "BR002" 40 ].

Definition expenses : list IExpense.t :=
  [ IExpense.mk 200%float "rent" "BR001" 40 40 ].

Definition world : World :=
  mkWorld [doctor] tests [IPatient.mk "BR001-PAT001" "BR001"] visits orders []
    expenses [("orderId_BR001", 3)] 1000 50 [].

Definition commission (id orderId : ObjectId) (amount : number)
  (status : PaymentStatus) : ICommission.t :=
  ICommission.mk id 1 "BR001-PAT001" orderId TEST_REFERRAL amount 15%float 45
    status (match status with PAID => Some 46 | _ => None end) "BR001".

(** A ledger with three commissions A, B, C, of which B is already paid. *)
Definition ledger : World :=
  set_Commissions
    [ commission 1000 100 30%float PENDING;
      commission 1001 101 12.5%float PAID;
      commission 1002 102 7.25%float PENDING ] (set_next_oid 1003 world).

Definition manager : option AuthUser :=
  Some (mkAuthUser "BR001-BRANCH001" BRANCH_MANAGER (Some "BR001") (Some 7)).

Definition admin : option AuthUser :=
  Some (mkAuthUser "ADMIN001" ADMIN None (Some 8)).

Definition calendar : Calendar :=
  mkCalendar (fun _ => 0) (fun _ => 100) (fun _ _ => 0) (fun _ _ => 100).

(** A request for the two cheap tests, each at price 1. *)
Definition request : OPDController.CreateTestOrderBody :=
  OPDController.mkCreateTestOrderBody "BR001-PAT001" 50 (Some 1)
    [ OPDController.mkOrderTestInput (hex 20) "Swab" 1%float;
      OPDController.mkOrderTestInput (hex 21) "Strip" 1%float ]
    CASH PENDING None.

(** A store with no documents at all. *)
Definition empty : World := mkWorld [] [] [] [] [] [] [] [] 0 0 [].

Definition always_delivers : Transport := fun _ => true.
Definition always_fails : Transport := fun _ => false.

(** A ledger in which commission 1000 refers to a doctor that does not
    exist. *)
Definition orphan_ledger : World :=
  set_Commissions
    [ ICommission.mk 1000 99 "BR001-PAT001" 100 TEST_REFERRAL 30%float 15%float
        45 PENDING None "BR002" ] (set_next_oid 1001 Sample.world).


(** A ledger of three pending commissions, the second of which refers to
    a doctor that does not exist. *)
Definition broken_ledger : World :=
  set_Commissions
    [ commission 1000 100 30%float PENDING;
      ICommission.mk 1001 99 "BR001-PAT001" 101 TEST_REFERRAL 12.5%float
        15%float 45 PENDING None "BR001";
      commission 1002 102 7.25%float PENDING ] (set_next_oid 1003 world).

End Sample.

(* ===================================================================== *)
(** * Properties *)
(* ===================================================================== *)

(** ** The calculator *)

Example Math_round_ties :
  JS.Math_round 2.5%float = 3%float
  /\ JS.Math_round (-2.5)%float = (-2)%float
  /\ JS.Math_round 0.49999999999999994%float = 0%float
  /\ JS.Math_round 12500%float = 12500%float.
Proof. repeat split; vm_compute; reflexivity. Qed.

Example round2_examples :
  round2 0.125%float = 0.13%float
  /\ round2 (-0.125)%float = (-0.12)%float
  /\ round2 0%float = 0%float
  /\ round2 0.30000000000000004%float = 0.3%float.
Proof. repeat split; vm_compute; reflexivity. Qed.

(** [floor (v / 2^k + 1/2)], computed with shifts, is the nearest integer
    with ties going up. *)
Lemma floor_half_nearest (v k : Z) :
  (0 < k)%Z ->
  nearest_integer v (- k) (Z.shiftr (v + Z.shiftl 1 (k - 1)) k).
Proof.
  intros Hk. unfold nearest_integer.
  rewrite Z.shiftr_div_pow2, Z.shiftl_mul_pow2, Z.mul_1_l by lia.
  replace (- - k)%Z with k by lia.
  assert (HP : (2 ^ k = 2 * 2 ^ (k - 1))%Z).
  { replace k with (Z.succ (k - 1)) at 1 by lia. apply Z.pow_succ_r. lia. }
  assert (Hpos : (0 < 2 ^ (k - 1))%Z) by (apply Z.pow_pos_nonneg; lia).
  pose proof (Z.div_mod (v + 2 ^ (k - 1)) (2 ^ k) ltac:(lia)) as Hdm.
  pose proof (Z.mod_pos_bound (v + 2 ^ (k - 1)) (2 ^ k) ltac:(lia)) as Hb.
  set (n := ((v + 2 ^ (k - 1)) / 2 ^ k)%Z) in *.
  set (r := ((v + 2 ^ (k - 1)) mod 2 ^ k)%Z) in *.
  nia.
Qed.

(** [Math.round] rounds half up. *)
Lemma Math_round_rounded (y : number) : rounded y (JS.Math_round y).
Proof.
  unfold rounded, JS.Math_round.
  destruct (Prim2SF y) as [ | | |s m e]; try reflexivity.
  destruct (0 <=? e)%Z eqn:He; [reflexivity|].
  apply Z.leb_gt in He. cbv zeta.
  eexists. split; [|reflexivity].
  replace e with (- - e)%Z at 1 by lia.
  apply floor_half_nearest. lia.
Qed.

(** The multiply, round, divide pattern rounds to two decimals. *)
Lemma round2_rounded2 (x : number) : rounded2 x (round2 x).
Proof.
  unfold rounded2, round2.
  eexists. split; [apply Math_round_rounded | reflexivity].
Qed.

(** A number has at most one rounding. *)
Lemma nearest_integer_unique (v e n n' : Z) :
  (e < 0)%Z -> nearest_integer v e n -> nearest_integer v e n' -> n = n'.
Proof.
  unfold nearest_integer. intros He H H'.
  assert (Hpos : (0 < 2 ^ (- e))%Z) by (apply Z.pow_pos_nonneg; lia).
  nia.
Qed.

Lemma rounded_unique (y c c' : number) : rounded y c -> rounded y c' -> c = c'.
Proof.
  unfold rounded. destruct (Prim2SF y) as [ | | |s m e]; try congruence.
  destruct (0 <=? e)%Z eqn:He; [congruence|].
  apply Z.leb_gt in He.
  intros (n & Hn & ->) (n' & Hn' & ->).
  rewrite (nearest_integer_unique _ _ _ _ He Hn Hn'). reflexivity.
Qed.

Lemma rounded2_unique (x r r' : number) : rounded2 x r -> rounded2 x r' -> r = r'.
Proof.
  intros (c & Hc & ->) (c' & Hc' & ->).
  rewrite (rounded_unique _ _ _ Hc Hc'). reflexivity.
Qed.

(** *** Signs *)







(** ** Running the commission service *)

Lemma populate_tests_run (lines : list IOrderTest.t) (w : World) :
  populate_tests lines w = (Ret (populated_lines w lines), w).
Proof.
  induction lines as [|l rest IH]; simpl.
  - reflexivity.
  - unfold bind, Test.findById. rewrite IH. reflexivity.
Qed.

(** What a query does with the id it is given. *)
Lemma cast_id_run (mg : Mongoose) (raw : string) (w : World) :
  cast_id mg raw w
  = match castObjectId mg raw with
    | Some id => (Ret id, w)
    | None => (Throw (CastError "Cast to ObjectId failed"), w)
    end.
Proof. unfold cast_id. destruct (castObjectId mg raw); reflexivity. Qed.

Lemma findOrder_populated_run (mg : Mongoose) (raw : string) (id : ObjectId)
  (w : World) :
  castObjectId mg raw = Some id ->
  findOrder_populated mg raw w
  = (Ret (option_map
            (fun o => mkPopulatedOrder o (referring_doctor w o)
                        (populated_lines w (ITestOrder.tests o)))
            (lookup_order w id)), w).
Proof.
  intros Hcast.
  unfold findOrder_populated, bind, TestOrder.findById, bind.
  rewrite cast_id_run, Hcast.
  destruct (lookup_order w id) as [o|]; simpl; [|reflexivity].
  unfold referring_doctor.
  destruct (ITestOrder.referringDoctorId o); simpl;
    unfold Doctor.findById, ret; rewrite populate_tests_run; reflexivity.
Qed.

Lemma no_unique_index (doc : ICommission.t) (coll : list ICommission.t) :
  existsb (fun ix => ix_unique ix && existsb (same_key (ix_path ix) doc) coll)
          CommissionSchema_indexes = false.
Proof. reflexivity. Qed.

(** What [calculateCommission] does, case by case. *)
Lemma calculateCommission_run (mg : Mongoose) (raw : string) (w : World) :
  CommissionService.calculateCommission mg raw w
  = match castObjectId mg raw with
    | None =>
        (Ret (ResponseHelper.error_default "Failed to calculate commission"),
         set_log (log w ++ [(ERROR, "Commission calculation error:")])%list w)
    | Some orderId =>
    match lookup_order w orderId with
    | None => (Ret (ResponseHelper.error "Order not found" 404), w)
    | Some o =>
        match referring_doctor w o with
        | None =>
            (Ret (ResponseHelper.error
                    "No referring doctor found for commission calculation" 400), w)
        | Some d =>
            match commission_for_order w (ITestOrder._id o) with
            | Some _ =>
                (Ret (ResponseHelper.error
                        "Commission already calculated for this order" 400), w)
            | None =>
                let c := new_commission w o d in
                let w1 := set_clock (S (clock w)) (set_next_oid (S (next_oid w)) w) in
                if CommissionSchema_validate c
                   && negb (duplicate_key CommissionSchema_indexes c (Commissions w))
                then
                  (Ret (ResponseHelper.success
                          (mkCalcData c
                             (mkCalcOrder (ITestOrder.orderId o)
                                (ITestOrder.totalAmount o)
                                (totalCommission
                                   (CommissionService.order_totals
                                      (populated_lines w (ITestOrder.tests o)))))
                             (IDoctor.name d, IDoctor.email d))
                          "Commission calculated successfully"),
                   after_calculate w c)
                else
                  (Ret (ResponseHelper.error_default "Failed to calculate commission"),
                   set_log (log w ++ [(ERROR, "Commission calculation error:")])%list w1)
            end
        end
    end
    end.
Proof.
  unfold CommissionService.calculateCommission, try_catch, bind.
  destruct (castObjectId mg raw) as [orderId|] eqn:Hcast.
  2:{ unfold findOrder_populated, bind, TestOrder.findById, bind.
      rewrite cast_id_run, Hcast. reflexivity. }
  rewrite (findOrder_populated_run mg raw orderId w Hcast).
  destruct (lookup_order w orderId) as [o|]; simpl; [|reflexivity].
  destruct (referring_doctor w o) as [d|]; simpl; [|reflexivity].
  unfold Commission.findOne_orderId.
  destruct (commission_for_order w (ITestOrder._id o)); simpl; [reflexivity|].
  unfold Commission.save_new, new_commission, commission_amount,
    commission_percentage.
  match goal with |- context [CommissionSchema_validate ?c] =>
    destruct (CommissionSchema_validate c) eqn:Hv end; simpl; [|reflexivity].
  unfold Commission.insert; simpl.
  match goal with |- context [duplicate_key ?ixs ?c ?coll] =>
    destruct (duplicate_key ixs c coll) eqn:Hd end; simpl; reflexivity.
Qed.

Lemma fresh_id_unused (w : World) (doc : ICommission.t) :
  ids_fresh w -> ICommission._id doc = next_oid w ->
  duplicate_key CommissionSchema_indexes doc (Commissions w) = false.
Proof.
  intros [_ Hlt] Hid. unfold duplicate_key.
  rewrite no_unique_index, orb_false_r.
  induction Hlt as [|c cs Hc _ IH]; simpl; [reflexivity|].
  rewrite IH, orb_false_r. apply Nat.eqb_neq. lia.
Qed.

Lemma find_app_none {A : Type} (p : A -> bool) (xs : list A) (y : A) :
  find p xs = None -> p y = true -> find p (xs ++ [y]) = Some y.
Proof.
  induction xs as [|x rest IH]; simpl; intros H Hy.
  - rewrite Hy. reflexivity.
  - destruct (p x); [discriminate|]. auto.
Qed.

(** C3 as stated fails: an [orderId] that is no ObjectId (here the text
    [abc], which the route lets through) matches no order, and the answer
    is not NotFound: the store refuses the id, the service catches that
    and answers 500 "Failed to calculate commission". *)
Lemma calculateCommission_refuses_malformed_id :
  castObjectId Sample.mg "abc" = None
  /\ (forall o, In o (TestOrders Sample.world) ->
                ObjectId_toString Sample.mg (ITestOrder._id o) <> "abc")
  /\ exists w',
       CommissionService.calculateCommission Sample.mg "abc" Sample.world
       = (Ret (ResponseHelper.error_default "Failed to calculate commission"), w')
       /\ statusCode (@ResponseHelper.error_default CalcData
                        "Failed to calculate commission") = 500
       /\ Commissions w' = Commissions Sample.world.
Proof.
  split; [reflexivity|]. split.
  - intros o Ho. simpl in Ho.
    destruct Ho as [<-|[<-|[<-|[]]]]; vm_compute; discriminate.
  - eexists. split; [vm_compute; reflexivity|]. split; reflexivity.
Qed.

(** C3, amended. For an [orderId] that the store casts to an ObjectId,
    [calculateCommission] answers 404 when no order has that id, 400 when
    the order has no referring doctor, 400 when a commission already
    exists for the order; otherwise (in a store with distinct ids, when
    the schema accepts the computed figures) it appends a new PENDING
    commission for the order, and a second call on the same order is then
    rejected with 400 and changes nothing. *)
Theorem calculateCommission_outcomes (mg : Mongoose) (raw : string)
  (orderId : ObjectId) (w : World) :
  castObjectId mg raw = Some orderId ->
  (lookup_order w orderId = None ->
   CommissionService.calculateCommission mg raw w
   = (Ret (ResponseHelper.error "Order not found" 404), w))
  /\ (forall o,
        lookup_order w orderId = Some o ->
        referring_doctor w o = None ->
        CommissionService.calculateCommission mg raw w
        = (Ret (ResponseHelper.error
                  "No referring doctor found for commission calculation" 400), w))
  /\ (forall o d existing,
        lookup_order w orderId = Some o ->
        referring_doctor w o = Some d ->
        commission_for_order w (ITestOrder._id o) = Some existing ->
        CommissionService.calculateCommission mg raw w
        = (Ret (ResponseHelper.error
                  "Commission already calculated for this order" 400), w))
  /\ (forall o d,
        lookup_order w orderId = Some o ->
        referring_doctor w o = Some d ->
        commission_for_order w (ITestOrder._id o) = None ->
        ids_fresh w ->
        figures_accepted w o = true ->
        exists resp c,
          CommissionService.calculateCommission mg raw w
          = (Ret resp, after_calculate w c)
          /\ success resp = true
          /\ statusCode resp = 200
          /\ option_map cd_commission (data resp) = Some c
          /\ Commissions (after_calculate w c) = (Commissions w ++ [c])%list
          /\ ICommission.orderId c = ITestOrder._id o
          /\ ICommission.doctorId c = IDoctor._id d
          /\ ICommission.paymentStatus c = PENDING
          /\ ICommission.paymentDate c = None
          /\ CommissionService.calculateCommission mg raw (after_calculate w c)
             = (Ret (ResponseHelper.error
                       "Commission already calculated for this order" 400),
                after_calculate w c)).
Proof.
  intros Hcast. repeat split.
  - intros Ho. rewrite calculateCommission_run, Hcast, Ho. reflexivity.
  - intros o Ho Hd. rewrite calculateCommission_run, Hcast, Ho, Hd. reflexivity.
  - intros o d e Ho Hd He.
    rewrite calculateCommission_run, Hcast, Ho, Hd, He. reflexivity.
  - intros o d Ho Hd He Hfresh Hfig.
    exists (ResponseHelper.success
              (mkCalcData (new_commission w o d)
                 (mkCalcOrder (ITestOrder.orderId o) (ITestOrder.totalAmount o)
                    (totalCommission
                       (CommissionService.order_totals
                          (populated_lines w (ITestOrder.tests o)))))
                 (IDoctor.name d, IDoctor.email d))
              "Commission calculated successfully"),
           (new_commission w o d).
    split.
    { rewrite calculateCommission_run, Hcast, Ho, Hd, He. cbv zeta.
      replace (CommissionSchema_validate (new_commission w o d))
        with (figures_accepted w o) by reflexivity.
      rewrite Hfig, (fresh_id_unused w (new_commission w o d) Hfresh eq_refl).
      reflexivity. }
    repeat split.
    rewrite calculateCommission_run, Hcast.
    replace (lookup_order (after_calculate w (new_commission w o d)) orderId)
      with (lookup_order w orderId) by reflexivity.
    rewrite Ho.
    replace (referring_doctor (after_calculate w (new_commission w o d)) o)
      with (referring_doctor w o) by reflexivity.
    rewrite Hd.
    unfold commission_for_order in *. simpl Commissions.
    rewrite (find_app_none _ _ (new_commission w o d) He); [reflexivity|].
    simpl. apply Nat.eqb_refl.
Qed.

Lemma calculateCommission_outcomes_witness :
  (castObjectId Sample.mg (Sample.hex 999) = Some 999
   /\ lookup_order Sample.world 999 = None
   /\ CommissionService.calculateCommission Sample.mg (Sample.hex 999) Sample.world
      = (Ret (ResponseHelper.error "Order not found" 404), Sample.world))
  /\ (lookup_order Sample.world 101 = Some Sample.order101
      /\ referring_doctor Sample.world
           Sample.order101 = None
      /\ fst (CommissionService.calculateCommission Sample.mg (Sample.hex 101)
                Sample.world)
         = Ret (ResponseHelper.error
                  "No referring doctor found for commission calculation" 400))
  /\ (commission_for_order Sample.ledger 100
      = Some (Sample.commission 1000 100 30%float PENDING)
      /\ fst (CommissionService.calculateCommission Sample.mg
                "000000000000000000000064" Sample.ledger)
         = Ret (ResponseHelper.error
                  "Commission already calculated for this order" 400))
  /\ (commission_for_order Sample.world 100 = None
      /\ ids_fresh Sample.world
      /\ exists resp c,
           CommissionService.calculateCommission Sample.mg (Sample.hex 100)
             Sample.world
           = (Ret resp, after_calculate Sample.world c)
           /\ success resp = true
           /\ ICommission.paymentStatus c = PENDING).
Proof.
  split; [|split; [|split]].
  - split; [reflexivity|]. split; [reflexivity|].
    apply (proj1 (calculateCommission_outcomes Sample.mg (Sample.hex 999) 999
                    Sample.world eq_refl)).
    reflexivity.
  - split; [reflexivity|]. split; [reflexivity|].
    rewrite (proj1 (proj2 (calculateCommission_outcomes Sample.mg (Sample.hex 101)
                             101 Sample.world eq_refl))
               Sample.order101
               eq_refl eq_refl).
    reflexivity.
  - split; [reflexivity|].
    rewrite (proj1 (proj2 (proj2 (calculateCommission_outcomes Sample.mg
                                    "000000000000000000000064" 100
                                    Sample.ledger eq_refl)))
               Sample.order100
               Sample.doctor (Sample.commission 1000 100 30%float PENDING)
               eq_refl eq_refl eq_refl).
    reflexivity.
  - split; [reflexivity|].
    assert (Hfresh : ids_fresh Sample.world) by (split; constructor).
    split; [exact Hfresh|].
    destruct (proj2 (proj2 (proj2 (calculateCommission_outcomes Sample.mg
                                     (Sample.hex 100) 100 Sample.world eq_refl)))
                Sample.order100
                Sample.doctor eq_refl eq_refl eq_refl Hfresh)
      as (resp & c & Hrun & Hok & _ & _ & _ & _ & _ & Hpending & _).
    + vm_compute. reflexivity.
    + exists resp, c. auto.
Defined.

(** ** The figures of a commission *)








(** ** Paying a commission *)

Lemma sendEmail_run (transport : Transport) (options : EmailOptions) (w : World) :
  EmailService.sendEmail transport options w
  = (Ret (transport options),
     set_log (log w ++ [mail_log transport options])%list w).
Proof.
  unfold EmailService.sendEmail, try_catch, bind, mail_log.
  destruct (transport options); reflexivity.
Qed.

Lemma sendCommissionNotification_run (transport : Transport) (d : IDoctor.t)
  (c : ICommission.t) (w : World) :
  EmailService.sendCommissionNotification transport (IDoctor.email d)
    (IDoctor.name d) (ICommission.amount c) (ICommission.calculatedDate c) w
  = (Ret (transport (commission_mail d c)),
     set_log (log w ++ [mail_log transport (commission_mail d c)])%list w).
Proof.
  unfold EmailService.sendCommissionNotification. apply sendEmail_run.
Qed.

(** What [payCommission] does, case by case. *)
Lemma payCommission_run (mg : Mongoose) (transport : Transport) (raw : string)
  (paidBy : string) (w : World) :
  CommissionService.payCommission mg transport raw paidBy w
  = match castObjectId mg raw with
    | None =>
        (Ret (ResponseHelper.error_default "Failed to process commission payment"),
         set_log (log w ++ [(ERROR, "Pay commission error:")])%list w)
    | Some id =>
    match lookup_commission w id with
    | None => (Ret (ResponseHelper.error "Commission not found" 404), w)
    | Some c =>
        if PaymentStatus_eqb (ICommission.paymentStatus c) PAID
        then (Ret (ResponseHelper.error "Commission already paid" 400), w)
        else
          let paid := CommissionService.mark_paid c (clock w) in
          match lookup_doctor w (ICommission.doctorId c) with
          | None =>
              (Ret (ResponseHelper.error_default
                      "Failed to process commission payment"),
               set_log (log w ++ [(ERROR, "Pay commission error:")])%list
                 (after_pay w paid))
          | Some d =>
              (Ret (ResponseHelper.success paid
                      "Commission payment processed successfully"),
               set_log (log w ++ [mail_log transport (commission_mail d paid);
                                  (INFO, "Commission paid:")])%list
                 (after_pay w paid))
          end
    end
    end.
Proof.
  unfold CommissionService.payCommission, try_catch, bind, Commission.findById,
    bind.
  rewrite cast_id_run.
  destruct (castObjectId mg raw) as [id|]; [|reflexivity].
  destruct (lookup_commission w id) as [c|]; [|reflexivity].
  unfold populate_doctor, bind, Doctor.findById, ret.
  destruct (PaymentStatus_eqb (ICommission.paymentStatus c) PAID); [reflexivity|].
  unfold new_Date, Commission.save.
  destruct (lookup_doctor w (ICommission.doctorId c)) as [d|]; [|reflexivity].
  change (ICommission.amount (CommissionService.mark_paid c (clock w)))
    with (ICommission.amount c).
  cbv beta iota.
  match goal with
  | |- context [EmailService.sendCommissionNotification ?t ?e ?n ?a ?p ?w0] =>
      replace (EmailService.sendCommissionNotification t e n a p w0)
        with (EmailService.sendCommissionNotification t (IDoctor.email d)
                (IDoctor.name d)
                (ICommission.amount (CommissionService.mark_paid c (clock w)))
                (ICommission.calculatedDate (CommissionService.mark_paid c (clock w)))
                w0) by reflexivity
  end.
  rewrite sendCommissionNotification_run.
  unfold logger.info, logger.write, after_pay. simpl.
  rewrite <- app_assoc. reflexivity.
Qed.

(** ** Paying in bulk *)

Lemma populate_doctors_run (cs : list ICommission.t) (w : World) :
  populate_doctors cs w = (Ret (map (with_doctor w) cs), w).
Proof.
  induction cs as [|c rest IH]; simpl; [reflexivity|].
  unfold bind, populate_doctor, Doctor.findById, ret. simpl.
  rewrite IH. reflexivity.
Qed.

(** One turn of the payment loop. *)
Lemma pay_each_step (transport : Transport) (paidBy : string)
  (c : ICommission.t) (od : option IDoctor.t)
  (rest : list (ICommission.t * option IDoctor.t)) (results : list PaidResult)
  (w : World) :
  CommissionService.pay_each transport paidBy ((c, od) :: rest) results w
  = let paid := CommissionService.mark_paid c (clock w) in
    match od with
    | None =>
        (Throw (TypeError "Cannot read properties of null"), after_pay w paid)
    | Some d =>
        CommissionService.pay_each transport paidBy rest
          (results ++ [mkPaidResult (ICommission._id c) (IDoctor.name d)
                         (ICommission.amount c) true])%list
          (set_log (log w ++ [mail_log transport (commission_mail d paid);
                              (INFO, "Commission paid:")])%list
             (after_pay w paid))
    end.
Proof.
  simpl. unfold bind, new_Date, Commission.save.
  destruct od as [d|]; [|reflexivity].
  change (ICommission.amount (CommissionService.mark_paid c (clock w)))
    with (ICommission.amount c).
  cbv beta iota.
  match goal with
  | |- context [EmailService.sendCommissionNotification ?t ?e ?n ?a ?p ?w0] =>
      replace (EmailService.sendCommissionNotification t e n a p w0)
        with (EmailService.sendCommissionNotification t (IDoctor.email d)
                (IDoctor.name d)
                (ICommission.amount (CommissionService.mark_paid c (clock w)))
                (ICommission.calculatedDate (CommissionService.mark_paid c (clock w)))
                w0) by reflexivity
  end.
  rewrite sendCommissionNotification_run.
  unfold logger.info, logger.write, after_pay. simpl.
  rewrite <- app_assoc. reflexivity.
Qed.

(** What [bulkPayCommissions] does around the loop. *)
Lemma bulkPayCommissions_run (mg : Mongoose) (transport : Transport)
  (raws : list string) (paidBy : string) (w : World) :
  CommissionService.bulkPayCommissions mg transport raws paidBy w
  = match castObjectIds mg raws with
    | None =>
        (Ret (ResponseHelper.error_default
                "Failed to process bulk commission payments"),
         set_log (log w ++ [(ERROR, "Bulk pay commissions error:")])%list w)
    | Some ids =>
    match selected w ids with
    | [] => (Ret (ResponseHelper.error "No pending commissions found" 404), w)
    | _ :: _ =>
        match CommissionService.pay_each transport paidBy
                (map (with_doctor w) (selected w ids)) [] w with
        | (Ret results, w') =>
            (Ret (ResponseHelper.success
                    (mkBulkData (List.length results)
                       (JS.sum_by pr_amount results) results)
                    "commission payments processed successfully"), w')
        | (Throw _, w') =>
            (Ret (ResponseHelper.error_default
                    "Failed to process bulk commission payments"),
             set_log (log w' ++ [(ERROR, "Bulk pay commissions error:")])%list w')
        end
    end
    end.
Proof.
  unfold CommissionService.bulkPayCommissions, try_catch, bind,
    Commission.find_where, cast_ids.
  destruct (castObjectIds mg raws) as [ids|]; [|reflexivity].
  unfold ret. rewrite populate_doctors_run. fold (selected w ids).
  destruct (selected w ids) as [|c rest]; [reflexivity|].
  cbn [map List.length Nat.eqb].
  destruct (CommissionService.pay_each transport paidBy
              (with_doctor w c :: map (with_doctor w) rest) [] w)
    as [[results|e] w']; reflexivity.
Qed.

(** ** A paid commission stays paid *)

Lemma keeps_paid_refl (cs : list ICommission.t) : Forall2 keeps_paid cs cs.
Proof. induction cs; constructor; [split; auto | assumption]. Qed.

Lemma ledger_extends_refl (cs : list ICommission.t) : ledger_extends cs cs.
Proof. exists cs, []. rewrite app_nil_r. split; [reflexivity | apply keeps_paid_refl]. Qed.

Lemma ledger_extends_app (cs extra : list ICommission.t) :
  ledger_extends cs (cs ++ extra).
Proof. exists cs, extra. split; [reflexivity | apply keeps_paid_refl]. Qed.

Lemma keeps_paid_trans (xs ys zs : list ICommission.t) :
  Forall2 keeps_paid xs ys -> Forall2 keeps_paid ys zs -> Forall2 keeps_paid xs zs.
Proof.
  intros H. revert zs. induction H as [|x y xs ys [Hid Hp] _ IH]; intros zs Hz.
  - inversion Hz. constructor.
  - inversion Hz as [|y' z ys' zs' [Hid' Hp'] Hrest]; subst. constructor.
    + split; [congruence | auto].
    + apply IH. assumption.
Qed.

Lemma ledger_extends_trans (xs ys zs : list ICommission.t) :
  ledger_extends xs ys -> ledger_extends ys zs -> ledger_extends xs zs.
Proof.
  intros (m1 & e1 & -> & H1) (m2 & e2 & -> & H2).
  apply Forall2_app_inv_l in H2 as (m2a & m2b & Ha & Hb & ->).
  exists m2a, (m2b ++ e2)%list. split.
  - rewrite app_assoc. reflexivity.
  - eapply keeps_paid_trans; eassumption.
Qed.

Lemma replace_keeps_paid (c : ICommission.t) (now : Date) (cs : list ICommission.t) :
  Forall2 keeps_paid cs
    (replace_commission (CommissionService.mark_paid c now) cs).
Proof.
  induction cs as [|d rest IH]; simpl; constructor; [|exact IH].
  destruct (Nat.eqb (ICommission._id d) (ICommission._id c)) eqn:E.
  - apply Nat.eqb_eq in E. split; [simpl; congruence | reflexivity].
  - split; auto.
Qed.

Lemma ledger_extends_replace (c : ICommission.t) (now : Date)
  (cs : list ICommission.t) :
  ledger_extends cs (replace_commission (CommissionService.mark_paid c now) cs).
Proof.
  exists (replace_commission (CommissionService.mark_paid c now) cs), [].
  rewrite app_nil_r. split; [reflexivity | apply replace_keeps_paid].
Qed.

(** Looking a paid commission up by [_id] finds a paid one afterwards. *)
Lemma ledger_extends_paid (cs cs' : list ICommission.t) (id : ObjectId) :
  ledger_extends cs cs' ->
  option_map ICommission.paymentStatus
    (find (fun c => Nat.eqb (ICommission._id c) id) cs) = Some PAID ->
  option_map ICommission.paymentStatus
    (find (fun c => Nat.eqb (ICommission._id c) id) cs') = Some PAID.
Proof.
  intros (mid & extra & -> & H). induction H as [|c c' cs mid [Hid Hp] _ IH]; simpl.
  - discriminate.
  - rewrite Hid. destruct (Nat.eqb (ICommission._id c) id); simpl.
    + intros E. f_equal. apply Hp. congruence.
    + exact IH.
Qed.

Lemma calculateCommission_extends (mg : Mongoose) (raw : string) (w : World) :
  ledger_extends (Commissions w)
    (Commissions (snd (CommissionService.calculateCommission mg raw w))).
Proof.
  rewrite calculateCommission_run.
  destruct (castObjectId mg raw) as [orderId|]; [|apply ledger_extends_refl].
  destruct (lookup_order w orderId) as [o|]; [|apply ledger_extends_refl].
  destruct (referring_doctor w o) as [d|]; [|apply ledger_extends_refl].
  destruct (commission_for_order w (ITestOrder._id o));
    [apply ledger_extends_refl|].
  cbv zeta.
  destruct (CommissionSchema_validate (new_commission w o d)
            && negb (duplicate_key CommissionSchema_indexes
                       (new_commission w o d) (Commissions w))); simpl.
  - apply ledger_extends_app.
  - apply ledger_extends_refl.
Qed.

Lemma payCommission_extends (mg : Mongoose) (transport : Transport)
  (raw : string) (paidBy : string) (w : World) :
  ledger_extends (Commissions w)
    (Commissions (snd (CommissionService.payCommission mg transport raw paidBy w))).
Proof.
  rewrite payCommission_run.
  destruct (castObjectId mg raw) as [id|]; [|apply ledger_extends_refl].
  destruct (lookup_commission w id) as [c|]; [|apply ledger_extends_refl].
  destruct (PaymentStatus_eqb (ICommission.paymentStatus c) PAID);
    [apply ledger_extends_refl|].
  cbv zeta.
  destruct (lookup_doctor w (ICommission.doctorId c)); simpl;
    apply ledger_extends_replace.
Qed.

Lemma pay_each_extends (transport : Transport) (paidBy : string)
  (ps : list (ICommission.t * option IDoctor.t)) (results : list PaidResult)
  (w : World) :
  ledger_extends (Commissions w)
    (Commissions (snd (CommissionService.pay_each transport paidBy ps results w))).
Proof.
  revert results w. induction ps as [|[c od] rest IH]; intros results w.
  - apply ledger_extends_refl.
  - rewrite pay_each_step. cbv zeta. destruct od as [d|].
    + eapply ledger_extends_trans; [|apply IH]. simpl.
      apply ledger_extends_replace.
    + simpl. apply ledger_extends_replace.
Qed.

Lemma bulkPayCommissions_extends (mg : Mongoose) (transport : Transport)
  (raws : list string) (paidBy : string) (w : World) :
  ledger_extends (Commissions w)
    (Commissions
       (snd (CommissionService.bulkPayCommissions mg transport raws paidBy w))).
Proof.
  rewrite bulkPayCommissions_run.
  destruct (castObjectIds mg raws) as [ids|]; [|apply ledger_extends_refl].
  destruct (selected w ids) as [|c rest] eqn:E; [apply ledger_extends_refl|].
  pose proof (pay_each_extends transport paidBy
                (map (with_doctor w) (c :: rest)) [] w) as H.
  destruct (CommissionService.pay_each transport paidBy
              (map (with_doctor w) (c :: rest)) [] w) as [[results|e] w'];
    exact H.
Qed.

(** [calculateCommission] catches everything: it always returns. *)
Lemma calculateCommission_returns (mg : Mongoose) (raw : string) (w : World) :
  exists resp, fst (CommissionService.calculateCommission mg raw w) = Ret resp.
Proof.
  rewrite calculateCommission_run.
  destruct (castObjectId mg raw) as [orderId|]; [|eexists; reflexivity].
  destruct (lookup_order w orderId) as [o|]; [|eexists; reflexivity].
  destruct (referring_doctor w o) as [d|]; [|eexists; reflexivity].
  destruct (commission_for_order w (ITestOrder._id o)); [eexists; reflexivity|].
  cbv zeta.
  destruct (CommissionSchema_validate (new_commission w o d)
            && negb (duplicate_key CommissionSchema_indexes
                       (new_commission w o d) (Commissions w)));
    eexists; reflexivity.
Qed.

Lemma calculateCommission_frame (mg : Mongoose) (raw : string) (w : World) :
  let w' := snd (CommissionService.calculateCommission mg raw w) in
  TestOrders w' = TestOrders w /\ Doctors w' = Doctors w /\ Tests w' = Tests w
  /\ next_oid w <= next_oid w'.
Proof.
  rewrite calculateCommission_run.
  destruct (castObjectId mg raw) as [orderId|]; [|simpl; auto].
  destruct (lookup_order w orderId) as [o|]; [|simpl; auto].
  destruct (referring_doctor w o) as [d|]; [|simpl; auto].
  destruct (commission_for_order w (ITestOrder._id o)); [simpl; auto|].
  cbv zeta.
  destruct (CommissionSchema_validate (new_commission w o d)
            && negb (duplicate_key CommissionSchema_indexes
                       (new_commission w o d) (Commissions w)));
    simpl; auto.
Qed.

(** ** Creating an order *)

Ltac nothing_stored :=
  left; eexists; simpl; repeat split; [discriminate | lia].

Ltac rewrite_run Hcalc res w2 :=
  match goal with
  | |- context [snd ?x] =>
      replace x with (Ret res, w2) by (symmetry; exact Hcalc)
  end; reflexivity.

(** [createTestOrder] either stores nothing and answers with a status
    other than 201, or appends the order, runs [calculateCommission] on it
    and answers 201. *)
Lemma createTestOrder_cases (mg : Mongoose) (user : option AuthUser)
  (body : OPDController.CreateTestOrderBody) (w : World) :
  let r := OPDController.createTestOrder mg user body w in
  (exists resp, fst r = Ret resp /\ http_status resp <> 201
     /\ Commissions (snd r) = Commissions w
     /\ TestOrders (snd r) = TestOrders w
     /\ next_oid w <= next_oid (snd r)
     /\ Doctors (snd r) = Doctors w)
  \/ (exists order w1 doctorId,
        fst r = Ret (mkHttp 201 true (Some "Test order created successfully")
                       (Some order))
        /\ ITestOrder._id order = next_oid w
        /\ ITestOrder.referringDoctorId order = Some doctorId
        /\ List.length (requested_tests mg w body)
           = List.length (OPDController.b_tests body)
        /\ ITestOrder.commissionAmount order
           = OPDController.os_commissionAmount
               (OPDController.order_sums mg (OPDController.b_tests body)
                  (requested_tests mg w body))
        /\ OPDController.cast_lines mg
             (OPDController.os_orderTests
                (OPDController.order_sums mg (OPDController.b_tests body)
                   (requested_tests mg w body)))
           = Some (ITestOrder.tests order)
        /\ lookup_order w (next_oid w) = None
        /\ TestOrders w1 = (TestOrders w ++ [order])%list
        /\ Commissions w1 = Commissions w
        /\ Doctors w1 = Doctors w
        /\ Tests w1 = Tests w
        /\ next_oid w1 = S (next_oid w)
        /\ Commissions (snd r)
           = Commissions (snd (CommissionService.calculateCommission mg
                                 (ObjectId_toString mg (next_oid w)) w1))
        /\ TestOrders (snd r) = TestOrders w1
        /\ next_oid (snd r)
           = next_oid (snd (CommissionService.calculateCommission mg
                              (ObjectId_toString mg (next_oid w)) w1))
        /\ Doctors (snd r) = Doctors w
        /\ requested_ids mg body <> None).
Proof.
  unfold OPDController.createTestOrder, try_catch.
  cbv zeta.
  destruct (if truthy_string (user_branchId user) then user_branchId user
            else OPDController.b_branchId body) as [branchId|];
    [|nothing_stored].
  destruct (String.eqb branchId ""); [nothing_stored|].
  destruct (find _ (Patients w)); [|nothing_stored].
  destruct (find _ (Visits w)); [|nothing_stored].
  destruct (castObjectIds mg (map OPDController.in_testId
                                (OPDController.b_tests body)))
    as [ids|] eqn:Hids; [|nothing_stored].
  assert (Hreq : Test.find_active_in ids w = requested_tests mg w body).
  { unfold requested_tests, requested_ids. rewrite Hids. reflexivity. }
  assert (Hsome : requested_ids mg body <> None).
  { unfold requested_ids. rewrite Hids. discriminate. }
  rewrite Hreq. clear Hreq Hids ids.
  destruct (Nat.eqb _ _) eqn:Hlen; simpl negb; cbv iota; [|nothing_stored].
  apply Nat.eqb_eq in Hlen.
  unfold bind, IDGenerator.generateOrderId, IDGenerator.getNextSequence, bind, ret,
    new_Date, new_ObjectId, throw.
  destruct (IDGenerator.bump _ _) as [v counters].
  destruct (OPDController.cast_lines _ _) as [lines|] eqn:Hcast; [|nothing_stored].
  unfold OPDController.save_new.
  cbn -[OPDController.order_sums String.append IDGenerator.decimal IDGenerator.pad3
        requested_tests CommissionService.calculateCommission].
  destruct (OPDController.b_referringDoctorId body) as [doctorId|] eqn:Hdoc;
    [|nothing_stored].
  destruct (match user with Some u => u_id u | None => None end) as [creator|];
    [|nothing_stored].
  match goal with |- context [if ?b then _ else _] => destruct b end;
    [|nothing_stored].
  destruct (existsb _ (TestOrders w)) eqn:Hdup; [nothing_stored|].
  right.
  cbn -[OPDController.order_sums String.append IDGenerator.decimal IDGenerator.pad3
        requested_tests CommissionService.calculateCommission].
  match goal with
  | |- context [CommissionService.calculateCommission mg ?i
                  (set_TestOrders (_ ++ [?o])%list ?w0)] =>
      destruct (calculateCommission_returns mg i
                  (set_TestOrders (TestOrders w ++ [o])%list w0))
        as [res Hres];
      destruct (CommissionService.calculateCommission mg i
                  (set_TestOrders (TestOrders w ++ [o])%list w0))
        as [out w2] eqn:Hcalc;
      exists o, (set_TestOrders (TestOrders w ++ [o])%list w0), doctorId
  end.
  simpl in Hres. subst out.
  assert (Hnew : lookup_order w (next_oid w) = None).
  { unfold lookup_order. clear - Hdup.
    induction (TestOrders w) as [|o rest IH]; simpl in *; [reflexivity|].
    apply orb_false_elim in Hdup as [Ho Hrest].
    apply orb_false_elim in Ho as [_ Ho]. rewrite Ho. auto. }
  match type of Hcalc with
  | CommissionService.calculateCommission mg ?i ?w0 = _ =>
      pose proof (calculateCommission_frame mg i w0) as (HT & HD & _)
  end.
  rewrite Hcalc in HT, HD. simpl in HT, HD.
  destruct (negb (success res));
    cbn -[OPDController.order_sums String.append IDGenerator.decimal
          IDGenerator.pad3 requested_tests CommissionService.calculateCommission];
    repeat split; try assumption; try reflexivity;
    try rewrite_run Hcalc res w2.
Qed.

Lemma createTestOrder_extends (mg : Mongoose) (user : option AuthUser)
  (body : OPDController.CreateTestOrderBody) (w : World) :
  ledger_extends (Commissions w)
    (Commissions (snd (OPDController.createTestOrder mg user body w))).
Proof.
  destruct (createTestOrder_cases mg user body w)
    as [(resp & _ & _ & Hc & _) | (order & w1 & doc & H)].
  - rewrite Hc. apply ledger_extends_refl.
  - destruct H as (_ & _ & _ & _ & _ & _ & _ & _ & Hc1 & _ & _ & _ & Hc & _).
    rewrite Hc, <- Hc1. apply calculateCommission_extends.
Qed.

Lemma run_op_extends (mg : Mongoose) (transport : Transport) (op : LedgerOp)
  (w : World) :
  ledger_extends (Commissions w) (Commissions (run_op mg transport op w)).
Proof.
  destruct op; simpl.
  - apply calculateCommission_extends.
  - apply payCommission_extends.
  - apply bulkPayCommissions_extends.
  - apply createTestOrder_extends.
Qed.

Lemma run_ops_extends (mg : Mongoose) (transport : Transport)
  (ops : list LedgerOp) (w : World) :
  ledger_extends (Commissions w) (Commissions (run_ops mg transport ops w)).
Proof.
  revert w. induction ops as [|op rest IH]; intros w; simpl.
  - apply ledger_extends_refl.
  - eapply ledger_extends_trans; [apply run_op_extends | apply IH].
Qed.

Lemma PaymentStatus_eqb_eq (a b : PaymentStatus) :
  PaymentStatus_eqb a b = true <-> a = b.
Proof. destruct a, b; simpl; split; intros H; try reflexivity; discriminate. Qed.

Lemma lookup_after_replace (cs : list ICommission.t) (c paid : ICommission.t)
  (id : ObjectId) :
  find (fun d => Nat.eqb (ICommission._id d) id) cs = Some c ->
  ICommission._id paid = id ->
  find (fun d => Nat.eqb (ICommission._id d) id) (replace_commission paid cs)
  = Some paid.
Proof.
  intros Hfind Hid. induction cs as [|d rest IH]; simpl in *; [discriminate|].
  rewrite Hid. destruct (Nat.eqb (ICommission._id d) id) eqn:E; simpl.
  - rewrite Hid, Nat.eqb_refl. reflexivity.
  - rewrite E. auto.
Qed.

(** C6 as stated fails: a [commissionId] that is no ObjectId (here the
    text [abc], which the route lets through) names no commission, and the
    answer is not NotFound: the store refuses the id, the service catches
    that and answers 500 "Failed to process commission payment". *)
Lemma payCommission_refuses_malformed_id :
  castObjectId Sample.mg "abc" = None
  /\ (forall c, In c (Commissions Sample.ledger) ->
                ObjectId_toString Sample.mg (ICommission._id c) <> "abc")
  /\ exists w',
       CommissionService.payCommission Sample.mg Sample.always_delivers "abc"
         "ADMIN001" Sample.ledger
       = (Ret (ResponseHelper.error_default
                 "Failed to process commission payment"), w')
       /\ statusCode (@ResponseHelper.error_default ICommission.t
                        "Failed to process commission payment") = 500
       /\ Commissions w' = Commissions Sample.ledger.
Proof.
  split; [reflexivity|]. split.
  - intros c Hc. simpl in Hc.
    destruct Hc as [<-|[<-|[<-|[]]]]; vm_compute; discriminate.
  - eexists. split; [vm_compute; reflexivity|]. split; reflexivity.
Qed.

(** C6, amended. For a [commissionId] that the store casts to an ObjectId,
    [payCommission] answers 404 when the commission does not exist and 400
    when it is already PAID, changing nothing; otherwise the stored record
    becomes PAID with the current time as its payment date (and the call
    reports success when the doctor resolves).  No sequence of ledger
    operations, whatever ids they are given, turns a PAID commission into
    anything else. *)
Theorem payCommission_outcomes (mg : Mongoose) (transport : Transport)
  (raw : string) (id : ObjectId) (paidBy : string) (w : World) :
  castObjectId mg raw = Some id ->
  (lookup_commission w id = None ->
   CommissionService.payCommission mg transport raw paidBy w
   = (Ret (ResponseHelper.error "Commission not found" 404), w))
  /\ (forall c,
        lookup_commission w id = Some c ->
        ICommission.paymentStatus c = PAID ->
        CommissionService.payCommission mg transport raw paidBy w
        = (Ret (ResponseHelper.error "Commission already paid" 400), w))
  /\ (forall c,
        lookup_commission w id = Some c ->
        ICommission.paymentStatus c <> PAID ->
        let w' := snd (CommissionService.payCommission mg transport raw paidBy w) in
        let paid := CommissionService.mark_paid c (clock w) in
        Commissions w' = replace_commission paid (Commissions w)
        /\ lookup_commission w' id = Some paid
        /\ ICommission.paymentStatus paid = PAID
        /\ ICommission.paymentDate paid = Some (clock w)
        /\ (lookup_doctor w (ICommission.doctorId c) <> None ->
            fst (CommissionService.payCommission mg transport raw paidBy w)
            = Ret (ResponseHelper.success paid
                     "Commission payment processed successfully")))
  /\ (forall (ops : list LedgerOp) (i : ObjectId),
        status_of w i = Some PAID ->
        status_of (run_ops mg transport ops w) i = Some PAID).
Proof.
  intros Hcast. split; [|split; [|split]].
  - intros H. rewrite payCommission_run, Hcast, H. reflexivity.
  - intros c H Hp. rewrite payCommission_run, Hcast, H, Hp. reflexivity.
  - intros c H Hp w' paid. subst w'. rewrite payCommission_run, Hcast, H.
    destruct (PaymentStatus_eqb (ICommission.paymentStatus c) PAID) eqn:E;
      [apply PaymentStatus_eqb_eq in E; contradiction|].
    assert (Hid : ICommission._id paid = id).
    { unfold lookup_commission in H. apply find_some in H as [_ H].
      apply Nat.eqb_eq in H. exact H. }
    cbv zeta. fold paid.
    destruct (lookup_doctor w (ICommission.doctorId c)) as [d|]; simpl;
      (split; [reflexivity|]);
      (split; [apply (lookup_after_replace _ c); assumption|]);
      (split; [reflexivity|]); (split; [reflexivity|]); intros Hd;
      [reflexivity | contradiction].
  - intros ops i. unfold status_of, lookup_commission.
    apply ledger_extends_paid, run_ops_extends.
Qed.

Lemma payCommission_outcomes_witness :
  (castObjectId Sample.mg (Sample.hex 5) = Some 5
   /\ lookup_commission Sample.ledger 5 = None
   /\ fst (CommissionService.payCommission Sample.mg Sample.always_fails
             (Sample.hex 5) "ADMIN001" Sample.ledger)
      = Ret (ResponseHelper.error "Commission not found" 404))
  /\ (lookup_commission Sample.ledger 1001
      = Some (Sample.commission 1001 101 12.5%float PAID)
      /\ CommissionService.payCommission Sample.mg Sample.always_fails
           (Sample.hex 1001) "ADMIN001" Sample.ledger
         = (Ret (ResponseHelper.error "Commission already paid" 400),
            Sample.ledger))
  /\ (lookup_commission Sample.ledger 1000
      = Some (Sample.commission 1000 100 30%float PENDING)
      /\ status_of (snd (CommissionService.payCommission Sample.mg
                           Sample.always_fails
                           (Sample.hex 1000) "ADMIN001" Sample.ledger)) 1000
         = Some PAID)
  /\ (status_of Sample.ledger 1001 = Some PAID
      /\ status_of
           (run_ops Sample.mg Sample.always_fails
              [OpPay (Sample.hex 1001) "ADMIN001";
               OpBulkPay [Sample.hex 1000; Sample.hex 1001; Sample.hex 1002]
                 "ADMIN001";
               OpPay "abc" "ADMIN001";
               OpCalculate (Sample.hex 100)]
              Sample.ledger) 1001
         = Some PAID).
Proof.
  pose proof (payCommission_outcomes Sample.mg Sample.always_fails (Sample.hex 5)
                5 "ADMIN001" Sample.ledger eq_refl) as (H1 & _).
  pose proof (payCommission_outcomes Sample.mg Sample.always_fails
                (Sample.hex 1001) 1001 "ADMIN001"
                Sample.ledger eq_refl) as (_ & H2 & _ & H4).
  pose proof (payCommission_outcomes Sample.mg Sample.always_fails
                (Sample.hex 1000) 1000 "ADMIN001"
                Sample.ledger eq_refl) as (_ & _ & H3 & _).
  split; [|split; [|split]].
  - split; [reflexivity|]. split; [reflexivity|]. rewrite (H1 eq_refl). reflexivity.
  - split; [reflexivity|]. apply (H2 _ eq_refl eq_refl).
  - split; [reflexivity|].
    destruct (H3 (Sample.commission 1000 100 30%float PENDING) eq_refl)
      as (_ & Hl & _); [discriminate|].
    unfold status_of. rewrite Hl. reflexivity.
  - split; [reflexivity|]. apply H4. reflexivity.
Defined.

(** ** The bulk payment, exactly *)

Lemma pay_all_map (cs : list ICommission.t) (now : Date)
  (coll : list ICommission.t) :
  pay_all cs now coll = map (apply_paid cs now) coll.
Proof.
  revert now coll. induction cs as [|c rest IH]; intros now coll; simpl.
  - symmetry. apply map_id.
  - rewrite IH. unfold replace_commission. rewrite map_map. reflexivity.
Qed.

Lemma apply_paid_other (cs : list ICommission.t) (now : Date) (d : ICommission.t) :
  (forall c, In c cs -> ICommission._id c <> ICommission._id d) ->
  apply_paid cs now d = d.
Proof.
  revert now. induction cs as [|c rest IH]; intros now H; simpl; [reflexivity|].
  destruct (Nat.eqb (ICommission._id d) (ICommission._id c)) eqn:E.
  - apply Nat.eqb_eq in E. exfalso. apply (H c); [left; reflexivity | congruence].
  - apply IH. intros c' Hc'. apply H. right. exact Hc'.
Qed.

Lemma apply_paid_member (cs : list ICommission.t) (now : Date) (d : ICommission.t) :
  NoDup (map ICommission._id cs) ->
  In d cs ->
  exists t, apply_paid cs now d = CommissionService.mark_paid d t.
Proof.
  revert now. induction cs as [|c rest IH]; intros now Hnd Hin; [contradiction|].
  simpl in Hnd. inversion Hnd as [|x xs Hnotin Hrest]; subst.
  simpl. destruct Hin as [-> | Hin].
  - rewrite Nat.eqb_refl. exists now. apply apply_paid_other.
    intros c Hc E. apply Hnotin. simpl in E. rewrite <- E.
    apply in_map. exact Hc.
  - destruct (Nat.eqb (ICommission._id d) (ICommission._id c)) eqn:E.
    + apply Nat.eqb_eq in E. exfalso. apply Hnotin. rewrite <- E.
      apply in_map. exact Hin.
    + apply IH; assumption.
Qed.

Lemma NoDup_map_filter {A B : Type} (f : A -> B) (p : A -> bool) (xs : list A) :
  NoDup (map f xs) -> NoDup (map f (filter p xs)).
Proof.
  induction xs as [|x rest IH]; simpl; intros H; [constructor|].
  inversion H as [|y ys Hnotin Hrest]; subst.
  destruct (p x); simpl; [|auto].
  constructor; [|auto]. intros Hin. apply Hnotin.
  apply in_map_iff in Hin as (z & Hz & Hin). apply filter_In in Hin as [Hin _].
  rewrite <- Hz. apply in_map. exact Hin.
Qed.

Lemma NoDup_map_eq {A B : Type} (f : A -> B) (xs : list A) (a b : A) :
  NoDup (map f xs) -> In a xs -> In b xs -> f a = f b -> a = b.
Proof.
  induction xs as [|x rest IH]; simpl; intros H Ha Hb E; [contradiction|].
  inversion H as [|y ys Hnotin Hrest]; subst.
  destruct Ha as [-> | Ha], Hb as [-> | Hb]; auto.
  - exfalso. apply Hnotin. rewrite E. apply in_map. exact Hb.
  - exfalso. apply Hnotin. rewrite <- E. apply in_map. exact Ha.
Qed.

Lemma Forall2_map_self {A : Type} (R : A -> A -> Prop) (g : A -> A) (xs : list A) :
  (forall x, In x xs -> R x (g x)) -> Forall2 R xs (map g xs).
Proof.
  induction xs as [|x rest IH]; simpl; intros H; constructor.
  - apply H. left. reflexivity.
  - apply IH. intros y Hy. apply H. right. exact Hy.
Qed.

(** The filter of the bulk payment selects the commissions whose id is
    one of those given and whose status is PENDING. *)
Lemma pending_among_spec (ids : list ObjectId) (c : ICommission.t) :
  CommissionService.pending_among ids c = true
  <-> In (ICommission._id c) ids /\ ICommission.paymentStatus c = PENDING.
Proof.
  unfold CommissionService.pending_among.
  rewrite andb_true_iff, PaymentStatus_eqb_eq, existsb_exists.
  split.
  - intros [(x & Hx & E) Hp]. apply Nat.eqb_eq in E. subst x. auto.
  - intros [Hid Hp]. split; [|exact Hp].
    exists (ICommission._id c). split; [exact Hid | apply Nat.eqb_refl].
Qed.

Lemma mark_paid_version (c : ICommission.t) (t : Date) :
  paid_version c (CommissionService.mark_paid c t).
Proof.
  unfold paid_version. simpl.
  split; [reflexivity|]. split; [exists t; reflexivity|].
  repeat split.
Qed.

(** With distinct ids, the loop over the selected commissions pays
    exactly those and leaves the others as they were. *)
Lemma pay_all_selected (ids : list ObjectId) (now : Date)
  (coll : list ICommission.t) :
  NoDup (map ICommission._id coll) ->
  Forall2 (bulk_paid ids) coll
    (pay_all (filter (CommissionService.pending_among ids) coll) now coll).
Proof.
  intros Hnd. rewrite pay_all_map. apply Forall2_map_self.
  intros d Hd. unfold bulk_paid.
  destruct (CommissionService.pending_among ids d) eqn:E.
  - split; [|intros Hn; exfalso; apply Hn; apply pending_among_spec; exact E].
    intros _.
    destruct (apply_paid_member
                (filter (CommissionService.pending_among ids) coll) now d)
      as [t Ht].
    + apply NoDup_map_filter. exact Hnd.
    + apply filter_In. auto.
    + rewrite Ht. apply mark_paid_version.
  - split.
    + intros H. apply pending_among_spec in H. congruence.
    + intros _. apply apply_paid_other. intros c Hc Heq.
      apply filter_In in Hc as [Hc Hp].
      assert (c = d) by (eapply NoDup_map_eq; eauto). subst c. congruence.
Qed.

(** The loop itself, when every selected commission's doctor resolves. *)
Lemma pay_each_ok (transport : Transport) (paidBy : string) (w : World)
  (cs : list ICommission.t) :
  doctors_resolve w cs ->
  forall (results : list PaidResult) (w0 : World),
  exists w',
    CommissionService.pay_each transport paidBy (map (with_doctor w) cs) results w0
    = (Ret (results ++ map (paid_result w) cs)%list, w')
    /\ Commissions w' = pay_all cs (clock w0) (Commissions w0).
Proof.
  intros H. induction H as [|c rest Hc _ IH]; intros results w0; simpl map.
  - exists w0. rewrite app_nil_r. split; reflexivity.
  - unfold with_doctor at 1. rewrite pay_each_step. cbv zeta.
    unfold paid_result at 1.
    destruct (lookup_doctor w (ICommission.doctorId c)) as [d|];
      [|contradiction].
    match goal with
    | |- context [CommissionService.pay_each _ _ _ ?rs ?w1] =>
        destruct (IH rs w1) as (w' & Hrun & Hcs)
    end.
    exists w'. rewrite Hrun, <- app_assoc. split; [reflexivity|].
    rewrite Hcs. reflexivity.
Qed.

Lemma sum_by_map {A B : Type} (f : B -> number) (g : A -> B) (xs : list A) :
  JS.sum_by f (map g xs) = JS.sum_by (fun x => f (g x)) xs.
Proof.
  unfold JS.sum_by. generalize 0%float.
  induction xs as [|x rest IH]; intros init; simpl; [reflexivity|]. apply IH.
Qed.

(** C7 as stated fails, in two ways.  An id that is no ObjectId is not
    skipped: with [abc] next to the id of a PENDING commission, the store
    refuses the whole filter, the answer is 500 and nothing is paid.  And
    ids that select commissions do not always end in a result list: when
    the doctor of a selected commission does not exist the answer is 500,
    after that commission and the ones before it were stored as PAID. *)
Lemma bulkPayCommissions_refuses_malformed_id :
  (castObjectId Sample.mg "abc" = None
   /\ status_of Sample.ledger 1000 = Some PENDING
   /\ exists w',
        CommissionService.bulkPayCommissions Sample.mg Sample.always_delivers
          [Sample.hex 1000; "abc"] "ADMIN001" Sample.ledger
        = (Ret (ResponseHelper.error_default
                  "Failed to process bulk commission payments"), w')
        /\ Commissions w' = Commissions Sample.ledger
        /\ status_of w' 1000 = Some PENDING)
  /\ (selected Sample.broken_ledger [1000; 1001; 1002] <> []
      /\ exists w',
           CommissionService.bulkPayCommissions Sample.mg Sample.always_delivers
             [Sample.hex 1000; Sample.hex 1001; Sample.hex 1002] "ADMIN001"
             Sample.broken_ledger
           = (Ret (ResponseHelper.error_default
                     "Failed to process bulk commission payments"), w')
           /\ status_of w' 1000 = Some PAID
           /\ status_of w' 1001 = Some PAID
           /\ status_of w' 1002 = Some PENDING).
Proof.
  split.
  - split; [reflexivity|]. split; [reflexivity|].
    eexists. split; [vm_compute; reflexivity|]. split; reflexivity.
  - split; [discriminate|].
    eexists. split; [vm_compute; reflexivity|]. repeat split.
Qed.

(** C7, amended. When every given id is cast by the store to an ObjectId,
    in a store with distinct ids where the doctors of the selected
    commissions exist, [bulkPayCommissions] selects exactly the stored
    commissions whose id is among those given and whose status is PENDING
    (ids of PAID commissions and ids of no commission select nothing);
    when there is none it answers 404 and changes nothing; otherwise it
    leaves each selected commission PAID with a payment date (and
    otherwise unchanged), leaves every other commission as it was, and
    returns one result per selected commission with their amounts summed;
    the 404 answer occurs exactly when the selection is empty. *)
Theorem bulkPayCommissions_outcomes (mg : Mongoose) (transport : Transport)
  (raws : list string) (ids : list ObjectId) (paidBy : string) (w : World) :
  castObjectIds mg raws = Some ids ->
  NoDup (map ICommission._id (Commissions w)) ->
  doctors_resolve w (selected w ids) ->
  let sel := selected w ids in
  let r := CommissionService.bulkPayCommissions mg transport raws paidBy w in
  (forall c, In c sel <-> In c (Commissions w) /\ In (ICommission._id c) ids
                          /\ ICommission.paymentStatus c = PENDING)
  /\ (sel = [] ->
      r = (Ret (ResponseHelper.error "No pending commissions found" 404), w))
  /\ (sel <> [] ->
      fst r = Ret (ResponseHelper.success
                     (mkBulkData (List.length sel)
                        (JS.sum_by ICommission.amount sel)
                        (map (paid_result w) sel))
                     "commission payments processed successfully")
      /\ Forall2 (bulk_paid ids) (Commissions w) (Commissions (snd r)))
  /\ (forall resp, fst r = Ret resp -> (statusCode resp = 404 <-> sel = [])).
Proof.
  intros Hcast Hnd Hdoc sel r.
  assert (Hsel : forall c, In c sel <-> In c (Commissions w)
                                        /\ In (ICommission._id c) ids
                                        /\ ICommission.paymentStatus c = PENDING).
  { intros c. unfold sel, selected. rewrite filter_In, pending_among_spec.
    reflexivity. }
  assert (Hempty : sel = [] ->
            r = (Ret (ResponseHelper.error "No pending commissions found" 404), w)).
  { intros E. unfold r. rewrite bulkPayCommissions_run, Hcast. fold sel.
    rewrite E. reflexivity. }
  assert (Hsome : sel <> [] ->
            fst r = Ret (ResponseHelper.success
                           (mkBulkData (List.length sel)
                              (JS.sum_by ICommission.amount sel)
                              (map (paid_result w) sel))
                           "commission payments processed successfully")
            /\ Forall2 (bulk_paid ids) (Commissions w) (Commissions (snd r))).
  { intros Hne. unfold r. rewrite bulkPayCommissions_run, Hcast. fold sel.
    destruct (pay_each_ok transport paidBy w sel Hdoc [] w) as (w' & Hrun & Hcs).
    destruct sel as [|c rest] eqn:E; [contradiction|].
    rewrite Hrun. cbn [fst snd app].
    rewrite length_map, sum_by_map. split; [reflexivity|].
    rewrite Hcs, <- E. apply pay_all_selected. exact Hnd. }
  split; [exact Hsel|]. split; [exact Hempty|]. split; [exact Hsome|].
  intros resp Hresp. split.
  - intros Hcode. destruct sel as [|c rest] eqn:E; [reflexivity|].
    destruct Hsome as [Hfst _]; [discriminate|].
    rewrite Hfst in Hresp. inversion Hresp; subst resp. discriminate.
  - intros E. rewrite (Hempty E) in Hresp. inversion Hresp. reflexivity.
Qed.

Lemma bulkPayCommissions_outcomes_witness :
  castObjectIds Sample.mg
    [Sample.hex 1000; Sample.hex 1001; Sample.hex 1002; Sample.hex 7]
  = Some [1000; 1001; 1002; 7]
  /\ NoDup (map ICommission._id (Commissions Sample.ledger))
  /\ doctors_resolve Sample.ledger (selected Sample.ledger [1000; 1001; 1002; 7])
  /\ fst (CommissionService.bulkPayCommissions Sample.mg Sample.always_delivers
            [Sample.hex 1000; Sample.hex 1001; Sample.hex 1002; Sample.hex 7]
            "ADMIN001" Sample.ledger)
     = Ret (ResponseHelper.success
              (mkBulkData 2 37.25%float
                 [mkPaidResult 1000 "Asha Rao" 30%float true;
                  mkPaidResult 1002 "Asha Rao" 7.25%float true])
              "commission payments processed successfully")
  /\ Forall2 (bulk_paid [1000; 1001; 1002; 7]) (Commissions Sample.ledger)
       (Commissions
          (snd (CommissionService.bulkPayCommissions Sample.mg
                  Sample.always_delivers
                  [Sample.hex 1000; Sample.hex 1001; Sample.hex 1002; Sample.hex 7]
                  "ADMIN001" Sample.ledger)))
  /\ (selected Sample.ledger [1001; 7] = []
      /\ CommissionService.bulkPayCommissions Sample.mg Sample.always_delivers
           [Sample.hex 1001; Sample.hex 7] "ADMIN001" Sample.ledger
         = (Ret (ResponseHelper.error "No pending commissions found" 404),
            Sample.ledger)).
Proof.
  assert (Hnd : NoDup (map ICommission._id (Commissions Sample.ledger))).
  { simpl. repeat constructor; simpl; intuition discriminate. }
  assert (Hdoc : forall ids, doctors_resolve Sample.ledger
                               (selected Sample.ledger ids)).
  { intros ids. apply Forall_forall. intros c Hc.
    apply filter_In in Hc as [Hc _]. simpl in Hc.
    destruct Hc as [<- | [<- | [<- | []]]]; discriminate. }
  split; [reflexivity|]. split; [exact Hnd|]. split; [apply Hdoc|].
  destruct (bulkPayCommissions_outcomes Sample.mg Sample.always_delivers
              [Sample.hex 1000; Sample.hex 1001; Sample.hex 1002; Sample.hex 7]
              [1000; 1001; 1002; 7] "ADMIN001" Sample.ledger eq_refl Hnd (Hdoc _))
    as (_ & _ & Hsome & _).
  destruct Hsome as [Hfst Hstore]; [discriminate|].
  split; [rewrite Hfst; vm_compute; reflexivity|]. split; [exact Hstore|].
  split; [reflexivity|].
  destruct (bulkPayCommissions_outcomes Sample.mg Sample.always_delivers
              [Sample.hex 1001; Sample.hex 7] [1001; 7] "ADMIN001"
              Sample.ledger eq_refl Hnd (Hdoc _))
    as (_ & Hempty & _).
  apply Hempty. reflexivity.
Defined.

(** ** A failed notification changes nothing but the log *)

Lemma same_but_log_fields (w1 w2 : World) :
  same_but_log w1 w2 ->
  Commissions w1 = Commissions w2 /\ clock w1 = clock w2
  /\ Doctors w1 = Doctors w2 /\ next_oid w1 = next_oid w2.
Proof.
  unfold same_but_log, set_log. intros H. inversion H. auto.
Qed.

Lemma same_but_log_after_pay (w1 w2 : World) (c : ICommission.t)
  (l1 l2 : list LogEntry) :
  same_but_log w1 w2 ->
  same_but_log (set_log l1 (after_pay w1 (CommissionService.mark_paid c (clock w1))))
               (set_log l2 (after_pay w2 (CommissionService.mark_paid c (clock w2)))).
Proof.
  unfold same_but_log, set_log, after_pay, set_Commissions, set_clock.
  intros H. inversion H. simpl. congruence.
Qed.

Lemma pay_each_any_transport (t1 t2 : Transport) (paidBy : string)
  (ps : list (ICommission.t * option IDoctor.t)) :
  forall (results : list PaidResult) (w1 w2 : World),
    same_but_log w1 w2 ->
    fst (CommissionService.pay_each t1 paidBy ps results w1)
    = fst (CommissionService.pay_each t2 paidBy ps results w2)
    /\ same_but_log (snd (CommissionService.pay_each t1 paidBy ps results w1))
                    (snd (CommissionService.pay_each t2 paidBy ps results w2)).
Proof.
  induction ps as [|[c od] rest IH]; intros results w1 w2 H.
  - simpl. auto.
  - rewrite !pay_each_step. cbv zeta. destruct od as [d|].
    + apply IH. apply same_but_log_after_pay. exact H.
    + simpl. split; [reflexivity|].
      apply (same_but_log_after_pay w1 w2 c (log w1) (log w2) H).
Qed.

Lemma pay_each_log_grows (transport : Transport) (paidBy : string)
  (ps : list (ICommission.t * option IDoctor.t)) :
  forall (results : list PaidResult) (w0 : World),
  exists l,
    log (snd (CommissionService.pay_each transport paidBy ps results w0))
    = (log w0 ++ l)%list.
Proof.
  induction ps as [|[c od] rest IH]; intros results w0.
  - exists []. simpl. rewrite app_nil_r. reflexivity.
  - rewrite pay_each_step. cbv zeta. destruct od as [d|].
    + match goal with
      | |- context [CommissionService.pay_each _ _ _ ?rs ?w1] =>
          destruct (IH rs w1) as [l Hl]
      end.
      rewrite Hl. simpl. rewrite <- app_assoc. eexists. reflexivity.
    + exists []. simpl. rewrite app_nil_r. reflexivity.
Qed.

Lemma pay_each_failure_logged (transport : Transport) (paidBy : string)
  (c : ICommission.t) (d : IDoctor.t)
  (rest : list (ICommission.t * option IDoctor.t)) (results : list PaidResult)
  (w0 : World) :
  (forall options, transport options = false) ->
  In (ERROR, "Email sending failed:")
     (log (snd (CommissionService.pay_each transport paidBy
                  ((c, Some d) :: rest) results w0))).
Proof.
  intros Hfail. rewrite pay_each_step. cbv zeta.
  match goal with
  | |- context [CommissionService.pay_each _ _ _ ?rs ?w1] =>
      destruct (pay_each_log_grows transport paidBy rest rs w1) as [l Hl]
  end.
  rewrite Hl. simpl. unfold mail_log. rewrite Hfail.
  apply in_or_app. left. apply in_or_app. right. left. reflexivity.
Qed.

(** C8. For [payCommission] and [bulkPayCommissions] the mail transport's
    behaviour changes neither the response nor anything in the world but
    the log; and when the transport fails, [payCommission] on a payable
    commission still reports success, leaves the record PAID, and the
    failure is in the log. *)
Theorem notification_failure_swallowed (mg : Mongoose) (t1 t2 : Transport)
  (paidBy : string) (w : World) :
  (forall id,
      fst (CommissionService.payCommission mg t1 id paidBy w)
      = fst (CommissionService.payCommission mg t2 id paidBy w)
      /\ same_but_log (snd (CommissionService.payCommission mg t1 id paidBy w))
                      (snd (CommissionService.payCommission mg t2 id paidBy w)))
  /\ (forall ids,
        fst (CommissionService.bulkPayCommissions mg t1 ids paidBy w)
        = fst (CommissionService.bulkPayCommissions mg t2 ids paidBy w)
        /\ same_but_log
             (snd (CommissionService.bulkPayCommissions mg t1 ids paidBy w))
             (snd (CommissionService.bulkPayCommissions mg t2 ids paidBy w)))
  /\ (forall raw id c d,
        castObjectId mg raw = Some id ->
        lookup_commission w id = Some c ->
        ICommission.paymentStatus c <> PAID ->
        lookup_doctor w (ICommission.doctorId c) = Some d ->
        t1 (commission_mail d (CommissionService.mark_paid c (clock w))) = false ->
        let r := CommissionService.payCommission mg t1 raw paidBy w in
        fst r = Ret (ResponseHelper.success
                       (CommissionService.mark_paid c (clock w))
                       "Commission payment processed successfully")
        /\ status_of (snd r) id = Some PAID
        /\ In (ERROR, "Email sending failed:") (log (snd r)))
  /\ (forall raws ids,
        castObjectIds mg raws = Some ids ->
        selected w ids <> [] ->
        doctors_resolve w (selected w ids) ->
        (forall options, t1 options = false) ->
        let r := CommissionService.bulkPayCommissions mg t1 raws paidBy w in
        (exists resp, fst r = Ret resp /\ success resp = true
                      /\ statusCode resp = 200)
        /\ In (ERROR, "Email sending failed:") (log (snd r))).
Proof.
  split; [|split; [|split]].
  - intros raw. rewrite !payCommission_run.
    destruct (castObjectId mg raw) as [id|]; [|split; reflexivity].
    destruct (lookup_commission w id) as [c|]; [|split; reflexivity].
    destruct (PaymentStatus_eqb (ICommission.paymentStatus c) PAID);
      [split; reflexivity|].
    cbv zeta.
    destruct (lookup_doctor w (ICommission.doctorId c)); split; reflexivity.
  - intros raws. rewrite !bulkPayCommissions_run.
    destruct (castObjectIds mg raws) as [ids|]; [|split; reflexivity].
    destruct (selected w ids) as [|c rest]; [split; reflexivity|].
    destruct (pay_each_any_transport t1 t2 paidBy
                (map (with_doctor w) (c :: rest)) [] w w eq_refl) as [Hf Hs].
    destruct (CommissionService.pay_each t1 paidBy
                (map (with_doctor w) (c :: rest)) [] w) as [[r1|e1] w1];
    destruct (CommissionService.pay_each t2 paidBy
                (map (with_doctor w) (c :: rest)) [] w) as [[r2|e2] w2];
      simpl in Hf, Hs; try discriminate.
    + inversion Hf; subst r2. split; [reflexivity|].
      exact Hs.
    + split; [reflexivity|].
      unfold same_but_log, set_log in *. simpl. exact Hs.
  - intros raw id c d Hcast Hc Hp Hd Hfail r. subst r.
    rewrite payCommission_run, Hcast, Hc.
    destruct (PaymentStatus_eqb (ICommission.paymentStatus c) PAID) eqn:E;
      [apply PaymentStatus_eqb_eq in E; contradiction|].
    cbv zeta. rewrite Hd. unfold mail_log. rewrite Hfail.
    split; [reflexivity|]. split.
    + unfold status_of, lookup_commission. simpl.
      rewrite (lookup_after_replace _ c); [reflexivity | exact Hc |].
      unfold lookup_commission in Hc. apply find_some in Hc as [_ Hc].
      apply Nat.eqb_eq in Hc. exact Hc.
    + simpl. apply in_or_app. right. left. reflexivity.
  - intros raws ids Hcast Hne Hdoc Hfail r. subst r.
    rewrite bulkPayCommissions_run, Hcast.
    destruct (pay_each_ok t1 paidBy w (selected w ids) Hdoc [] w)
      as (w' & Hrun & _).
    destruct (selected w ids) as [|c rest] eqn:E; [contradiction|].
    rewrite Hrun. split; [eexists; split; [reflexivity|split; reflexivity]|].
    cbn [snd].
    replace w' with (snd (CommissionService.pay_each t1 paidBy
                            (map (with_doctor w) (c :: rest)) [] w))
      by (rewrite Hrun; reflexivity).
    simpl map. unfold with_doctor at 1.
    inversion Hdoc as [|c0 rest0 Hc _]; subst.
    destruct (lookup_doctor w (ICommission.doctorId c)) as [d|];
      [|contradiction].
    apply pay_each_failure_logged. exact Hfail.
Qed.

Lemma notification_failure_swallowed_witness :
  lookup_commission Sample.ledger 1000
  = Some (Sample.commission 1000 100 30%float PENDING)
  /\ lookup_doctor Sample.ledger 1 = Some Sample.doctor
  /\ fst (CommissionService.payCommission Sample.mg Sample.always_fails
            (Sample.hex 1000) "ADMIN001" Sample.ledger)
     = fst (CommissionService.payCommission Sample.mg Sample.always_delivers
              (Sample.hex 1000) "ADMIN001" Sample.ledger)
  /\ status_of (snd (CommissionService.payCommission Sample.mg
                       Sample.always_fails (Sample.hex 1000)
                       "ADMIN001" Sample.ledger)) 1000 = Some PAID
  /\ In (ERROR, "Email sending failed:")
        (log (snd (CommissionService.payCommission Sample.mg Sample.always_fails
                     (Sample.hex 1000) "ADMIN001" Sample.ledger)))
  /\ selected Sample.ledger [1000; 1002] <> []
  /\ doctors_resolve Sample.ledger (selected Sample.ledger [1000; 1002])
  /\ In (ERROR, "Email sending failed:")
        (log (snd (CommissionService.bulkPayCommissions Sample.mg
                     Sample.always_fails
                     [Sample.hex 1000; Sample.hex 1002] "ADMIN001"
                     Sample.ledger))).
Proof.
  destruct (notification_failure_swallowed Sample.mg Sample.always_fails
              Sample.always_delivers "ADMIN001" Sample.ledger)
    as (Hpay & _ & Hlog & Hbulk).
  split; [reflexivity|]. split; [reflexivity|].
  split; [apply (Hpay (Sample.hex 1000))|].
  destruct (Hlog (Sample.hex 1000) 1000
              (Sample.commission 1000 100 30%float PENDING)
              Sample.doctor eq_refl eq_refl) as (_ & Hs & Hl);
    [discriminate | reflexivity | reflexivity |].
  split; [assumption|]. split; [assumption|].
  assert (Hdoc : doctors_resolve Sample.ledger
                   (selected Sample.ledger [1000; 1002]))
    by (repeat constructor; discriminate).
  split; [discriminate|]. split; [exact Hdoc|].
  apply (Hbulk [Sample.hex 1000; Sample.hex 1002] [1000; 1002] eq_refl);
    [discriminate | exact Hdoc | reflexivity].
Defined.

(** ** At most one commission per order *)

Lemma keys_ids (cs : list ICommission.t) :
  map fst (keys cs) = map ICommission._id cs.
Proof. unfold keys. rewrite map_map. reflexivity. Qed.

Lemma keys_orders (cs : list ICommission.t) :
  map snd (keys cs) = map ICommission.orderId cs.
Proof. unfold keys. rewrite map_map. reflexivity. Qed.

Lemma replace_keys (p : ICommission.t) (coll : list ICommission.t) :
  (forall d, In d coll -> ICommission._id d = ICommission._id p ->
             ICommission.orderId d = ICommission.orderId p) ->
  keys (replace_commission p coll) = keys coll.
Proof.
  induction coll as [|d rest IH]; intros H; simpl; [reflexivity|].
  rewrite IH by (intros d' Hd'; apply H; right; exact Hd').
  destruct (Nat.eqb (ICommission._id d) (ICommission._id p)) eqn:E;
    [|reflexivity].
  apply Nat.eqb_eq in E. rewrite <- E, (H d (or_introl eq_refl) E). reflexivity.
Qed.

Lemma key_consistent (orig coll : list ICommission.t) (c : ICommission.t) :
  NoDup (map ICommission._id orig) ->
  keys coll = keys orig ->
  In c orig ->
  forall d, In d coll -> ICommission._id d = ICommission._id c ->
            ICommission.orderId d = ICommission.orderId c.
Proof.
  intros Hnd Hk Hc d Hd Hid.
  assert (Hin : In (ICommission._id d, ICommission.orderId d) (keys orig)).
  { rewrite <- Hk. unfold keys.
    apply (in_map (fun c => (ICommission._id c, ICommission.orderId c))).
    exact Hd. }
  unfold keys in Hin. apply in_map_iff in Hin as (d0 & Hkey & Hd0).
  inversion Hkey as [[Hid0 Hord0]].
  assert (d0 = c) by (eapply NoDup_map_eq; eauto; congruence).
  subst d0. congruence.
Qed.

Lemma invariants_same_keys (w w' : World) :
  keys (Commissions w') = keys (Commissions w) ->
  next_oid w <= next_oid w' ->
  ids_fresh w /\ one_commission_per_order w ->
  ids_fresh w' /\ one_commission_per_order w'.
Proof.
  intros Hk Hn [[Hnd Hlt] Hone].
  unfold ids_fresh, one_commission_per_order in *.
  rewrite <- keys_ids, <- keys_orders in *. rewrite Hk.
  split; [split|]; try assumption.
  rewrite Forall_forall in *. intros c Hc.
  assert (Hin : In (ICommission._id c) (map fst (keys (Commissions w')))).
  { rewrite keys_ids. apply in_map. exact Hc. }
  rewrite Hk, keys_ids in Hin. apply in_map_iff in Hin as (c0 & Hid & Hc0).
  specialize (Hlt c0 Hc0). lia.
Qed.

Lemma find_none_not_in (cs : list ICommission.t) (oid : ObjectId) :
  find (fun c => Nat.eqb (ICommission.orderId c) oid) cs = None ->
  ~ In oid (map ICommission.orderId cs).
Proof.
  intros H Hin. apply in_map_iff in Hin as (c & Hc & Hin).
  apply (find_none _ _ H) in Hin. rewrite Hc, Nat.eqb_refl in Hin. discriminate.
Qed.

Lemma invariants_append (w w' : World) (c : ICommission.t) :
  Commissions w' = (Commissions w ++ [c])%list ->
  next_oid w <= ICommission._id c < next_oid w' ->
  commission_for_order w (ICommission.orderId c) = None ->
  ids_fresh w /\ one_commission_per_order w ->
  ids_fresh w' /\ one_commission_per_order w'.
Proof.
  intros Hc Hid Hnone [[Hnd Hlt] Hone].
  unfold ids_fresh, one_commission_per_order in *. rewrite Hc, !map_app.
  simpl. split; [split|].
  - apply NoDup_app; [exact Hnd | repeat constructor; intros [] |].
    intros x Hx [<- | []]. apply in_map_iff in Hx as (c0 & E & Hc0).
    rewrite Forall_forall in Hlt. specialize (Hlt c0 Hc0). lia.
  - apply Forall_app. split.
    + eapply Forall_impl; [|exact Hlt]. simpl. intros; lia.
    + constructor; [lia | constructor].
  - apply NoDup_app; [exact Hone | repeat constructor; intros [] |].
    intros x Hx [<- | []]. revert Hx. apply find_none_not_in. exact Hnone.
Qed.

Lemma calculateCommission_invariants (mg : Mongoose) (raw : string) (w : World) :
  ids_fresh w /\ one_commission_per_order w ->
  let w' := snd (CommissionService.calculateCommission mg raw w) in
  ids_fresh w' /\ one_commission_per_order w'.
Proof.
  intros Hinv. cbv zeta. rewrite calculateCommission_run.
  destruct (castObjectId mg raw) as [orderId|]; [|exact Hinv].
  destruct (lookup_order w orderId) as [o|]; [|exact Hinv].
  destruct (referring_doctor w o) as [d|]; [|exact Hinv].
  destruct (commission_for_order w (ITestOrder._id o)) eqn:He; [exact Hinv|].
  cbv zeta.
  destruct (CommissionSchema_validate (new_commission w o d)
            && negb (duplicate_key CommissionSchema_indexes
                       (new_commission w o d) (Commissions w))); cbn [snd].
  - apply (invariants_append w _ (new_commission w o d)); simpl; auto.
  - apply (invariants_same_keys w); simpl; auto.
Qed.

Lemma payCommission_invariants (mg : Mongoose) (transport : Transport)
  (raw : string) (paidBy : string) (w : World) :
  ids_fresh w /\ one_commission_per_order w ->
  let w' := snd (CommissionService.payCommission mg transport raw paidBy w) in
  ids_fresh w' /\ one_commission_per_order w'.
Proof.
  intros Hinv. cbv zeta. rewrite payCommission_run.
  destruct (castObjectId mg raw) as [id|]; [|exact Hinv].
  destruct (lookup_commission w id) as [c|] eqn:Hc; [|exact Hinv].
  destruct (PaymentStatus_eqb (ICommission.paymentStatus c) PAID); [exact Hinv|].
  assert (Hk : keys (replace_commission
                       (CommissionService.mark_paid c (clock w)) (Commissions w))
               = keys (Commissions w)).
  { apply replace_keys. simpl.
    apply (key_consistent (Commissions w)); [apply Hinv | reflexivity |].
    apply find_some in Hc. apply Hc. }
  cbv zeta.
  destruct (lookup_doctor w (ICommission.doctorId c)); cbn [snd];
    apply (invariants_same_keys w); simpl; auto.
Qed.

Lemma pay_each_keys (transport : Transport) (paidBy : string)
  (orig : list ICommission.t) (ps : list (ICommission.t * option IDoctor.t)) :
  NoDup (map ICommission._id orig) ->
  (forall p, In p ps -> In (fst p) orig) ->
  forall (results : list PaidResult) (w0 : World),
    keys (Commissions w0) = keys orig ->
    let w' := snd (CommissionService.pay_each transport paidBy ps results w0) in
    keys (Commissions w') = keys orig /\ next_oid w' = next_oid w0.
Proof.
  intros Hnd. induction ps as [|[c od] rest IH]; intros Hin results w0 Hk.
  - simpl. auto.
  - cbv zeta. rewrite pay_each_step. cbv zeta.
    assert (Hk' : keys (replace_commission
                          (CommissionService.mark_paid c (clock w0))
                          (Commissions w0)) = keys orig).
    { rewrite replace_keys; [exact Hk|]. simpl.
      apply (key_consistent orig); [exact Hnd | exact Hk |].
      apply (Hin (c, od)). left. reflexivity. }
    destruct od as [d|].
    + match goal with
      | |- context [CommissionService.pay_each _ _ _ ?rs ?w1] =>
          destruct (IH (fun p Hp => Hin p (or_intror Hp)) rs w1) as [H1 H2]
      end; [exact Hk'|].
      split; [exact H1 | rewrite H2; reflexivity].
    + simpl. auto.
Qed.

Lemma bulkPayCommissions_invariants (mg : Mongoose) (transport : Transport)
  (raws : list string) (paidBy : string) (w : World) :
  ids_fresh w /\ one_commission_per_order w ->
  let w' := snd (CommissionService.bulkPayCommissions mg transport raws paidBy w) in
  ids_fresh w' /\ one_commission_per_order w'.
Proof.
  intros Hinv. cbv zeta. rewrite bulkPayCommissions_run.
  destruct (castObjectIds mg raws) as [ids|]; [|exact Hinv].
  destruct (selected w ids) as [|c rest] eqn:E; [exact Hinv|].
  destruct (pay_each_keys transport paidBy (Commissions w)
              (map (with_doctor w) (c :: rest)) (proj1 (proj1 Hinv)))
    with (results := @nil PaidResult) (w0 := w) as [Hk Hn];
    [|reflexivity|].
  { intros p Hp. apply in_map_iff in Hp as (c0 & <- & Hc0). simpl.
    rewrite <- E in Hc0. apply filter_In in Hc0. apply Hc0. }
  destruct (CommissionService.pay_each transport paidBy
              (map (with_doctor w) (c :: rest)) [] w) as [[results|e] w'];
    cbn [snd] in *; apply (invariants_same_keys w); simpl; auto; lia.
Qed.

Lemma createTestOrder_invariants (mg : Mongoose) (user : option AuthUser)
  (body : OPDController.CreateTestOrderBody) (w : World) :
  ids_fresh w /\ one_commission_per_order w ->
  let w' := snd (OPDController.createTestOrder mg user body w) in
  ids_fresh w' /\ one_commission_per_order w'.
Proof.
  intros Hinv. cbv zeta.
  destruct (createTestOrder_cases mg user body w)
    as [(resp & _ & _ & Hc & _ & Hn & _) | (order & w1 & doc & H)].
  - apply (invariants_same_keys w); [rewrite Hc; reflexivity | exact Hn | exact Hinv].
  - destruct H as (_ & _ & _ & _ & _ & _ & _ & _ & Hc1 & _ & _ & Hn1 & Hc & _ & Hn & _).
    assert (Hinv1 : ids_fresh w1 /\ one_commission_per_order w1).
    { apply (invariants_same_keys w);
        [rewrite Hc1; reflexivity | lia | exact Hinv]. }
    pose proof (calculateCommission_invariants mg
                  (ObjectId_toString mg (next_oid w)) w1 Hinv1) as H2.
    cbv zeta in H2.
    unfold ids_fresh, one_commission_per_order in *. rewrite Hc, Hn. exact H2.
Qed.

Lemma run_op_invariants (mg : Mongoose) (transport : Transport) (op : LedgerOp)
  (w : World) :
  ids_fresh w /\ one_commission_per_order w ->
  ids_fresh (run_op mg transport op w)
  /\ one_commission_per_order (run_op mg transport op w).
Proof.
  destruct op; simpl.
  - apply calculateCommission_invariants.
  - apply payCommission_invariants.
  - apply bulkPayCommissions_invariants.
  - apply createTestOrder_invariants.
Qed.

(** C2 as stated fails: the storage layer accepts a second commission
    for an order.  Two calls that both ran the pre-check on the same
    store (no commission for order 100 yet) and then both saved leave two
    commissions for that order; no index of the schema is unique. *)
Lemma commission_store_accepts_duplicates :
  commission_for_order Sample.world 100 = None
  /\ existsb ix_unique CommissionSchema_indexes = false
  /\ exists w1 w2,
       Commission.save_new (Sample.commission 1000 100 30%float PENDING)
         Sample.world = (Ret tt, w1)
       /\ Commission.save_new (Sample.commission 1001 100 30%float PENDING) w1
          = (Ret tt, w2)
       /\ map ICommission.orderId (Commissions w2) = [100; 100]
       /\ ~ one_commission_per_order w2.
Proof.
  split; [reflexivity|]. split; [reflexivity|].
  eexists; eexists. split; [vm_compute; reflexivity|].
  split; [vm_compute; reflexivity|]. split; [reflexivity|].
  unfold one_commission_per_order. simpl. intros H.
  inversion H as [|x xs Hnotin _]. apply Hnotin. left. reflexivity.
Qed.

(** C2, amended. The commission schema declares no unique index, so the
    store itself does not refuse a second commission for an order; it is
    the pre-check in [calculateCommission] that keeps the ledger at one
    commission per order: in a store with distinct ids, every sequence of
    ledger operations (calculate, pay, bulk pay, create order) preserves
    "no two commissions refer to the same order". *)
Theorem one_commission_per_order_by_precheck :
  forallb (fun ix => negb (ix_unique ix)) CommissionSchema_indexes = true
  /\ forall (mg : Mongoose) (transport : Transport) (ops : list LedgerOp)
            (w : World),
       ids_fresh w ->
       one_commission_per_order w ->
       ids_fresh (run_ops mg transport ops w)
       /\ one_commission_per_order (run_ops mg transport ops w).
Proof.
  split; [reflexivity|].
  intros mg transport ops. induction ops as [|op rest IH]; intros w Hf Ho; simpl.
  - auto.
  - destruct (run_op_invariants mg transport op w (conj Hf Ho)) as [Hf' Ho'].
    apply IH; assumption.
Qed.

Lemma one_commission_per_order_by_precheck_witness :
  ids_fresh Sample.world
  /\ one_commission_per_order Sample.world
  /\ one_commission_per_order
       (run_ops Sample.mg Sample.always_delivers
          [OpCalculate (Sample.hex 100); OpCalculate (Sample.hex 100);
           OpPay (Sample.hex 1000) "ADMIN001"; OpCalculate (Sample.hex 102);
           OpBulkPay [Sample.hex 1000; Sample.hex 1001] "ADMIN001";
           OpCalculate (Sample.hex 100)]
          Sample.world).
Proof.
  assert (Hf : ids_fresh Sample.world) by (split; constructor).
  assert (Ho : one_commission_per_order Sample.world) by constructor.
  split; [exact Hf|]. split; [exact Ho|].
  apply (proj2 one_commission_per_order_by_precheck); assumption.
Defined.

(** ** The profit margin of the financial statement *)

Example toFixed2_examples :
  JS.toFixed2 33.33333333333333%float = JS.Digits "33.33"
  /\ JS.toFixed2 0.125%float = JS.Digits "0.13"
  /\ JS.toFixed2 (-1.5)%float = JS.Digits "-1.50"
  /\ JS.toFixed2 100%float = JS.Digits "100.00"
  /\ JS.toFixed2 1.005%float = JS.Digits "1.00".
Proof. repeat split; vm_compute; reflexivity. Qed.

Lemma profit_margin_rule (netIncome revenue : number) :
  (JS.gt revenue 0%float = true ->
   profit_margin netIncome revenue
   = MarginText (JS.toFixed2 (netIncome / revenue * 100)%float))
  /\ (JS.gt revenue 0%float = false ->
      profit_margin netIncome revenue = MarginNumber 0%float).
Proof.
  unfold profit_margin. split; intros H; rewrite H; reflexivity.
Qed.

Lemma single_statement_margin
  (consultationRevenue testRevenue commissionsPaid : list (Group unit))
  (expensesByCategory : list (Group string)) :
  margin_rule (AccountsController.single_statement consultationRevenue
                 testRevenue commissionsPaid expensesByCategory).
Proof. apply profit_margin_rule. Qed.

Lemma finalize_branch_margin
  (byCategory : list (string * list (string * Group string)))
  (entry : string * AccountsController.Statement) :
  margin_rule (snd (AccountsController.finalize_branch byCategory entry)).
Proof. destruct entry as [branchId b]. apply profit_margin_rule. Qed.

Lemma grand_total_margin (branches : list AccountsController.Statement) :
  margin_rule (AccountsController.grand_total branches).
Proof. apply profit_margin_rule. Qed.

(** C9 as stated fails: with a positive revenue the statement reports the
    text of the margin fixed to two decimals, not the number
    [netIncome / totalRevenue * 100].  The branch manager's statement over
    the sample store has revenue 1500 and net income 1300; it reports
    ["86.67"], while the quotient is 86.66666666666667. *)
Lemma margin_reported_as_fixed_text :
  exists s,
    fst (AccountsController.getFinancialStatement Sample.calendar Sample.manager
           (AccountsController.mkStatementQuery None (Some 1%float)
              (Some 2025%float)) Sample.world)
    = Ret (mkHttp 200 true None
             (Some (AccountsController.StatementSingle 1%float 2025%float
                      "BR001" s)))
    /\ AccountsController.st_revenue_total s = 1500%float
    /\ AccountsController.st_netIncome s = 1300%float
    /\ AccountsController.st_profitMargin s = MarginText (JS.Digits "86.67")
    /\ (1300 / 1500 * 100)%float = 86.66666666666667%float
    /\ AccountsController.st_profitMargin s
       <> MarginNumber (AccountsController.st_netIncome s
                        / AccountsController.st_revenue_total s * 100)%float.
Proof.
  eexists. split; [vm_compute; reflexivity|].
  split; [reflexivity|]. split; [reflexivity|]. split; [reflexivity|].
  split; [vm_compute; reflexivity|]. discriminate.
Qed.

(** C9, amended. Every statement of the monthly financial statement
    (single-branch, per-branch and grand total) reports as profit margin
    the two-decimal text [toFixed(2)] of [netIncome / totalRevenue * 100]
    when the total revenue is positive, and the number 0 otherwise; in
    particular a revenue of 0 yields 0, also when expenses are 0. *)
Theorem financial_statement_margin (cal : Calendar) (user : option AuthUser)
  (q : AccountsController.StatementQuery) (w : World) :
  exists resp,
    fst (AccountsController.getFinancialStatement cal user q w) = Ret resp
    /\ forall d, http_data resp = Some d ->
         Forall margin_rule (statements_of d)
         /\ Forall (fun s => AccountsController.st_revenue_total s = 0%float ->
                             AccountsController.st_profitMargin s
                             = MarginNumber 0%float) (statements_of d).
Proof.
  assert (Hzero : forall s, margin_rule s ->
            AccountsController.st_revenue_total s = 0%float ->
            AccountsController.st_profitMargin s = MarginNumber 0%float).
  { intros s [_ H] E. apply H. rewrite E. reflexivity. }
  assert (Hall : forall l, Forall margin_rule l ->
            Forall margin_rule l
            /\ Forall (fun s => AccountsController.st_revenue_total s = 0%float ->
                                AccountsController.st_profitMargin s
                                = MarginNumber 0%float) l).
  { intros l H. split; [exact H|]. eapply Forall_impl; [|exact H]. exact Hzero. }
  unfold AccountsController.getFinancialStatement, try_catch,
    AccountsController.getFinancialStatement_body.
  destruct (AccountsController.sq_month q) as [month|];
    [|eexists; split; [reflexivity | intros d Hd; discriminate]].
  destruct (AccountsController.sq_year q) as [year|];
    [|eexists; split; [reflexivity | intros d Hd; discriminate]].
  cbv zeta.
  destruct (branch_wise user (AccountsController.sq_branchId q)).
  - match goal with
    | |- context [fold_left AccountsController.expenses_step ?xs ?init] =>
        destruct (fold_left AccountsController.expenses_step xs init)
          as [byCategory branchDataMap]
    end.
    eexists. split; [reflexivity|]. intros d Hd. inversion Hd; subst d.
    apply Hall. simpl. apply Forall_app. split.
    + unfold map_values. rewrite map_map. apply Forall_forall.
      intros s Hs. apply in_map_iff in Hs as (entry & <- & _).
      apply finalize_branch_margin.
    + constructor; [apply grand_total_margin | constructor].
  - eexists. split; [reflexivity|]. intros d Hd. inversion Hd; subst d.
    apply Hall. simpl. constructor; [apply single_statement_margin | constructor].
Qed.

Lemma financial_statement_margin_witness :
  exists resp d s,
    fst (AccountsController.getFinancialStatement Sample.calendar Sample.manager
           (AccountsController.mkStatementQuery None (Some 1%float)
              (Some 2025%float)) Sample.empty) = Ret resp
    /\ http_data resp = Some d
    /\ statements_of d = [s]
    /\ AccountsController.st_revenue_total s = 0%float
    /\ AccountsController.st_expenses_total s = 0%float
    /\ AccountsController.st_profitMargin s = MarginNumber 0%float.
Proof.
  destruct (financial_statement_margin Sample.calendar Sample.manager
              (AccountsController.mkStatementQuery None (Some 1%float)
                 (Some 2025%float)) Sample.empty) as (resp & Hrun & Hrule).
  assert (Hresp : Ret resp
            = Ret (mkHttp 200 true None
                     (Some (AccountsController.StatementSingle 1%float 2025%float
                              "BR001"
                              (AccountsController.single_statement [] [] [] [])))))
    by (rewrite <- Hrun; vm_compute; reflexivity).
  inversion Hresp as [E]. clear Hresp.
  exists resp, (AccountsController.StatementSingle 1%float 2025%float "BR001"
                  (AccountsController.single_statement [] [] [] [])),
         (AccountsController.single_statement [] [] [] []).
  split; [exact Hrun|]. split; [rewrite E; reflexivity|].
  split; [reflexivity|]. split; [vm_compute; reflexivity|].
  split; [vm_compute; reflexivity|].
  destruct (Hrule (AccountsController.StatementSingle 1%float 2025%float "BR001"
                     (AccountsController.single_statement [] [] [] [])))
    as [_ Hzero]; [rewrite E; reflexivity|].
  simpl in Hzero. inversion Hzero as [|s l Hs _]; subst.
  apply Hs. vm_compute. reflexivity.
Defined.

(** ** Branch scope of the accounts reports *)

(** C1 as stated fails on the accounts reports: a branch manager of BR001
    who asks for the daily collection of BR002 is not answered 403; the
    request succeeds with status 200 and carries the figures of BR001. *)
Lemma accounts_report_answers_other_branch_request :
  isAdmin Sample.manager = false
  /\ user_branchId Sample.manager = Some "BR001"
  /\ exists date collections summary,
       fst (AccountsController.daily_collection_route Sample.calendar
              Sample.manager
              (AccountsController.mkDailyQuery (Some "BR002") None None None)
              Sample.world)
       = Ret (mkHttp 200 true None
                (Some (AccountsController.DailySingle date "BR001" collections
                         summary)))
       /\ AccountsController.sm_totalCollection summary = 1500%float.
Proof.
  split; [reflexivity|]. split; [reflexivity|].
  eexists; eexists; eexists. split; [vm_compute; reflexivity|]. reflexivity.
Qed.

(** A filter that implies another one sees the same documents before and
    after the other one is applied. *)
Lemma filter_absorb {A : Type} (f g : A -> bool) (l : list A) :
  (forall x, f x = true -> g x = true) ->
  filter f (filter g l) = filter f l.
Proof.
  intros Himp. induction l as [|x rest IH]; simpl; [reflexivity|].
  destruct (g x) eqn:Hg; simpl.
  - rewrite IH. reflexivity.
  - destruct (f x) eqn:Hf; [|exact IH].
    apply Himp in Hf. congruence.
Qed.

Lemma scoped_absorbs {A : Type} (own : option string) (branch : A -> string)
  (p q : A -> bool) (l : list A) :
  filter (fun x => p x && branch_matches (BranchIs own) (branch x) && q x)
    (filter (fun x => in_branch own (branch x)) l)
  = filter (fun x => p x && branch_matches (BranchIs own) (branch x) && q x) l.
Proof.
  apply filter_absorb. intros x H.
  apply andb_prop in H. destruct H as [H _].
  apply andb_prop in H. destruct H as [_ H].
  destruct own; exact H.
Qed.

Lemma scoped_absorbs2 {A : Type} (own : option string) (branch : A -> string)
  (p : A -> bool) (l : list A) :
  filter (fun x => p x && branch_matches (BranchIs own) (branch x))
    (filter (fun x => in_branch own (branch x)) l)
  = filter (fun x => p x && branch_matches (BranchIs own) (branch x)) l.
Proof.
  apply filter_absorb. intros x H.
  apply andb_prop in H. destruct H as [_ H].
  destruct own; exact H.
Qed.

(** For a caller who is not an administrator, the daily collection reads
    the documents of the caller's branch only. *)
Lemma getDailyCollection_reads_own_branch (cal : Calendar)
  (user : option AuthUser) (q : AccountsController.DailyQuery) (w : World) :
  isAdmin user = false ->
  fst (AccountsController.getDailyCollection cal user q
         (own_branch_store (user_branchId user) w))
  = fst (AccountsController.getDailyCollection cal user q w).
Proof.
  intros Hadmin.
  unfold AccountsController.getDailyCollection,
    AccountsController.getDailyCollection_body, try_catch, bind,
    resolve_branchFilter, branch_wise.
  rewrite Hadmin. cbn [negb andb].
  destruct (AccountsController.dq_date q) as [d|];
    [|destruct (AccountsController.dq_startDate q) as [s|];
      [destruct (AccountsController.dq_endDate q) as [e|]|]];
    cbn [ret new_Date fst snd own_branch_store set_clock Visits TestOrders
         Expenses clock];
    rewrite !scoped_absorbs, !scoped_absorbs2; reflexivity.
Qed.

Lemma getFinancialStatement_reads_own_branch (cal : Calendar)
  (user : option AuthUser) (q : AccountsController.StatementQuery) (w : World) :
  isAdmin user = false ->
  fst (AccountsController.getFinancialStatement cal user q
         (own_branch_store (user_branchId user) w))
  = fst (AccountsController.getFinancialStatement cal user q w).
Proof.
  intros Hadmin.
  unfold AccountsController.getFinancialStatement,
    AccountsController.getFinancialStatement_body, try_catch,
    resolve_branchFilter, branch_wise.
  rewrite Hadmin. cbn [negb andb].
  destruct (AccountsController.sq_month q) as [month|];
    [destruct (AccountsController.sq_year q) as [year|]|];
    try reflexivity.
  cbn [fst snd own_branch_store Visits TestOrders Expenses Commissions].
  rewrite !scoped_absorbs, !scoped_absorbs2. reflexivity.
Qed.

(** C1, amended. For a caller who is not an administrator the accounts
    reports ignore the requested branch id instead of refusing it: the
    branch filter is the caller's own branch; the daily collection and
    the financial statement are the same whatever branch id the request
    carries, and the same once every document of another branch is taken
    out of the store; the daily collection answers 200 under the label of
    the caller's own branch, the financial statement 200 or 400, and the
    daily-collection route never answers [Branch access denied].  That
    answer, with status 403, is the one of the [checkBranchAccess] guard
    for a request that names a branch other than the caller's. *)
Theorem accounts_scope_is_own_branch (cal : Calendar) (user : option AuthUser) :
  isAdmin user = false ->
  (forall requested,
      resolve_branchFilter user requested = BranchIs (user_branchId user))
  /\ (forall b1 b2 date startDate endDate w,
        AccountsController.getDailyCollection cal user
          (AccountsController.mkDailyQuery b1 date startDate endDate) w
        = AccountsController.getDailyCollection cal user
            (AccountsController.mkDailyQuery b2 date startDate endDate) w)
  /\ (forall b1 b2 month year w,
        AccountsController.getFinancialStatement cal user
          (AccountsController.mkStatementQuery b1 month year) w
        = AccountsController.getFinancialStatement cal user
            (AccountsController.mkStatementQuery b2 month year) w)
  /\ (forall q w,
        fst (AccountsController.getDailyCollection cal user q
               (own_branch_store (user_branchId user) w))
        = fst (AccountsController.getDailyCollection cal user q w))
  /\ (forall q w,
        fst (AccountsController.getFinancialStatement cal user q
               (own_branch_store (user_branchId user) w))
        = fst (AccountsController.getFinancialStatement cal user q w))
  /\ (forall q w,
        exists date collections summary,
          fst (AccountsController.getDailyCollection cal user q w)
          = Ret (mkHttp 200 true None
                   (Some (AccountsController.DailySingle date
                            (own_label (user_branchId user)) collections
                            summary))))
  /\ (forall q w,
        exists res,
          fst (AccountsController.getFinancialStatement cal user q w) = Ret res
          /\ (http_status res = 200 \/ http_status res = 400))
  /\ (forall q w,
        exists res : HttpResponse AccountsController.DailyData,
          fst (AccountsController.daily_collection_route cal user q w) = Ret res
          /\ http_message res <> Some "Branch access denied")
  /\ (forall (queryKept : bool) u req,
        user = Some u ->
        RbacMiddleware.field_truthy (RbacMiddleware.branchIdFromParams req) = true ->
        RbacMiddleware.field_is (RbacMiddleware.branchIdFromParams req)
          (u_branchId u) = false ->
        @RbacMiddleware.checkBranchAccess unit queryKept user req
        = Respond (mkHttp 403 false (Some "Branch access denied") None)).
Proof.
  intros Hadmin.
  assert (Hfilter : forall requested,
            resolve_branchFilter user requested = BranchIs (user_branchId user)).
  { intros requested. unfold resolve_branchFilter. rewrite Hadmin. reflexivity. }
  assert (Hwise : forall requested, branch_wise user requested = false).
  { intros requested. unfold branch_wise. rewrite Hadmin. reflexivity. }
  assert (Hdaily : forall q w,
            exists date collections summary,
              fst (AccountsController.getDailyCollection cal user q w)
              = Ret (mkHttp 200 true None
                       (Some (AccountsController.DailySingle date
                                (own_label (user_branchId user)) collections
                                summary)))).
  { intros q w.
    unfold AccountsController.getDailyCollection,
      AccountsController.getDailyCollection_body, try_catch, bind.
    rewrite Hwise, Hfilter.
    change (branch_label (BranchIs (user_branchId user)))
      with (own_label (user_branchId user)).
    destruct (AccountsController.dq_date q) as [d|]; simpl.
    - eexists; eexists; eexists. reflexivity.
    - destruct (AccountsController.dq_startDate q) as [s|];
        [destruct (AccountsController.dq_endDate q) as [e|]|];
        simpl; eexists; eexists; eexists; reflexivity. }
  split; [exact Hfilter|].
  split; [|split; [|split; [|split; [|split; [|split; [|split]]]]]].
  - intros b1 b2 date startDate endDate w.
    unfold AccountsController.getDailyCollection,
      AccountsController.getDailyCollection_body. simpl.
    rewrite !Hfilter, !Hwise. reflexivity.
  - intros b1 b2 month year w.
    unfold AccountsController.getFinancialStatement,
      AccountsController.getFinancialStatement_body. simpl.
    rewrite !Hfilter, !Hwise. reflexivity.
  - intros q w. apply getDailyCollection_reads_own_branch. exact Hadmin.
  - intros q w. apply getFinancialStatement_reads_own_branch. exact Hadmin.
  - exact Hdaily.
  - intros q w.
    unfold AccountsController.getFinancialStatement,
      AccountsController.getFinancialStatement_body, try_catch.
    rewrite Hwise.
    destruct (AccountsController.sq_month q) as [month|];
      [destruct (AccountsController.sq_year q) as [year|]|];
      simpl; eexists; (split; [reflexivity|]); simpl; auto.
  - intros q w. unfold AccountsController.daily_collection_route.
    destruct (authorize [ADMIN; BRANCH_MANAGER; OPD_STAFF] user)
      as [user'|res] eqn:Hauth.
    + assert (user' = user) as ->.
      { unfold authorize in Hauth. destruct user as [u|]; [|discriminate].
        destruct (existsb _ _); [|discriminate]. congruence. }
      destruct (Hdaily q w) as (date & collections & summary & Hres).
      eexists. split; [exact Hres|]. simpl. discriminate.
    + exists res. split; [reflexivity|].
      unfold authorize in Hauth. destruct user as [u|].
      * destruct (existsb _ _); [discriminate|].
        injection Hauth as <-. simpl. discriminate.
      * injection Hauth as <-. simpl. discriminate.
  - intros queryKept u req -> Ht Hne. unfold RbacMiddleware.checkBranchAccess.
    unfold isAdmin in Hadmin. rewrite Hadmin, Ht, Hne. reflexivity.
Qed.

Lemma accounts_scope_is_own_branch_witness :
  isAdmin Sample.manager = false
  /\ resolve_branchFilter Sample.manager (Some "BR002") = BranchIs (Some "BR001")
  /\ AccountsController.getDailyCollection Sample.calendar Sample.manager
       (AccountsController.mkDailyQuery (Some "BR002") None None None)
       Sample.world
     = AccountsController.getDailyCollection Sample.calendar Sample.manager
         (AccountsController.mkDailyQuery (Some "BR001") None None None)
         Sample.world
  /\ fst (AccountsController.getDailyCollection Sample.calendar Sample.manager
            (AccountsController.mkDailyQuery (Some "BR002") None None None)
            (own_branch_store (Some "BR001") Sample.world))
     = fst (AccountsController.getDailyCollection Sample.calendar Sample.manager
              (AccountsController.mkDailyQuery (Some "BR002") None None None)
              Sample.world)
  /\ @RbacMiddleware.checkBranchAccess unit true Sample.manager
       (RbacMiddleware.mkBranchRequest true RbacMiddleware.Missing
          RbacMiddleware.Missing (RbacMiddleware.Text "BR002"))
     = Respond (mkHttp 403 false (Some "Branch access denied") None).
Proof.
  destruct (accounts_scope_is_own_branch Sample.calendar Sample.manager eq_refl)
    as (Hfilter & Hdaily & _ & Hown & _ & _ & _ & _ & Hguard).
  split; [reflexivity|]. split; [apply Hfilter|]. split; [apply Hdaily|].
  split; [apply Hown|].
  apply (Hguard true (mkAuthUser "BR001-BRANCH001" BRANCH_MANAGER (Some "BR001")
                        (Some 7))); reflexivity.
Defined.

(** ** The order's commission amount and the ledger's *)

Lemma order_sums_commission (mg : Mongoose) (details : list ITest.t)
  (tests : list OPDController.OrderTestInput) (acc : OPDController.OrderSums) :
  OPDController.os_commissionAmount
    (fold_left (OPDController.order_line mg details) tests acc)
  = fold_left (creation_commission mg details) tests
      (OPDController.os_commissionAmount acc).
Proof.
  revert acc. induction tests as [|t rest IH]; intros acc; simpl; [reflexivity|].
  rewrite IH. f_equal.
  unfold OPDController.order_line, creation_commission, detail_of.
  destruct (find _ details); reflexivity.
Qed.

Lemma order_sums_lines (mg : Mongoose) (details : list ITest.t)
  (tests : list OPDController.OrderTestInput) (acc : OPDController.OrderSums) :
  OPDController.os_orderTests
    (fold_left (OPDController.order_line mg details) tests acc)
  = (OPDController.os_orderTests acc ++ map (draft_of mg details) tests)%list.
Proof.
  revert acc. induction tests as [|t rest IH]; intros acc; simpl.
  - rewrite app_nil_r. reflexivity.
  - rewrite IH.
    assert (Hstep : OPDController.os_orderTests
                      (OPDController.order_line mg details acc t)
                    = (OPDController.os_orderTests acc
                       ++ [draft_of mg details t])%list).
    { unfold OPDController.order_line, draft_of, detail_of.
      destruct (find _ details); reflexivity. }
    rewrite Hstep, <- app_assoc. reflexivity.
Qed.

Lemma cast_lines_stored (mg : Mongoose) (details : list ITest.t)
  (tests : list OPDController.OrderTestInput) :
  forall lines,
    OPDController.cast_lines mg (map (draft_of mg details) tests) = Some lines ->
    Forall2 (stored_from mg details) tests lines.
Proof.
  induction tests as [|t rest IH]; intros lines H; simpl in H.
  - inversion H. constructor.
  - destruct (castObjectId mg (OPDController.in_testId t)) as [tid|] eqn:Htid;
      [|discriminate].
    destruct (if negb (String.eqb (OPDController.in_testName t) "")
              then Some (OPDController.in_testName t)
              else option_map ITest.testName (detail_of mg details t)) as [n|];
      [|discriminate].
    destruct (if JS.truthy (OPDController.in_price t)
              then Some (OPDController.in_price t)
              else option_map ITest.price (detail_of mg details t)) as [p|] eqn:Hp;
      [|discriminate].
    destruct (OPDController.cast_lines mg (map (draft_of mg details) rest))
      as [ls|];
      [|discriminate].
    destruct (negb (String.eqb n "") && JS.ge p 0%float); [|discriminate].
    inversion H; subst lines. constructor; [|apply IH; reflexivity].
    split; [exact Htid|]. intros td Htd. simpl.
    unfold JS.or_else. rewrite Htd in Hp.
    destruct (JS.truthy (OPDController.in_price t)); simpl in Hp; congruence.
Qed.

Lemma totals_from_stored (mg : Mongoose) (w : World) (details : list ITest.t)
  (tests : list OPDController.OrderTestInput) (lines : list IOrderTest.t) :
  Forall2 (stored_from mg details) tests lines ->
  (forall t, In t tests ->
     exists td id,
       castObjectId mg (OPDController.in_testId t) = Some id
       /\ detail_of mg details t = Some td
       /\ lookup_test w id = Some td
       /\ JS.ge (ITest.commissionRate td) 0%float = true
       /\ JS.le (ITest.commissionRate td) 100%float = true) ->
  forall acc,
    totalCommission
      (fold_left CommissionService.accumulate (populated_lines w lines) acc)
    = fold_left (creation_commission mg details) tests (totalCommission acc).
Proof.
  intros H. induction H as [|t l tests lines [Hid Hprice] _ IH]; intros Hall acc.
  - reflexivity.
  - simpl. rewrite IH by (intros t' Ht'; apply Hall; right; exact Ht').
    f_equal.
    destruct (Hall t (or_introl eq_refl)) as (td & id & Hc & Hd & Hl & Hge & Hle).
    rewrite Hc in Hid. injection Hid as Hid. subst id.
    unfold CommissionService.accumulate, CommissionService.qualifies,
      creation_commission, CommissionService.line_commission,
      CommissionService.line_rate.
    simpl. rewrite Hl, Hd, Hge, Hle, (Hprice td Hd). reflexivity.
Qed.

(** The texts of a list that casts, one by one. *)
Lemma castObjectIds_each (mg : Mongoose) (raws : list string) :
  forall ids, castObjectIds mg raws = Some ids ->
              Forall2 (fun raw id => castObjectId mg raw = Some id) raws ids.
Proof.
  induction raws as [|raw rest IH]; intros ids H; simpl in H.
  - injection H as <-. constructor.
  - destruct (castObjectId mg raw) as [id|] eqn:Hid; [|discriminate].
    destruct (castObjectIds mg rest) as [ids'|]; [|discriminate].
    injection H as <-. constructor; [exact Hid | apply IH; reflexivity].
Qed.

Lemma Forall2_in_left {A B : Type} (R : A -> B -> Prop) (xs : list A)
  (ys : list B) (x : A) :
  Forall2 R xs ys -> In x xs -> exists y, In y ys /\ R x y.
Proof.
  intros H. induction H as [|a b xs ys Hab _ IH]; intros Hin; [contradiction|].
  destruct Hin as [<- | Hin].
  - exists b. split; [left; reflexivity | exact Hab].
  - destruct (IH Hin) as (y & Hy & Hr). exists y. split; [right|]; assumption.
Qed.

Lemma Forall2_same_length {A B : Type} (R : A -> B -> Prop) (xs : list A)
  (ys : list B) :
  Forall2 R xs ys -> List.length xs = List.length ys.
Proof.
  intros H. induction H; simpl; congruence.
Qed.

(** Two ids the store writes the same way are the same id. *)
Lemma ObjectId_toString_injective (mg : Mongoose) (a b : ObjectId) :
  ObjectId_toString mg a = ObjectId_toString mg b -> a = b.
Proof.
  intros E. apply (f_equal (castObjectId mg)) in E.
  rewrite !cast_toString in E. congruence.
Qed.

(** When as many active tests are found as lines were requested, test ids
    are distinct and the request writes its test ids as the store does,
    every requested line has its test: the one a lookup by the cast id
    returns. *)
Lemma requested_all_found (mg : Mongoose) (w : World)
  (body : OPDController.CreateTestOrderBody) :
  NoDup (map ITest._id (Tests w)) ->
  written_as_stored mg body ->
  requested_ids mg body <> None ->
  List.length (requested_tests mg w body)
  = List.length (OPDController.b_tests body) ->
  forall t, In t (OPDController.b_tests body) ->
    exists td id,
      castObjectId mg (OPDController.in_testId t) = Some id
      /\ detail_of mg (requested_tests mg w body) t = Some td
      /\ lookup_test w id = Some td
      /\ In td (requested_tests mg w body).
Proof.
  intros Hnd Hwritten Hsome Hlen t Ht.
  unfold requested_tests in *.
  destruct (requested_ids mg body) as [ids|] eqn:Hids; [|contradiction].
  unfold requested_ids in Hids. apply castObjectIds_each in Hids.
  pose proof (Forall2_same_length _ _ _ Hids) as Hlen'.
  rewrite length_map in Hlen'.
  set (found := Test.find_active_in ids w) in *.
  assert (Hnd' : NoDup (map ITest._id found))
    by (apply NoDup_map_filter; exact Hnd).
  assert (Hincl : incl (map ITest._id found) ids).
  { intros x Hx. apply in_map_iff in Hx as (td & <- & Htd).
    apply filter_In in Htd as [_ Hp]. apply andb_true_iff in Hp as [Hp _].
    apply existsb_exists in Hp as (y & Hy & E). apply Nat.eqb_eq in E.
    rewrite E. exact Hy. }
  assert (Hback : incl ids (map ITest._id found)).
  { apply NoDup_length_incl; [exact Hnd' | | exact Hincl].
    rewrite length_map, Hlen, Hlen'. apply le_n. }
  destruct (Forall2_in_left _ _ _ (OPDController.in_testId t) Hids
              (in_map _ _ _ Ht)) as (id & Hid & Hcast).
  pose proof (Hwritten t id Ht Hcast) as Htext.
  assert (Hin : In id (map ITest._id found)) by (apply Hback; exact Hid).
  apply in_map_iff in Hin as (td0 & Hid0 & Htd0).
  unfold detail_of.
  destruct (find (fun td => String.eqb (ObjectId_toString mg (ITest._id td))
                                       (OPDController.in_testId t)) found)
    as [td|] eqn:Hfind.
  - exists td, id. split; [exact Hcast|]. split; [reflexivity|].
    apply find_some in Hfind as [Htd Heq]. apply String.eqb_eq in Heq.
    rewrite Htext in Heq. apply ObjectId_toString_injective in Heq.
    split; [|exact Htd].
    assert (Hw : In td (Tests w)) by (apply filter_In in Htd; apply Htd).
    unfold lookup_test.
    destruct (find (fun t0 => Nat.eqb (ITest._id t0) id) (Tests w))
      as [td'|] eqn:Hl.
    + apply find_some in Hl as [Htd' Hid']. apply Nat.eqb_eq in Hid'.
      f_equal. apply (NoDup_map_eq ITest._id (Tests w) td' td Hnd Htd' Hw).
      congruence.
    + apply (find_none _ _ Hl) in Hw. rewrite Heq, Nat.eqb_refl in Hw.
      discriminate.
  - apply (find_none _ _ Hfind) in Htd0.
    rewrite Hid0, Htext, String.eqb_refl in Htd0. discriminate.
Qed.

(** C10 as stated fails: for two lines at price 1 with rates 10 and 20
    (both within [0,100]) order creation stores the plain binary64 sum
    0.1 + 0.2 = 0.30000000000000004 as [commissionAmount], while the
    commission calculated for the same order stores that sum rounded once
    more, 0.3. *)
Lemma order_and_ledger_amounts_differ :
  exists order c,
    fst (OPDController.createTestOrder Sample.mg Sample.manager Sample.request
           Sample.world)
    = Ret (mkHttp 201 true (Some "Test order created successfully") (Some order))
    /\ Commissions (snd (OPDController.createTestOrder Sample.mg Sample.manager
                           Sample.request Sample.world)) = [c]
    /\ ICommission.orderId c = ITestOrder._id order
    /\ map ITest.commissionRate
         (requested_tests Sample.mg Sample.world Sample.request)
       = [10%float; 20%float]
    /\ ITestOrder.commissionAmount order = 0.30000000000000004%float
    /\ ICommission.amount c = 0.3%float
    /\ ICommission.amount c <> ITestOrder.commissionAmount order.
Proof.
  eexists; eexists.
  split; [vm_compute; reflexivity|].
  split; [vm_compute; reflexivity|].
  split; [reflexivity|]. split; [reflexivity|].
  split; [reflexivity|]. split; [reflexivity|].
  simpl. intros E.
  apply (f_equal (fun x => PrimFloat.eqb x 0.3%float)) in E.
  vm_compute in E. discriminate.
Qed.

(** C10, amended. When order creation answers 201 and the commission
    calculation it triggers adds a commission [c], with distinct test
    ids, every test id of the request written as the store writes it and
    every requested test's rate within [0,100], that commission refers to
    the new order and its amount is the order's [commissionAmount] rounded
    once more to two decimals.  The two amounts coincide exactly when that
    sum is left as it is by the rounding. *)
Theorem ledger_amount_is_rounded_order_amount (mg : Mongoose)
  (user : option AuthUser) (body : OPDController.CreateTestOrderBody)
  (w : World) (order : ITestOrder.t) (c : ICommission.t) :
  NoDup (map ITest._id (Tests w)) ->
  written_as_stored mg body ->
  (forall td, In td (requested_tests mg w body) ->
              JS.ge (ITest.commissionRate td) 0%float = true
              /\ JS.le (ITest.commissionRate td) 100%float = true) ->
  fst (OPDController.createTestOrder mg user body w)
  = Ret (mkHttp 201 true (Some "Test order created successfully") (Some order)) ->
  Commissions (snd (OPDController.createTestOrder mg user body w))
  = (Commissions w ++ [c])%list ->
  ICommission.orderId c = ITestOrder._id order
  /\ ICommission.amount c = round2 (ITestOrder.commissionAmount order)
  /\ rounded2 (ITestOrder.commissionAmount order) (ICommission.amount c)
  /\ (ICommission.amount c = ITestOrder.commissionAmount order
      <-> round2 (ITestOrder.commissionAmount order)
          = ITestOrder.commissionAmount order).
Proof.
  intros Hnd Hwritten Hrates Hresp Hadded.
  destruct (createTestOrder_cases mg user body w)
    as [(resp & Hfst & Hcode & _) | (order' & w1 & doc & H)].
  { rewrite Hfst in Hresp. inversion Hresp; subst resp. simpl in Hcode.
    contradiction. }
  destruct H as (Hfst & Hid & Hdoc & Hlen & Hamount & Hcast & Hnew & Horders
                 & Hc1 & Hd1 & Ht1 & Hn1 & Hc & _ & _ & _ & Hsome).
  rewrite Hfst in Hresp. inversion Hresp; subst order'. clear Hresp.
  rewrite Hc in Hadded. clear Hc.
  assert (Hlookup : lookup_order w1 (next_oid w) = Some order).
  { unfold lookup_order in *. rewrite Horders.
    apply find_app_none; [exact Hnew | rewrite Hid; apply Nat.eqb_refl]. }
  assert (Hgrow : forall (xs : list ICommission.t) x, xs <> (xs ++ [x])%list).
  { intros xs x E. apply (f_equal (@List.length _)) in E.
    rewrite length_app in E. simpl in E. lia. }
  rewrite calculateCommission_run, cast_toString, Hlookup in Hadded.
  destruct (referring_doctor w1 order) as [d|];
    [|simpl in Hadded; rewrite Hc1 in Hadded; apply Hgrow in Hadded; contradiction].
  destruct (commission_for_order w1 (ITestOrder._id order));
    [simpl in Hadded; rewrite Hc1 in Hadded; apply Hgrow in Hadded; contradiction|].
  cbv zeta in Hadded.
  destruct (CommissionSchema_validate (new_commission w1 order d)
            && negb (duplicate_key CommissionSchema_indexes
                       (new_commission w1 order d) (Commissions w1)));
    [|simpl in Hadded; rewrite Hc1 in Hadded; apply Hgrow in Hadded; contradiction].
  simpl in Hadded. rewrite Hc1 in Hadded.
  apply app_inv_head in Hadded. inversion Hadded as [Hcnew]. clear Hadded.
  assert (Htotal : totalCommission
                     (CommissionService.order_totals
                        (populated_lines w1 (ITestOrder.tests order)))
                   = ITestOrder.commissionAmount order).
  { rewrite Hamount. unfold OPDController.order_sums.
    rewrite order_sums_commission. unfold CommissionService.order_totals.
    apply (totals_from_stored mg w1 (requested_tests mg w body)).
    - apply cast_lines_stored.
      unfold OPDController.order_sums in Hcast.
      rewrite order_sums_lines in Hcast. exact Hcast.
    - intros t Ht.
      destruct (requested_all_found mg w body Hnd Hwritten Hsome Hlen t Ht)
        as (td & id & Hci & Hd & Hl & Hin).
      exists td, id. split; [exact Hci|]. split; [exact Hd|]. split.
      + unfold lookup_test in *. rewrite Ht1. exact Hl.
      + apply Hrates. exact Hin. }
  assert (Heq : ICommission.amount (new_commission w1 order d)
                = round2 (ITestOrder.commissionAmount order)).
  { unfold new_commission, commission_amount. simpl. rewrite Htotal.
    reflexivity. }
  split; [reflexivity|]. split; [exact Heq|].
  split; [rewrite Heq; apply round2_rounded2|].
  rewrite Heq. split; auto.
Qed.

Lemma ledger_amount_is_rounded_order_amount_witness :
  NoDup (map ITest._id (Tests Sample.world))
  /\ written_as_stored Sample.mg Sample.request
  /\ (forall td, In td (requested_tests Sample.mg Sample.world Sample.request) ->
                 JS.ge (ITest.commissionRate td) 0%float = true
                 /\ JS.le (ITest.commissionRate td) 100%float = true)
  /\ exists order c,
       fst (OPDController.createTestOrder Sample.mg Sample.manager
              Sample.request Sample.world)
       = Ret (mkHttp 201 true (Some "Test order created successfully")
                (Some order))
       /\ Commissions (snd (OPDController.createTestOrder Sample.mg
                              Sample.manager Sample.request Sample.world))
          = (Commissions Sample.world ++ [c])%list
       /\ ICommission.amount c = round2 (ITestOrder.commissionAmount order).
Proof.
  assert (Hnd : NoDup (map ITest._id (Tests Sample.world))).
  { simpl. repeat constructor; simpl; intuition discriminate. }
  assert (Hwritten : written_as_stored Sample.mg Sample.request).
  { intros t id Ht Hcast. simpl in Ht.
    destruct Ht as [<- | [<- | []]]; vm_compute in Hcast;
      injection Hcast as <-; reflexivity. }
  assert (Hrates : forall td,
             In td (requested_tests Sample.mg Sample.world Sample.request) ->
             JS.ge (ITest.commissionRate td) 0%float = true
             /\ JS.le (ITest.commissionRate td) 100%float = true).
  { intros td Htd. vm_compute in Htd.
    destruct Htd as [<- | [<- | []]]; split; vm_compute; reflexivity. }
  split; [exact Hnd|]. split; [exact Hwritten|]. split; [exact Hrates|].
  assert (Hrun : exists order c,
            fst (OPDController.createTestOrder Sample.mg Sample.manager
                   Sample.request Sample.world)
            = Ret (mkHttp 201 true (Some "Test order created successfully")
                     (Some order))
            /\ Commissions (snd (OPDController.createTestOrder Sample.mg
                                   Sample.manager Sample.request Sample.world))
               = (Commissions Sample.world ++ [c])%list).
  { eexists; eexists. split; vm_compute; reflexivity. }
  destruct Hrun as (order & c & H1 & H2).
  exists order, c. split; [exact H1|]. split; [exact H2|].
  apply (ledger_amount_is_rounded_order_amount Sample.mg Sample.manager
           Sample.request Sample.world order c Hnd Hwritten Hrates H1 H2).
Defined.

(** ** Every commission's doctor resolves, in every reachable store *)

Lemma doctors_resolve_frame (w w' : World) (cs : list ICommission.t) :
  Doctors w' = Doctors w -> doctors_resolve w cs -> doctors_resolve w' cs.
Proof.
  intros E H. unfold doctors_resolve, lookup_doctor in *. rewrite E. exact H.
Qed.

Lemma doctors_resolve_replace (w : World) (c : ICommission.t) (now : Date)
  (coll : list ICommission.t) :
  lookup_doctor w (ICommission.doctorId c) <> None ->
  doctors_resolve w coll ->
  doctors_resolve w (replace_commission (CommissionService.mark_paid c now) coll).
Proof.
  intros Hc H. unfold doctors_resolve in *. induction H as [|d rest Hd _ IH]; simpl.
  - constructor.
  - constructor; [|exact IH].
    destruct (Nat.eqb (ICommission._id d) (ICommission._id c)); assumption.
Qed.

Lemma calculateCommission_doctors (mg : Mongoose) (raw : string) (w : World) :
  doctors_resolve w (Commissions w) ->
  doctors_resolve w
    (Commissions (snd (CommissionService.calculateCommission mg raw w))).
Proof.
  intros H. rewrite calculateCommission_run.
  destruct (castObjectId mg raw) as [orderId|]; [|exact H].
  destruct (lookup_order w orderId) as [o|]; [|exact H].
  destruct (referring_doctor w o) as [d|] eqn:Hd; [|exact H].
  destruct (commission_for_order w (ITestOrder._id o)); [exact H|].
  cbv zeta.
  destruct (CommissionSchema_validate (new_commission w o d)
            && negb (duplicate_key CommissionSchema_indexes
                       (new_commission w o d) (Commissions w)));
    [|exact H].
  simpl. apply Forall_app. split; [exact H|].
  constructor; [|constructor]. simpl.
  unfold referring_doctor in Hd.
  destruct (ITestOrder.referringDoctorId o) as [docId|]; [|discriminate].
  pose proof Hd as Hfound. unfold lookup_doctor in Hfound.
  apply find_some in Hfound as [_ Hid]. apply Nat.eqb_eq in Hid.
  rewrite Hid, Hd. discriminate.
Qed.

Lemma pay_each_doctors (transport : Transport) (paidBy : string) (w : World)
  (ps : list (ICommission.t * option IDoctor.t)) :
  (forall p, In p ps -> lookup_doctor w (ICommission.doctorId (fst p)) <> None) ->
  forall (results : list PaidResult) (w0 : World),
    Doctors w0 = Doctors w ->
    doctors_resolve w (Commissions w0) ->
    let w' := snd (CommissionService.pay_each transport paidBy ps results w0) in
    Doctors w' = Doctors w /\ doctors_resolve w (Commissions w').
Proof.
  induction ps as [|[c od] rest IH]; intros Hps results w0 Hd H.
  - simpl. auto.
  - cbv zeta. rewrite pay_each_step. cbv zeta.
    assert (Hc : lookup_doctor w (ICommission.doctorId c) <> None)
      by (apply (Hps (c, od)); left; reflexivity).
    destruct od as [d|].
    + apply IH.
      * intros p Hp. apply Hps. right. exact Hp.
      * exact Hd.
      * simpl. apply doctors_resolve_replace; assumption.
    + simpl. split; [exact Hd | apply doctors_resolve_replace; assumption].
Qed.

Lemma run_op_doctors (mg : Mongoose) (transport : Transport) (op : LedgerOp)
  (w : World) :
  doctors_resolve w (Commissions w) ->
  Doctors (run_op mg transport op w) = Doctors w
  /\ doctors_resolve (run_op mg transport op w)
       (Commissions (run_op mg transport op w)).
Proof.
  intros H.
  assert (Hgoal : Doctors (run_op mg transport op w) = Doctors w
                  /\ doctors_resolve w (Commissions (run_op mg transport op w))).
  { destruct op as [orderId | raw paidBy | raws paidBy | user body]; simpl.
    - split; [apply calculateCommission_frame
             | apply calculateCommission_doctors; exact H].
    - rewrite payCommission_run.
      destruct (castObjectId mg raw) as [id|]; [|auto].
      destruct (lookup_commission w id) as [c|] eqn:Hc; [|auto].
      destruct (PaymentStatus_eqb (ICommission.paymentStatus c) PAID); [auto|].
      assert (Hdoc : lookup_doctor w (ICommission.doctorId c) <> None).
      { unfold doctors_resolve in H. rewrite Forall_forall in H. apply H.
        apply find_some in Hc. apply Hc. }
      cbv zeta.
      destruct (lookup_doctor w (ICommission.doctorId c)) eqn:Hl;
        [|contradiction].
      simpl. split; [reflexivity|].
      apply doctors_resolve_replace; [rewrite Hl; discriminate | exact H].
    - rewrite bulkPayCommissions_run.
      destruct (castObjectIds mg raws) as [ids|]; [|auto].
      destruct (selected w ids) as [|c rest] eqn:E; [auto|].
      destruct (pay_each_doctors transport paidBy w
                  (map (with_doctor w) (c :: rest)))
        with (results := @nil PaidResult) (w0 := w) as [Hd Hr];
        [|reflexivity|exact H|].
      { intros p Hp. apply in_map_iff in Hp as (c0 & <- & Hc0). simpl.
        unfold doctors_resolve in H. rewrite Forall_forall in H. apply H.
        rewrite <- E in Hc0. apply filter_In in Hc0. apply Hc0. }
      destruct (CommissionService.pay_each transport paidBy
                  (map (with_doctor w) (c :: rest)) [] w) as [[results|e] w'];
        simpl in *; auto.
    - destruct (createTestOrder_cases mg user body w)
        as [(resp & _ & _ & Hc & _ & _ & Hd) | (order & w1 & doc & Hcase)].
      + split; [exact Hd | rewrite Hc; exact H].
      + destruct Hcase as (_ & _ & _ & _ & _ & _ & _ & _ & Hc1 & Hd1 & _ & _
                           & Hc & _ & _ & Hd & _).
        split; [exact Hd|]. rewrite Hc.
        apply (doctors_resolve_frame w1 w); [symmetry; exact Hd1|].
        apply calculateCommission_doctors.
        apply (doctors_resolve_frame w w1); [exact Hd1|].
        rewrite Hc1. exact H. }
  destruct Hgoal as [Hd Hr]. split; [exact Hd|].
  apply (doctors_resolve_frame w); assumption.
Qed.

(** From a store in which every commission's doctor resolves, every
    sequence of ledger operations leads to such a store: the program never
    deletes a doctor and creates a commission only for a doctor it found. *)
Lemma doctors_resolve_preserved (mg : Mongoose) (transport : Transport)
  (ops : list LedgerOp) (w : World) :
  doctors_resolve w (Commissions w) ->
  doctors_resolve (run_ops mg transport ops w)
    (Commissions (run_ops mg transport ops w)).
Proof.
  revert w. induction ops as [|op rest IH]; intros w H; simpl; [exact H|].
  apply IH. apply run_op_doctors. exact H.
Qed.

(* ===================================================================== *)
(** * Further properties of the code *)
(* ===================================================================== *)

(** ** Text and counters *)

Lemma string_app_assoc (a b c : string) : (a ++ b) ++ c = a ++ b ++ c.
Proof. induction a as [|x a IH]; simpl; [reflexivity | rewrite IH; reflexivity]. Qed.

Lemma string_app_inv_head (a x y : string) : a ++ x = a ++ y -> x = y.
Proof.
  induction a as [|c a IH]; simpl; intros H; [exact H|].
  inversion H. auto.
Qed.

Lemma bump_spec (name : string) (counters : list (string * nat)) :
  fst (IDGenerator.bump name counters) = S (sequence_of name counters)
  /\ sequence_of name (snd (IDGenerator.bump name counters))
     = S (sequence_of name counters)
  /\ forall other, other <> name ->
       sequence_of other (snd (IDGenerator.bump name counters))
       = sequence_of other counters.
Proof.
  unfold sequence_of.
  induction counters as [|[k n] rest IH]; simpl.
  - rewrite String.eqb_refl. simpl. repeat split.
    intros other H. apply String.eqb_neq in H. rewrite String.eqb_sym, H. reflexivity.
  - destruct (String.eqb k name) eqn:E; simpl.
    + rewrite E. simpl. repeat split.
      intros other H. apply String.eqb_eq in E. subst k.
      apply String.eqb_neq in H. rewrite String.eqb_sym, H. reflexivity.
    + destruct (IDGenerator.bump name rest) as [v rest'] eqn:B. simpl in *.
      rewrite E. destruct IH as (H1 & H2 & H3). repeat split; try assumption.
      intros other H. destruct (String.eqb k other); [reflexivity|]. auto.
Qed.

Lemma getNextSequence_run (name : string) (w : World) :
  IDGenerator.getNextSequence name w
  = (Ret (fst (IDGenerator.bump name (Counters w))),
     set_Counters (snd (IDGenerator.bump name (Counters w))) w).
Proof.
  unfold IDGenerator.getNextSequence.
  destruct (IDGenerator.bump name (Counters w)); reflexivity.
Qed.

Lemma generate_run (r : IdRequest) (w : World) :
  generate r w
  = (Ret (id_prefix r ++ IDGenerator.pad3 (S (sequence_of (counter_name r) (Counters w)))),
     set_Counters (snd (IDGenerator.bump (counter_name r) (Counters w))) w).
Proof.
  destruct r; unfold generate, IDGenerator.generateBranchId, IDGenerator.generateUserId,
    IDGenerator.generatePatientId, IDGenerator.generateVisitId, IDGenerator.generateDoctorId,
    IDGenerator.generateTestId, IDGenerator.generateOrderId, IDGenerator.generatePrescriptionId,
    IDGenerator.generateReportId, IDGenerator.generateExpenseId, IDGenerator.generateEmployeeId,
    IDGenerator.generateTaskId, IDGenerator.generateLeaveId, IDGenerator.generateComplaintId,
    IDGenerator.generateItemId, bind, ret; rewrite getNextSequence_run;
    rewrite (proj1 (bump_spec _ _)); cbn [counter_name id_prefix];
    rewrite ?string_app_assoc; reflexivity.
Qed.

Lemma NilEmpty_digits (d : Decimal.uint) :
  all_digits (NilEmpty.string_of_uint d) = true.
Proof. induction d; [reflexivity | ..]; cbn; exact IHd. Qed.

Lemma decimal_digits (n : nat) : all_digits (IDGenerator.decimal n) = true.
Proof.
  unfold IDGenerator.decimal, NilZero.string_of_uint.
  destruct (Nat.to_uint n); try apply NilEmpty_digits. reflexivity.
Qed.

Lemma NilEmpty_inj (d d' : Decimal.uint) :
  NilEmpty.string_of_uint d = NilEmpty.string_of_uint d' -> d = d'.
Proof.
  revert d'. induction d; destruct d'; simpl; intros H; try discriminate;
    try reflexivity; inversion H; f_equal; auto.
Qed.

Lemma to_uint_nonnil (n : nat) : Nat.to_uint n <> Decimal.Nil.
Proof.
  rewrite <- (DecimalNat.Unsigned.of_to n) at 1. rewrite DecimalNat.Unsigned.to_of. apply DecimalFacts.unorm_nonnil.
Qed.

(** For a number the numeral is never empty, so the text is that of its
    digits. *)
Lemma decimal_NilEmpty (n : nat) :
  IDGenerator.decimal n = NilEmpty.string_of_uint (Nat.to_uint n).
Proof.
  unfold IDGenerator.decimal, NilZero.string_of_uint.
  pose proof (to_uint_nonnil n) as H.
  destruct (Nat.to_uint n); try reflexivity. contradiction.
Qed.

Lemma decimal_inj (n m : nat) :
  IDGenerator.decimal n = IDGenerator.decimal m -> n = m.
Proof.
  rewrite !decimal_NilEmpty. intros H.
  apply DecimalNat.Unsigned.to_uint_inj, NilEmpty_inj, H.
Qed.

Lemma decimal_nonempty (n : nat) : IDGenerator.decimal n <> "".
Proof.
  rewrite decimal_NilEmpty. pose proof (to_uint_nonnil n) as H.
  destruct (Nat.to_uint n); simpl; try discriminate. contradiction.
Qed.

Lemma nzhead_not_D0 (u u0 : Decimal.uint) : Decimal.nzhead u <> Decimal.D0 u0.
Proof. induction u; simpl; try discriminate. exact IHu. Qed.

(** A decimal numeral that starts with [0] is [0]. *)
Lemma decimal_leading_zero (n : nat) (rest : string) :
  IDGenerator.decimal n = String "0" rest -> rest = "".
Proof.
  rewrite decimal_NilEmpty. intros H.
  assert (Hn : Decimal.unorm (Nat.to_uint n) = Nat.to_uint n).
  { rewrite <- (DecimalNat.Unsigned.of_to n) at 2. rewrite DecimalNat.Unsigned.to_of. reflexivity. }
  destruct (Nat.to_uint n) as [|u|u|u|u|u|u|u|u|u|u]; simpl in H; try discriminate.
  inversion H as [H1]. clear H H1.
  unfold Decimal.unorm in Hn. cbn [Decimal.nzhead] in Hn.
  destruct (Decimal.nzhead u) eqn:E; try discriminate Hn.
  - inversion Hn. reflexivity.
  - exfalso. exact (nzhead_not_D0 _ _ E).
Qed.

Lemma pad3_cases (n : nat) :
  let s := IDGenerator.decimal n in
  (String.length s = 1 /\ IDGenerator.pad3 n = "00" ++ s)
  \/ (String.length s = 2 /\ IDGenerator.pad3 n = "0" ++ s)
  \/ (3 <= String.length s /\ IDGenerator.pad3 n = s).
Proof.
  intros s. unfold IDGenerator.pad3. fold s.
  pose proof (decimal_nonempty n) as H. fold s in H.
  destruct s as [|a [|b [|c r]]]; simpl; auto.
  - contradiction.
  - right. right. split; [lia | reflexivity].
Qed.

Lemma decimal_zero_short (n : nat) (rest : string) :
  IDGenerator.decimal n = String "0" rest -> String.length (IDGenerator.decimal n) = 1.
Proof.
  intros H. rewrite H. rewrite (decimal_leading_zero _ _ H). reflexivity.
Qed.

(** Padding loses nothing: different numbers give different texts. *)
Lemma pad3_inj (n m : nat) : IDGenerator.pad3 n = IDGenerator.pad3 m -> n = m.
Proof.
  intros H. apply decimal_inj.
  destruct (pad3_cases n) as [[Ln En]|[[Ln En]|[Ln En]]];
  destruct (pad3_cases m) as [[Lm Em]|[[Lm Em]|[Lm Em]]];
  rewrite En, Em in H; simpl in H; try congruence;
  first
    [ assert (H1 : IDGenerator.decimal m = String "0" (IDGenerator.decimal n))
        by congruence
    | assert (H1 : IDGenerator.decimal n = String "0" (IDGenerator.decimal m))
        by congruence
    | assert (H1 : IDGenerator.decimal m
                   = String "0" (String "0" (IDGenerator.decimal n)))
        by congruence
    | assert (H1 : IDGenerator.decimal n
                   = String "0" (String "0" (IDGenerator.decimal m)))
        by congruence ];
  apply decimal_zero_short in H1; lia.
Qed.

(** Two calls that draw from one counter get different numbers, whatever
    is generated in between. *)
Lemma sequence_monotone (rs : list IdRequest) (name : string) (w : World) :
  sequence_of name (Counters w)
  <= sequence_of name (Counters (after_generating rs w)).
Proof.
  revert w. induction rs as [|r rs IH]; intros w; simpl; [lia|].
  eapply Nat.le_trans; [|apply IH].
  rewrite generate_run. simpl.
  destruct (String.eqb (counter_name r) name) eqn:E.
  - apply String.eqb_eq in E. subst name.
    rewrite (proj1 (proj2 (bump_spec _ _))). lia.
  - apply String.eqb_neq in E.
    rewrite (proj2 (proj2 (bump_spec _ _))); [lia|]. congruence.
Qed.

(** ** Identifier generator *)

Lemma of_uint_acc_bound (d : Decimal.uint) (acc : nat) :
  Nat.of_uint_acc d acc < 10 ^ Decimal.nb_digits d * (acc + 1).
Proof.
  revert acc. induction d; intros acc; simpl Nat.of_uint_acc;
    [simpl; lia | ..];
    rewrite Nat.tail_mul_spec;
    (eapply Nat.lt_le_trans; [apply IHd|]);
    change (Decimal.nb_digits (_ d)) with (S (Decimal.nb_digits d));
    rewrite Nat.pow_succ_r'; nia.
Qed.

Lemma NilEmpty_length (d : Decimal.uint) :
  String.length (NilEmpty.string_of_uint d) = Decimal.nb_digits d.
Proof. induction d; simpl; congruence. Qed.

(** A number written with at most [k] digits is below [10^k]. *)
Lemma decimal_length_bound (n : nat) :
  n < 10 ^ String.length (IDGenerator.decimal n).
Proof.
  rewrite decimal_NilEmpty, NilEmpty_length.
  rewrite <- (DecimalNat.Unsigned.of_to n) at 1. unfold Nat.of_uint.
  pose proof (of_uint_acc_bound (Nat.to_uint n) 0). lia.
Qed.

Lemma pad3_small : forallb (fun n => Nat.eqb (String.length (IDGenerator.pad3 n)) 3)
                           (seq 0 1000) = true.
Proof. vm_compute. reflexivity. Qed.

(** X3. The padded sequence number has exactly three characters up to 999;
    from 1000 on it is the number written in full, never cut; and
    different numbers always give different texts. *)
Theorem pad3_width_and_injective :
  (forall n, n < 1000 -> String.length (IDGenerator.pad3 n) = 3)
  /\ (forall n, 1000 <= n -> IDGenerator.pad3 n = IDGenerator.decimal n)
  /\ (forall n m, IDGenerator.pad3 n = IDGenerator.pad3 m -> n = m).
Proof.
  split; [|split].
  - intros n H. pose proof pad3_small as Hs. rewrite forallb_forall in Hs.
    apply Nat.eqb_eq, Hs, in_seq. lia.
  - intros n H. pose proof (decimal_length_bound n) as Hb.
    destruct (pad3_cases n) as [[L E]|[[L E]|[L E]]]; [| |exact E];
      rewrite L in Hb; simpl in Hb; lia.
  - apply pad3_inj.
Qed.

Lemma pad3_width_and_injective_witness :
  (7 < 1000 /\ String.length (IDGenerator.pad3 7) = 3)
  /\ (1000 <= 1234 /\ IDGenerator.pad3 1234 = IDGenerator.decimal 1234)
  /\ (IDGenerator.pad3 7 = IDGenerator.pad3 (3 + 4) /\ 7 = 3 + 4).
Proof.
  split; [|split].
  - split; [lia|]. apply (proj1 pad3_width_and_injective). lia.
  - split; [lia|]. apply (proj1 (proj2 pad3_width_and_injective)). lia.
  - split; [reflexivity|].
    apply (proj2 (proj2 pad3_width_and_injective)). reflexivity.
Defined.

(** X1. [getNextSequence(name)] returns one more than the counter held (1
    for a counter that did not exist), leaves the counter at the value
    returned, and changes no other counter and nothing else in the
    store. *)
Theorem getNextSequence_counts (name : string) (w : World) :
  let r := IDGenerator.getNextSequence name w in
  fst r = Ret (S (sequence_of name (Counters w)))
  /\ sequence_of name (Counters (snd r)) = S (sequence_of name (Counters w))
  /\ (forall other, other <> name ->
        sequence_of other (Counters (snd r)) = sequence_of other (Counters w))
  /\ set_Counters (Counters w) (snd r) = w.
Proof.
  cbv zeta. rewrite getNextSequence_run. simpl.
  destruct (bump_spec name (Counters w)) as (H1 & H2 & H3).
  rewrite H1. repeat split; try assumption.
  destruct w; reflexivity.
Qed.

Lemma getNextSequence_counts_witness :
  fst (IDGenerator.getNextSequence "orderId_BR001" Sample.world) = Ret 4
  /\ fst (IDGenerator.getNextSequence "orderId_BR002" Sample.world) = Ret 1
  /\ ("orderId_BR001" <> "orderId_BR002" /\
      sequence_of "orderId_BR001"
        (Counters (snd (IDGenerator.getNextSequence "orderId_BR002" Sample.world)))
      = 3).
Proof.
  split; [|split].
  - apply (proj1 (getNextSequence_counts "orderId_BR001" Sample.world)).
  - apply (proj1 (getNextSequence_counts "orderId_BR002" Sample.world)).
  - split; [discriminate|].
    apply (proj1 (proj2 (proj2
             (getNextSequence_counts "orderId_BR002" Sample.world)))).
    discriminate.
Defined.

(** X2. Two calls of the same generator for the same branch (and role)
    never return the same identifier, whatever other identifiers are
    generated in between. *)
Theorem generated_ids_never_repeat (r : IdRequest) (between : list IdRequest)
  (w : World) :
  let first := generate r w in
  let second := generate r (after_generating between (snd first)) in
  fst first <> fst second.
Proof.
  cbv zeta. rewrite !generate_run. simpl. intros H.
  injection H as H. apply string_app_inv_head, pad3_inj in H.
  pose proof (sequence_monotone between (counter_name r)
                (set_Counters (snd (IDGenerator.bump (counter_name r) (Counters w))) w)) as Hm.
  simpl in Hm. rewrite (proj1 (proj2 (bump_spec _ _))) in Hm. lia.
Qed.

(** ** QR strings *)

Lemma split_nonempty (sep : ascii) (s : string) : JS.split sep s <> [].
Proof.
  induction s as [|c rest IH]; simpl; [discriminate|].
  destruct (Ascii.eqb c sep); [discriminate|].
  destruct (JS.split sep rest); discriminate.
Qed.

(** A string without the separator is one piece. *)
Lemma split_none (sep : ascii) (s : string) :
  contains sep s = false -> JS.split sep s = [s].
Proof.
  induction s as [|c rest IH]; simpl; intros H; [reflexivity|].
  apply orb_false_elim in H as [Hc Hr]. rewrite Hc, (IH Hr). reflexivity.
Qed.

(** A piece without the separator, the separator, and the rest. *)
Lemma split_app (sep : ascii) (a b : string) :
  contains sep a = false ->
  JS.split sep (a ++ String sep b) = a :: JS.split sep b.
Proof.
  induction a as [|c rest IH]; simpl; intros H.
  - rewrite Ascii.eqb_refl. reflexivity.
  - apply orb_false_elim in H as [Hc Hr]. rewrite Hc, (IH Hr). reflexivity.
Qed.

(** No piece contains the separator. *)
Lemma split_pieces (sep : ascii) (s : string) :
  Forall (fun p => contains sep p = false) (JS.split sep s).
Proof.
  induction s as [|c rest IH]; simpl.
  - constructor; [reflexivity | constructor].
  - destruct (Ascii.eqb c sep) eqn:E.
    + constructor; [reflexivity | exact IH].
    + destruct (JS.split sep rest) as [|h t].
      * constructor; [simpl; rewrite E; reflexivity | constructor].
      * inversion IH; subst. constructor; [simpl; rewrite E; assumption | assumption].
Qed.

(** There is one piece more than there are separators. *)
Lemma split_length (sep : ascii) (s : string) :
  List.length (JS.split sep s) = S (count sep s).
Proof.
  induction s as [|c rest IH]; simpl; [reflexivity|].
  destruct (Ascii.eqb c sep); simpl; [rewrite IH; reflexivity|].
  destruct (JS.split sep rest); simpl in *; [discriminate | exact IH].
Qed.

Lemma count_app (c : ascii) (a b : string) :
  count c (a ++ b) = count c a + count c b.
Proof. induction a as [|x a IH]; simpl; [reflexivity | rewrite IH; lia]. Qed.

Lemma contains_count (c : ascii) (s : string) :
  contains c s = true -> 1 <= count c s.
Proof.
  induction s as [|x s IH]; simpl; [discriminate|].
  destruct (Ascii.eqb x c); simpl; [lia | auto].
Qed.

Lemma contains_app (c : ascii) (a b : string) :
  contains c (a ++ b) = contains c a || contains c b.
Proof.
  induction a as [|x a IH]; simpl; [reflexivity|].
  rewrite IH, orb_assoc. reflexivity.
Qed.

Lemma digits_no_hyphen (s : string) :
  all_digits s = true -> contains "-" s = false.
Proof.
  induction s as [|c s IH]; simpl; intros H; [reflexivity|].
  apply andb_true_iff in H as [Hc Hs]. rewrite (IH Hs), orb_false_r.
  destruct (Ascii.eqb c "-") eqn:E; [|reflexivity].
  apply Ascii.eqb_eq in E. subst c. discriminate.
Qed.

(** *** [parseInt] reads back a decimal numeral *)

Lemma digit_value_digit (c : ascii) :
  is_digit c = true ->
  JS.digit_value 10 c = Some (N_of_ascii c - 48)%N.
Proof.
  unfold is_digit, JS.digit_value, JS.code. intros H. rewrite H.
  apply andb_true_iff in H as [H1 H2].
  apply N.leb_le in H1. apply N.leb_le in H2.
  assert (E : (N_of_ascii c - 48 <? 10)%N = true) by (apply N.ltb_lt; lia).
  rewrite E. reflexivity.
Qed.

Lemma digits_prefix_some (d : Decimal.uint) (a : N) :
  JS.digits_prefix 10 (NilEmpty.string_of_uint d) (Some a)
  = Some (N.of_nat (Nat.of_uint_acc d (N.to_nat a))).
Proof.
  revert a.
  induction d; intros a;
    cbn [NilEmpty.string_of_uint JS.digits_prefix Nat.of_uint_acc];
    [rewrite N2Nat.id; reflexivity | ..];
    rewrite digit_value_digit by reflexivity;
    rewrite IHd, Nat.tail_mul_spec; do 3 f_equal;
    match goal with
    | |- context [N_of_ascii ?c] =>
        let v := eval vm_compute in (N_of_ascii c) in
        change (N_of_ascii c) with v
    end; lia.
Qed.

(** [parseInt] of the decimal numeral of [n] is the Number [n]. *)
Lemma parseInt_decimal (n : nat) :
  JS.parseInt (IDGenerator.decimal n) = JS.of_N (N.of_nat n).
Proof.
  pose proof (decimal_digits n) as Hd.
  pose proof (decimal_nonempty n) as Hne.
  pose proof (decimal_leading_zero n) as Hz.
  assert (Hval : JS.digits_prefix 10 (IDGenerator.decimal n) None
                 = Some (N.of_nat n)).
  { rewrite decimal_NilEmpty. pose proof (to_uint_nonnil n) as Hnn.
    rewrite <- (DecimalNat.Unsigned.of_to n) at 2. unfold Nat.of_uint.
    destruct (Nat.to_uint n); [contradiction | ..];
      cbn [NilEmpty.string_of_uint JS.digits_prefix Nat.of_uint_acc];
      rewrite digit_value_digit by reflexivity;
      rewrite digits_prefix_some, Nat.tail_mul_spec; do 3 f_equal;
      match goal with
      | |- context [N_of_ascii ?c] =>
          let v := eval vm_compute in (N_of_ascii c) in
          change (N_of_ascii c) with v
      end; lia. }
  unfold JS.parseInt.
  destruct (IDGenerator.decimal n) as [|c rest] eqn:E; [contradiction|].
  simpl in Hd. apply andb_true_iff in Hd as [Hc Hrest].
  assert (Hws : JS.trimStart (String c rest) = String c rest).
  { unfold is_digit in Hc. apply andb_true_iff in Hc as [H1 H2].
    apply N.leb_le in H1. apply N.leb_le in H2.
    assert (W1 : JS.ws1 c = false).
    { unfold JS.ws1, JS.code.
      destruct (N.leb_spec 9 (N_of_ascii c)); destruct (N.leb_spec (N_of_ascii c) 13);
        destruct (N.eqb_spec (N_of_ascii c) 32); simpl; try reflexivity; lia. }
    assert (C1 : (N_of_ascii c =? 194)%N = false) by (apply N.eqb_neq; lia).
    assert (C2 : (N_of_ascii c =? 225)%N = false) by (apply N.eqb_neq; lia).
    assert (C3 : (N_of_ascii c =? 226)%N = false) by (apply N.eqb_neq; lia).
    assert (C4 : (N_of_ascii c =? 227)%N = false) by (apply N.eqb_neq; lia).
    assert (C5 : (N_of_ascii c =? 239)%N = false) by (apply N.eqb_neq; lia).
    cbn [JS.trimStart]. rewrite W1.
    destruct rest as [|b [|c3 r3]]; try reflexivity;
      unfold JS.ws2, JS.ws3, JS.code; rewrite ?C1, ?C2, ?C3, ?C4, ?C5;
      reflexivity. }
  rewrite Hws.
  assert (Hminus : Ascii.eqb c "-" = false).
  { destruct (Ascii.eqb c "-") eqn:M; [|reflexivity].
    apply Ascii.eqb_eq in M. subst c. discriminate. }
  assert (Hplus : Ascii.eqb c "+" = false).
  { destruct (Ascii.eqb c "+") eqn:M; [|reflexivity].
    apply Ascii.eqb_eq in M. subst c. discriminate. }
  rewrite Hminus, Hplus.
  assert (Hradix : match String c rest with
                   | String z (String x r) =>
                       if Ascii.eqb z "0" && (Ascii.eqb x "x" || Ascii.eqb x "X")
                       then (16%N, r) else (10%N, String c rest)
                   | _ => (10%N, String c rest)
                   end = (10%N, String c rest)).
  { destruct rest as [|x r]; [reflexivity|].
    destruct (Ascii.eqb c "0") eqn:Z; [|reflexivity].
    apply Ascii.eqb_eq in Z. subst c. specialize (Hz _ eq_refl). discriminate. }
  rewrite Hradix, Hval.
  destruct (N.eqb_spec (N.of_nat n) 0) as [E0|E0]; [|reflexivity].
  rewrite E0. reflexivity.
Qed.

(** ** The order that is created *)

Lemma createTestOrder_created (mg : Mongoose) (user : option AuthUser)
  (body : OPDController.CreateTestOrderBody) (w : World) (order : ITestOrder.t)
  (msg : option string) :
  fst (OPDController.createTestOrder mg user body w)
  = Ret (mkHttp 201 true msg (Some order)) ->
  exists branchId creator lines,
    effective_branch user body = Some branchId
    /\ OPDController.cast_lines mg
         (OPDController.os_orderTests
            (OPDController.order_sums mg (OPDController.b_tests body)
               (requested_tests mg w body))) = Some lines
    /\ order = created_order mg w branchId creator body lines.
Proof.
  unfold OPDController.createTestOrder, try_catch, effective_branch.
  cbv zeta.
  destruct (if truthy_string (user_branchId user) then user_branchId user
            else OPDController.b_branchId body) as [branchId|];
    [|simpl; intros H; discriminate H].
  destruct (String.eqb branchId ""); [simpl; intros H; discriminate H|].
  destruct (find _ (Patients w)); [|simpl; intros H; discriminate H].
  destruct (find _ (Visits w)); [|simpl; intros H; discriminate H].
  destruct (castObjectIds mg (map OPDController.in_testId
                                (OPDController.b_tests body)))
    as [ids|] eqn:Hids; [|simpl; intros H; discriminate H].
  assert (Hreq : Test.find_active_in ids w = requested_tests mg w body).
  { unfold requested_tests, requested_ids. rewrite Hids. reflexivity. }
  rewrite Hreq. clear Hreq Hids ids.
  destruct (Nat.eqb _ _) eqn:Hlen; simpl negb; cbv iota;
    [|simpl; intros H; discriminate H].
  unfold bind, IDGenerator.generateOrderId, bind, ret, new_Date, new_ObjectId, throw.
  rewrite getNextSequence_run. rewrite (proj1 (bump_spec _ _)).
  destruct (OPDController.cast_lines _ _) as [lines|] eqn:Hcast;
    [|simpl; intros H; discriminate H].
  unfold OPDController.save_new.
  cbn -[OPDController.order_sums String.append IDGenerator.decimal IDGenerator.pad3
        requested_tests CommissionService.calculateCommission IDGenerator.bump
        sequence_of].
  destruct (OPDController.b_referringDoctorId body) as [doctorId|] eqn:Hdoc;
    [|simpl; intros H; discriminate H].
  destruct (match user with Some u => u_id u | None => None end) as [creator|];
    [|simpl; intros H; discriminate H].
  match goal with |- context [if ?b then _ else _] => destruct b end;
    [|simpl; intros H; discriminate H].
  destruct (existsb _ (TestOrders w)) eqn:Hdup; [simpl; intros H; discriminate H|].
  cbn -[OPDController.order_sums String.append IDGenerator.decimal IDGenerator.pad3
        requested_tests CommissionService.calculateCommission IDGenerator.bump
        sequence_of].
  match goal with
  | |- context [CommissionService.calculateCommission mg ?i ?w0] =>
      destruct (calculateCommission_returns mg i w0) as [res Hres];
      destruct (CommissionService.calculateCommission mg i w0)
        as [out w2] eqn:Hcalc
  end.
  simpl in Hres. subst out.
  intros H. exists branchId, creator, lines.
  split; [reflexivity|]. split; [reflexivity|].
  destruct (negb (success res));
    cbn -[OPDController.order_sums String.append IDGenerator.decimal
          IDGenerator.pad3 requested_tests sequence_of] in H;
    inversion H; unfold created_order; rewrite Hdoc; reflexivity.
Qed.

Lemma generateQRString_run (orderId patientId : string) (w : World) :
  QRService.generateQRString orderId patientId w
  = (Ret ("HEAL-" ++ orderId ++ "-" ++ patientId ++ "-"
          ++ IDGenerator.decimal (clock w)),
     set_clock (S (clock w)) w).
Proof. reflexivity. Qed.

(** X4. For an order id and a patient id without a hyphen,
    [parseQRString] reads back from the string [generateQRString] made
    exactly those two ids, and as timestamp the clock reading the string
    was made at. *)
Theorem qr_round_trip (orderId patientId : string) (w : World) :
  contains "-" orderId = false ->
  contains "-" patientId = false ->
  exists qr,
    fst (QRService.generateQRString orderId patientId w) = Ret qr
    /\ QRService.parseQRString qr
       = Some (QRService.mkParsedQR orderId patientId
                 (JS.of_N (N.of_nat (clock w)))).
Proof.
  intros Ho Hp. rewrite generateQRString_run. eexists. split; [reflexivity|].
  unfold QRService.parseQRString.
  change ("HEAL-" ++ orderId ++ "-" ++ patientId ++ "-" ++ IDGenerator.decimal (clock w))
    with ("HEAL" ++ String "-" (orderId ++ String "-" (patientId ++ String "-"
            (IDGenerator.decimal (clock w))))).
  rewrite split_app by reflexivity.
  rewrite split_app by exact Ho.
  rewrite split_app by exact Hp.
  rewrite split_none by (apply digits_no_hyphen, decimal_digits).
  simpl String.eqb. cbv iota. rewrite parseInt_decimal. reflexivity.
Qed.

Lemma qr_round_trip_witness :
  contains "-" "ORD7" = false /\ contains "-" "PAT9" = false
  /\ exists qr,
       fst (QRService.generateQRString "ORD7" "PAT9" Sample.world) = Ret qr
       /\ QRService.parseQRString qr
          = Some (QRService.mkParsedQR "ORD7" "PAT9"
                    (JS.of_N (N.of_nat (clock Sample.world)))).
Proof.
  split; [reflexivity|]. split; [reflexivity|].
  apply (qr_round_trip "ORD7" "PAT9" Sample.world); reflexivity.
Defined.

(** What [parseQRString] makes of the string generated for an order id
    that contains a hyphen: some order id without one, hence another. *)
Lemma qr_hyphenated (orderId rest : string) :
  contains "-" orderId = true ->
  2 <= count "-" rest ->
  exists parsed,
    QRService.parseQRString ("HEAL-" ++ orderId ++ rest) = Some parsed
    /\ contains "-" (QRService.qr_orderId parsed) = false
    /\ QRService.qr_orderId parsed <> orderId.
Proof.
  intros Ho Hrest. unfold QRService.parseQRString.
  change ("HEAL-" ++ orderId ++ rest) with ("HEAL" ++ String "-" (orderId ++ rest)).
  rewrite split_app by reflexivity.
  pose proof (split_length "-" (orderId ++ rest)) as Hlen.
  pose proof (split_pieces "-" (orderId ++ rest)) as Hpieces.
  rewrite count_app in Hlen. apply contains_count in Ho as Hc.
  destruct (JS.split "-" (orderId ++ rest)) as [|p1 [|p2 [|p3 more]]];
    simpl in Hlen; try lia.
  simpl String.eqb. cbv iota. eexists. split; [reflexivity|].
  inversion Hpieces as [|? ? Hp1 _]; subst. simpl. split; [exact Hp1|].
  intros E. rewrite E in Hp1. congruence.
Qed.

(** X5. The QR string stored with an order that [createTestOrder] created
    does not parse back to that order: [parseQRString] succeeds on it but
    returns an order id without a hyphen, which differs from the order's
    own id (that always contains [-ORD]). *)
Theorem created_order_qr_does_not_parse_back (mg : Mongoose)
  (user : option AuthUser) (body : OPDController.CreateTestOrderBody)
  (w : World) (order : ITestOrder.t) (msg : option string) :
  fst (OPDController.createTestOrder mg user body w)
  = Ret (mkHttp 201 true msg (Some order)) ->
  contains "-" (ITestOrder.orderId order) = true
  /\ exists parsed,
       QRService.parseQRString (ITestOrder.qrCode order) = Some parsed
       /\ contains "-" (QRService.qr_orderId parsed) = false
       /\ QRService.qr_orderId parsed <> ITestOrder.orderId order.
Proof.
  intros H.
  destruct (createTestOrder_created mg user body w order msg H)
    as (branchId & creator & lines & _ & _ & ->).
  unfold created_order. cbv zeta. cbn [ITestOrder.orderId ITestOrder.qrCode].
  assert (Ho : contains "-" (branchId ++ "-ORD" ++ IDGenerator.pad3
                 (S (sequence_of ("orderId_" ++ branchId) (Counters w)))) = true).
  { rewrite contains_app. simpl. apply orb_true_r. }
  split; [exact Ho|].
  apply qr_hyphenated; [exact Ho|].
  change ("-" ++ OPDController.b_patientId body ++ "-" ++ IDGenerator.decimal (clock w))
    with (String "-" (OPDController.b_patientId body
                      ++ String "-" (IDGenerator.decimal (clock w)))).
  simpl. rewrite count_app. simpl. lia.
Qed.

Lemma created_order_qr_does_not_parse_back_witness :
  exists order,
    fst (OPDController.createTestOrder Sample.mg Sample.manager Sample.request
           Sample.world)
    = Ret (mkHttp 201 true (Some "Test order created successfully") (Some order))
    /\ ITestOrder.orderId order = "BR001-ORD004"
    /\ exists parsed,
         QRService.parseQRString (ITestOrder.qrCode order) = Some parsed
         /\ QRService.qr_orderId parsed <> ITestOrder.orderId order.
Proof.
  assert (Hrun : exists order,
            fst (OPDController.createTestOrder Sample.mg Sample.manager
                   Sample.request Sample.world)
            = Ret (mkHttp 201 true (Some "Test order created successfully")
                     (Some order))
            /\ ITestOrder.orderId order = "BR001-ORD004").
  { eexists. split; vm_compute; reflexivity. }
  destruct Hrun as (order & H & Hid). exists order.
  split; [exact H|]. split; [exact Hid|].
  destruct (created_order_qr_does_not_parse_back Sample.mg Sample.manager
              Sample.request Sample.world order _ H)
    as (_ & parsed & Hp & _ & Hne).
  exists parsed. split; [exact Hp | exact Hne].
Defined.

(** X6. [createTestOrder] turns a request down without writing a
    document or moving the order counter: 400 when neither the user nor
    the body names a branch, 404 when no patient of that branch has the
    requested id once trimmed, 404 when the visit does not exist, 400
    when the test ids cast and fewer active tests are found than lines
    were requested; and when a test id does not cast, the answer is 500
    and only the log grows. *)
Theorem createTestOrder_rejects_without_writing (mg : Mongoose)
  (user : option AuthUser) (body : OPDController.CreateTestOrderBody)
  (w : World) :
  let r := OPDController.createTestOrder mg user body w in
  (truthy_string (effective_branch user body) = false ->
   r = (Ret (mkHttp 400 false (Some "Branch ID required") None), w))
  /\ (forall b,
        effective_branch user body = Some b -> b <> "" ->
        (patient_in_branch w (OPDController.b_patientId body) b = None ->
         r = (Ret (mkHttp 404 false (Some "Patient not found") None), w))
        /\ (patient_in_branch w (OPDController.b_patientId body) b <> None ->
            visit_by_id w (OPDController.b_visitId body) = None ->
            r = (Ret (mkHttp 404 false (Some "Visit not found") None), w))
        /\ (patient_in_branch w (OPDController.b_patientId body) b <> None ->
            visit_by_id w (OPDController.b_visitId body) <> None ->
            requested_ids mg body <> None ->
            List.length (requested_tests mg w body)
            <> List.length (OPDController.b_tests body) ->
            r = (Ret (mkHttp 400 false
                        (Some "Some tests are not found or inactive") None), w))
        /\ (patient_in_branch w (OPDController.b_patientId body) b <> None ->
            visit_by_id w (OPDController.b_visitId body) <> None ->
            requested_ids mg body = None ->
            r = (Ret (mkHttp 500 false (Some "Failed to create test order") None),
                 set_log (log w ++ [(ERROR, "Create test order error:")])%list w)))
  /\ (forall p b,
        In p (Patients w) ->
        JS.trim (OPDController.b_patientId body) = IPatient.patientId p ->
        IPatient.branchId p = b ->
        patient_in_branch w (OPDController.b_patientId body) b <> None).
Proof.
  unfold OPDController.createTestOrder, try_catch, effective_branch,
    patient_in_branch, visit_by_id.
  cbv zeta.
  split; [|split].
  - destruct (if truthy_string (user_branchId user) then user_branchId user
              else OPDController.b_branchId body) as [b|]; [|reflexivity].
    simpl. destruct (String.eqb b ""); [reflexivity | discriminate].
  - intros b -> Hb. apply String.eqb_neq in Hb. rewrite Hb.
    split; [|split; [|split]].
    + intros ->. reflexivity.
    + intros Hp ->. destruct (find _ (Patients w)); [reflexivity | contradiction].
    + intros Hp Hv Hsome Hlen.
      destruct (find _ (Patients w)); [|contradiction].
      destruct (find _ (Visits w)); [|contradiction].
      unfold requested_tests in Hlen. unfold requested_ids in *.
      destruct (castObjectIds mg _) as [ids|]; [|contradiction].
      apply Nat.eqb_neq in Hlen. rewrite Hlen. reflexivity.
    + intros Hp Hv Hnone.
      destruct (find _ (Patients w)); [|contradiction].
      destruct (find _ (Visits w)); [|contradiction].
      unfold requested_ids in Hnone. rewrite Hnone. reflexivity.
  - intros p b Hin Htrim Hb Hnone.
    apply (find_none _ _ Hnone) in Hin.
    rewrite Htrim, Hb, !String.eqb_refl in Hin. discriminate.
Qed.

Lemma createTestOrder_rejects_without_writing_witness :
  (truthy_string (effective_branch Sample.admin Sample.request) = false
   /\ OPDController.createTestOrder Sample.mg Sample.admin Sample.request
        Sample.world
      = (Ret (mkHttp 400 false (Some "Branch ID required") None), Sample.world))
  /\ (effective_branch Sample.manager Sample.request = Some "BR001"
      /\ "BR001" <> ""
      /\ patient_in_branch Sample.world " BR001-PAT001 " "BR001" <> None
      /\ visit_by_id Sample.world 77 = None
      /\ OPDController.createTestOrder Sample.mg Sample.manager
           (OPDController.mkCreateTestOrderBody " BR001-PAT001 " 77 (Some 1) []
              CASH PENDING None) Sample.world
         = (Ret (mkHttp 404 false (Some "Visit not found") None), Sample.world)).
Proof.
  split.
  - split; [reflexivity|].
    apply (proj1 (createTestOrder_rejects_without_writing Sample.mg
                    Sample.admin Sample.request Sample.world)).
    reflexivity.
  - split; [reflexivity|]. split; [discriminate|].
    split; [discriminate|]. split; [reflexivity|].
    apply (proj1 (proj2 (createTestOrder_rejects_without_writing Sample.mg
                           Sample.manager
                           (OPDController.mkCreateTestOrderBody " BR001-PAT001 "
                              77 (Some 1) [] CASH PENDING None) Sample.world))
             "BR001" eq_refl);
      [discriminate | discriminate | reflexivity].
Defined.

(** The active tests found for a list of ids are among those ids, each
    once. *)
Lemma found_ids_incl (ids : list ObjectId) (w : World) :
  incl (map ITest._id (Test.find_active_in ids w)) ids.
Proof.
  intros x Hx. apply in_map_iff in Hx as (td & <- & Htd).
  apply filter_In in Htd as [_ Hp]. apply andb_true_iff in Hp as [Hp _].
  apply existsb_exists in Hp as (y & Hy & E). apply Nat.eqb_eq in E.
  rewrite E. exact Hy.
Qed.

(** X7. An order that lists the same test twice, its ids once cast, is
    never created: the catalogue returns each test once, so fewer tests
    are found than lines were requested. *)
Theorem createTestOrder_refuses_repeated_test (mg : Mongoose)
  (user : option AuthUser) (body : OPDController.CreateTestOrderBody)
  (w : World) :
  NoDup (map ITest._id (Tests w)) ->
  (forall ids, requested_ids mg body = Some ids -> ~ NoDup ids) ->
  List.length (requested_tests mg w body)
  <> List.length (OPDController.b_tests body)
  /\ forall resp,
       fst (OPDController.createTestOrder mg user body w) = Ret resp ->
       http_status resp <> 201.
Proof.
  intros Hnd Hdup.
  assert (Hlen : List.length (requested_tests mg w body)
                 <> List.length (OPDController.b_tests body)).
  { intros Hlen. unfold requested_tests in Hlen.
    destruct (requested_ids mg body) as [ids|] eqn:Hids.
    - apply (Hdup ids eq_refl).
      unfold requested_ids in Hids. apply castObjectIds_each in Hids.
      apply Forall2_same_length in Hids. rewrite length_map in Hids.
      assert (Hnd' : NoDup (map ITest._id (Test.find_active_in ids w)))
        by (apply NoDup_map_filter; exact Hnd).
      eapply NoDup_incl_NoDup; [exact Hnd' | | apply found_ids_incl].
      rewrite length_map, Hlen, Hids. apply le_n.
    - unfold requested_ids in Hids.
      destruct (OPDController.b_tests body) as [|t rest];
        [simpl in Hids | simpl in Hlen]; discriminate. }
  split; [exact Hlen|].
  intros resp Hresp.
  destruct (createTestOrder_cases mg user body w)
    as [(resp' & Hfst & Hcode & _) | (order & w1 & doc & H)].
  - rewrite Hfst in Hresp. inversion Hresp; subst. exact Hcode.
  - destruct H as (_ & _ & _ & Hl & _). contradiction.
Qed.

Lemma createTestOrder_refuses_repeated_test_witness :
  NoDup (map ITest._id (Tests Sample.world))
  /\ requested_ids Sample.mg
       (OPDController.mkCreateTestOrderBody "BR001-PAT001" 50 (Some 1)
          [OPDController.mkOrderTestInput "000000000000000000000014" "Swab"
             1%float;
           OPDController.mkOrderTestInput "00000000000000000000001A" "CBC"
             1%float;
           OPDController.mkOrderTestInput "00000000000000000000001a" "CBC"
             1%float]
          CASH PENDING None) = Some [20; 26; 26]
  /\ forall resp,
       fst (OPDController.createTestOrder Sample.mg Sample.manager
              (OPDController.mkCreateTestOrderBody "BR001-PAT001" 50 (Some 1)
                 [OPDController.mkOrderTestInput "000000000000000000000014"
                    "Swab" 1%float;
                  OPDController.mkOrderTestInput "00000000000000000000001A"
                    "CBC" 1%float;
                  OPDController.mkOrderTestInput "00000000000000000000001a"
                    "CBC" 1%float]
                 CASH PENDING None) Sample.world) = Ret resp ->
       http_status resp <> 201.
Proof.
  assert (Hnd : NoDup (map ITest._id (Tests Sample.world))).
  { simpl. repeat constructor; simpl; intuition discriminate. }
  split; [exact Hnd|]. split; [vm_compute; reflexivity|].
  refine (proj2 (createTestOrder_refuses_repeated_test Sample.mg Sample.manager
             (OPDController.mkCreateTestOrderBody "BR001-PAT001" 50 (Some 1)
                [OPDController.mkOrderTestInput "000000000000000000000014"
                   "Swab" 1%float;
                 OPDController.mkOrderTestInput "00000000000000000000001A"
                   "CBC" 1%float;
                 OPDController.mkOrderTestInput "00000000000000000000001a"
                   "CBC" 1%float]
                CASH PENDING None) Sample.world Hnd _)).
  intros ids Hids. vm_compute in Hids. injection Hids as <-.
  intros H. inversion H as [|? ? _ Hrest]. inversion Hrest as [|? ? Hin _].
  apply Hin. left. reflexivity.
Defined.

(** X8. An order whose referring doctor does not exist is still created
    and stored, but no commission is recorded for it: the commission
    collection is left as it was. *)
Theorem order_for_unknown_doctor_has_no_commission (mg : Mongoose)
  (user : option AuthUser) (body : OPDController.CreateTestOrderBody)
  (w : World) (order : ITestOrder.t) (msg : option string)
  (doctorId : ObjectId) :
  fst (OPDController.createTestOrder mg user body w)
  = Ret (mkHttp 201 true msg (Some order)) ->
  OPDController.b_referringDoctorId body = Some doctorId ->
  lookup_doctor w doctorId = None ->
  let w' := snd (OPDController.createTestOrder mg user body w) in
  TestOrders w' = (TestOrders w ++ [order])%list
  /\ Commissions w' = Commissions w.
Proof.
  intros Hresp Hdoc Hnone.
  destruct (createTestOrder_created mg user body w order msg Hresp)
    as (branchId & creator & lines & _ & _ & Horder).
  destruct (createTestOrder_cases mg user body w)
    as [(resp & Hfst & Hcode & _) | (order' & w1 & doc & H)].
  { rewrite Hfst in Hresp. inversion Hresp; subst resp. simpl in Hcode.
    contradiction. }
  destruct H as (Hfst & Hid & _ & _ & _ & _ & Hnew & Horders
                 & Hc1 & Hd1 & _ & _ & Hc & Ho & _).
  rewrite Hfst in Hresp. inversion Hresp; subst order'. clear Hresp.
  cbv zeta. split; [rewrite Ho; exact Horders|].
  rewrite Hc, calculateCommission_run, cast_toString.
  assert (Hlookup : lookup_order w1 (next_oid w) = Some order).
  { unfold lookup_order in *. rewrite Horders.
    apply find_app_none; [exact Hnew | rewrite Hid; apply Nat.eqb_refl]. }
  rewrite Hlookup.
  assert (Href : referring_doctor w1 order = None).
  { unfold referring_doctor. rewrite Horder. simpl. rewrite Hdoc.
    unfold lookup_doctor in *. rewrite Hd1. exact Hnone. }
  rewrite Href. simpl. exact Hc1.
Qed.

Lemma order_for_unknown_doctor_has_no_commission_witness :
  exists order,
    fst (OPDController.createTestOrder Sample.mg Sample.manager
           (OPDController.mkCreateTestOrderBody "BR001-PAT001" 50 (Some 99)
              [OPDController.mkOrderTestInput (Sample.hex 20) "Swab" 1%float]
              CASH PENDING None)
           Sample.world)
    = Ret (mkHttp 201 true (Some "Test order created successfully") (Some order))
    /\ lookup_doctor Sample.world 99 = None
    /\ Commissions (snd (OPDController.createTestOrder Sample.mg Sample.manager
           (OPDController.mkCreateTestOrderBody "BR001-PAT001" 50 (Some 99)
              [OPDController.mkOrderTestInput (Sample.hex 20) "Swab" 1%float]
              CASH PENDING None)
           Sample.world))
       = Commissions Sample.world.
Proof.
  assert (Hrun : exists order,
    fst (OPDController.createTestOrder Sample.mg Sample.manager
           (OPDController.mkCreateTestOrderBody "BR001-PAT001" 50 (Some 99)
              [OPDController.mkOrderTestInput (Sample.hex 20) "Swab" 1%float]
              CASH PENDING None)
           Sample.world)
    = Ret (mkHttp 201 true (Some "Test order created successfully") (Some order))).
  { eexists. vm_compute. reflexivity. }
  destruct Hrun as [order H]. exists order.
  split; [exact H|]. split; [reflexivity|].
  apply (order_for_unknown_doctor_has_no_commission _ _ _ _ order _ 99 H);
    reflexivity.
Defined.

(** ** The stored order is consistent *)

Lemma cast_lines_shape (mg : Mongoose) (drafts : list OPDController.DraftLine) :
  forall lines,
    OPDController.cast_lines mg drafts = Some lines ->
    castObjectIds mg (map OPDController.dl_testId drafts)
    = Some (map IOrderTest.testId lines)
    /\ Forall (fun l => IOrderTest.status l = TS_PENDING
                        /\ IOrderTest.testName l <> ""
                        /\ JS.ge (IOrderTest.price l) 0%float = true) lines.
Proof.
  induction drafts as [|d rest IH]; intros lines H; simpl in H.
  - inversion H. split; [reflexivity | constructor].
  - simpl.
    destruct (castObjectId mg (OPDController.dl_testId d)) as [tid|];
      [|discriminate].
    destruct (OPDController.dl_testName d) as [n|]; [|discriminate].
    destruct (OPDController.dl_price d) as [p|]; [|discriminate].
    destruct (OPDController.cast_lines mg rest) as [ls|]; [|discriminate].
    destruct (negb (String.eqb n "")) eqn:Hn; [|discriminate].
    destruct (JS.ge p 0%float) eqn:Hp; [|discriminate].
    simpl in H. inversion H; subst lines.
    destruct (IH ls eq_refl) as [Hids Hall].
    split; [simpl; rewrite Hids; reflexivity|].
    constructor; [|exact Hall]. simpl. repeat split; [|exact Hp].
    apply negb_true_iff, String.eqb_neq in Hn. exact Hn.
Qed.

(** What one requested line adds to the order's [totalAmount]. *)
Lemma order_sums_total (mg : Mongoose) (details : list ITest.t)
  (tests : list OPDController.OrderTestInput) (lines : list IOrderTest.t) :
  Forall2 (stored_from mg details) tests lines ->
  (forall t, In t tests -> detail_of mg details t <> None) ->
  forall acc,
    OPDController.os_totalAmount
      (fold_left (OPDController.order_line mg details) tests acc)
    = fold_left (fun sum l => (sum + IOrderTest.price l)%float) lines
        (OPDController.os_totalAmount acc).
Proof.
  intros H. induction H as [|t l tests lines [_ Hprice] _ IH]; intros Hall acc.
  - reflexivity.
  - simpl. rewrite IH by (intros t' Ht'; apply Hall; right; exact Ht').
    f_equal. specialize (Hall t (or_introl eq_refl)).
    unfold OPDController.order_line. unfold detail_of in *.
    destruct (find _ details) as [td|]; [|contradiction].
    simpl. rewrite (Hprice td eq_refl). reflexivity.
Qed.

(** A test id written in upper-case digits casts, and its test is found,
    but the line is matched to no test by its text: the order is stored
    with a line priced 100 and [totalAmount] and [commissionAmount] 0,
    while the commission calculated for it is 10. *)
Lemma upper_case_test_id_is_not_priced :
  exists order c,
    OPDController.in_testId
      (OPDController.mkOrderTestInput "00000000000000000000000A" "CBC" 100%float)
    <> ObjectId_toString Sample.mg 10
    /\ fst (OPDController.createTestOrder Sample.mg Sample.manager
              (OPDController.mkCreateTestOrderBody "BR001-PAT001" 50 (Some 1)
                 [OPDController.mkOrderTestInput "00000000000000000000000A"
                    "CBC" 100%float]
                 CASH PENDING None) Sample.world)
       = Ret (mkHttp 201 true (Some "Test order created successfully")
                (Some order))
    /\ Commissions (snd (OPDController.createTestOrder Sample.mg Sample.manager
              (OPDController.mkCreateTestOrderBody "BR001-PAT001" 50 (Some 1)
                 [OPDController.mkOrderTestInput "00000000000000000000000A"
                    "CBC" 100%float]
                 CASH PENDING None) Sample.world)) = [c]
    /\ map IOrderTest.testId (ITestOrder.tests order) = [10]
    /\ map IOrderTest.price (ITestOrder.tests order) = [100%float]
    /\ ITestOrder.totalAmount order = 0%float
    /\ ITestOrder.commissionAmount order = 0%float
    /\ ICommission.amount c = 10%float.
Proof.
  eexists; eexists.
  split; [discriminate|].
  split; [vm_compute; reflexivity|].
  split; [vm_compute; reflexivity|].
  repeat split; reflexivity.
Qed.

(** X9. The order [createTestOrder] stores has one line per requested
    test, in order, under the id the requested text casts to, each
    PENDING with a price that is at least 0; and when the request writes
    its test ids as the store does, its [totalAmount] is the sum of the
    prices of its lines, added in order. *)
Theorem created_order_is_consistent (mg : Mongoose) (user : option AuthUser)
  (body : OPDController.CreateTestOrderBody) (w : World) (order : ITestOrder.t)
  (msg : option string) :
  NoDup (map ITest._id (Tests w)) ->
  fst (OPDController.createTestOrder mg user body w)
  = Ret (mkHttp 201 true msg (Some order)) ->
  requested_ids mg body = Some (map IOrderTest.testId (ITestOrder.tests order))
  /\ List.length (ITestOrder.tests order)
     = List.length (OPDController.b_tests body)
  /\ Forall (fun l => IOrderTest.status l = TS_PENDING
                      /\ JS.ge (IOrderTest.price l) 0%float = true)
            (ITestOrder.tests order)
  /\ (written_as_stored mg body ->
      ITestOrder.totalAmount order
      = JS.sum_by IOrderTest.price (ITestOrder.tests order)).
Proof.
  intros Hnd Hresp.
  destruct (createTestOrder_created mg user body w order msg Hresp)
    as (branchId & creator & lines & _ & Hcast & Horder).
  destruct (createTestOrder_cases mg user body w)
    as [(resp & Hfst & Hcode & _) | (order' & w1 & doc & H)].
  { rewrite Hfst in Hresp. inversion Hresp; subst resp. simpl in Hcode.
    contradiction. }
  destruct H as (_ & _ & _ & Hlen & _ & _ & _ & _ & _ & _ & _ & _ & _ & _ & _
                 & _ & Hsome).
  subst order. unfold created_order. cbv zeta.
  cbn [ITestOrder.tests ITestOrder.totalAmount].
  unfold OPDController.order_sums in Hcast. rewrite order_sums_lines in Hcast.
  simpl app in Hcast.
  destruct (cast_lines_shape mg _ _ Hcast) as [Hids Hall].
  assert (Hreq : requested_ids mg body = Some (map IOrderTest.testId lines)).
  { unfold requested_ids. rewrite <- Hids. f_equal.
    rewrite map_map. apply map_ext. intros t. reflexivity. }
  split; [exact Hreq|]. split; [|split].
  - unfold requested_ids in Hreq. apply castObjectIds_each in Hreq.
    apply Forall2_same_length in Hreq. rewrite !length_map in Hreq.
    symmetry. exact Hreq.
  - apply (Forall_impl _ (P := fun l => IOrderTest.status l = TS_PENDING
                                       /\ IOrderTest.testName l <> ""
                                       /\ JS.ge (IOrderTest.price l) 0%float = true));
      [|exact Hall].
    intros l (H1 & _ & H3). split; assumption.
  - intros Hwritten. unfold OPDController.order_sums, JS.sum_by.
    apply (order_sums_total mg (requested_tests mg w body)).
    + apply cast_lines_stored. exact Hcast.
    + intros t Ht.
      destruct (requested_all_found mg w body Hnd Hwritten Hsome Hlen t Ht)
        as (td & id & _ & Hd & _).
      rewrite Hd. discriminate.
Qed.

Lemma created_order_is_consistent_witness :
  NoDup (map ITest._id (Tests Sample.world))
  /\ written_as_stored Sample.mg Sample.request
  /\ exists order,
       fst (OPDController.createTestOrder Sample.mg Sample.manager
              Sample.request Sample.world)
       = Ret (mkHttp 201 true (Some "Test order created successfully")
                (Some order))
       /\ map IOrderTest.testId (ITestOrder.tests order) = [20; 21]
       /\ ITestOrder.totalAmount order
          = JS.sum_by IOrderTest.price (ITestOrder.tests order).
Proof.
  assert (Hnd : NoDup (map ITest._id (Tests Sample.world))).
  { simpl. repeat constructor; simpl; intuition discriminate. }
  assert (Hwritten : written_as_stored Sample.mg Sample.request).
  { intros t id Ht Hcast. simpl in Ht.
    destruct Ht as [<- | [<- | []]]; vm_compute in Hcast;
      injection Hcast as <-; reflexivity. }
  split; [exact Hnd|]. split; [exact Hwritten|].
  assert (Hrun : exists order,
            fst (OPDController.createTestOrder Sample.mg Sample.manager
                   Sample.request Sample.world)
            = Ret (mkHttp 201 true (Some "Test order created successfully")
                     (Some order))
            /\ map IOrderTest.testId (ITestOrder.tests order) = [20; 21]).
  { eexists. split; vm_compute; reflexivity. }
  destruct Hrun as (order & H & Hids). exists order.
  split; [exact H|]. split; [exact Hids|].
  apply (created_order_is_consistent Sample.mg Sample.manager Sample.request
           Sample.world order _ Hnd H).
  exact Hwritten.
Defined.

(** ** Sorting and paging *)
Lemma insert_by_perm {A : Type} (before : A -> A -> bool) (x : A) (xs : list A) :
  Permutation (insert_by before x xs) (x :: xs).
Proof.
  induction xs as [|h rest IH]; simpl; [apply Permutation_refl|].
  destruct (before x h); [apply Permutation_refl|].
  eapply Permutation_trans; [apply perm_skip, IH | apply perm_swap].
Qed.

Lemma sort_by_fold_perm {A : Type} (before : A -> A -> bool) (xs acc : list A) :
  Permutation (fold_left (fun sorted x => insert_by before x sorted) xs acc)
              (acc ++ xs).
Proof.
  revert acc. induction xs as [|x rest IH]; intros acc; simpl.
  - rewrite app_nil_r. apply Permutation_refl.
  - eapply Permutation_trans; [apply IH|].
    eapply Permutation_trans;
      [apply Permutation_app_tail, insert_by_perm|].
    simpl. apply Permutation_middle.
Qed.

(** Sorting rearranges and nothing else. *)
Lemma sort_by_perm {A : Type} (before : A -> A -> bool) (xs : list A) :
  Permutation (sort_by before xs) xs.
Proof. apply (sort_by_fold_perm before xs []). Qed.

Lemma sort_by_length {A : Type} (before : A -> A -> bool) (xs : list A) :
  List.length (sort_by before xs) = List.length xs.
Proof. apply Permutation_length, sort_by_perm. Qed.

Lemma sort_by_In {A : Type} (before : A -> A -> bool) (xs : list A) (x : A) :
  In x (sort_by before xs) <-> In x xs.
Proof.
  split; apply Permutation_in; [|apply Permutation_sym]; apply sort_by_perm.
Qed.

Lemma insert_by_in_order {A : Type} (before : A -> A -> bool) (x : A)
  (xs : list A) :
  (forall a b, before a b = true -> before b a = false) ->
  in_order before xs -> in_order before (insert_by before x xs).
Proof.
  intros Hasym H. unfold in_order in *.
  induction H as [|h rest Hs IH Hh]; simpl.
  - repeat constructor.
  - destruct (before x h) eqn:E.
    + constructor; [constructor; assumption|]. constructor. apply Hasym. exact E.
    + constructor; [exact IH|].
      destruct rest as [|h' rest']; simpl.
      * constructor. exact E.
      * destruct (before x h'); constructor; [exact E|].
        inversion Hh; assumption.
Qed.

Lemma sort_by_in_order {A : Type} (before : A -> A -> bool) (xs : list A) :
  (forall a b, before a b = true -> before b a = false) ->
  in_order before (sort_by before xs).
Proof.
  intros Hasym. unfold sort_by.
  assert (H : forall acc, in_order before acc ->
                in_order before
                  (fold_left (fun sorted x => insert_by before x sorted) xs acc)).
  { induction xs as [|x rest IH]; intros acc Hacc; simpl; [exact Hacc|].
    apply IH, insert_by_in_order; assumption. }
  apply H. constructor.
Qed.

Lemma SFcompare_asym (x y : spec_float) :
  SFcompare x y = Some Lt -> SFcompare y x = Some Gt.
Proof.
  destruct x as [s|s| |s m e], y as [s'|s'| |s' m' e']; simpl; try discriminate;
    try (destruct s, s'; simpl; congruence); try (destruct s; simpl; congruence);
    try (destruct s'; simpl; congruence).
  change (PosDef.Pos.compare_cont Eq m m') with (Pos.compare m m').
  change (PosDef.Pos.compare_cont Eq m' m) with (Pos.compare m' m).
  rewrite (Z.compare_antisym e e'), (Pos.compare_antisym m m').
  destruct s, s'; simpl; try congruence;
    destruct (e ?= e')%Z; simpl; try congruence;
    destruct (m ?= m')%positive; simpl; congruence.
Qed.

(** On numbers [a < b] excludes [b < a]. *)
Lemma ltb_asym (a b : number) :
  PrimFloat.ltb a b = true -> PrimFloat.ltb b a = false.
Proof.
  rewrite !FloatAxioms.ltb_spec. unfold SFltb. intros H.
  destruct (SFcompare (Prim2SF a) (Prim2SF b)) as [[| |]|] eqn:E; try discriminate.
  rewrite (SFcompare_asym _ _ E). reflexivity.
Qed.

Lemma newest_first_asym (a b : ICommission.t) :
  newest_first a b = true -> newest_first b a = false.
Proof.
  unfold newest_first. intros H. apply Nat.ltb_lt in H. apply Nat.ltb_ge. lia.
Qed.

(** Newest first, as a chain of [>=] on the dates. *)
Lemma newest_first_sorted (cs : list ICommission.t) :
  Sorted (fun a b => ICommission.calculatedDate b <= ICommission.calculatedDate a)
         (sort_by newest_first cs).
Proof.
  pose proof (sort_by_in_order newest_first cs newest_first_asym) as H.
  unfold in_order in H.
  induction H as [|h rest Hs IH Hh]; constructor; [exact IH|].
  destruct Hh as [|h' rest' E]; constructor.
  unfold newest_first in E. apply Nat.ltb_ge in E. exact E.
Qed.



(** ** The role and branch guards *)
Lemma UserRole_eqb_eq (a b : UserRole) : UserRole_eqb a b = true <-> a = b.
Proof. destruct a, b; simpl; split; intros H; try reflexivity; discriminate. Qed.

Lemma allowed_iff (r : UserRole) (allowed : list UserRole) :
  existsb (UserRole_eqb r) allowed = true <-> In r allowed.
Proof.
  rewrite existsb_exists. split.
  - intros (x & Hx & E). apply UserRole_eqb_eq in E. subst x. exact Hx.
  - intros H. exists r. split; [exact H | apply UserRole_eqb_eq; reflexivity].
Qed.

(** X10. [authorize(allowedRoles)] answers 401 to a request without a
    user, 403 to a user whose role is not listed, and passes every other
    request on unchanged; listing more roles never turns a pass into a
    refusal, so whoever passes [authorizeAdmin] passes
    [authorizeBranchManager], and whoever passes that passes each of the
    three staff guards. *)
Theorem authorize_by_role (A : Type) (allowed : list UserRole)
  (user : option AuthUser) :
  (user = None ->
   @authorize A allowed user
   = Respond (mkHttp 401 false (Some "Authentication required") None))
  /\ (forall u, user = Some u ->
        (In (u_role u) allowed -> @authorize A allowed user = Next user)
        /\ (~ In (u_role u) allowed ->
            @authorize A allowed user
            = Respond (mkHttp 403 false (Some "Insufficient permissions") None)))
  /\ (forall more, incl allowed more ->
        @authorize A allowed user = Next user ->
        @authorize A more user = Next user)
  /\ (@RbacMiddleware.authorizeAdmin A user = Next user ->
      @RbacMiddleware.authorizeBranchManager A user = Next user)
  /\ (@RbacMiddleware.authorizeBranchManager A user = Next user ->
      @RbacMiddleware.authorizeOPDStaff A user = Next user
      /\ @RbacMiddleware.authorizeLabStaff A user = Next user
      /\ @RbacMiddleware.authorizePharmacyStaff A user = Next user).
Proof.
  assert (Hmono : forall l more, incl l more ->
            @authorize A l user = Next user -> @authorize A more user = Next user).
  { intros l more Hincl. unfold authorize. destruct user as [u|]; [|discriminate].
    destruct (existsb (UserRole_eqb (u_role u)) l) eqn:E; [|discriminate].
    intros _. apply allowed_iff, Hincl, allowed_iff in E. rewrite E. reflexivity. }
  split; [|split; [|split; [|split]]].
  - intros ->. reflexivity.
  - intros u ->. unfold authorize. split; intros H.
    + apply allowed_iff in H. rewrite H. reflexivity.
    + destruct (existsb (UserRole_eqb (u_role u)) allowed) eqn:E; [|reflexivity].
      apply allowed_iff in E. contradiction.
  - apply Hmono.
  - apply Hmono. intros r [<-|[]]. left. reflexivity.
  - intros H. repeat split; revert H; apply Hmono;
      intros r [<-|[<-|[]]]; simpl; auto.
Qed.

Lemma authorize_by_role_witness :
  (In (u_role (mkAuthUser "BR001-BRANCH001" BRANCH_MANAGER (Some "BR001") (Some 7)))
      [ADMIN; BRANCH_MANAGER]
   /\ @authorize unit [ADMIN; BRANCH_MANAGER] Sample.manager = Next Sample.manager)
  /\ (~ In (u_role (mkAuthUser "BR001-BRANCH001" BRANCH_MANAGER (Some "BR001") (Some 7)))
         [ADMIN]
      /\ @authorize unit [ADMIN] Sample.manager
         = Respond (mkHttp 403 false (Some "Insufficient permissions") None))
  /\ (@RbacMiddleware.authorizeAdmin unit Sample.admin = Next Sample.admin
      /\ @RbacMiddleware.authorizeBranchManager unit Sample.admin = Next Sample.admin).
Proof.
  split; [|split].
  - split; [simpl; auto|].
    apply (proj1 (proj2 (authorize_by_role unit [ADMIN; BRANCH_MANAGER]
                           Sample.manager)) _ eq_refl).
    simpl; auto.
  - assert (H : ~ In BRANCH_MANAGER [ADMIN]) by (intros [E|[]]; discriminate E).
    split; [exact H|].
    apply (proj1 (proj2 (authorize_by_role unit [ADMIN] Sample.manager))
             _ eq_refl).
    exact H.
  - split; [reflexivity|].
    apply (proj1 (proj2 (proj2 (proj2 (authorize_by_role unit [ADMIN]
                                         Sample.admin))))).
    reflexivity.
Defined.

(** X11. For a user who is not an administrator, [checkBranchAccess]
    looks at the first truthy [branchId] among params, body and query: it
    answers 403 exactly when there is one and it is not the user's own
    branch.  A request that passes with a branch named names the user's
    branch.  When none is named, the guard writes the user's branch into
    the body of a request that is not a GET and into the query of a GET;
    the latter lasts only where an assignment to [req.query] is kept, and
    where it is not the GET request is passed on as it came, naming no
    branch.  A user without a branch passes only when no branch is named.
    When the params already name the user's branch, body and query are
    passed on as they came. *)
Theorem checkBranchAccess_keeps_to_own_branch (A : Type) (queryKept : bool)
  (u : AuthUser) (req : RbacMiddleware.BranchRequest) :
  u_role u <> ADMIN ->
  let named := RbacMiddleware.branchIdFromParams req in
  (@RbacMiddleware.checkBranchAccess A queryKept (Some u) req
   = Respond (mkHttp 403 false (Some "Branch access denied") None)
   <-> RbacMiddleware.field_truthy named = true
       /\ RbacMiddleware.field_is named (u_branchId u) = false)
  /\ (forall req',
        @RbacMiddleware.checkBranchAccess A queryKept (Some u) req = Next req' ->
        RbacMiddleware.r_params req' = RbacMiddleware.r_params req
        /\ (forall own, u_branchId u = Some own -> own <> "" ->
              RbacMiddleware.field_truthy named = true
              \/ RbacMiddleware.r_isGet req = false
              \/ queryKept = true ->
              RbacMiddleware.branchIdFromParams req' = RbacMiddleware.Text own)
        /\ (RbacMiddleware.field_truthy named = false ->
            RbacMiddleware.r_isGet req = true ->
            queryKept = false ->
            req' = req)
        /\ (truthy_string (u_branchId u) = false ->
              req' = req /\ RbacMiddleware.field_truthy named = false))
  /\ (forall own, u_branchId u = Some own -> own <> "" ->
        RbacMiddleware.r_params req = RbacMiddleware.Text own ->
        @RbacMiddleware.checkBranchAccess A queryKept (Some u) req = Next req).
Proof.
  intros Hrole named.
  assert (Hadmin : UserRole_eqb (u_role u) ADMIN = false).
  { destruct (UserRole_eqb (u_role u) ADMIN) eqn:E; [|reflexivity].
    apply UserRole_eqb_eq in E. contradiction. }
  unfold RbacMiddleware.checkBranchAccess. rewrite Hadmin. cbv zeta.
  fold named.
  split; [|split].
  - destruct (RbacMiddleware.field_truthy named) eqn:Ht;
      destruct (RbacMiddleware.field_is named (u_branchId u)) eqn:Hi; simpl.
    + split; [discriminate | intros [_ H]; discriminate H].
    + split; auto.
    + split; [|intros [H _]; discriminate H].
      destruct (truthy_string (u_branchId u)); [|discriminate].
      destruct (u_branchId u); [|discriminate].
      destruct (RbacMiddleware.r_isGet req); discriminate.
    + split; [|intros [H _]; discriminate H].
      destruct (truthy_string (u_branchId u)); [|discriminate].
      destruct (u_branchId u); [|discriminate].
      destruct (RbacMiddleware.r_isGet req); discriminate.
  - intros req' H.
    destruct (RbacMiddleware.field_truthy named) eqn:Ht.
    + destruct (RbacMiddleware.field_is named (u_branchId u)) eqn:Hi;
        simpl in H; [|discriminate].
      inversion H; subst req'. split; [reflexivity|].
      split; [|split; [discriminate|]].
      * intros own Hown Hne _. fold named. rewrite Hown in Hi.
        destruct named; simpl in Hi; try discriminate.
        apply String.eqb_eq in Hi. subst. reflexivity.
      * intros Hnone. exfalso.
        destruct (u_branchId u) as [b|];
          destruct named as [|s|t]; simpl in Hi, Ht; try discriminate.
        apply String.eqb_eq in Hi. subst b. simpl in Hnone.
        rewrite Ht in Hnone. discriminate.
    + rewrite andb_false_l in H. cbn [negb andb] in H.
      destruct (truthy_string (u_branchId u)) eqn:Hb.
      * destruct (u_branchId u) as [b|] eqn:Hu; [|discriminate].
        assert (Hq : RbacMiddleware.field_truthy (RbacMiddleware.Text b) = true)
          by exact Hb.
        unfold named, RbacMiddleware.branchIdFromParams,
          RbacMiddleware.field_or in Ht.
        destruct (RbacMiddleware.field_truthy (RbacMiddleware.r_params req)) eqn:Hp;
          [congruence|].
        destruct (RbacMiddleware.field_truthy (RbacMiddleware.r_body req)) eqn:Hbd;
          [congruence|].
        destruct (RbacMiddleware.r_isGet req) eqn:Hget;
          [destruct queryKept|]; inversion H; subst req';
          (split; [reflexivity|]);
          (split; [|split; [|intros Hf; discriminate Hf]]);
          try (intros; discriminate); try (intros; reflexivity);
          try (intros own Hown _ Hcase; inversion Hown; subst own;
               unfold RbacMiddleware.branchIdFromParams, RbacMiddleware.field_or;
               cbn [RbacMiddleware.r_params RbacMiddleware.r_body
                    RbacMiddleware.r_query];
               rewrite ?Hp, ?Hbd, ?Hq; try reflexivity;
               destruct Hcase as [Hc | [Hc | Hc]]; discriminate Hc).
      * inversion H; subst req'. split; [reflexivity|].
        split; [|split; [reflexivity|]].
        -- intros own Hown Hne. rewrite Hown in Hb. simpl in Hb.
           apply String.eqb_neq in Hne. rewrite Hne in Hb. discriminate.
        -- intros _. split; reflexivity.
  - intros own Hown Hne Hparams.
    assert (Hn : named = RbacMiddleware.Text own).
    { unfold named, RbacMiddleware.branchIdFromParams, RbacMiddleware.field_or.
      rewrite Hparams. simpl. apply String.eqb_neq in Hne. rewrite Hne. reflexivity. }
    rewrite Hn, Hown. simpl. rewrite String.eqb_refl.
    apply String.eqb_neq in Hne. rewrite Hne. reflexivity.
Qed.

Lemma checkBranchAccess_keeps_to_own_branch_witness :
  BRANCH_MANAGER <> ADMIN
  /\ (RbacMiddleware.field_truthy (RbacMiddleware.Text "BR002") = true
      /\ RbacMiddleware.field_is (RbacMiddleware.Text "BR002") (Some "BR001") = false
      /\ @RbacMiddleware.checkBranchAccess unit false
           (Some (mkAuthUser "BR001-BRANCH001" BRANCH_MANAGER (Some "BR001") (Some 7)))
           (RbacMiddleware.mkBranchRequest true RbacMiddleware.Missing
              RbacMiddleware.Missing (RbacMiddleware.Text "BR002"))
         = Respond (mkHttp 403 false (Some "Branch access denied") None))
  /\ @RbacMiddleware.checkBranchAccess unit false
       (Some (mkAuthUser "BR001-BRANCH001" BRANCH_MANAGER (Some "BR001") (Some 7)))
       (RbacMiddleware.mkBranchRequest true RbacMiddleware.Missing
          RbacMiddleware.Missing RbacMiddleware.Missing)
     = Next (RbacMiddleware.mkBranchRequest true RbacMiddleware.Missing
               RbacMiddleware.Missing RbacMiddleware.Missing).
Proof.
  assert (H : BRANCH_MANAGER <> ADMIN) by discriminate.
  split; [exact H|]. split; [|reflexivity].
  split; [reflexivity|]. split; [reflexivity|].
  apply (proj1 (checkBranchAccess_keeps_to_own_branch unit false
                  (mkAuthUser "BR001-BRANCH001" BRANCH_MANAGER (Some "BR001") (Some 7))
                  (RbacMiddleware.mkBranchRequest true RbacMiddleware.Missing
                     RbacMiddleware.Missing (RbacMiddleware.Text "BR002")) H)).
  split; reflexivity.
Defined.

(** ** The commission handlers *)
Lemma statusCode_or_500_error {A : Type} (msg : string) (code : nat) :
  code <> 0 ->
  statusCode_or_500 (@ResponseHelper.error A msg code) = code.
Proof.
  intros H. unfold statusCode_or_500. simpl.
  apply Nat.eqb_neq in H. rewrite H. reflexivity.
Qed.

(** A text that casts to an id is not empty. *)
Lemma cast_truthy (mg : Mongoose) (raw : string) (id : ObjectId) :
  castObjectId mg raw = Some id -> truthy_string (Some raw) = true.
Proof.
  intros H. simpl. destruct (String.eqb raw "") eqn:E; [|reflexivity].
  apply String.eqb_eq in E. subst raw. rewrite cast_empty in H. discriminate.
Qed.

Lemma truthy_text (raw : string) :
  raw <> "" -> truthy_string (Some raw) = true.
Proof.
  intros H. simpl. apply String.eqb_neq in H. rewrite H. reflexivity.
Qed.

(** What the [payCommission] handler does, case by case. *)
Lemma payCommission_handler_run (mg : Mongoose) (transport : Transport)
  (user : option AuthUser) (raw : string) (w : World) :
  truthy_string (Some raw) = true ->
  CommissionController.payCommission mg transport user (Some raw) w
  = match CommissionService.payCommission mg transport raw
            (userId_or_Unknown user) w with
    | (Ret result, w') =>
        if success result
        then (Ret (200, result),
              set_log (log w' ++ [(INFO, "Commission marked as paid by user")])%list w')
        else (Ret (statusCode_or_500 result, result), w')
    | (Throw e, w') =>
        (Ret (500, ResponseHelper.error_default "Failed to pay commission"),
         set_log (log w' ++ [(ERROR, "Pay commission error:")])%list w')
    end.
Proof.
  intros Ht.
  unfold CommissionController.payCommission, try_catch, bind.
  rewrite Ht. cbn [negb text_of].
  destruct (CommissionService.payCommission mg transport raw
              (userId_or_Unknown user) w)
    as [[result|e] w']; [|reflexivity].
  destruct (success result); reflexivity.
Qed.

(** X12. The answer of the [payCommission] handler carries the service's
    outcome.  For an id the store cannot cast it is 500, with nothing
    written but the log.  For an id that casts it is 404 for an unknown
    commission and 400 for one already paid, with nothing written; when
    the commission is payable but its doctor does not exist, the handler
    answers 500 although the commission has been stored as PAID, and
    paying again is then refused with 400. *)
Theorem payCommission_handler_outcomes (mg : Mongoose) (transport : Transport)
  (user : option AuthUser) (raw : string) (w : World) :
  let r := CommissionController.payCommission mg transport user (Some raw) w in
  (raw = "" ->
   r = (Ret (400, ResponseHelper.error "Commission ID is required" 400), w))
  /\ (raw <> "" -> castObjectId mg raw = None ->
      r = (Ret (500, ResponseHelper.error_default
                       "Failed to process commission payment"),
           set_log (log w ++ [(ERROR, "Pay commission error:")])%list w))
  /\ (forall id, castObjectId mg raw = Some id ->
      (lookup_commission w id = None ->
       r = (Ret (404, ResponseHelper.error "Commission not found" 404), w))
      /\ (forall c, lookup_commission w id = Some c ->
            ICommission.paymentStatus c = PAID ->
            r = (Ret (400, ResponseHelper.error "Commission already paid" 400), w))
      /\ (forall c, lookup_commission w id = Some c ->
            ICommission.paymentStatus c <> PAID ->
            lookup_doctor w (ICommission.doctorId c) = None ->
            fst r = Ret (500, ResponseHelper.error_default
                                "Failed to process commission payment")
            /\ status_of (snd r) id = Some PAID
            /\ fst (CommissionController.payCommission mg transport user
                      (Some raw) (snd r))
               = Ret (400, ResponseHelper.error "Commission already paid" 400))
      /\ (forall c d, lookup_commission w id = Some c ->
            ICommission.paymentStatus c <> PAID ->
            lookup_doctor w (ICommission.doctorId c) = Some d ->
            fst r = Ret (200, ResponseHelper.success
                                (CommissionService.mark_paid c (clock w))
                                "Commission payment processed successfully")
            /\ status_of (snd r) id = Some PAID)).
Proof.
  cbv zeta. split; [|split].
  - intros ->. reflexivity.
  - intros Hne Hcast.
    rewrite (payCommission_handler_run mg transport user raw w (truthy_text raw Hne)).
    rewrite payCommission_run, Hcast. reflexivity.
  - intros id Hcast.
    pose proof (cast_truthy mg raw id Hcast) as Ht.
    rewrite (payCommission_handler_run mg transport user raw w Ht).
    rewrite payCommission_run, Hcast.
    split; [|split; [|split]].
    + intros ->. reflexivity.
    + intros c -> ->. reflexivity.
    + intros c Hc Hp Hd. rewrite Hc, Hd.
      assert (Hs : PaymentStatus_eqb (ICommission.paymentStatus c) PAID = false).
      { destruct (PaymentStatus_eqb (ICommission.paymentStatus c) PAID) eqn:E;
          [|reflexivity]. apply PaymentStatus_eqb_eq in E. contradiction. }
      rewrite Hs. cbv zeta. cbn [fst snd success ResponseHelper.error_default
                                   ResponseHelper.error].
      assert (Hl : lookup_commission
                     (set_log (log w ++ [(ERROR, "Pay commission error:")])%list
                        (after_pay w (CommissionService.mark_paid c (clock w)))) id
                   = Some (CommissionService.mark_paid c (clock w))).
      { unfold lookup_commission in *. simpl.
        apply (lookup_after_replace _ c); [exact Hc|].
        simpl. apply find_some in Hc as [_ E]. apply Nat.eqb_eq in E. exact E. }
      split; [reflexivity|]. split.
      * unfold status_of. rewrite Hl. reflexivity.
      * rewrite (payCommission_handler_run mg transport user raw _ Ht).
        rewrite payCommission_run, Hcast, Hl. reflexivity.
    + intros c d Hc Hp Hd. rewrite Hc, Hd.
      assert (Hs : PaymentStatus_eqb (ICommission.paymentStatus c) PAID = false).
      { destruct (PaymentStatus_eqb (ICommission.paymentStatus c) PAID) eqn:E;
          [|reflexivity]. apply PaymentStatus_eqb_eq in E. contradiction. }
      rewrite Hs. cbv zeta. cbn [fst snd success ResponseHelper.success].
      split; [reflexivity|].
      unfold status_of, lookup_commission in *. simpl.
      rewrite (lookup_after_replace _ c _ id Hc); [reflexivity|].
      simpl. apply find_some in Hc as [_ E]. apply Nat.eqb_eq in E. exact E.
Qed.

Lemma payCommission_handler_outcomes_witness :
  ("abc" <> ""
   /\ castObjectId Sample.mg "abc" = None
   /\ fst (CommissionController.payCommission Sample.mg Sample.always_delivers
             Sample.manager (Some "abc") Sample.orphan_ledger)
      = Ret (500, ResponseHelper.error_default
                    "Failed to process commission payment"))
  /\ castObjectId Sample.mg (Sample.hex 1000) = Some 1000
  /\ lookup_commission Sample.orphan_ledger 1000
     = Some (ICommission.mk 1000 99 "BR001-PAT001" 100 TEST_REFERRAL 30%float
               15%float 45 PENDING None "BR002")
  /\ PENDING <> PAID
  /\ lookup_doctor Sample.orphan_ledger 99 = None
  /\ fst (CommissionController.payCommission Sample.mg Sample.always_delivers
            Sample.manager (Some (Sample.hex 1000)) Sample.orphan_ledger)
     = Ret (500, ResponseHelper.error_default "Failed to process commission payment")
  /\ status_of (snd (CommissionController.payCommission Sample.mg
                       Sample.always_delivers Sample.manager
                       (Some (Sample.hex 1000)) Sample.orphan_ledger)) 1000
     = Some PAID.
Proof.
  assert (Hp : PENDING <> PAID) by discriminate.
  assert (Habc : "abc" <> "") by discriminate.
  split.
  - split; [exact Habc|]. split; [reflexivity|].
    rewrite (proj1 (proj2 (payCommission_handler_outcomes Sample.mg
                             Sample.always_delivers Sample.manager "abc"
                             Sample.orphan_ledger)) Habc eq_refl).
    reflexivity.
  - split; [reflexivity|]. split; [reflexivity|]. split; [exact Hp|].
    split; [reflexivity|].
    destruct (proj1 (proj2 (proj2 (proj2 (proj2 (payCommission_handler_outcomes
                       Sample.mg Sample.always_delivers Sample.manager
                       (Sample.hex 1000) Sample.orphan_ledger)) 1000 eq_refl)))
                _ eq_refl Hp eq_refl) as (H1 & H2 & _).
    split; [exact H1 | exact H2].
Defined.

(** X13. [getCommissionById] answers 500 for an id the store cannot cast;
    for an id that casts, 404 for an unknown commission, 403 to a user who
    is not an administrator, has a branch, and asks for a commission of
    another branch, and 200 with the commission, its doctor and its order
    otherwise: an administrator, and a user without a branch, read the
    commissions of every branch.  It writes nothing but the log. *)
Theorem getCommissionById_access (mg : Mongoose) (user : option AuthUser)
  (raw : string) (w : World) :
  let r := CommissionController.getCommissionById mg user (Some raw) w in
  (raw = "" ->
   r = (Ret (400, ResponseHelper.error "Commission ID is required" 400), w))
  /\ (raw <> "" -> castObjectId mg raw = None ->
      r = (Ret (500, ResponseHelper.error_default
                       "Failed to get commission details"),
           set_log (log w ++ [(ERROR, "Get commission by ID error:")])%list w))
  /\ (forall id, castObjectId mg raw = Some id ->
      (lookup_commission w id = None ->
       r = (Ret (404, ResponseHelper.error "Commission not found" 404), w))
      /\ (forall c, lookup_commission w id = Some c ->
            (bound_to_branch user = true ->
             user_branchId user <> Some (ICommission.branchId c) ->
             r = (Ret (403, ResponseHelper.error
                              "Access denied for this commission" 403), w))
            /\ (bound_to_branch user = false
                \/ user_branchId user = Some (ICommission.branchId c) ->
                fst r = Ret (200, ResponseHelper.success (details_of w c)
                                    "Commission retrieved successfully")
                /\ same_but_log (snd r) w))).
Proof.
  cbv zeta. unfold CommissionController.getCommissionById, try_catch.
  split; [|split].
  - intros ->. reflexivity.
  - intros Hne Hcast. rewrite (truthy_text raw Hne). cbn [negb text_of].
    unfold bind, Commission.findById, bind. rewrite cast_id_run, Hcast.
    reflexivity.
  - intros id Hcast. rewrite (cast_truthy mg raw id Hcast).
    cbn [negb text_of].
    unfold bind, Commission.findById, bind. rewrite cast_id_run, Hcast.
    split.
    + intros ->. reflexivity.
    + intros c ->. split.
      * intros -> Hne.
        destruct (user_branchId user) as [b|]; simpl.
        -- destruct (String.eqb (ICommission.branchId c) b) eqn:E; [|reflexivity].
           apply String.eqb_eq in E. subst b. contradiction.
        -- reflexivity.
      * intros [Hb|Hb].
        -- rewrite Hb. simpl. split; reflexivity.
        -- rewrite Hb. simpl. rewrite String.eqb_refl, andb_false_r. simpl.
           split; reflexivity.
Qed.

Lemma getCommissionById_access_witness :
  ("abc" <> ""
   /\ castObjectId Sample.mg "abc" = None
   /\ fst (CommissionController.getCommissionById Sample.mg Sample.manager
             (Some "abc") Sample.orphan_ledger)
      = Ret (500, ResponseHelper.error_default "Failed to get commission details"))
  /\ castObjectId Sample.mg (Sample.hex 1000) = Some 1000
  /\ lookup_commission Sample.orphan_ledger 1000
     = Some (ICommission.mk 1000 99 "BR001-PAT001" 100 TEST_REFERRAL 30%float
               15%float 45 PENDING None "BR002")
  /\ bound_to_branch Sample.manager = true
  /\ user_branchId Sample.manager <> Some "BR002"
  /\ CommissionController.getCommissionById Sample.mg Sample.manager
       (Some (Sample.hex 1000)) Sample.orphan_ledger
     = (Ret (403, ResponseHelper.error "Access denied for this commission" 403),
        Sample.orphan_ledger)
  /\ bound_to_branch Sample.admin = false
  /\ fst (CommissionController.getCommissionById Sample.mg Sample.admin
            (Some (Sample.hex 1000)) Sample.orphan_ledger)
     = Ret (200, ResponseHelper.success
                   (details_of Sample.orphan_ledger
                      (ICommission.mk 1000 99 "BR001-PAT001" 100 TEST_REFERRAL
                         30%float 15%float 45 PENDING None "BR002"))
                   "Commission retrieved successfully").
Proof.
  assert (Hne : user_branchId Sample.manager <> Some "BR002") by discriminate.
  assert (Habc : "abc" <> "") by discriminate.
  split.
  - split; [exact Habc|]. split; [reflexivity|].
    rewrite (proj1 (proj2 (getCommissionById_access Sample.mg Sample.manager
                             "abc" Sample.orphan_ledger)) Habc eq_refl).
    reflexivity.
  - split; [reflexivity|].
    split; [reflexivity|]. split; [reflexivity|]. split; [exact Hne|].
    split; [|split; [reflexivity|]].
    + apply (proj1 (proj2 (proj2 (proj2 (getCommissionById_access Sample.mg
                                           Sample.manager (Sample.hex 1000)
                                           Sample.orphan_ledger)) 1000 eq_refl)
                      _ eq_refl)); [reflexivity | exact Hne].
    + apply (proj2 (proj2 (proj2 (proj2 (getCommissionById_access Sample.mg
                                           Sample.admin (Sample.hex 1000)
                                           Sample.orphan_ledger)) 1000 eq_refl)
                      _ eq_refl)).
      left. reflexivity.
Defined.






(** ** The commission reports *)
Lemma cast_window_run (mg : Mongoose) (startDate endDate : option string)
  (w : World) :
  CommissionQueries.cast_window mg startDate endDate w
  = match requested_window mg startDate endDate with
    | Some win => (Ret win, w)
    | None => (Throw (CastError "Cast to date failed"), w)
    end.
Proof.
  unfold CommissionQueries.cast_window, requested_window, cast_date, bind.
  destruct startDate as [s|]; [|reflexivity].
  destruct endDate as [e|]; [|simpl; rewrite andb_false_r; reflexivity].
  simpl. destruct (negb (String.eqb s "") && negb (String.eqb e ""));
    [|reflexivity].
  destruct (Date_of_string mg s) as [lo|]; [|reflexivity].
  destruct (Date_of_string mg e) as [hi|]; reflexivity.
Qed.

Lemma getDoctorCommissions_run (mg : Mongoose) (raw : string)
  (startDate endDate : option string) (w : World) :
  CommissionQueries.getDoctorCommissions mg raw startDate endDate w
  = match castObjectId mg raw, requested_window mg startDate endDate with
    | Some doctorId, Some win =>
        let commissions :=
          sort_by newest_first (doctor_commissions w doctorId win) in
        (Ret (ResponseHelper.success
                (mkDoctorCommissions (map (with_order w) commissions)
                   (mkDoctorSummary (List.length commissions)
                      (JS.sum_by ICommission.amount commissions)
                      (JS.sum_by ICommission.amount
                         (filter (fun comm =>
                                    PaymentStatus_eqb
                                      (ICommission.paymentStatus comm) PAID)
                                 commissions))
                      (JS.sum_by ICommission.amount
                         (filter (fun comm =>
                                    PaymentStatus_eqb
                                      (ICommission.paymentStatus comm) PENDING)
                                 commissions))))
                "Doctor commissions retrieved successfully"), w)
    | _, _ =>
        (Ret (ResponseHelper.error_default "Failed to fetch doctor commissions"),
         set_log (log w ++ [(ERROR, "Get doctor commissions error:")])%list w)
    end.
Proof.
  unfold CommissionQueries.getDoctorCommissions, try_catch, bind.
  rewrite cast_id_run.
  destruct (castObjectId mg raw) as [doctorId|]; [|reflexivity].
  rewrite cast_window_run.
  destruct (requested_window mg startDate endDate) as [win|]; reflexivity.
Qed.

(** X15. [getDoctorCommissions] fails, writing to the log alone, when the
    doctor id is no ObjectId or when both dates are given and one of them
    is no date.  Otherwise it succeeds and writes nothing: it lists,
    newest first, exactly the commissions of the doctor (each once, with
    the order it refers to), and counts them.  The date window applies
    only when both dates are given: with one date alone the answer is the
    same as with none. *)
Theorem getDoctorCommissions_lists_the_doctor (mg : Mongoose) (raw : string)
  (startDate endDate : option string) (w : World) :
  (castObjectId mg raw = None \/ requested_window mg startDate endDate = None ->
   CommissionQueries.getDoctorCommissions mg raw startDate endDate w
   = (Ret (ResponseHelper.error_default "Failed to fetch doctor commissions"),
      set_log (log w ++ [(ERROR, "Get doctor commissions error:")])%list w))
  /\ (forall doctorId win,
        castObjectId mg raw = Some doctorId ->
        requested_window mg startDate endDate = Some win ->
        exists data,
          CommissionQueries.getDoctorCommissions mg raw startDate endDate w
          = (Ret (ResponseHelper.success data
                    "Doctor commissions retrieved successfully"), w)
          /\ Permutation (map fst (dc_commissions data))
               (doctor_commissions w doctorId win)
          /\ (forall c, In c (map fst (dc_commissions data)) ->
                        ICommission.doctorId c = doctorId)
          /\ Sorted (fun a b => ICommission.calculatedDate b
                                <= ICommission.calculatedDate a)
                    (map fst (dc_commissions data))
          /\ (forall p, In p (dc_commissions data) -> p = with_order w (fst p))
          /\ ds_totalCommissions (dc_summary data)
             = List.length (doctor_commissions w doctorId win))
  /\ CommissionQueries.getDoctorCommissions mg raw startDate None w
     = CommissionQueries.getDoctorCommissions mg raw None None w
  /\ CommissionQueries.getDoctorCommissions mg raw None endDate w
     = CommissionQueries.getDoctorCommissions mg raw None None w.
Proof.
  split; [|split; [|split]].
  - rewrite getDoctorCommissions_run. intros [-> | ->]; [reflexivity|].
    destruct (castObjectId mg raw); reflexivity.
  - intros doctorId win Hcast Hwin.
    rewrite getDoctorCommissions_run, Hcast, Hwin. cbv zeta.
    eexists. split; [reflexivity|].
    cbn [dc_commissions dc_summary ds_totalCommissions].
    assert (Hfst : forall cs, map fst (map (with_order w) cs) = cs).
    { intros cs. rewrite map_map. simpl. apply map_id. }
    rewrite Hfst.
    split; [apply sort_by_perm|]. split; [|split; [apply newest_first_sorted|split]].
    + intros c Hc. apply sort_by_In in Hc. unfold doctor_commissions in Hc.
      apply filter_In in Hc as [_ Hp]. apply andb_true_iff in Hp as [Hd _].
      apply Nat.eqb_eq in Hd. exact Hd.
    + intros p Hp. apply in_map_iff in Hp as (c & <- & _). reflexivity.
    + apply sort_by_length.
  - rewrite !getDoctorCommissions_run.
    assert (E : requested_window mg startDate None = Some None).
    { unfold requested_window. simpl. rewrite andb_false_r. reflexivity. }
    rewrite E. reflexivity.
  - reflexivity.
Qed.

Lemma getDoctorCommissions_lists_the_doctor_witness :
  (castObjectId Sample.mg "abc" = None
   /\ fst (CommissionQueries.getDoctorCommissions Sample.mg "abc" None None
             Sample.ledger)
      = Ret (ResponseHelper.error_default "Failed to fetch doctor commissions"))
  /\ (requested_window Sample.mg (Some "40") (Some "soon") = None
      /\ fst (CommissionQueries.getDoctorCommissions Sample.mg (Sample.hex 1)
                (Some "40") (Some "soon") Sample.ledger)
         = Ret (ResponseHelper.error_default "Failed to fetch doctor commissions"))
  /\ castObjectId Sample.mg (Sample.hex 1) = Some 1
  /\ requested_window Sample.mg (Some "40") None = Some None
  /\ exists data,
       CommissionQueries.getDoctorCommissions Sample.mg (Sample.hex 1)
         (Some "40") None Sample.ledger
       = (Ret (ResponseHelper.success data
                 "Doctor commissions retrieved successfully"), Sample.ledger)
       /\ ds_totalCommissions (dc_summary data) = 3.
Proof.
  split.
  { split; [reflexivity|].
    rewrite (proj1 (getDoctorCommissions_lists_the_doctor Sample.mg "abc" None
                      None Sample.ledger) (or_introl eq_refl)).
    reflexivity. }
  split.
  { split; [reflexivity|].
    rewrite (proj1 (getDoctorCommissions_lists_the_doctor Sample.mg
                      (Sample.hex 1) (Some "40") (Some "soon") Sample.ledger)
               (or_intror eq_refl)).
    reflexivity. }
  split; [reflexivity|]. split; [reflexivity|].
  destruct (proj1 (proj2 (getDoctorCommissions_lists_the_doctor Sample.mg
                            (Sample.hex 1) (Some "40") None
                            Sample.ledger)) 1 None eq_refl eq_refl)
    as (data & Hrun & _ & _ & _ & _ & Hcount).
  exists data. split; [exact Hrun|]. rewrite Hcount. reflexivity.
Defined.

Lemma filter_andb {A : Type} (p q : A -> bool) (xs : list A) :
  filter (fun x => p x && q x) xs = filter q (filter p xs).
Proof.
  induction xs as [|x rest IH]; simpl; [reflexivity|].
  destruct (p x); simpl; [|exact IH].
  destruct (q x); rewrite IH; reflexivity.
Qed.

Lemma commission_group_add_keys (k : nat) (c : ICommission.t)
  (groups : list (CommissionGroup nat)) :
  map cg_key (commission_group_add Nat.eqb k c groups)
  = if existsb (Nat.eqb k) (map cg_key groups) then map cg_key groups
    else (map cg_key groups ++ [k])%list.
Proof.
  induction groups as [|g rest IH]; [reflexivity|].
  destruct (Nat.eqb (cg_key g) k) eqn:E; simpl;
    rewrite E, (Nat.eqb_sym k (cg_key g)), E; simpl; [reflexivity|].
  rewrite IH. destruct (existsb (Nat.eqb k) (map cg_key rest)); reflexivity.
Qed.

(** The [$group] stage makes one row per key. *)
Lemma commission_groups_NoDup (key : ICommission.t -> nat)
  (docs : list ICommission.t) :
  NoDup (map cg_key (commission_groups Nat.eqb key docs)).
Proof.
  unfold commission_groups.
  assert (H : forall acc : list (CommissionGroup nat),
            NoDup (map cg_key acc) ->
            NoDup (map cg_key
                     (fold_left (fun groups c =>
                                   commission_group_add Nat.eqb (key c) c groups)
                                docs acc))).
  { induction docs as [|c rest IH]; intros acc Hacc; simpl; [exact Hacc|].
    apply IH. rewrite commission_group_add_keys.
    destruct (existsb (Nat.eqb (key c)) (map cg_key acc)) eqn:E; [exact Hacc|].
    apply NoDup_app; [exact Hacc | repeat constructor; intros [] |].
    intros x Hx [<-|[]].
    assert (Hex : existsb (Nat.eqb (key c)) (map cg_key acc) = true).
    { apply existsb_exists. exists (key c). split; [exact Hx | apply Nat.eqb_refl]. }
    congruence. }
  apply H. constructor.
Qed.

Lemma attach_doctor_keys (w : World) (groups : list (CommissionGroup ObjectId)) :
  NoDup (map cg_key groups) ->
  NoDup (map (fun r => cg_key (row_group r))
             (flat_map (CommissionQueries.attach_doctor w) groups)).
Proof.
  induction groups as [|g rest IH]; simpl; intros H; [constructor|].
  inversion H as [|? ? Hnot Hrest]; subst.
  unfold CommissionQueries.attach_doctor at 1.
  destruct (lookup_doctor w (cg_key g)) as [d|]; simpl; [|apply IH; exact Hrest].
  constructor; [|apply IH; exact Hrest].
  intros Hin. apply Hnot. apply in_map_iff in Hin as (r & Hr & Hin).
  apply in_flat_map in Hin as (g' & Hg' & Hin).
  unfold CommissionQueries.attach_doctor in Hin.
  destruct (lookup_doctor w (cg_key g')); [|contradiction].
  destruct Hin as [<-|[]]. simpl in Hr. rewrite <- Hr. apply in_map. exact Hg'.
Qed.

Lemma getCommissionReports_run (branchId : option string)
  (startDate endDate : option Date) (w : World) :
  let matched :=
    filter (fun c => (if truthy_string branchId
                      then option_string_eqb (Some (ICommission.branchId c)) branchId
                      else true)
                     && CommissionQueries.in_date_window
                          (CommissionQueries.date_window startDate endDate) c)
           (Commissions w) in
  CommissionQueries.getCommissionReports branchId startDate endDate w
  = (Ret (ResponseHelper.success
            (mkCommissionReport
               (sort_by (fun a b => amount_desc (row_group a) (row_group b))
                  (flat_map (CommissionQueries.attach_doctor w)
                     (commission_groups Nat.eqb ICommission.doctorId matched)))
               (CommissionQueries.overall
                  (commission_groups unit_eqb (fun _ => tt) matched)))
            "Commission reports retrieved successfully"), w).
Proof. reflexivity. Qed.

Lemma getCommissionReports_handler_run (user : option AuthUser)
  (branchId : option string) (startDate endDate : option Date) (w : World) :
  CommissionController.getCommissionReports user branchId startDate endDate w
  = (Ret (200,
          match fst (CommissionQueries.getCommissionReports
                       (if bound_to_branch user then user_branchId user
                        else branchId) startDate endDate w) with
          | Ret result => result
          | Throw _ => ResponseHelper.error_default ""
          end),
     set_log (log w ++ [(INFO, "Commission reports retrieved by user")])%list w).
Proof. reflexivity. Qed.

(** X16. The commission report of a user who is not an administrator and
    has a branch is the report of that branch: the branch the request names
    is ignored, and the answer depends on the commissions of the user's
    branch and on the doctors only.  The report has one row per doctor,
    for doctors that exist, and no row has a smaller total amount than the
    row after it. *)
Theorem commission_report_is_of_own_branch (user : option AuthUser)
  (own : string) (startDate endDate : option Date) (w : World) :
  bound_to_branch user = true ->
  user_branchId user = Some own ->
  (forall b1 b2,
     CommissionController.getCommissionReports user b1 startDate endDate w
     = CommissionController.getCommissionReports user b2 startDate endDate w)
  /\ (forall b w',
        Doctors w' = Doctors w ->
        branch_commissions w' own = branch_commissions w own ->
        fst (CommissionController.getCommissionReports user b startDate endDate w')
        = fst (CommissionController.getCommissionReports user b startDate endDate w))
  /\ (forall b, exists report,
        fst (CommissionController.getCommissionReports user b startDate endDate w)
        = Ret (200, ResponseHelper.success report
                      "Commission reports retrieved successfully")
        /\ NoDup (map (fun r => cg_key (row_group r)) (cr_doctorCommissions report))
        /\ (forall r, In r (cr_doctorCommissions report) ->
              exists d, lookup_doctor w (cg_key (row_group r)) = Some d
                        /\ row_doctorName r = IDoctor.name d)
        /\ Sorted (fun a b => PrimFloat.ltb (cg_totalAmount (row_group a))
                                (cg_totalAmount (row_group b)) = false)
                  (cr_doctorCommissions report)).
Proof.
  intros Hbound Hown.
  assert (Htruthy : truthy_string (Some own) = true).
  { unfold bound_to_branch in Hbound. rewrite Hown in Hbound.
    apply andb_true_iff in Hbound. apply Hbound. }
  assert (Hmatched : forall w0,
            filter (fun c => (if truthy_string (Some own)
                              then option_string_eqb
                                     (Some (ICommission.branchId c)) (Some own)
                              else true)
                             && CommissionQueries.in_date_window
                                  (CommissionQueries.date_window startDate endDate) c)
                   (Commissions w0)
            = filter (CommissionQueries.in_date_window
                        (CommissionQueries.date_window startDate endDate))
                     (branch_commissions w0 own)).
  { intros w0. rewrite Htruthy. unfold branch_commissions.
    rewrite <- filter_andb. reflexivity. }
  split; [|split].
  - intros b1 b2. rewrite !getCommissionReports_handler_run, Hbound. reflexivity.
  - intros b w' Hd Hc.
    rewrite !getCommissionReports_handler_run, Hbound, Hown.
    rewrite !getCommissionReports_run. cbv zeta. rewrite !Hmatched, Hc.
    cbn [fst]. unfold CommissionQueries.attach_doctor, lookup_doctor.
    rewrite Hd. reflexivity.
  - intros b. rewrite getCommissionReports_handler_run, Hbound, Hown.
    rewrite getCommissionReports_run. cbv zeta. cbn [fst].
    eexists. split; [reflexivity|]. cbn [cr_doctorCommissions].
    split; [|split].
    + eapply Permutation_NoDup.
      * apply Permutation_map, Permutation_sym, sort_by_perm.
      * apply attach_doctor_keys, commission_groups_NoDup.
    + intros r Hr. apply sort_by_In in Hr.
      apply in_flat_map in Hr as (g & _ & Hr).
      unfold CommissionQueries.attach_doctor in Hr.
      destruct (lookup_doctor w (cg_key g)) as [d|] eqn:E; [|contradiction].
      destruct Hr as [<-|[]]. simpl. exists d. split; [exact E | reflexivity].
    + apply (sort_by_in_order
               (fun a b : DoctorRow => amount_desc (row_group a) (row_group b))).
      intros a c. unfold amount_desc. apply ltb_asym.
Qed.

Lemma commission_report_is_of_own_branch_witness :
  bound_to_branch Sample.manager = true
  /\ user_branchId Sample.manager = Some "BR001"
  /\ CommissionController.getCommissionReports Sample.manager (Some "BR002")
       None None Sample.ledger
     = CommissionController.getCommissionReports Sample.manager None
         None None Sample.ledger.
Proof.
  split; [reflexivity|]. split; [reflexivity|].
  apply (proj1 (commission_report_is_of_own_branch Sample.manager "BR001"
                  None None Sample.ledger eq_refl eq_refl)).
Defined.

Lemma payCommission_answer (mg : Mongoose) (transport : Transport)
  (raw : string) (paidBy : string) (w : World) :
  exists result,
    fst (CommissionService.payCommission mg transport raw paidBy w) = Ret result
    /\ service_answer result.
Proof.
  rewrite payCommission_run. unfold service_answer.
  destruct (castObjectId mg raw) as [id|];
    [|eexists; split; [reflexivity | right; simpl; auto]].
  destruct (lookup_commission w id) as [c|];
    [|eexists; split; [reflexivity | right; simpl; auto]].
  destruct (PaymentStatus_eqb (ICommission.paymentStatus c) PAID);
    [eexists; split; [reflexivity | right; simpl; auto]|].
  cbv zeta. destruct (lookup_doctor w (ICommission.doctorId c));
    eexists; (split; [reflexivity|]); simpl; auto.
Qed.

Lemma bulkPayCommissions_answer (mg : Mongoose) (transport : Transport)
  (raws : list string) (paidBy : string) (w : World) :
  exists result,
    fst (CommissionService.bulkPayCommissions mg transport raws paidBy w)
    = Ret result
    /\ service_answer result.
Proof.
  rewrite bulkPayCommissions_run. unfold service_answer.
  destruct (castObjectIds mg raws) as [ids|];
    [|eexists; split; [reflexivity | right; simpl; auto]].
  destruct (selected w ids);
    [eexists; split; [reflexivity | right; simpl; auto]|].
  destruct (CommissionService.pay_each _ _ _ _ _) as [[results|e] w'];
    eexists; (split; [reflexivity|]); simpl; auto.
Qed.

Lemma calculateCommission_answer (mg : Mongoose) (raw : string) (w : World) :
  exists result,
    fst (CommissionService.calculateCommission mg raw w) = Ret result
    /\ service_answer result.
Proof.
  rewrite calculateCommission_run. unfold service_answer.
  destruct (castObjectId mg raw) as [orderId|];
    [|eexists; split; [reflexivity | right; simpl; auto]].
  destruct (lookup_order w orderId) as [o|];
    [|eexists; split; [reflexivity | right; simpl; auto]].
  destruct (referring_doctor w o) as [d|];
    [|eexists; split; [reflexivity | right; simpl; auto]].
  destruct (commission_for_order w (ITestOrder._id o));
    [eexists; split; [reflexivity | right; simpl; auto]|].
  cbv zeta.
  destruct (CommissionSchema_validate _ && negb _);
    eexists; (split; [reflexivity|]); simpl; auto.
Qed.

(** How a handler passes a service's answer on. *)
Lemma passes_on {A : Type} (result : ServiceResponse A) :
  service_answer result ->
  (if negb (success result) then statusCode_or_500 result else 200)
  = statusCode result
  /\ (success result = true <-> statusCode result = 200)
  /\ In (statusCode result) [200; 400; 404; 500].
Proof.
  unfold service_answer, statusCode_or_500.
  intros [[Hs Hc]|[Hs [Hc|[Hc|Hc]]]]; rewrite Hs, Hc; simpl;
    (split; [reflexivity|]); (split; [split; intros H; try reflexivity; discriminate H|]);
    auto.
Qed.

(** X17. The handlers that pay one commission, pay several, and calculate
    one always answer, and with nothing but 200, 400, 404 or 500: 400
    without touching the store when the id is missing or empty (or the
    list of ids is missing or empty), and otherwise the status the
    service put in the body, which is 200 exactly when the body says
    success. *)
Theorem write_handlers_send_the_service_status (mg : Mongoose)
  (transport : Transport) (user : option AuthUser) (w : World) :
  (CommissionController.payCommission mg transport user None w
   = (Ret (400, ResponseHelper.error "Commission ID is required" 400), w)
   /\ CommissionController.payCommission mg transport user (Some "") w
      = (Ret (400, ResponseHelper.error "Commission ID is required" 400), w)
   /\ CommissionController.bulkPayCommissions mg transport user None w
      = (Ret (400, ResponseHelper.error "Commission IDs array is required" 400), w)
   /\ CommissionController.bulkPayCommissions mg transport user (Some []) w
      = (Ret (400, ResponseHelper.error "Commission IDs array is required" 400), w)
   /\ CommissionController.calculateCommission mg user None w
      = (Ret (400, ResponseHelper.error "Order ID is required" 400), w)
   /\ CommissionController.calculateCommission mg user (Some "") w
      = (Ret (400, ResponseHelper.error "Order ID is required" 400), w))
  /\ (forall id, id <> "" -> exists body,
        fst (CommissionController.payCommission mg transport user (Some id) w)
        = Ret (statusCode body, body)
        /\ fst (CommissionService.payCommission mg transport id
                  (userId_or_Unknown user) w) = Ret body
        /\ (success body = true <-> statusCode body = 200)
        /\ In (statusCode body) [200; 400; 404; 500])
  /\ (forall i rest, exists body,
        fst (CommissionController.bulkPayCommissions mg transport user
               (Some (i :: rest)) w)
        = Ret (statusCode body, body)
        /\ fst (CommissionService.bulkPayCommissions mg transport (i :: rest)
                  (userId_or_Unknown user) w) = Ret body
        /\ (success body = true <-> statusCode body = 200)
        /\ In (statusCode body) [200; 400; 404; 500])
  /\ (forall orderId, orderId <> "" -> exists body,
        fst (CommissionController.calculateCommission mg user (Some orderId) w)
        = Ret (statusCode body, body)
        /\ fst (CommissionService.calculateCommission mg orderId w) = Ret body
        /\ (success body = true <-> statusCode body = 200)
        /\ In (statusCode body) [200; 400; 404; 500]).
Proof.
  split; [repeat split|]. split; [|split].
  - intros id Hne.
    destruct (payCommission_answer mg transport id (userId_or_Unknown user) w)
      as (body & Hrun & Hans).
    destruct (passes_on body Hans) as (Hcode & Hok & Hin).
    exists body. split; [|split; [exact Hrun | split; assumption]].
    unfold CommissionController.payCommission, try_catch.
    rewrite (truthy_text id Hne). cbn [negb text_of]. unfold bind.
    destruct (CommissionService.payCommission mg transport id
                (userId_or_Unknown user) w) as [out w'].
    simpl in Hrun. subst out. rewrite <- Hcode.
    destruct (success body); reflexivity.
  - intros i rest.
    destruct (bulkPayCommissions_answer mg transport (i :: rest)
                (userId_or_Unknown user) w) as (body & Hrun & Hans).
    destruct (passes_on body Hans) as (Hcode & Hok & Hin).
    exists body. split; [|split; [exact Hrun | split; assumption]].
    unfold CommissionController.bulkPayCommissions, try_catch, bind.
    destruct (CommissionService.bulkPayCommissions mg transport (i :: rest)
                (userId_or_Unknown user) w) as [out w'].
    simpl in Hrun. subst out. rewrite <- Hcode.
    destruct (success body); reflexivity.
  - intros orderId Hne.
    destruct (calculateCommission_answer mg orderId w) as (body & Hrun & Hans).
    destruct (passes_on body Hans) as (Hcode & Hok & Hin).
    exists body. split; [|split; [exact Hrun | split; assumption]].
    unfold CommissionController.calculateCommission, try_catch.
    rewrite (truthy_text orderId Hne). cbn [negb text_of]. unfold bind.
    destruct (CommissionService.calculateCommission mg orderId w) as [out w'].
    simpl in Hrun. subst out. rewrite <- Hcode.
    destruct (success body); reflexivity.
Qed.

Lemma write_handlers_send_the_service_status_witness :
  "abc" <> ""
  /\ Sample.hex 1000 <> ""
  /\ (exists body,
        fst (CommissionController.payCommission Sample.mg Sample.always_delivers
               Sample.manager (Some "abc") Sample.ledger)
        = Ret (statusCode body, body)
        /\ statusCode body = 500)
  /\ (exists body,
        fst (CommissionController.payCommission Sample.mg Sample.always_delivers
               Sample.manager (Some (Sample.hex 1000)) Sample.ledger)
        = Ret (statusCode body, body)
        /\ statusCode body = 200).
Proof.
  assert (Habc : "abc" <> "") by discriminate.
  assert (Hhex : Sample.hex 1000 <> "") by discriminate.
  split; [exact Habc|]. split; [exact Hhex|]. split.
  - destruct (proj1 (proj2 (write_handlers_send_the_service_status Sample.mg
                              Sample.always_delivers Sample.manager
                              Sample.ledger)) "abc" Habc)
      as (body & Hh & Hs & _).
    exists body. split; [exact Hh|].
    vm_compute in Hs. injection Hs as <-. reflexivity.
  - destruct (proj1 (proj2 (write_handlers_send_the_service_status Sample.mg
                              Sample.always_delivers Sample.manager
                              Sample.ledger)) (Sample.hex 1000) Hhex)
      as (body & Hh & Hs & _).
    exists body. split; [exact Hh|].
    vm_compute in Hs. injection Hs as <-. reflexivity.
Defined.

(** ** The daily collection, branch by branch *)

Section AssocMap.
Context {K V : Type} (eqb : K -> K -> bool).
Hypothesis eqb_eq : forall a b, eqb a b = true <-> a = b.

Lemma map_get_In (k : K) (v : V) (m : list (K * V)) :
  map_get eqb k m = Some v -> In (k, v) m.
Proof.
  induction m as [|[k' v'] m IH]; simpl; [discriminate|].
  destruct (eqb k' k) eqn:E.
  - intros [= ->]. apply eqb_eq in E. subst. now left.
  - intros H. right. now apply IH.
Qed.

Lemma map_get_None (k : K) (m : list (K * V)) :
  map_get eqb k m = None <-> ~ In k (map fst m).
Proof.
  induction m as [|[k' v'] m IH]; simpl; [tauto|].
  destruct (eqb k' k) eqn:E.
  - apply eqb_eq in E. split; [discriminate|]. intros H. exfalso. apply H. now left.
  - rewrite IH. split.
    + intros H [H'|H']; [|tauto]. apply eqb_eq in H'. congruence.
    + tauto.
Qed.

Lemma In_map_get (k : K) (v : V) (m : list (K * V)) :
  NoDup (map fst m) -> In (k, v) m -> map_get eqb k m = Some v.
Proof.
  induction m as [|[k' v'] m IH]; simpl; [tauto|].
  intros Hnd [H|H].
  - injection H as -> ->. assert (E : eqb k k = true) by now apply eqb_eq.
    now rewrite E.
  - inversion Hnd as [|? ? Hnot Hnd']; subst.
    destruct (eqb k' k) eqn:E.
    + apply eqb_eq in E. subst. exfalso. apply Hnot.
      change k with (fst (k, v)). now apply in_map.
    + now apply IH.
Qed.

Lemma map_set_keys (k : K) (v : V) (m : list (K * V)) :
  map fst (map_set eqb k v m)
  = if map_has eqb k m then map fst m else (map fst m ++ [k])%list.
Proof.
  unfold map_has. induction m as [|[k' v'] m IH]; simpl; [reflexivity|].
  destruct (eqb k' k) eqn:E; simpl; [reflexivity|].
  rewrite IH. now destruct (map_get eqb k m).
Qed.

Lemma map_get_set (k k' : K) (v : V) (m : list (K * V)) :
  map_get eqb k' (map_set eqb k v m)
  = if eqb k k' then Some v else map_get eqb k' m.
Proof.
  induction m as [|[k0 v0] m IH]; simpl.
  - now destruct (eqb k k').
  - destruct (eqb k0 k) eqn:E; simpl.
    + apply eqb_eq in E. subst k0. now destruct (eqb k k').
    + rewrite IH. destruct (eqb k0 k') eqn:E'; [|reflexivity].
      apply eqb_eq in E'. subst k0.
      destruct (eqb k k') eqn:E2; [|reflexivity].
      apply eqb_eq in E2. subst k'.
      rewrite (proj2 (eqb_eq k k) eq_refl) in E. discriminate.
Qed.

Lemma group_add_keys (k : K) (v : number) (groups : list (Group K)) :
  map g_key (group_add eqb k v groups)
  = if existsb (fun k' => eqb k' k) (map g_key groups)
    then map g_key groups else (map g_key groups ++ [k])%list.
Proof.
  induction groups as [|g groups IH]; simpl; [reflexivity|].
  destruct (eqb (g_key g) k) eqn:E; simpl; [reflexivity|].
  rewrite IH. now destruct (existsb _ _).
Qed.

Lemma existsb_eqb_In (k : K) (ks : list K) :
  existsb (fun k' => eqb k' k) ks = true <-> In k ks.
Proof.
  rewrite existsb_exists. split.
  - intros (x & Hin & E). apply eqb_eq in E. now subst.
  - intros Hin. exists k. split; [exact Hin|now apply eqb_eq].
Qed.

Lemma group_sum_keys {A : Type} (key : A -> K) (val : A -> number)
  (docs : list A) :
  NoDup (map g_key (group_sum eqb key val docs))
  /\ (forall k, In k (map g_key (group_sum eqb key val docs))
                <-> In k (map key docs)).
Proof.
  unfold group_sum.
  assert (H : forall docs groups,
             NoDup (map g_key groups) ->
             NoDup (map g_key (fold_left
                      (fun groups d => group_add eqb (key d) (val d) groups)
                      docs groups))
             /\ (forall k,
                   In k (map g_key (fold_left
                      (fun groups d => group_add eqb (key d) (val d) groups)
                      docs groups))
                   <-> In k (map g_key groups) \/ In k (map key docs))).
  { clear docs. induction docs as [|d docs IH]; intros groups Hnd; simpl.
    - split; [exact Hnd|]. intros k. tauto.
    - destruct (IH (group_add eqb (key d) (val d) groups)) as [Hnd' Hin].
      + rewrite group_add_keys.
        destruct (existsb _ _) eqn:E; [exact Hnd|].
        apply NoDup_app; [exact Hnd|repeat constructor; simpl; tauto|].
        intros x Hx [<-|[]].
        apply existsb_eqb_In in Hx. congruence.
      + split; [exact Hnd'|]. intros k. rewrite Hin, group_add_keys.
        destruct (existsb _ _) eqn:E.
        * apply existsb_eqb_In in E. split; [tauto|].
          intros [H|[<-|H]]; tauto.
        * rewrite in_app_iff. simpl. tauto. }
  destruct (H docs [] (NoDup_nil _)) as [Hnd Hin].
  split; [exact Hnd|]. intros k. rewrite Hin. simpl. tauto.
Qed.

End AssocMap.

Lemma string_eqb_eq (a b : string) : String.eqb a b = true <-> a = b.
Proof. apply String.eqb_eq. Qed.
Lemma Forall_map_set {K V : Type} (eqb : K -> K -> bool) (P : K * V -> Prop)
  (k : K) (v : V) (m : list (K * V)) :
  (forall a b, eqb a b = true <-> a = b) ->
  Forall P m -> P (k, v) -> Forall P (map_set eqb k v m).
Proof.
  intros Heq Hm Hk. induction Hm as [|[k' v'] m Hx Hm IH]; simpl.
  - now constructor.
  - destruct (eqb k' k) eqn:E.
    + apply Heq in E. subst. now constructor.
    + now constructor.
Qed.

(** The shape shared by the [forEach] bodies that create a missing entry
    and then write on it. *)
Lemma ensure_then_set_keys {V : Type} (fresh : V) (upd : V -> V) (k : string)
  (m : list (string * V)) :
  let m1 := if map_has String.eqb k m then m else map_set String.eqb k fresh m in
  map fst (match map_get String.eqb k m1 with
           | None => m1
           | Some b => map_set String.eqb k (upd b) m1
           end)
  = if existsb (fun k' => String.eqb k' k) (map fst m)
    then map fst m else (map fst m ++ [k])%list.
Proof.
  intros m1.
  assert (Hhas : map_has String.eqb k m
                 = existsb (fun k' => String.eqb k' k) (map fst m)).
  { unfold map_has. induction m as [|[k0 v] m IH]; simpl; [reflexivity|].
    destruct (String.eqb k0 k); [reflexivity|exact IH]. }
  rewrite <- Hhas. unfold m1.
  destruct (map_has String.eqb k m) eqn:E.
  - unfold map_has in E.
    destruct (map_get String.eqb k m) eqn:G; [|discriminate].
    rewrite (map_set_keys String.eqb). unfold map_has. now rewrite G.
  - rewrite (map_get_set String.eqb string_eqb_eq), String.eqb_refl.
    rewrite (map_set_keys String.eqb).
    unfold map_has at 1.
    rewrite (map_get_set String.eqb string_eqb_eq), String.eqb_refl.
    rewrite (map_set_keys String.eqb), E. reflexivity.
Qed.

Lemma ensure_then_set_Forall {V : Type} (P : string * V -> Prop) (fresh : V)
  (upd : V -> V) (k : string) (m : list (string * V)) :
  P (k, fresh) -> (forall b, P (k, b) -> P (k, upd b)) -> Forall P m ->
  let m1 := if map_has String.eqb k m then m else map_set String.eqb k fresh m in
  Forall P (match map_get String.eqb k m1 with
            | None => m1
            | Some b => map_set String.eqb k (upd b) m1
            end).
Proof.
  intros Hfresh Hupd Hm m1.
  assert (Hm1 : Forall P m1).
  { unfold m1. destruct (map_has String.eqb k m); [exact Hm|].
    now apply Forall_map_set; [exact string_eqb_eq| |]. }
  destruct (map_get String.eqb k m1) as [b|] eqn:G; [|exact Hm1].
  apply Forall_map_set; [exact string_eqb_eq|exact Hm1|].
  apply Hupd. apply (map_get_In String.eqb string_eqb_eq) in G.
  rewrite Forall_forall in Hm1. now apply Hm1.
Qed.

Lemma ensure_fold {V I : Type} (step : list (string * V) -> I -> list (string * V))
  (kf : I -> string) (P : string * V -> Prop) :
  (forall m i,
      map fst (step m i)
      = if existsb (fun k' => String.eqb k' (kf i)) (map fst m)
        then map fst m else (map fst m ++ [kf i])%list) ->
  (forall m i, Forall P m -> Forall P (step m i)) ->
  forall items m,
    NoDup (map fst m) -> Forall P m ->
    let m' := fold_left step items m in
    NoDup (map fst m') /\ Forall P m'
    /\ (forall b, In b (map fst m')
                  <-> In b (map fst m) \/ In b (map kf items)).
Proof.
  intros Hkeys HP items.
  induction items as [|item items IH]; intros m Hnd Hm; simpl.
  - repeat split; try assumption; tauto.
  - assert (Hnd1 : NoDup (map fst (step m item))).
    { rewrite Hkeys. destruct (existsb _ _) eqn:E; [exact Hnd|].
      apply NoDup_app; [exact Hnd|repeat constructor; simpl; tauto|].
      intros x Hx [<-|[]].
      apply (existsb_eqb_In String.eqb string_eqb_eq) in Hx. congruence. }
    destruct (IH _ Hnd1 (HP m item Hm)) as (H1 & H2 & H3).
    repeat split; try assumption.
    + intros Hb. apply H3 in Hb. rewrite Hkeys in Hb.
      destruct (existsb _ _) eqn:E; [tauto|].
      rewrite in_app_iff in Hb. simpl in Hb. tauto.
    + intros Hb. apply H3. rewrite Hkeys.
      destruct (existsb _ _) eqn:E.
      * apply (existsb_eqb_In String.eqb string_eqb_eq) in E.
        destruct Hb as [Hb|[<-|Hb]]; tauto.
      * rewrite in_app_iff. simpl. tauto.
Qed.

(** The shape shared by the [forEach] bodies that write on an entry only
    if it is there. *)
Lemma set_if_present_get {V : Type} (upd : V -> V) (k b : string)
  (m : list (string * V)) :
  map_get String.eqb b
    (match map_get String.eqb k m with
     | None => m
     | Some v => map_set String.eqb k (upd v) m
     end)
  = if String.eqb k b then option_map upd (map_get String.eqb b m)
    else map_get String.eqb b m.
Proof.
  destruct (map_get String.eqb k m) as [v|] eqn:G.
  - rewrite (map_get_set String.eqb string_eqb_eq).
    destruct (String.eqb k b) eqn:E; [|reflexivity].
    apply String.eqb_eq in E. subst b. now rewrite G.
  - destruct (String.eqb k b) eqn:E; [|reflexivity].
    apply String.eqb_eq in E. subst b. now rewrite G.
Qed.

Lemma set_if_present_keys {V : Type} (upd : V -> V) (k : string)
  (m : list (string * V)) :
  map fst (match map_get String.eqb k m with
           | None => m
           | Some v => map_set String.eqb k (upd v) m
           end)
  = map fst m.
Proof.
  destruct (map_get String.eqb k m) as [v|] eqn:G; [|reflexivity].
  rewrite (map_set_keys String.eqb). unfold map_has. now rewrite G.
Qed.

Lemma present_fold {V I : Type} (step : list (string * V) -> I -> list (string * V))
  (kf : I -> string) (upd : I -> V -> V) :
  (forall m i b,
      map_get String.eqb b (step m i)
      = if String.eqb (kf i) b then option_map (upd i) (map_get String.eqb b m)
        else map_get String.eqb b m) ->
  (forall m i, map fst (step m i) = map fst m) ->
  forall items m,
    NoDup (map kf items) ->
    let m' := fold_left step items m in
    map fst m' = map fst m
    /\ (forall b,
          (~ In b (map kf items) ->
           map_get String.eqb b m' = map_get String.eqb b m)
          /\ (In b (map kf items) ->
              exists item, In item items /\ kf item = b
                /\ map_get String.eqb b m'
                   = option_map (upd item) (map_get String.eqb b m))).
Proof.
  intros Hstep Hkeys items.
  induction items as [|item items IH]; intros m Hnd; simpl.
  - split; [reflexivity|]. intros b. split; [reflexivity|tauto].
  - inversion Hnd as [|? ? Hnot Hnd']; subst.
    destruct (IH (step m item) Hnd') as [Hk Hget].
    split; [now rewrite Hk, Hkeys|].
    intros b. destruct (Hget b) as [Hout Hin]. split.
    + intros Hb. rewrite Hout by tauto. rewrite Hstep.
      destruct (String.eqb (kf item) b) eqn:E; [|reflexivity].
      apply String.eqb_eq in E. exfalso. apply Hb. now left.
    + intros [Hb|Hb].
      * exists item. split; [now left|]. split; [exact Hb|].
        subst b. rewrite Hout by exact Hnot.
        now rewrite Hstep, String.eqb_refl.
      * destruct (Hin Hb) as (item' & Hi & Hkey & Hg).
        exists item'. split; [now right|]. split; [exact Hkey|].
        rewrite Hg, Hstep.
        destruct (String.eqb (kf item) b) eqn:E; [|reflexivity].
        apply String.eqb_eq in E. exfalso. apply Hnot. now rewrite E.
Qed.

Lemma group_sum_first_keys {A B : Type} (eqb : string * B -> string * B -> bool)
  (f : A -> string * B) (val : A -> number) (docs : list A) (b : string) :
  (forall x y, eqb x y = true <-> x = y) ->
  In b (map (fun g => fst (g_key g)) (group_sum eqb f val docs))
  <-> In b (map (fun d => fst (f d)) docs).
Proof.
  intros Heq.
  destruct (group_sum_keys eqb Heq f val docs) as [_ Hin].
  rewrite <- (map_map g_key fst), <- (map_map f fst), !in_map_iff.
  split; intros (x & Hx & Hxin); exists x; (split; [exact Hx|]);
    now apply Hin.
Qed.

Lemma branch_mode_eqb_eq (a b : string * PaymentMode) :
  pair_eqb String.eqb PaymentMode_eqb a b = true <-> a = b.
Proof.
  destruct a as [a1 a2], b as [b1 b2]. unfold pair_eqb. simpl.
  rewrite andb_true_iff, String.eqb_eq. split.
  - intros [-> H]. destruct a2, b2; simpl in H; congruence.
  - intros [= -> ->]. split; [reflexivity|]. now destruct b2.
Qed.

Lemma branch_map_spec (visits : list IPatientVisit.t)
  (orders : list ITestOrder.t) (expenses : list IExpense.t) :
  let key := pair_eqb String.eqb PaymentMode_eqb in
  let m :=
    fold_left AccountsController.expense_step
      (group_sum String.eqb IExpense.branchId IExpense.amount expenses)
      (fold_left (AccountsController.branch_step AccountsController.with_test)
         (group_sum key
            (fun o => (ITestOrder.branchId o, ITestOrder.paymentMode o))
            ITestOrder.totalAmount orders)
         (fold_left
            (AccountsController.branch_step AccountsController.with_consultation)
            (group_sum key
               (fun v => (IPatientVisit.branchId v, IPatientVisit.paymentMode v))
               IPatientVisit.consultationFee visits) [])) in
  NoDup (map fst m)
  /\ (forall b, In b (map fst m)
                <-> In b (map IPatientVisit.branchId visits)
                    \/ In b (map ITestOrder.branchId orders))
  /\ (forall b bd, In (b, bd) m ->
        AccountsController.bd_branchId bd = b
        /\ (~ In b (map IExpense.branchId expenses) ->
            AccountsController.bd_totalExpenses bd = 0%float
            /\ AccountsController.bd_netCollection bd = 0%float)
        /\ (In b (map IExpense.branchId expenses) ->
            AccountsController.bd_netCollection bd
            = (AccountsController.bd_totalCollection bd
               - AccountsController.bd_totalExpenses bd)%float)).
Proof.
  intros key m.
  set (cons := group_sum key
                 (fun v => (IPatientVisit.branchId v, IPatientVisit.paymentMode v))
                 IPatientVisit.consultationFee visits) in *.
  set (tests := group_sum key
                  (fun o => (ITestOrder.branchId o, ITestOrder.paymentMode o))
                  ITestOrder.totalAmount orders) in *.
  set (exps := group_sum String.eqb IExpense.branchId IExpense.amount expenses)
    in *.
  assert (Hfold : forall upd items m0,
            NoDup (map fst m0) -> Forall fresh_of_expenses m0 ->
            let m' := fold_left (AccountsController.branch_step upd) items m0 in
            NoDup (map fst m') /\ Forall fresh_of_expenses m'
            /\ (forall b, In b (map fst m')
                  <-> In b (map fst m0)
                      \/ In b (map (fun g => fst (g_key g)) items))).
  { intros upd. apply ensure_fold.
    - intros m0 i. apply ensure_then_set_keys.
    - intros m0 i. apply ensure_then_set_Forall.
      + repeat split.
      + intros bd (H1 & H2 & H3). repeat split; assumption. }
  destruct (Hfold AccountsController.with_consultation cons []
              (NoDup_nil _) (Forall_nil _)) as (Hnd1 & Hf1 & Hin1).
  set (m1 := fold_left
               (AccountsController.branch_step
                  AccountsController.with_consultation) cons []) in *.
  destruct (Hfold AccountsController.with_test tests m1 Hnd1 Hf1)
    as (Hnd2 & Hf2 & Hin2).
  set (m2 := fold_left
               (AccountsController.branch_step AccountsController.with_test)
               tests m1) in *.
  destruct (group_sum_keys String.eqb string_eqb_eq IExpense.branchId
              IExpense.amount expenses) as [Hnde Hine].
  fold exps in Hnde, Hine.
  destruct (present_fold AccountsController.expense_step g_key with_expenses
              (fun m0 i b => set_if_present_get (with_expenses i) (g_key i) b m0)
              (fun m0 i => set_if_present_keys (with_expenses i) (g_key i) m0)
              exps m2 Hnde) as [Hk Hget].
  fold m in Hk, Hget.
  split; [now rewrite Hk|]. split.
  - intros b. rewrite Hk, Hin2, Hin1. unfold cons, tests.
    rewrite !(group_sum_first_keys key _ _ _ _ branch_mode_eqb_eq).
    simpl. tauto.
  - intros b bd Hin.
    assert (Hnd3 : NoDup (map fst m)) by now rewrite Hk.
    apply (In_map_get String.eqb string_eqb_eq _ _ _ Hnd3) in Hin.
    destruct (Hget b) as [Hout Hinn].
    rewrite <- Hine.
    assert (Hfresh : forall bd0, map_get String.eqb b m2 = Some bd0 ->
                       fresh_of_expenses (b, bd0)).
    { intros bd0 G. apply (map_get_In String.eqb string_eqb_eq) in G.
      rewrite Forall_forall in Hf2. now apply Hf2. }
    split; [|split].
    + destruct (in_dec string_dec b (map g_key exps)) as [Hy|Hn].
      * destruct (Hinn Hy) as (item & _ & _ & G). rewrite Hin in G.
        destruct (map_get String.eqb b m2) as [bd0|] eqn:G0; [|discriminate].
        injection G as ->. apply (Hfresh bd0 eq_refl).
      * rewrite (Hout Hn) in Hin. apply (Hfresh bd Hin).
    + intros Hn. rewrite (Hout Hn) in Hin.
      destruct (Hfresh bd Hin) as (_ & H2 & H3). now split.
    + intros Hy. destruct (Hinn Hy) as (item & _ & _ & G). rewrite Hin in G.
      destruct (map_get String.eqb b m2) as [bd0|] eqn:G0; [|discriminate].
      injection G as ->. reflexivity.
Qed.
(** X18: For an administrator who names no branch, the daily collection
    lists each branch that has a collected visit or test order in the
    window exactly once, and no other branch.  A listed branch without an
    expense in the window is reported with total expenses 0 and net
    collection 0, whatever it collected; one with an expense is reported
    with net collection = total collection - total expenses.  The grand
    total of expenses adds up the listed branches only. *)
Theorem daily_collection_by_branch (cal : Calendar) (user : option AuthUser)
  (q : AccountsController.DailyQuery) (w : World) :
  branch_wise user (AccountsController.dq_branchId q) = true ->
  exists date branches grandTotal,
    fst (AccountsController.getDailyCollection cal user q w)
    = Ret (mkHttp 200 true None
             (Some (AccountsController.DailyBranchWise date branches grandTotal)))
    /\ NoDup (map AccountsController.bc_branchId branches)
    /\ (forall b, In b (map AccountsController.bc_branchId branches)
                  <-> has_collection (daily_window cal q w) w b)
    /\ (forall row, In row branches ->
          let summary := AccountsController.bc_summary row in
          (~ has_expense (daily_window cal q w) w
               (AccountsController.bc_branchId row) ->
           AccountsController.sm_totalExpenses summary = 0%float
           /\ AccountsController.sm_netCollection summary = 0%float)
          /\ (has_expense (daily_window cal q w) w
                (AccountsController.bc_branchId row) ->
              AccountsController.sm_netCollection summary
              = (AccountsController.sm_totalCollection summary
                 - AccountsController.sm_totalExpenses summary)%float))
    /\ AccountsController.sm_totalExpenses grandTotal
       = JS.sum_by (fun b => AccountsController.sm_totalExpenses
                               (AccountsController.bc_summary b)) branches
    /\ AccountsController.sm_netCollection grandTotal
       = (AccountsController.sm_totalCollection grandTotal
          - AccountsController.sm_totalExpenses grandTotal)%float.
Proof.
  intros Hwise.
  assert (Hf : resolve_branchFilter user (AccountsController.dq_branchId q)
               = AnyBranch).
  { unfold branch_wise in Hwise. apply andb_true_iff in Hwise as [Hadm Hno].
    unfold resolve_branchFilter. rewrite Hadm. simpl.
    apply negb_true_iff in Hno. now rewrite Hno. }
  assert (Hcore : forall win,
    let visits := filter (fun v => in_window win (IPatientVisit.createdAt v)
                                   && true
                                   && collected (IPatientVisit.paymentStatus v))
                    (Visits w) in
    let orders := filter (fun o => in_window win (ITestOrder.createdAt o)
                                   && true
                                   && collected (ITestOrder.paymentStatus o))
                    (TestOrders w) in
    let expenses := filter (fun e => in_window win (IExpense.createdAt e) && true)
                      (Expenses w) in
    let key := pair_eqb String.eqb PaymentMode_eqb in
    let m :=
      fold_left AccountsController.expense_step
        (group_sum String.eqb IExpense.branchId IExpense.amount expenses)
        (fold_left (AccountsController.branch_step AccountsController.with_test)
           (group_sum key
              (fun o => (ITestOrder.branchId o, ITestOrder.paymentMode o))
              ITestOrder.totalAmount orders)
           (fold_left
              (AccountsController.branch_step
                 AccountsController.with_consultation)
              (group_sum key
                 (fun v => (IPatientVisit.branchId v,
                            IPatientVisit.paymentMode v))
                 IPatientVisit.consultationFee visits) [])) in
    let branches :=
      map (fun branch =>
             AccountsController.mkBranchCollections
               (AccountsController.bd_branchId branch)
               (map_values (AccountsController.bd_collections branch))
               (AccountsController.mkSummary
                  (AccountsController.bd_totalCollection branch)
                  (AccountsController.bd_totalExpenses branch)
                  (AccountsController.bd_netCollection branch)
                  (AccountsController.bd_transactionCount branch)))
          (map_values m) in
    NoDup (map AccountsController.bc_branchId branches)
    /\ (forall b, In b (map AccountsController.bc_branchId branches)
                  <-> has_collection win w b)
    /\ (forall row, In row branches ->
          let summary := AccountsController.bc_summary row in
          (~ has_expense win w (AccountsController.bc_branchId row) ->
           AccountsController.sm_totalExpenses summary = 0%float
           /\ AccountsController.sm_netCollection summary = 0%float)
          /\ (has_expense win w (AccountsController.bc_branchId row) ->
              AccountsController.sm_netCollection summary
              = (AccountsController.sm_totalCollection summary
                 - AccountsController.sm_totalExpenses summary)%float))).
  { intros win visits orders expenses key m branches.
    destruct (branch_map_spec visits orders expenses) as (Hnd & Hin & Hrow).
    fold key in Hnd, Hin, Hrow. fold m in Hnd, Hin, Hrow.
    assert (Hids : map AccountsController.bc_branchId branches = map fst m).
    { unfold branches, map_values. rewrite !map_map. apply map_ext_in.
      intros [b bd] Hb. simpl. now destruct (Hrow b bd Hb). }
    assert (Hexp : forall b, In b (map IExpense.branchId expenses)
                             <-> has_expense win w b).
    { intros b. unfold has_expense, expenses. rewrite in_map_iff.
      split.
      - intros (e & He & Hein). apply filter_In in Hein as [Hein Hw].
        rewrite andb_true_r in Hw. now exists e.
      - intros (e & Hein & Hw & He). exists e. split; [exact He|].
        apply filter_In. now rewrite andb_true_r. }
    split; [now rewrite Hids|]. split.
    - intros b. rewrite Hids, Hin. unfold has_collection, visits, orders.
      rewrite !in_map_iff.
      split; (intros [H|H]; [left|right]).
      + destruct H as (v & Hv & Hvin). apply filter_In in Hvin as [Hvin Hw].
        rewrite andb_true_r in Hw. apply andb_true_iff in Hw as [Hw Hc].
        now exists v.
      + destruct H as (o & Ho & Hoin). apply filter_In in Hoin as [Hoin Hw].
        rewrite andb_true_r in Hw. apply andb_true_iff in Hw as [Hw Hc].
        now exists o.
      + destruct H as (v & Hvin & Hw & Hc & Hv). exists v.
        split; [exact Hv|]. apply filter_In.
        now rewrite andb_true_r, Hw, Hc.
      + destruct H as (o & Hoin & Hw & Hc & Ho). exists o.
        split; [exact Ho|]. apply filter_In.
        now rewrite andb_true_r, Hw, Hc.
    - intros row Hr. unfold branches, map_values in Hr.
      rewrite map_map in Hr. apply in_map_iff in Hr as ([b bd] & <- & Hb).
      destruct (Hrow b bd Hb) as (Hid & Hno & Hyes). simpl. rewrite Hid.
      rewrite <- Hexp. split; assumption. }
  unfold AccountsController.getDailyCollection,
    AccountsController.getDailyCollection_body, try_catch, bind.
  rewrite Hf, Hwise. unfold daily_window.
  destruct (AccountsController.dq_date q) as [d|] eqn:Hd;
    [|destruct (AccountsController.dq_startDate q) as [s|];
      [destruct (AccountsController.dq_endDate q) as [e|]|]];
    cbn -[group_sum fold_left filter in_window];
    eexists _, _, _; (split; [reflexivity|]);
    (split; [apply Hcore|]); (split; [apply Hcore|]);
    (split; [apply Hcore|]); split; reflexivity.
Qed.

Lemma daily_collection_by_branch_witness :
  branch_wise Sample.admin None = true
  /\ exists date branches grandTotal row,
       fst (AccountsController.getDailyCollection Sample.calendar Sample.admin
              (AccountsController.mkDailyQuery None (Some 40) None None)
              Sample.world)
       = Ret (mkHttp 200 true None
                (Some (AccountsController.DailyBranchWise date branches
                         grandTotal)))
       /\ In row branches
       /\ AccountsController.bc_branchId row = "BR002"
       /\ AccountsController.sm_netCollection
            (AccountsController.bc_summary row) = 0%float.
Proof.
  split; [reflexivity|].
  destruct (daily_collection_by_branch Sample.calendar Sample.admin
              (AccountsController.mkDailyQuery None (Some 40) None None)
              Sample.world eq_refl)
    as (date & branches & grandTotal & Hrun & _ & Hlisted & Hrows & _).
  assert (Hin : In "BR002" (map AccountsController.bc_branchId branches)).
  { apply Hlisted. left.
    exists (IPatientVisit.mk 51 500%float CARD PAID "BR002" 40).
    repeat split; try reflexivity. simpl. tauto. }
  apply in_map_iff in Hin as (row & Hid & Hrow).
  exists date, branches, grandTotal, row.
  split; [exact Hrun|]. split; [exact Hrow|]. split; [exact Hid|].
  apply (Hrows row Hrow). rewrite Hid.
  intros (e & He & _ & Hb). simpl in He. destruct He as [<-|[]].
  discriminate.
Defined.
(** ** The financial statement, branch by branch *)

Lemma expenses_step_spec
  (byCategory : list (string * list (string * Group string)))
  (m : list (string * AccountsController.Statement))
  (item : Group (string * string)) (b : string) :
  let acc := AccountsController.expenses_step (byCategory, m) item in
  map fst (snd acc) = map fst m
  /\ map_get String.eqb b (snd acc)
     = (if String.eqb (fst (g_key item)) b
        then option_map (add_expense item) (map_get String.eqb b m)
        else map_get String.eqb b m)
  /\ (String.eqb (fst (g_key item)) b = false ->
      map_get String.eqb b (fst acc) = map_get String.eqb b byCategory).
Proof.
  unfold AccountsController.expenses_step.
  cbn [fst snd]. split; [|split].
  - apply (set_if_present_keys (add_expense item)).
  - apply (set_if_present_get (add_expense item)).
  - intros E. rewrite (map_get_set String.eqb string_eqb_eq), E.
    destruct (map_has String.eqb (fst (g_key item)) byCategory);
      [reflexivity|].
    now rewrite (map_get_set String.eqb string_eqb_eq), E.
Qed.

Lemma expenses_fold (items : list (Group (string * string)))
  (byCategory : list (string * list (string * Group string)))
  (m : list (string * AccountsController.Statement)) :
  let acc := fold_left AccountsController.expenses_step items (byCategory, m) in
  map fst (snd acc) = map fst m
  /\ (forall b,
        option_map AccountsController.st_commissions
          (map_get String.eqb b (snd acc))
        = option_map AccountsController.st_commissions (map_get String.eqb b m)
        /\ (~ In b (map (fun g => fst (g_key g)) items) ->
            map_get String.eqb b (snd acc) = map_get String.eqb b m
            /\ map_get String.eqb b (fst acc)
               = map_get String.eqb b byCategory)).
Proof.
  revert byCategory m.
  induction items as [|item items IH]; intros byCategory m;
    cbn [fold_left map In].
  - split; [reflexivity|]. intros b. split; [reflexivity|]. now split.
  - destruct (AccountsController.expenses_step (byCategory, m) item)
      as [byCategory1 m1] eqn:Hstep.
    destruct (IH byCategory1 m1) as [Hk Hb]. cbv zeta.
    assert (Hspec := fun b => expenses_step_spec byCategory m item b).
    rewrite Hstep in Hspec. cbn [fst snd] in Hspec.
    split; [rewrite Hk; apply (Hspec "")|].
    intros b. destruct (Hb b) as [Hc Hout].
    destruct (Hspec b) as (_ & Hget & Hcat). split.
    + rewrite Hc, Hget.
      destruct (String.eqb (fst (g_key item)) b); [|reflexivity].
      now destruct (map_get String.eqb b m).
    + intros Hn.
      assert (E : String.eqb (fst (g_key item)) b = false).
      { apply String.eqb_neq. intros Heq. apply Hn. now left. }
      destruct Hout as [H1 H2]; [tauto|].
      rewrite H1, H2, Hget, E, (Hcat E). now split.
Qed.

Lemma statement_map_spec (visits : list IPatientVisit.t)
  (orders : list ITestOrder.t) (commissions : list ICommission.t)
  (expenses : list IExpense.t) :
  let acc :=
    fold_left AccountsController.expenses_step
      (sort_by AccountsController.branch_then_total_desc
         (group_sum (pair_eqb String.eqb String.eqb)
            (fun e => (IExpense.branchId e, IExpense.category e))
            IExpense.amount expenses))
      ([],
       fold_left AccountsController.commissions_step
         (group_sum String.eqb ICommission.branchId ICommission.amount
            commissions)
         (fold_left AccountsController.test_revenue_step
            (group_sum String.eqb ITestOrder.branchId ITestOrder.totalAmount
               orders)
            (fold_left AccountsController.consultation_revenue_step
               (group_sum String.eqb IPatientVisit.branchId
                  IPatientVisit.consultationFee visits) []))) in
  let branches := map (AccountsController.finalize_branch (fst acc)) (snd acc) in
  NoDup (map fst branches)
  /\ (forall b, In b (map fst branches)
                <-> In b (map IPatientVisit.branchId visits)
                    \/ In b (map ITestOrder.branchId orders))
  /\ (forall b s, In (b, s) branches ->
        AccountsController.st_netIncome s
        = (AccountsController.st_revenue_total s
           - AccountsController.st_expenses_total s
           - AccountsController.ac_amount (AccountsController.st_commissions s))%float
        /\ (~ In b (map IExpense.branchId expenses) ->
            AccountsController.st_expenses_total s = 0%float
            /\ AccountsController.st_expenses_byCategory s = [])
        /\ (~ In b (map ICommission.branchId commissions) ->
            AccountsController.st_commissions s
            = AccountsController.mkAmountCount 0%float 0%float)).
Proof.
  cbv zeta.
  set (cons := group_sum String.eqb IPatientVisit.branchId
                 IPatientVisit.consultationFee visits).
  set (tests := group_sum String.eqb ITestOrder.branchId ITestOrder.totalAmount
                  orders).
  set (coms := group_sum String.eqb ICommission.branchId ICommission.amount
                 commissions).
  set (exps := sort_by AccountsController.branch_then_total_desc
                 (group_sum (pair_eqb String.eqb String.eqb)
                    (fun e => (IExpense.branchId e, IExpense.category e))
                    IExpense.amount expenses)).
  assert (Hc : forall items m0,
            NoDup (map fst m0) -> Forall fresh_of_costs m0 ->
            let m' := fold_left AccountsController.consultation_revenue_step
                        items m0 in
            NoDup (map fst m') /\ Forall fresh_of_costs m'
            /\ (forall b, In b (map fst m')
                  <-> In b (map fst m0) \/ In b (map g_key items))).
  { apply ensure_fold.
    - intros m0 i. apply ensure_then_set_keys.
    - intros m0 i. apply ensure_then_set_Forall.
      + repeat split.
      + intros s (H1 & H2 & H3). repeat split; assumption. }
  assert (Ht : forall items m0,
            NoDup (map fst m0) -> Forall fresh_of_costs m0 ->
            let m' := fold_left AccountsController.test_revenue_step
                        items m0 in
            NoDup (map fst m') /\ Forall fresh_of_costs m'
            /\ (forall b, In b (map fst m')
                  <-> In b (map fst m0) \/ In b (map g_key items))).
  { apply ensure_fold.
    - intros m0 i. apply ensure_then_set_keys.
    - intros m0 i. apply ensure_then_set_Forall.
      + repeat split.
      + intros s (H1 & H2 & H3). repeat split; assumption. }
  destruct (Hc cons [] (NoDup_nil _) (Forall_nil _)) as (Hnd1 & Hf1 & Hin1).
  set (m1 := fold_left AccountsController.consultation_revenue_step cons [])
    in *.
  destruct (Ht tests m1 Hnd1 Hf1) as (Hnd2 & Hf2 & Hin2).
  set (m2 := fold_left AccountsController.test_revenue_step tests m1) in *.
  destruct (group_sum_keys String.eqb string_eqb_eq ICommission.branchId
              ICommission.amount commissions) as [Hndc Hinc].
  fold coms in Hndc, Hinc.
  destruct (present_fold AccountsController.commissions_step g_key
              with_commissions
              (fun m0 i b => set_if_present_get (with_commissions i) (g_key i) b m0)
              (fun m0 i => set_if_present_keys (with_commissions i) (g_key i) m0)
              coms m2 Hndc) as [Hk3 Hget3].
  set (m3 := fold_left AccountsController.commissions_step coms m2) in *.
  destruct (expenses_fold exps [] m3) as [Hk4 Hget4].
  set (acc := fold_left AccountsController.expenses_step exps ([], m3)) in *.
  set (branches := map (AccountsController.finalize_branch (fst acc))
                     (snd acc)).
  assert (Hkeys : map fst branches = map fst (snd acc)).
  { unfold branches. rewrite map_map. apply map_ext. now intros [b s]. }
  assert (Hbr : forall b,
             In b (map (fun g => fst (g_key g)) exps)
             <-> In b (map IExpense.branchId expenses)).
  { intros b. unfold exps. rewrite in_map_iff. split.
    - intros (g & Hg & Hgin). apply sort_by_In in Hgin.
      apply (group_sum_first_keys (pair_eqb String.eqb String.eqb)
               (fun e => (IExpense.branchId e, IExpense.category e))
               IExpense.amount expenses b).
      + intros [a1 a2] [b1 b2]. unfold pair_eqb. simpl.
        rewrite andb_true_iff, !String.eqb_eq. split; [intros []|intros [=]];
          subst; auto.
      + apply in_map_iff. now exists g.
    - intros Hb.
      apply (group_sum_first_keys (pair_eqb String.eqb String.eqb)
               (fun e => (IExpense.branchId e, IExpense.category e))
               IExpense.amount expenses b) in Hb.
      + apply in_map_iff in Hb as (g & Hg & Hgin). exists g.
        split; [exact Hg|]. now apply sort_by_In.
      + intros [a1 a2] [b1 b2]. unfold pair_eqb. simpl.
        rewrite andb_true_iff, !String.eqb_eq. split; [intros []|intros [=]];
          subst; auto. }
  split; [now rewrite Hkeys, Hk4, Hk3|]. split.
  - intros b. rewrite Hkeys, Hk4, Hk3, Hin2, Hin1. unfold cons, tests.
    destruct (group_sum_keys String.eqb string_eqb_eq IPatientVisit.branchId
                IPatientVisit.consultationFee visits) as [_ Hv].
    destruct (group_sum_keys String.eqb string_eqb_eq ITestOrder.branchId
                ITestOrder.totalAmount orders) as [_ Ho].
    rewrite Hv, Ho. simpl. tauto.
  - intros b s Hin. unfold branches in Hin.
    apply in_map_iff in Hin as ([b0 s0] & Hfin & Hin0).
    assert (Hnd4 : NoDup (map fst (snd acc))) by now rewrite Hk4, Hk3.
    apply (In_map_get String.eqb string_eqb_eq _ _ _ Hnd4) in Hin0.
    unfold AccountsController.finalize_branch in Hfin.
    injection Hfin as -> <-. cbn [AccountsController.st_netIncome
      AccountsController.st_revenue_total AccountsController.st_expenses_total
      AccountsController.st_commissions
      AccountsController.st_expenses_byCategory].
    destruct (Hget4 b) as [Hcom Hout4]. destruct (Hget3 b) as [Hout3 Hin3].
    assert (Hfresh : forall s2, map_get String.eqb b m2 = Some s2 ->
                       fresh_of_costs (b, s2)).
    { intros s2 G. apply (map_get_In String.eqb string_eqb_eq) in G.
      rewrite Forall_forall in Hf2. now apply Hf2. }
    split; [reflexivity|]. split.
    + intros Hn. rewrite <- Hbr in Hn. destruct (Hout4 Hn) as [H1 H2].
      rewrite H2. simpl. rewrite H1 in Hin0.
      destruct (in_dec string_dec b (map g_key coms)) as [Hy|Hno].
      * destruct (Hin3 Hy) as (item & _ & _ & G). rewrite Hin0 in G.
        destruct (map_get String.eqb b m2) as [s2|] eqn:G2; [|discriminate].
        injection G as ->. destruct (Hfresh s2 eq_refl) as (Ha & Hb & _).
        split; assumption.
      * rewrite (Hout3 Hno) in Hin0.
        destruct (Hfresh s0 Hin0) as (Ha & Hb & _). split; assumption.
    + intros Hn. rewrite <- Hinc in Hn. rewrite Hin0, (Hout3 Hn) in Hcom.
      destruct (map_get String.eqb b m2) as [s2|] eqn:G2; [|discriminate].
      injection Hcom as ->. now destruct (Hfresh s2 eq_refl) as (_ & _ & Hb).
Qed.
(** X19: For an administrator who names no branch, the statement of a
    month lists each branch that has a PAID visit or test order created
    in the month exactly once, and no other branch: a branch with only
    expenses or commissions is left out, also of the grand total.  Each
    listed branch has net income = revenue - expenses - commissions paid,
    with expenses 0 (and no categories) when no expense of the branch is
    dated in the month and commissions 0 when none of its PAID commissions
    was calculated in the month. *)
Theorem financial_statement_by_branch (cal : Calendar)
  (user : option AuthUser) (q : AccountsController.StatementQuery)
  (month year : number) (w : World) :
  branch_wise user (AccountsController.sq_branchId q) = true ->
  AccountsController.sq_month q = Some month ->
  AccountsController.sq_year q = Some year ->
  exists branches grandTotal,
    fst (AccountsController.getFinancialStatement cal user q w)
    = Ret (mkHttp 200 true None
             (Some (AccountsController.StatementBranchWise month year
                      branches grandTotal)))
    /\ NoDup (map fst branches)
    /\ (forall b, In b (map fst branches)
                  <-> has_paid_revenue (month_window cal month year) w b)
    /\ (forall b s, In (b, s) branches ->
          AccountsController.st_netIncome s
          = (AccountsController.st_revenue_total s
             - AccountsController.st_expenses_total s
             - AccountsController.ac_amount
                 (AccountsController.st_commissions s))%float
          /\ (~ has_dated_expense (month_window cal month year) w b ->
              AccountsController.st_expenses_total s = 0%float
              /\ AccountsController.st_expenses_byCategory s = [])
          /\ (~ has_paid_commission (month_window cal month year) w b ->
              AccountsController.st_commissions s
              = AccountsController.mkAmountCount 0%float 0%float))
    /\ AccountsController.st_expenses_total grandTotal
       = JS.sum_by AccountsController.st_expenses_total (map snd branches)
    /\ AccountsController.ac_amount
         (AccountsController.st_commissions grandTotal)
       = JS.sum_by (fun s => AccountsController.ac_amount
                               (AccountsController.st_commissions s))
           (map snd branches).
Proof.
  intros Hwise Hm Hy.
  set (win := month_window cal month year).
  pose proof (statement_map_spec
    (filter (fun v => in_window win (IPatientVisit.createdAt v) && true
                      && PaymentStatus_eqb (IPatientVisit.paymentStatus v) PAID)
            (Visits w))
    (filter (fun o => in_window win (ITestOrder.createdAt o) && true
                      && PaymentStatus_eqb (ITestOrder.paymentStatus o) PAID)
            (TestOrders w))
    (filter (fun c => in_window win (ICommission.calculatedDate c) && true
                      && PaymentStatus_eqb (ICommission.paymentStatus c) PAID)
            (Commissions w))
    (filter (fun e => in_window win (IExpense.date e) && true) (Expenses w)))
    as Hspec.
  cbv zeta in Hspec.
  unfold AccountsController.getFinancialStatement,
    AccountsController.getFinancialStatement_body, try_catch.
  rewrite Hm, Hy, Hwise.
  cbn -[group_sum fold_left filter in_window sort_by
        AccountsController.grand_total AccountsController.finalize_branch].
  fold (month_window cal month year). fold win.
  match goal with
  | |- context [fold_left AccountsController.expenses_step ?items ?init] =>
      set (acc := fold_left AccountsController.expenses_step items init) in *
  end.
  destruct acc as [byCategory m]. cbn [fst snd] in Hspec.
  destruct Hspec as (Hnd & Hlisted & Hrows).
  eexists _, _. split; [reflexivity|].
  split; [exact Hnd|]. split; [|split; [|split; reflexivity]].
  - intros b. rewrite Hlisted. unfold has_paid_revenue.
    rewrite !in_map_iff.
    split; (intros [H|H]; [left|right]).
    + destruct H as (v & Hv & Hvin). apply filter_In in Hvin as [Hvin Hw].
      rewrite andb_true_r in Hw. apply andb_true_iff in Hw as [Hw Hp].
      apply PaymentStatus_eqb_eq in Hp. now exists v.
    + destruct H as (o & Ho & Hoin). apply filter_In in Hoin as [Hoin Hw].
      rewrite andb_true_r in Hw. apply andb_true_iff in Hw as [Hw Hp].
      apply PaymentStatus_eqb_eq in Hp. now exists o.
    + destruct H as (v & Hvin & Hw & Hp & Hv). exists v.
      split; [exact Hv|]. apply filter_In.
      now rewrite andb_true_r, Hw, Hp.
    + destruct H as (o & Hoin & Hw & Hp & Ho). exists o.
      split; [exact Ho|]. apply filter_In.
      now rewrite andb_true_r, Hw, Hp.
  - intros b s Hin. destruct (Hrows b s Hin) as (Hnet & Hexp & Hcom).
    split; [exact Hnet|]. split.
    + intros Hn. apply Hexp. intros Hb. apply Hn.
      apply in_map_iff in Hb as (e & He & Hein).
      apply filter_In in Hein as [Hein Hw]. rewrite andb_true_r in Hw.
      now exists e.
    + intros Hn. apply Hcom. intros Hb. apply Hn.
      apply in_map_iff in Hb as (c & Hc & Hcin).
      apply filter_In in Hcin as [Hcin Hw]. rewrite andb_true_r in Hw.
      apply andb_true_iff in Hw as [Hw Hp].
      apply PaymentStatus_eqb_eq in Hp. now exists c.
Qed.

Lemma financial_statement_by_branch_witness :
  branch_wise Sample.admin None = true
  /\ exists branches grandTotal,
       fst (AccountsController.getFinancialStatement Sample.calendar
              Sample.admin
              (AccountsController.mkStatementQuery None (Some 5%float)
                 (Some 2025%float)) Sample.world)
       = Ret (mkHttp 200 true None
                (Some (AccountsController.StatementBranchWise 5%float
                         2025%float branches grandTotal)))
       /\ In "BR002" (map fst branches)
       /\ ~ In "BR003" (map fst branches).
Proof.
  split; [reflexivity|].
  destruct (financial_statement_by_branch Sample.calendar Sample.admin
              (AccountsController.mkStatementQuery None (Some 5%float)
                 (Some 2025%float)) 5%float 2025%float Sample.world
              eq_refl eq_refl eq_refl)
    as (branches & grandTotal & Hrun & _ & Hlisted & _).
  exists branches, grandTotal. split; [exact Hrun|]. split.
  - apply Hlisted. left.
    exists (IPatientVisit.mk 51 500%float CARD PAID "BR002" 40).
    repeat split; try reflexivity. simpl. tauto.
  - intros Hin. apply Hlisted in Hin.
    destruct Hin as [(v & Hv & _ & _ & Hb)|(o & Ho & _ & _ & Hb)].
    + simpl in Hv. destruct Hv as [<-|[<-|[]]]; discriminate.
    + simpl in Ho. destruct Ho as [<-|[<-|[<-|[]]]]; discriminate.
Defined.
(** ** Payments on the ledger the program builds *)

Lemma pay_each_until_missing (transport : Transport) (paidBy : string)
  (w : World) (before after : list ICommission.t) (c : ICommission.t) :
  doctors_resolve w before ->
  lookup_doctor w (ICommission.doctorId c) = None ->
  forall (results : list PaidResult) (w0 : World),
  exists e w',
    CommissionService.pay_each transport paidBy
      (map (with_doctor w) (before ++ c :: after)) results w0
    = (Throw e, w')
    /\ Commissions w' = pay_all (before ++ [c]) (clock w0) (Commissions w0).
Proof.
  intros H Hc. induction H as [|b rest Hb _ IH]; intros results w0;
    cbn [app map].
  - unfold with_doctor at 1. rewrite pay_each_step, Hc. cbv zeta.
    eexists _, _. split; reflexivity.
  - unfold with_doctor at 1. rewrite pay_each_step. cbv zeta.
    destruct (lookup_doctor w (ICommission.doctorId b)) as [d|];
      [|contradiction].
    match goal with
    | |- context [CommissionService.pay_each _ _ _ ?rs ?w1] =>
        destruct (IH rs w1) as (e & w' & Hrun & Hcs)
    end.
    exists e, w'. split; [exact Hrun|]. rewrite Hcs. reflexivity.
Qed.

Lemma NoDup_app_disjoint {A : Type} (l1 l2 : list A) (a : A) :
  NoDup (l1 ++ l2) -> In a l1 -> In a l2 -> False.
Proof.
  induction l1 as [|x l1 IH]; simpl; intros Hnd H1 H2; [contradiction|].
  inversion Hnd as [|? ? Hnot Hnd']; subst.
  destruct H1 as [->|H1]; [|now apply IH].
  apply Hnot, in_or_app. now right.
Qed.

Lemma apply_paid_id (cs : list ICommission.t) (now : Date) (d : ICommission.t) :
  ICommission._id (apply_paid cs now d) = ICommission._id d.
Proof.
  revert now d. induction cs as [|c rest IH]; intros now d; simpl;
    [reflexivity|].
  rewrite IH.
  destruct (Nat.eqb (ICommission._id d) (ICommission._id c)) eqn:E;
    [|reflexivity].
  apply Nat.eqb_eq in E. simpl. congruence.
Qed.

Lemma find_map_by_id (g : ICommission.t -> ICommission.t) (id : ObjectId)
  (coll : list ICommission.t) :
  (forall d, ICommission._id (g d) = ICommission._id d) ->
  find (fun d => Nat.eqb (ICommission._id d) id) (map g coll)
  = option_map g (find (fun d => Nat.eqb (ICommission._id d) id) coll).
Proof.
  intros Hg. induction coll as [|d rest IH]; simpl; [reflexivity|].
  rewrite Hg. destruct (Nat.eqb (ICommission._id d) id); [reflexivity|exact IH].
Qed.

Lemma find_by_id_member (coll : list ICommission.t) (p : ICommission.t) :
  NoDup (map ICommission._id coll) -> In p coll ->
  find (fun d => Nat.eqb (ICommission._id d) (ICommission._id p)) coll = Some p.
Proof.
  intros Hnd Hin.
  destruct (find (fun d => Nat.eqb (ICommission._id d) (ICommission._id p)) coll)
    as [q|] eqn:F.
  - apply find_some in F as [Hq E]. apply Nat.eqb_eq in E.
    f_equal. apply (NoDup_map_eq ICommission._id coll q p Hnd Hq Hin E).
  - apply (find_none _ _ F) in Hin. rewrite Nat.eqb_refl in Hin. discriminate.
Qed.

(** X20: A bulk payment is not undone when it fails.  If the selected
    commissions are [before], then [c], then [after], and the doctor of
    [c] is the first that cannot be found, the call answers with the
    error "Failed to process bulk commission payments" although the
    commissions in [before] and [c] itself are stored as PAID; those in
    [after] stay PENDING. *)
Theorem bulkPayCommissions_stops_at_missing_doctor (mg : Mongoose)
  (transport : Transport) (raws : list string) (ids : list ObjectId)
  (paidBy : string) (w : World)
  (before after : list ICommission.t) (c : ICommission.t) :
  castObjectIds mg raws = Some ids ->
  NoDup (map ICommission._id (Commissions w)) ->
  selected w ids = (before ++ c :: after)%list ->
  doctors_resolve w before ->
  lookup_doctor w (ICommission.doctorId c) = None ->
  let r := CommissionService.bulkPayCommissions mg transport raws paidBy w in
  fst r = Ret (ResponseHelper.error_default
                 "Failed to process bulk commission payments")
  /\ (forall p, In p (before ++ [c])%list ->
        status_of (snd r) (ICommission._id p) = Some PAID)
  /\ (forall p, In p after ->
        status_of (snd r) (ICommission._id p) = Some PENDING).
Proof.
  intros Hcast Hnd Hsel Hdoc Hc. cbv zeta.
  assert (Hsub : forall p, In p (before ++ c :: after)%list ->
                   In p (Commissions w)
                   /\ ICommission.paymentStatus p = PENDING).
  { intros p Hp. rewrite <- Hsel in Hp. unfold selected in Hp.
    apply filter_In in Hp as [Hp Hq]. split; [exact Hp|].
    unfold CommissionService.pending_among in Hq.
    apply andb_true_iff in Hq as [_ Hq]. now apply PaymentStatus_eqb_eq. }
  assert (Hnd' : NoDup (map ICommission._id (before ++ c :: after)%list)).
  { rewrite <- Hsel. unfold selected. now apply NoDup_map_filter. }
  rewrite bulkPayCommissions_run, Hcast.
  destruct (pay_each_until_missing transport paidBy w before after c Hdoc Hc
              [] w) as (e & w' & Hrun & Hcs).
  destruct (selected w ids) as [|x xs] eqn:Hlist;
    [destruct before; discriminate|].
  rewrite Hsel, Hrun. cbn [fst snd]. split; [reflexivity|].
  assert (Hstatus : forall i,
            status_of (set_log (log w' ++ [(ERROR, "Bulk pay commissions error:")])%list
                         w') i
            = option_map ICommission.paymentStatus
                (option_map (apply_paid (before ++ [c]) (clock w))
                   (find (fun d => Nat.eqb (ICommission._id d) i)
                      (Commissions w)))).
  { intros i. unfold status_of, lookup_commission. simpl.
    rewrite Hcs, pay_all_map.
    rewrite (find_map_by_id _ _ _ (apply_paid_id (before ++ [c]) (clock w))).
    reflexivity. }
  split.
  - intros p Hp.
    assert (Hp' : In p (before ++ c :: after)%list).
    { apply in_app_iff in Hp as [Hp|[<-|[]]]; apply in_app_iff;
        [now left|right; now left]. }
    rewrite Hstatus, (find_by_id_member _ p Hnd (proj1 (Hsub p Hp'))).
    simpl.
    destruct (apply_paid_member (before ++ [c]) (clock w) p) as [t Ht];
      [|exact Hp|now rewrite Ht].
    replace (before ++ c :: after)%list with ((before ++ [c]) ++ after)%list
      in Hnd' by now rewrite <- app_assoc.
    rewrite map_app in Hnd'. now apply NoDup_app_remove_r in Hnd'.
  - intros p Hp.
    assert (Hp' : In p (before ++ c :: after)%list).
    { apply in_app_iff. right. now right. }
    rewrite Hstatus, (find_by_id_member _ p Hnd (proj1 (Hsub p Hp'))).
    simpl. rewrite apply_paid_other; [now rewrite (proj2 (Hsub p Hp'))|].
    intros q Hq E.
    replace (before ++ c :: after)%list with ((before ++ [c]) ++ after)%list
      in Hnd' by now rewrite <- app_assoc.
    rewrite map_app in Hnd'.
    apply (NoDup_app_disjoint _ _ (ICommission._id q) Hnd').
    + now apply in_map.
    + rewrite E. now apply in_map.
Qed.

Lemma bulkPayCommissions_stops_at_missing_doctor_witness :
  lookup_doctor Sample.broken_ledger 99 = None
  /\ fst (CommissionService.bulkPayCommissions Sample.mg Sample.always_delivers
            [Sample.hex 1000; Sample.hex 1001; Sample.hex 1002] "ADMIN001"
            Sample.broken_ledger)
     = Ret (ResponseHelper.error_default
              "Failed to process bulk commission payments")
  /\ status_of (snd (CommissionService.bulkPayCommissions Sample.mg
                       Sample.always_delivers
                       [Sample.hex 1000; Sample.hex 1001; Sample.hex 1002]
                       "ADMIN001" Sample.broken_ledger)) 1000
     = Some PAID
  /\ status_of (snd (CommissionService.bulkPayCommissions Sample.mg
                       Sample.always_delivers
                       [Sample.hex 1000; Sample.hex 1001; Sample.hex 1002]
                       "ADMIN001" Sample.broken_ledger)) 1001
     = Some PAID
  /\ status_of (snd (CommissionService.bulkPayCommissions Sample.mg
                       Sample.always_delivers
                       [Sample.hex 1000; Sample.hex 1001; Sample.hex 1002]
                       "ADMIN001" Sample.broken_ledger)) 1002
     = Some PENDING.
Proof.
  assert (Hnd : NoDup (map ICommission._id (Commissions Sample.broken_ledger))).
  { simpl. repeat constructor; simpl; intros H;
      repeat (destruct H as [H|H]; [discriminate H|]); exact H. }
  assert (Hdoc : doctors_resolve Sample.broken_ledger
                   [Sample.commission 1000 100 30%float PENDING]).
  { constructor; [discriminate|constructor]. }
  destruct (bulkPayCommissions_stops_at_missing_doctor Sample.mg
              Sample.always_delivers
              [Sample.hex 1000; Sample.hex 1001; Sample.hex 1002]
              [1000; 1001; 1002] "ADMIN001" Sample.broken_ledger
              [Sample.commission 1000 100 30%float PENDING]
              [Sample.commission 1002 102 7.25%float PENDING]
              (ICommission.mk 1001 99 "BR001-PAT001" 101 TEST_REFERRAL
                 12.5%float 15%float 45 PENDING None "BR001")
              eq_refl Hnd eq_refl Hdoc eq_refl) as (H1 & H2 & H3).
  split; [reflexivity|]. split; [exact H1|]. split; [|split].
  - apply (H2 (Sample.commission 1000 100 30%float PENDING)). simpl. tauto.
  - apply (H2 (ICommission.mk 1001 99 "BR001-PAT001" 101 TEST_REFERRAL
                 12.5%float 15%float 45 PENDING None "BR001")).
    simpl. tauto.
  - apply (H3 (Sample.commission 1002 102 7.25%float PENDING)). simpl. tauto.
Defined.

(** X21: The program's own operations keep the ledger payable.  From a
    store in which every commission's doctor is found, after any sequence
    of order creations, commission calculations and payments every
    commission's doctor is still found, and the [payCommission] handler
    answers 200 for every commission that is not yet PAID, leaving it
    PAID. *)
Theorem own_ledger_stays_payable (mg : Mongoose) (transport : Transport)
  (ops : list LedgerOp) (w : World) :
  doctors_resolve w (Commissions w) ->
  let w' := run_ops mg transport ops w in
  (forall c, In c (Commissions w') ->
     lookup_doctor w' (ICommission.doctorId c) <> None)
  /\ (forall user raw id c,
        castObjectId mg raw = Some id ->
        lookup_commission w' id = Some c ->
        ICommission.paymentStatus c <> PAID ->
        let r := CommissionController.payCommission mg transport user
                   (Some raw) w' in
        fst r = Ret (200, ResponseHelper.success
                            (CommissionService.mark_paid c (clock w'))
                            "Commission payment processed successfully")
        /\ status_of (snd r) id = Some PAID).
Proof.
  intros H. cbv zeta.
  pose proof (doctors_resolve_preserved mg transport ops w H) as Hres.
  unfold doctors_resolve in Hres. rewrite Forall_forall in Hres.
  split; [exact Hres|].
  intros user raw id c Hcast Hc Hp.
  assert (Hin : In c (Commissions (run_ops mg transport ops w))).
  { unfold lookup_commission in Hc. now apply find_some in Hc. }
  rewrite (payCommission_handler_run mg transport user raw _
             (cast_truthy mg raw id Hcast)).
  rewrite payCommission_run, Hcast, Hc.
  assert (Hs : PaymentStatus_eqb (ICommission.paymentStatus c) PAID = false).
  { destruct (PaymentStatus_eqb (ICommission.paymentStatus c) PAID) eqn:E;
      [|reflexivity]. apply PaymentStatus_eqb_eq in E. contradiction. }
  rewrite Hs. cbv zeta.
  destruct (lookup_doctor (run_ops mg transport ops w) (ICommission.doctorId c))
    as [d|] eqn:Hd; [|exfalso; exact (Hres c Hin Hd)].
  cbn [fst snd success ResponseHelper.success].
  split; [reflexivity|].
  unfold status_of, lookup_commission in *. simpl.
  rewrite (lookup_after_replace _ c _ id Hc); [reflexivity|].
  simpl. apply find_some in Hc as [_ E]. apply Nat.eqb_eq in E. exact E.
Qed.

Lemma own_ledger_stays_payable_witness :
  doctors_resolve Sample.world (Commissions Sample.world)
  /\ castObjectId Sample.mg (Sample.hex 1000) = Some 1000
  /\ exists c,
       lookup_commission
         (run_ops Sample.mg Sample.always_delivers
            [OpCalculate (Sample.hex 100)] Sample.world) 1000
       = Some c
       /\ ICommission.paymentStatus c = PENDING
       /\ status_of
            (snd (CommissionController.payCommission Sample.mg
                    Sample.always_delivers Sample.manager
                    (Some (Sample.hex 1000))
                    (run_ops Sample.mg Sample.always_delivers
                       [OpCalculate (Sample.hex 100)] Sample.world))) 1000
          = Some PAID.
Proof.
  assert (H : doctors_resolve Sample.world (Commissions Sample.world))
    by constructor.
  split; [exact H|]. split; [reflexivity|].
  destruct (lookup_commission
              (run_ops Sample.mg Sample.always_delivers
                 [OpCalculate (Sample.hex 100)] Sample.world)
              1000) as [c|] eqn:Hc; [|vm_compute in Hc; discriminate Hc].
  assert (Hp : ICommission.paymentStatus c = PENDING).
  { vm_compute in Hc. injection Hc as <-. reflexivity. }
  exists c. split; [reflexivity|]. split; [exact Hp|].
  apply (proj2 (own_ledger_stays_payable Sample.mg Sample.always_delivers
                  [OpCalculate (Sample.hex 100)] Sample.world H)
           Sample.manager (Sample.hex 1000) 1000 c eq_refl Hc).
  rewrite Hp. discriminate.
Defined.

Lemma getDoctorCommissions_handler_run (mg : Mongoose) (user : option AuthUser)
  (raw : string) (startDate endDate : option string) (w : World) :
  raw <> "" ->
  fst (CommissionController.getDoctorCommissions mg user (Some raw)
         startDate endDate w)
  = match fst (CommissionQueries.getDoctorCommissions mg raw startDate endDate
                 (set_log (log w ++ [(INFO, "Fetching commissions for doctor:")])%list
                    w)) with
    | Ret result =>
        Ret (if success result then 200 else statusCode_or_500 result, result)
    | Throw e =>
        Ret (500, ResponseHelper.error_default "Failed to fetch doctor commissions")
    end.
Proof.
  intros Hne.
  unfold CommissionController.getDoctorCommissions, try_catch.
  rewrite (truthy_text raw Hne). cbn [negb text_of].
  unfold bind at 1. unfold logger.info, logger.write at 1.
  unfold bind at 1.
  destruct (CommissionQueries.getDoctorCommissions mg raw startDate endDate _)
    as [[result|e] w']; [|reflexivity].
  cbn [fst]. destruct (success result); reflexivity.
Qed.

(** X22: The [getDoctorCommissions] handler answers 400 without a doctor
    id, and 500 when the doctor id is no ObjectId or when both dates are
    given and one of them is no date.  Otherwise it answers 200 with the
    same body for every user: the list holds every commission of the
    doctor in the date window, whatever its branch, also for a user bound
    to another branch. *)
Theorem getDoctorCommissions_handler_is_not_scoped (mg : Mongoose)
  (user : option AuthUser) (raw : string) (startDate endDate : option string)
  (w : World) :
  CommissionController.getDoctorCommissions mg user None startDate endDate w
  = (Ret (400, ResponseHelper.error "Doctor ID is required" 400), w)
  /\ CommissionController.getDoctorCommissions mg user (Some "") startDate
       endDate w
     = (Ret (400, ResponseHelper.error "Doctor ID is required" 400), w)
  /\ (raw <> "" ->
      castObjectId mg raw = None
      \/ requested_window mg startDate endDate = None ->
      fst (CommissionController.getDoctorCommissions mg user (Some raw)
             startDate endDate w)
      = Ret (500, ResponseHelper.error_default
                    "Failed to fetch doctor commissions"))
  /\ (forall doctorId win,
        castObjectId mg raw = Some doctorId ->
        requested_window mg startDate endDate = Some win ->
        exists data,
          fst (CommissionController.getDoctorCommissions mg user (Some raw)
                 startDate endDate w)
          = Ret (200, ResponseHelper.success data
                        "Doctor commissions retrieved successfully")
          /\ (forall c, In c (Commissions w) ->
                ICommission.doctorId c = doctorId ->
                CommissionQueries.in_date_window win c = true ->
                In c (map fst (dc_commissions data)))
          /\ (forall other,
                fst (CommissionController.getDoctorCommissions mg other
                       (Some raw) startDate endDate w)
                = Ret (200, ResponseHelper.success data
                              "Doctor commissions retrieved successfully"))).
Proof.
  split; [reflexivity|]. split; [reflexivity|]. split.
  - intros Hne Hbad.
    rewrite (getDoctorCommissions_handler_run mg user raw startDate endDate w Hne).
    rewrite getDoctorCommissions_run.
    destruct Hbad as [-> | ->]; [reflexivity|].
    destruct (castObjectId mg raw); reflexivity.
  - intros doctorId win Hcast Hwin.
    assert (Hne : raw <> "").
    { intros ->. rewrite cast_empty in Hcast. discriminate. }
    assert (Hrun : forall u,
              fst (CommissionController.getDoctorCommissions mg u (Some raw)
                     startDate endDate w)
              = Ret (200, ResponseHelper.success
                       (mkDoctorCommissions
                          (map (with_order w)
                             (sort_by newest_first
                                (doctor_commissions w doctorId win)))
                          (mkDoctorSummary
                             (List.length
                                (sort_by newest_first
                                   (doctor_commissions w doctorId win)))
                             (JS.sum_by ICommission.amount
                                (sort_by newest_first
                                   (doctor_commissions w doctorId win)))
                             (JS.sum_by ICommission.amount
                                (filter
                                   (fun comm => PaymentStatus_eqb
                                      (ICommission.paymentStatus comm) PAID)
                                   (sort_by newest_first
                                      (doctor_commissions w doctorId win))))
                             (JS.sum_by ICommission.amount
                                (filter
                                   (fun comm => PaymentStatus_eqb
                                      (ICommission.paymentStatus comm) PENDING)
                                   (sort_by newest_first
                                      (doctor_commissions w doctorId win))))))
                       "Doctor commissions retrieved successfully")).
    { intros u.
      rewrite (getDoctorCommissions_handler_run mg u raw startDate endDate w Hne).
      rewrite getDoctorCommissions_run, Hcast, Hwin. reflexivity. }
    eexists. rewrite (Hrun user).
    split; [reflexivity|]. split.
    + intros c Hin Hd Hw. cbn [dc_commissions]. rewrite map_map. simpl.
      rewrite map_id. apply sort_by_In. unfold doctor_commissions.
      apply filter_In. split; [exact Hin|].
      now rewrite Hd, Nat.eqb_refl, Hw.
    + intros other. apply Hrun.
Qed.

Lemma getDoctorCommissions_handler_is_not_scoped_witness :
  ("abc" <> ""
   /\ castObjectId Sample.mg "abc" = None
   /\ fst (CommissionController.getDoctorCommissions Sample.mg Sample.manager
             (Some "abc") None None Sample.orphan_ledger)
      = Ret (500, ResponseHelper.error_default
                    "Failed to fetch doctor commissions"))
  /\ castObjectId Sample.mg (Sample.hex 99) = Some 99
  /\ requested_window Sample.mg None None = Some None
  /\ user_branchId Sample.manager = Some "BR001"
  /\ exists data,
       fst (CommissionController.getDoctorCommissions Sample.mg Sample.manager
              (Some (Sample.hex 99)) None None Sample.orphan_ledger)
       = Ret (200, ResponseHelper.success data
                     "Doctor commissions retrieved successfully")
       /\ map ICommission.branchId (map fst (dc_commissions data)) = ["BR002"].
Proof.
  assert (Habc : "abc" <> "") by discriminate.
  split.
  { split; [exact Habc|]. split; [reflexivity|].
    apply (proj1 (proj2 (proj2 (getDoctorCommissions_handler_is_not_scoped
                                  Sample.mg Sample.manager "abc" None None
                                  Sample.orphan_ledger))) Habc).
    left. reflexivity. }
  split; [reflexivity|]. split; [reflexivity|]. split; [reflexivity|].
  destruct (proj2 (proj2 (proj2 (getDoctorCommissions_handler_is_not_scoped
                                   Sample.mg Sample.manager (Sample.hex 99)
                                   None None Sample.orphan_ledger)))
              99 None eq_refl eq_refl) as (data & Hrun & _ & _).
  exists data. split; [exact Hrun|].
  vm_compute in Hrun. injection Hrun as <-. reflexivity.
Defined.

(** ** Identifiers across branches and kinds *)

Lemma string_length_app (a b : string) :
  String.length (a ++ b) = String.length a + String.length b.
Proof. induction a as [|c a IH]; simpl; [reflexivity|now rewrite IH]. Qed.

Lemma string_app_inv_suffix (a a' s s' : string) :
  String.length s = String.length s' -> a ++ s = a' ++ s' -> a = a' /\ s = s'.
Proof.
  revert a'. induction a as [|c a IH]; intros [|c' a'] Hlen H; simpl in H.
  - now split.
  - apply (f_equal String.length) in H. simpl in H.
    rewrite string_length_app in H. lia.
  - apply (f_equal String.length) in H. simpl in H.
    rewrite string_length_app in H. lia.
  - injection H as -> H. destruct (IH a' Hlen H) as [-> ->]. now split.
Qed.

Lemma all_digits_app (a b : string) :
  all_digits (a ++ b) = all_digits a && all_digits b.
Proof.
  induction a as [|c a IH]; simpl; [reflexivity|].
  now rewrite IH, andb_assoc.
Qed.

Lemma pad3_digits (n : nat) : all_digits (IDGenerator.pad3 n) = true.
Proof.
  pose proof (decimal_digits n) as Hd.
  destruct (pad3_cases n) as [[_ ->]|[[_ ->]|[_ ->]]]; simpl; exact Hd.
Qed.

(** The digits a text ends with are found again behind any prefix that
    ends with a character other than a digit. *)
Lemma digits_after_prefix (q : string) (c : ascii) (d d' : string)
  (q' : string) (c' : ascii) :
  is_digit c = false -> is_digit c' = false ->
  all_digits d = true -> all_digits d' = true ->
  (q ++ String c d) = (q' ++ String c' d') ->
  q = q' /\ c = c' /\ d = d'.
Proof.
  intros Hc Hc' Hd Hd'. revert q'.
  induction q as [|x q IH]; intros [|x' q'] H; simpl in H.
  - injection H as -> ->. now repeat split.
  - injection H as -> H. exfalso.
    rewrite H, all_digits_app in Hd. simpl in Hd.
    rewrite Hc', andb_false_r in Hd. discriminate.
  - injection H as <- H. exfalso.
    rewrite <- H, all_digits_app in Hd'. simpl in Hd'.
    rewrite Hc, andb_false_r in Hd'. discriminate.
  - injection H as -> H. destruct (IH q' H) as (-> & -> & ->).
    now repeat split.
Qed.

Lemma id_prefix_ends (r : IdRequest) :
  is_user_request r = false ->
  exists q c, id_prefix r = q ++ String c "" /\ is_digit c = false.
Proof.
  assert (Hassoc : forall b x y z t,
            b ++ String x (String y (String z (String t "")))
            = (b ++ String x (String y (String z ""))) ++ String t "").
  { intros b x y z t. induction b as [|h b IH]; simpl; [reflexivity|].
    now rewrite IH. }
  destruct r; simpl; intros Hu; try discriminate Hu;
    try (eexists _, _; split; [apply Hassoc|reflexivity]).
  - exists "B", "R"%char. now split.
  - exists "DO", "C"%char. now split.
  - exists "TS", "T"%char. now split.
Qed.

Lemma id_prefix_inj (r1 r2 : IdRequest) :
  is_user_request r1 = false -> is_user_request r2 = false ->
  id_prefix r1 = id_prefix r2 -> r1 = r2.
Proof.
  destruct r1, r2; simpl; intros H1 H2 H;
    try discriminate H1; try discriminate H2; try reflexivity;
    try discriminate H;
    try (apply (f_equal String.length) in H;
         rewrite ?string_length_app in H; simpl in H; lia);
    apply string_app_inv_suffix in H; try reflexivity;
    destruct H as [-> H]; first [reflexivity | discriminate H].
Qed.

(** X23: Two calls of the generator for anything but user ids never
    return the same identifier, whatever is generated in between: not for
    the same request, and not for different branches or different kinds
    of identifier either. *)
Theorem generated_ids_never_collide (r1 r2 : IdRequest)
  (between : list IdRequest) (w : World) :
  is_user_request r1 = false ->
  is_user_request r2 = false ->
  let first := generate r1 w in
  let second := generate r2 (after_generating between (snd first)) in
  fst first <> fst second.
Proof.
  intros H1 H2. cbv zeta. rewrite !generate_run. simpl. intros H.
  injection H as H.
  destruct (id_prefix_ends r1 H1) as (q1 & c1 & Hp1 & Hc1).
  destruct (id_prefix_ends r2 H2) as (q2 & c2 & Hp2 & Hc2).
  assert (Hshape : forall q c d, (q ++ String c "") ++ d = q ++ String c d).
  { intros q c d. induction q as [|x q IH]; simpl; [reflexivity|].
    now rewrite IH. }
  assert (Hpre : id_prefix r1 = id_prefix r2).
  { rewrite Hp1, Hp2 in H |- *. rewrite !Hshape in H.
    apply digits_after_prefix in H; try assumption; try apply pad3_digits.
    destruct H as (-> & -> & _). reflexivity. }
  apply id_prefix_inj in Hpre; [|assumption|assumption]. subst r2.
  apply string_app_inv_head, pad3_inj in H.
  pose proof (sequence_monotone between (counter_name r1)
                (set_Counters
                   (snd (IDGenerator.bump (counter_name r1) (Counters w))) w))
    as Hm.
  simpl in Hm. rewrite (proj1 (proj2 (bump_spec _ _))) in Hm. lia.
Qed.

Lemma generated_ids_never_collide_witness :
  fst (generate (ForOrder "BR001") Sample.world) = Ret "BR001-ORD004"
  /\ fst (generate (ForOrder "BR002")
            (after_generating [ForPatient "BR002"]
               (snd (generate (ForOrder "BR001") Sample.world))))
     = Ret "BR002-ORD001"
  /\ fst (generate (ForOrder "BR001") Sample.world)
     <> fst (generate (ForOrder "BR002")
               (after_generating [ForPatient "BR002"]
                  (snd (generate (ForOrder "BR001") Sample.world)))).
Proof.
  split; [reflexivity|]. split; [reflexivity|].
  apply (generated_ids_never_collide (ForOrder "BR001") (ForOrder "BR002")
           [ForPatient "BR002"] Sample.world); reflexivity.
Defined.

(** ** The branch of a new order *)

Lemma createTestOrder_creator (mg : Mongoose) (user : option AuthUser)
  (body : OPDController.CreateTestOrderBody) (w : World) (order : ITestOrder.t)
  (msg : option string) :
  fst (OPDController.createTestOrder mg user body w)
  = Ret (mkHttp 201 true msg (Some order)) ->
  exists u creator,
    user = Some u /\ u_id u = Some creator
    /\ ITestOrder.createdBy order = Some creator.
Proof.
  unfold OPDController.createTestOrder, try_catch.
  cbv zeta.
  destruct (if truthy_string (user_branchId user) then user_branchId user
            else OPDController.b_branchId body) as [branchId|];
    [|simpl; intros H; discriminate H].
  destruct (String.eqb branchId ""); [simpl; intros H; discriminate H|].
  destruct (find _ (Patients w)); [|simpl; intros H; discriminate H].
  destruct (find _ (Visits w)); [|simpl; intros H; discriminate H].
  destruct (castObjectIds mg (map OPDController.in_testId
                                (OPDController.b_tests body)))
    as [ids|] eqn:Hids; [|simpl; intros H; discriminate H].
  assert (Hreq : Test.find_active_in ids w = requested_tests mg w body).
  { unfold requested_tests, requested_ids. rewrite Hids. reflexivity. }
  rewrite Hreq. clear Hreq Hids ids.
  destruct (Nat.eqb _ _) eqn:Hlen; simpl negb; cbv iota;
    [|simpl; intros H; discriminate H].
  unfold bind, IDGenerator.generateOrderId, bind, ret, new_Date, new_ObjectId, throw.
  rewrite getNextSequence_run. rewrite (proj1 (bump_spec _ _)).
  destruct (OPDController.cast_lines _ _) as [lines|] eqn:Hcast;
    [|simpl; intros H; discriminate H].
  unfold OPDController.save_new.
  cbn -[OPDController.order_sums String.append IDGenerator.decimal IDGenerator.pad3
        requested_tests CommissionService.calculateCommission IDGenerator.bump
        sequence_of].
  destruct (OPDController.b_referringDoctorId body) as [doctorId|] eqn:Hdoc;
    [|simpl; intros H; discriminate H].
  destruct user as [u|]; [|simpl; intros H; discriminate H].
  destruct (u_id u) as [creator|] eqn:Hu; [|simpl; intros H; discriminate H].
  match goal with |- context [if ?b then _ else _] => destruct b end;
    [|simpl; intros H; discriminate H].
  destruct (existsb _ (TestOrders w)) eqn:Hdup; [simpl; intros H; discriminate H|].
  cbn -[OPDController.order_sums String.append IDGenerator.decimal IDGenerator.pad3
        requested_tests CommissionService.calculateCommission IDGenerator.bump
        sequence_of].
  match goal with
  | |- context [CommissionService.calculateCommission mg ?i ?w0] =>
      destruct (calculateCommission_returns mg i w0) as [res Hres];
      destruct (CommissionService.calculateCommission mg i w0)
        as [out w2] eqn:Hcalc
  end.
  simpl in Hres. subst out.
  intros H. exists u, creator.
  split; [reflexivity|]. split; [exact Hu|].
  destruct (negb (success res));
    cbn -[OPDController.order_sums String.append IDGenerator.decimal
          IDGenerator.pad3 requested_tests sequence_of] in H;
    inversion H; reflexivity.
Qed.

(** X24: An order [createTestOrder] answers 201 with belongs to the
    user's own branch whenever the user has one, whatever branch the body
    names; the body's branch is used only for a user without a branch.
    The order id and the lab id are made from that branch, the creator is
    the user, and the stored orders are the earlier ones followed by this
    order. *)
Theorem created_order_is_of_the_users_branch (mg : Mongoose)
  (user : option AuthUser) (body : OPDController.CreateTestOrderBody)
  (w : World) (order : ITestOrder.t) (msg : option string) :
  fst (OPDController.createTestOrder mg user body w)
  = Ret (mkHttp 201 true msg (Some order)) ->
  (truthy_string (user_branchId user) = true ->
   Some (ITestOrder.branchId order) = user_branchId user)
  /\ (truthy_string (user_branchId user) = false ->
      Some (ITestOrder.branchId order) = OPDController.b_branchId body)
  /\ ITestOrder.orderId order
     = ITestOrder.branchId order ++ "-ORD"
       ++ IDGenerator.pad3
            (S (sequence_of ("orderId_" ++ ITestOrder.branchId order)
                  (Counters w)))
  /\ ITestOrder.labId order = ITestOrder.branchId order ++ "-LAB001"
  /\ (exists u creator, user = Some u /\ u_id u = Some creator
                        /\ ITestOrder.createdBy order = Some creator)
  /\ TestOrders (snd (OPDController.createTestOrder mg user body w))
     = (TestOrders w ++ [order])%list.
Proof.
  intros Hresp. pose proof Hresp as Hresp0.
  destruct (createTestOrder_created mg user body w order msg Hresp)
    as (branchId & creator & lines & Hbranch & _ & Horder).
  destruct (createTestOrder_cases mg user body w)
    as [(resp & Hfst & Hcode & _) | (order' & w1 & doc & H)].
  { rewrite Hfst in Hresp. inversion Hresp; subst resp. simpl in Hcode.
    contradiction. }
  destruct H as (Hfst & _ & _ & _ & _ & _ & _ & Horders & _ & _ & _ & _ & _
                 & Ho & _).
  rewrite Hfst in Hresp. inversion Hresp; subst order'. clear Hresp.
  unfold effective_branch in Hbranch.
  assert (Hb : ITestOrder.branchId order = branchId) by now rewrite Horder.
  split; [|split; [|split; [|split; [|split]]]].
  - intros Ht. rewrite Ht in Hbranch. now rewrite Hb.
  - intros Ht. rewrite Ht in Hbranch. now rewrite Hb.
  - rewrite Hb, Horder. reflexivity.
  - rewrite Hb, Horder. reflexivity.
  - exact (createTestOrder_creator mg user body w order msg Hresp0).
  - rewrite Ho. exact Horders.
Qed.

Lemma created_order_is_of_the_users_branch_witness :
  exists order,
    fst (OPDController.createTestOrder Sample.mg Sample.manager
           (OPDController.mkCreateTestOrderBody "BR001-PAT001" 50 (Some 1)
              [ OPDController.mkOrderTestInput (Sample.hex 20) "Swab" 1%float ]
              CASH PENDING (Some "BR002")) Sample.world)
    = Ret (mkHttp 201 true (Some "Test order created successfully") (Some order))
    /\ ITestOrder.branchId order = "BR001"
    /\ ITestOrder.orderId order = "BR001-ORD004".
Proof.
  eexists. split; [vm_compute; reflexivity|].
  match goal with
  | |- ITestOrder.branchId ?o = _ /\ _ =>
      assert (H : fst (OPDController.createTestOrder Sample.mg Sample.manager
                         (OPDController.mkCreateTestOrderBody "BR001-PAT001" 50
                            (Some 1)
                            [ OPDController.mkOrderTestInput (Sample.hex 20)
                                "Swab" 1%float ]
                            CASH PENDING (Some "BR002")) Sample.world)
                  = Ret (mkHttp 201 true (Some "Test order created successfully")
                           (Some o)))
        by (vm_compute; reflexivity);
      destruct (created_order_is_of_the_users_branch _ _ _ _ _ _ H)
        as (Hown & _ & Hid & _)
  end.
  split; [reflexivity|]. exact Hid.
Defined.
